(** * ACFS: a shallow embedding of the cluster file system core

    The development follows the C sources of the repository:
    - the header [acfs.h]: the data model (header, directory entry,
      instance) and the constants;
    - the storage adapters: the simulated EEPROM and Flash media, the
      SDRAM device and the self-test of a device;
    - the engine: init, deinit, format, write, read, delete, exists, the
      queries (size, free space, statistics), the integrity check,
      defragmentation and their static helpers.

    Conventions of the embedding.
    - Machine integers are [Z] with the wrap-around of their C type written
      out ([u8], [u16], [u32], [usize]); the ABI is LP64 (64-bit [size_t]
      and pointers), which fixes [sizeof(acfs_data_entry_t) = 56].
    - The code threads one [acfs_t] object and the adapter's static buffer
      through every call: this is the [world] of a small state monad [M].
      A computation that would dereference a null or wild pointer, index
      an array outside its block or divide by zero has no result ([trap]).
    - Heap lifetime is not modelled: [malloc] and [calloc] always succeed
      and [free] of a block leaves the state as it is.  The numeric value
      of a pointer is not modelled either; a pointer is null, wild (a
      stale address read back from the medium) or points to its block.
      [free] of a wild pointer has no result. *)

From Stdlib Require Import ZArith Lia String Ascii List Bool Sorting.Sorted.
From stdpp Require Import base tactics option list numbers sorting.

Local Open Scope Z_scope.

(** ** Machine integers *)

Definition u8 (x : Z) : Z := x mod 2 ^ 8.
Definition u16 (x : Z) : Z := x mod 2 ^ 16.
Definition u32 (x : Z) : Z := x mod 2 ^ 32.
Definition usize (x : Z) : Z := x mod 2 ^ 64.

(** Little-endian layout of an [n]-byte integer, and its inverse. *)
Fixpoint le_bytes (n : nat) (x : Z) : list Z :=
  match n with
  | O => []
  | S n' => x mod 256 :: le_bytes n' (x / 256)
  end.

Fixpoint le_value (bs : list Z) : Z :=
  match bs with
  | [] => 0
  | b :: bs' => b + 256 * le_value bs'
  end.

(** The bytes [off .. off+len) of a block. *)
Definition slice (off len : Z) (l : list Z) : list Z :=
  take (Z.to_nat len) (drop (Z.to_nat off) l).

(** [memcpy] of [bytes] into a block at offset [off]. *)
Definition splice (off : Z) (bytes l : list Z) : list Z :=
  take (Z.to_nat off) l ++ bytes ++ drop (Z.to_nat off + length bytes) l.

(** ** acfs.h: constants and types *)

Definition ACFS_VERSION_MAJOR : Z := 1.
Definition ACFS_VERSION_MINOR : Z := 0.
Definition ACFS_MAX_DATA_ID_LEN : Z := 32.
Definition ACFS_CLUSTER_SIZE_MIN : Z := 64.
Definition ACFS_CLUSTER_SIZE_MAX : Z := 4096.
Definition ACFS_MAX_CLUSTERS : Z := 65535.
Definition ACFS_MAGIC_NUMBER : Z := 0x41434653.

Inductive acfs_error_t : Set :=
| ACFS_OK
| ACFS_ERROR_INVALID_PARAM
| ACFS_ERROR_NOT_INITIALIZED
| ACFS_ERROR_ALREADY_INITIALIZED
| ACFS_ERROR_NO_SPACE
| ACFS_ERROR_DATA_NOT_FOUND
| ACFS_ERROR_DATA_CORRUPTED
| ACFS_ERROR_IO_ERROR
| ACFS_ERROR_INVALID_FILESYSTEM
| ACFS_ERROR_CLUSTER_FULL
| ACFS_ERROR_CRC_MISMATCH.

(** [e == ACFS_OK] *)
Definition is_ok (e : acfs_error_t) : bool :=
  match e with
  | ACFS_OK => true
  | _ => false
  end.

Inductive storage_type_t : Set :=
| STORAGE_TYPE_EEPROM
| STORAGE_TYPE_FLASH
| STORAGE_TYPE_SDRAM
| STORAGE_TYPE_CUSTOM.

(** [storage_ops_t] is a triple of function pointers; the two triples the
    repository defines are the EEPROM one and the Flash one. *)
Inductive storage_ops_t : Set :=
| eeprom_ops
| flash_ops.

Record storage_device_t : Set := mk_storage_device {
  start_addr : Z;
  storage_size : Z;
  storage_type : storage_type_t;
  ops : storage_ops_t;
  need_erase : bool;
  erase_block_size : Z
}.

(** [acfs_header_t] is packed: 4 + 6 * 2 + 4 = 20 bytes. *)
Record acfs_header_t : Set := mk_header {
  magic : Z;
  version : Z;
  cluster_size : Z;
  total_clusters : Z;
  sys_clusters : Z;
  data_entries : Z;
  free_clusters : Z;
  header_crc32 : Z
}.

Definition sizeof_acfs_header_t : Z := 20.

Inductive pointer (A : Type) : Type :=
| NULL
| Wild
| Ptr (block : A).
Arguments NULL {A}.
Arguments Wild {A}.
Arguments Ptr {A} block.

(** [acfs_data_entry_t] is not packed.  Under LP64 its fields lie at
    offsets 0 (data_id[32]), 32 (data_size), 36 (cluster_count), 40
    (cluster_list), 48 (crc32), 52 (is_valid), and it is 56 bytes wide. *)
Record acfs_data_entry_t : Type := mk_entry {
  data_id : list Z;
  data_size : Z;
  cluster_count : Z;
  cluster_list : pointer (list Z);
  crc32 : Z;
  is_valid : bool
}.

Definition sizeof_acfs_data_entry_t : Z := 56.

Record acfs_t : Type := mk_acfs {
  storage : option storage_device_t;
  header : acfs_header_t;
  entries : option (list acfs_data_entry_t);
  cluster_bitmap : option (list Z);
  initialized : bool;
  cluster_buffer : option (list Z)
}.

Record acfs_config_t : Set := mk_config {
  cfg_cluster_size : Z;
  reserved_clusters : Z;
  format_if_invalid : bool;
  enable_crc_check : bool
}.

(** What [memset(p, 0, sizeof *p)] leaves in each object. *)
Definition zero_header : acfs_header_t := mk_header 0 0 0 0 0 0 0 0.

Definition zero_entry : acfs_data_entry_t :=
  mk_entry (repeat 0 32) 0 0 NULL 0 false.

Definition zero_acfs : acfs_t :=
  mk_acfs None zero_header None None false None.

(** Field updates. *)
Definition set_storage (s : option storage_device_t) (a : acfs_t) : acfs_t :=
  mk_acfs s (header a) (entries a) (cluster_bitmap a) (initialized a)
          (cluster_buffer a).
Definition set_header (h : acfs_header_t) (a : acfs_t) : acfs_t :=
  mk_acfs (storage a) h (entries a) (cluster_bitmap a) (initialized a)
          (cluster_buffer a).
Definition set_entries (es : option (list acfs_data_entry_t)) (a : acfs_t)
  : acfs_t :=
  mk_acfs (storage a) (header a) es (cluster_bitmap a) (initialized a)
          (cluster_buffer a).
Definition set_cluster_bitmap (bm : option (list Z)) (a : acfs_t) : acfs_t :=
  mk_acfs (storage a) (header a) (entries a) bm (initialized a)
          (cluster_buffer a).
Definition set_initialized (b : bool) (a : acfs_t) : acfs_t :=
  mk_acfs (storage a) (header a) (entries a) (cluster_bitmap a) b
          (cluster_buffer a).
Definition set_cluster_buffer (cb : option (list Z)) (a : acfs_t) : acfs_t :=
  mk_acfs (storage a) (header a) (entries a) (cluster_bitmap a)
          (initialized a) cb.

Definition set_data_entries (n : Z) (h : acfs_header_t) : acfs_header_t :=
  mk_header (magic h) (version h) (cluster_size h) (total_clusters h)
            (sys_clusters h) n (free_clusters h) (header_crc32 h).
Definition set_free_clusters (n : Z) (h : acfs_header_t) : acfs_header_t :=
  mk_header (magic h) (version h) (cluster_size h) (total_clusters h)
            (sys_clusters h) (data_entries h) n (header_crc32 h).
Definition set_header_crc32 (c : Z) (h : acfs_header_t) : acfs_header_t :=
  mk_header (magic h) (version h) (cluster_size h) (total_clusters h)
            (sys_clusters h) (data_entries h) (free_clusters h) c.

Definition set_data_id (s : list Z) (e : acfs_data_entry_t)
  : acfs_data_entry_t :=
  mk_entry s (data_size e) (cluster_count e) (cluster_list e) (crc32 e)
           (is_valid e).
Definition set_data_size (n : Z) (e : acfs_data_entry_t) : acfs_data_entry_t :=
  mk_entry (data_id e) n (cluster_count e) (cluster_list e) (crc32 e)
           (is_valid e).
Definition set_cluster_count (n : Z) (e : acfs_data_entry_t)
  : acfs_data_entry_t :=
  mk_entry (data_id e) (data_size e) n (cluster_list e) (crc32 e)
           (is_valid e).
Definition set_cluster_list (p : pointer (list Z)) (e : acfs_data_entry_t)
  : acfs_data_entry_t :=
  mk_entry (data_id e) (data_size e) (cluster_count e) p (crc32 e)
           (is_valid e).
Definition set_crc32 (c : Z) (e : acfs_data_entry_t) : acfs_data_entry_t :=
  mk_entry (data_id e) (data_size e) (cluster_count e) (cluster_list e) c
           (is_valid e).
Definition set_is_valid (b : bool) (e : acfs_data_entry_t)
  : acfs_data_entry_t :=
  mk_entry (data_id e) (data_size e) (cluster_count e) (cluster_list e)
           (crc32 e) b.

(** ** Object representations on the medium *)

Definition header_bytes (h : acfs_header_t) : list Z :=
  le_bytes 4 (magic h) ++ le_bytes 2 (version h) ++
  le_bytes 2 (cluster_size h) ++ le_bytes 2 (total_clusters h) ++
  le_bytes 2 (sys_clusters h) ++ le_bytes 2 (data_entries h) ++
  le_bytes 2 (free_clusters h) ++ le_bytes 4 (header_crc32 h).

Definition header_of_bytes (bs : list Z) : acfs_header_t :=
  mk_header (le_value (slice 0 4 bs)) (le_value (slice 4 2 bs))
            (le_value (slice 6 2 bs)) (le_value (slice 8 2 bs))
            (le_value (slice 10 2 bs)) (le_value (slice 12 2 bs))
            (le_value (slice 14 2 bs)) (le_value (slice 16 4 bs)).

(** The stored word of a pointer: zero for null; the address of a live or
    stale block is not modelled and stands as a fixed non-zero word. *)
Definition pointer_bits {A} (p : pointer A) : Z :=
  match p with
  | NULL => 0
  | _ => 1
  end.

Definition pointer_of_bits (x : Z) : pointer (list Z) :=
  if x =? 0 then NULL else Wild.

(** [!p] *)
Definition is_null {A} (p : pointer A) : bool :=
  match p with
  | NULL => true
  | _ => false
  end.

Definition entry_bytes (e : acfs_data_entry_t) : list Z :=
  data_id e ++ le_bytes 4 (data_size e) ++ le_bytes 2 (cluster_count e) ++
  [0; 0] ++ le_bytes 8 (pointer_bits (cluster_list e)) ++
  le_bytes 4 (crc32 e) ++ [if is_valid e then 1 else 0] ++ [0; 0; 0].

Definition entry_of_bytes (bs : list Z) : acfs_data_entry_t :=
  mk_entry (slice 0 32 bs) (le_value (slice 32 4 bs))
           (le_value (slice 36 2 bs))
           (pointer_of_bits (le_value (slice 40 8 bs)))
           (le_value (slice 48 4 bs))
           (negb (le_value (slice 52 1 bs) =? 0)).

Fixpoint entries_of_bytes (n : nat) (bs : list Z) : list acfs_data_entry_t :=
  match n with
  | O => []
  | S n' => entry_of_bytes (take 56 bs) :: entries_of_bytes n' (drop 56 bs)
  end.

Definition cluster_list_bytes (l : list Z) : list Z :=
  concat (map (le_bytes 2) l).

Fixpoint cluster_list_of_bytes (n : nat) (bs : list Z) : list Z :=
  match n with
  | O => []
  | S n' => le_value (take 2 bs) :: cluster_list_of_bytes n' (drop 2 bs)
  end.

(** ** CRC-32 *)

Definition crc32_bit (c : Z) : Z :=
  if Z.odd c then Z.lxor (Z.shiftr c 1) 0xEDB88320 else Z.shiftr c 1.

Definition crc32_byte (c b : Z) : Z :=
  Nat.iter 8 crc32_bit (Z.lxor c b).

(** Modelled from the spec: [acfs_crc32] is declared in [acfs.h] but its
    definition is not among the sources.  Section 4.B gives it as the
    standard CRC-32: reflected polynomial 0xEDB88320, initial value
    0xFFFFFFFF, final XOR 0xFFFFFFFF, one byte at a time. *)
Definition acfs_crc32 (data : list Z) : Z :=
  Z.lxor (fold_left crc32_byte data 0xFFFFFFFF) 0xFFFFFFFF.

(** ** The storage adapters *)

(** The adapters keep their medium in a static buffer; [eeprom_size] and
    [flash_size] are the lengths of the buffers. *)
Record media : Type := mk_media {
  eeprom_buffer : option (list Z);
  flash_buffer : option (list Z)
}.

Definition eeprom_read (addr size : Z) (m : media) : option (list Z) :=
  match eeprom_buffer m with
  | None => None
  | Some buf =>
      if Z.of_nat (length buf) <? addr + size then None
      else Some (slice addr size buf)
  end.

(** The source of a write is the memory at [data]; copying [size] bytes
    from a shorter block traps.  Outer [None]: trap; inner [None]: the
    adapter returned -1. *)
Definition memcpy_src (data : list Z) (size : Z) : option (list Z) :=
  if Z.of_nat (length data) <? size then None
  else Some (take (Z.to_nat size) data).

Definition eeprom_write (addr : Z) (data : list Z) (size : Z) (m : media)
  : option (option media) :=
  match eeprom_buffer m with
  | None => Some None
  | Some buf =>
      if Z.of_nat (length buf) <? addr + size then Some None
      else
        match memcpy_src data size with
        | None => None
        | Some bytes =>
            Some (Some (mk_media (Some (splice addr bytes buf))
                                 (flash_buffer m)))
        end
  end.

Definition flash_read (addr size : Z) (m : media) : option (list Z) :=
  match flash_buffer m with
  | None => None
  | Some buf =>
      if Z.of_nat (length buf) <? addr + size then None
      else Some (slice addr size buf)
  end.

Definition flash_write (addr : Z) (data : list Z) (size : Z) (m : media)
  : option (option media) :=
  match flash_buffer m with
  | None => Some None
  | Some buf =>
      if Z.of_nat (length buf) <? addr + size then Some None
      else if forallb (Z.eqb 0xFF) (slice addr size buf) then
        match memcpy_src data size with
        | None => None
        | Some bytes =>
            Some (Some (mk_media (eeprom_buffer m)
                                 (Some (splice addr bytes buf))))
        end
      else Some None
  end.

(** [ops.read] and [ops.write].  A read gives the bytes the adapter
    copies to its destination, or [None] when it returns -1. *)
Definition ops_read (o : storage_ops_t) : Z -> Z -> media -> option (list Z) :=
  match o with
  | eeprom_ops => eeprom_read
  | flash_ops => flash_read
  end.

Definition ops_write (o : storage_ops_t)
  : Z -> list Z -> Z -> media -> option (option media) :=
  match o with
  | eeprom_ops => eeprom_write
  | flash_ops => flash_write
  end.

(** [acfs_create_eeprom_device(device, start_addr, size)]: the descriptor
    written to [*device] and the fresh buffer, erased to 0xFF. *)
Definition acfs_create_eeprom_device (start size : Z) (m : media)
  : acfs_error_t * option storage_device_t * media :=
  if size =? 0 then (ACFS_ERROR_INVALID_PARAM, None, m)
  else
    (ACFS_OK,
     Some (mk_storage_device start size STORAGE_TYPE_EEPROM eeprom_ops
                             false 0),
     mk_media (Some (repeat 0xFF (Z.to_nat size))) (flash_buffer m)).

Definition acfs_create_flash_device (start size block : Z) (m : media)
  : acfs_error_t * option storage_device_t * media :=
  if (size =? 0) || (block =? 0) then (ACFS_ERROR_INVALID_PARAM, None, m)
  else
    (ACFS_OK,
     Some (mk_storage_device start size STORAGE_TYPE_FLASH flash_ops
                             true block),
     mk_media (eeprom_buffer m) (Some (repeat 0xFF (Z.to_nat size)))).

(** *** Erase, the SDRAM device and the self-test *)

(** [memset(buffer + addr, 0xFF, size)], or [None] when the adapter
    returns -1. *)
Definition eeprom_erase (addr size : Z) (m : media) : option media :=
  match eeprom_buffer m with
  | None => None
  | Some buf =>
      if Z.of_nat (length buf) <? addr + size then None
      else
        Some (mk_media (Some (splice addr (repeat 0xFF (Z.to_nat size)) buf))
                       (flash_buffer m))
  end.

Definition flash_erase (addr size : Z) (m : media) : option media :=
  match flash_buffer m with
  | None => None
  | Some buf =>
      if Z.of_nat (length buf) <? addr + size then None
      else
        Some (mk_media (eeprom_buffer m)
                       (Some (splice addr (repeat 0xFF (Z.to_nat size)) buf)))
  end.

(** [ops.erase] *)
Definition ops_erase (o : storage_ops_t) : Z -> Z -> media -> option media :=
  match o with
  | eeprom_ops => eeprom_erase
  | flash_ops => flash_erase
  end.

(** [acfs_create_sdram_device]: the SDRAM device is simulated by the
    EEPROM one. *)
Definition acfs_create_sdram_device (start size : Z) (m : media)
  : acfs_error_t * option storage_device_t * media :=
  if size =? 0 then (ACFS_ERROR_INVALID_PARAM, None, m)
  else acfs_create_eeprom_device start size m.

(** [acfs_test_storage_device(device)]: the result and the medium as the
    test leaves it. *)
Definition test_data : list Z := [0x55; 0xAA; 0x33; 0xCC].

Definition acfs_test_storage_device (device : option storage_device_t)
                                    (m : media)
  : option (acfs_error_t * media) :=
  match device with
  | None => Some (ACFS_ERROR_INVALID_PARAM, m)
  | Some dev =>
      match ops_write (ops dev) (start_addr dev) test_data 4 m with
      | None => None
      | Some None => Some (ACFS_ERROR_IO_ERROR, m)
      | Some (Some m1) =>
          match ops_read (ops dev) (start_addr dev) 4 m1 with
          | None => Some (ACFS_ERROR_IO_ERROR, m1)
          | Some read_data =>
              if negb (bool_decide (read_data = test_data)) then
                Some (ACFS_ERROR_DATA_CORRUPTED, m1)
              else if need_erase dev then
                match ops_erase (ops dev) (start_addr dev)
                                (erase_block_size dev) m1 with
                | None => Some (ACFS_ERROR_IO_ERROR, m1)
                | Some m2 =>
                    match ops_read (ops dev) (start_addr dev) 4 m2 with
                    | None => Some (ACFS_ERROR_IO_ERROR, m2)
                    | Some read_data =>
                        if forallb (Z.eqb 0xFF) read_data then
                          Some (ACFS_OK, m2)
                        else Some (ACFS_ERROR_DATA_CORRUPTED, m2)
                    end
                end
              else Some (ACFS_OK, m1)
          end
      end
  end.

(** ** The state monad of the engine *)

Record world : Type := mk_world {
  fs : acfs_t;
  medium : media
}.

Definition M (A : Type) : Type := world -> option (A * world).

Definition ret {A} (a : A) : M A := fun w => Some (a, w).

Definition bind {A B} (m : M A) (k : A -> M B) : M B :=
  fun w =>
    match m w with
    | Some (a, w') => k a w'
    | None => None
    end.

Definition trap {A} : M A := fun _ => None.

Notation "'do' x <- m ; k" := (bind m (fun x => k))
  (at level 10, x name, m at level 100, k at level 200, only parsing).
Notation "m ;; k" := (bind m (fun _ => k))
  (at level 100, k at level 200, right associativity, only parsing).

Definition gets {A} (f : acfs_t -> A) : M A := fun w => Some (f (fs w), w).

Definition modify (f : acfs_t -> acfs_t) : M unit :=
  fun w => Some (tt, mk_world (f (fs w)) (medium w)).

(** A step on the [acfs_t] object alone. *)
Definition lift {A} (f : acfs_t -> option (A * acfs_t)) : M A :=
  fun w =>
    match f (fs w) with
    | Some (a, s) => Some (a, mk_world s (medium w))
    | None => None
    end.

Definition deref {A} (o : option A) : M A :=
  match o with
  | Some a => ret a
  | None => trap
  end.

(** [acfs->storage->ops.read(addr, dst, size)]: the bytes read, or [None]
    when the adapter reports an error. *)
Definition storage_read (addr size : Z) : M (option (list Z)) :=
  do dev <- bind (gets storage) deref;
  fun w => Some (ops_read (ops dev) addr size (medium w), w).

(** [acfs->storage->ops.write(addr, src, size) == 0]. *)
Definition storage_write (addr : Z) (data : list Z) (size : Z) : M bool :=
  do dev <- bind (gets storage) deref;
  fun w =>
    match ops_write (ops dev) addr data size (medium w) with
    | Some (Some m') => Some (true, mk_world (fs w) m')
    | Some None => Some (false, w)
    | None => None
    end.

(** ** The engine: static helpers *)

(** A null or wild pointer has no element that can be accessed: every
    indexing of [block_of p] beyond its end traps. *)
Definition block_of {A} (p : pointer (list A)) : list A :=
  match p with
  | Ptr l => l
  | _ => []
  end.

Definition array_of {A} (o : option (list A)) : list A :=
  match o with
  | Some l => l
  | None => []
  end.

(** C strings: the characters before the first NUL; a list that ends
    without one is followed by its terminator. *)
Fixpoint strlen (s : list Z) : Z :=
  match s with
  | [] => 0
  | c :: s' => if c =? 0 then 0 else 1 + strlen s'
  end.

(** The [n] characters [strncpy(dst, src, n)] stores. *)
Fixpoint strncpy (src : list Z) (n : nat) : list Z :=
  match n with
  | O => []
  | S n' =>
      match src with
      | [] => repeat 0 n
      | c :: src' => if c =? 0 then repeat 0 n else c :: strncpy src' n'
      end
  end.

(** [strncmp(a, b, n) == 0]. *)
Fixpoint strncmp_eq (a b : list Z) (n : nat) : bool :=
  match n with
  | O => true
  | S n' =>
      let ca := hd 0 a in
      let cb := hd 0 b in
      if ca =? cb then
        if ca =? 0 then true else strncmp_eq (tl a) (tl b) n'
      else false
  end.

Definition acfs_save_header : M acfs_error_t :=
  do h <- gets header;
  let h' :=
    set_header_crc32
      (acfs_crc32 (take (Z.to_nat (sizeof_acfs_header_t - 4))
                        (header_bytes h))) h in
  modify (set_header h') ;;
  do dev <- bind (gets storage) deref;
  let addr := start_addr dev in
  do ok <- storage_write addr (header_bytes h') sizeof_acfs_header_t;
  if negb ok then ret ACFS_ERROR_IO_ERROR else ret ACFS_OK.

Definition acfs_load_header : M acfs_error_t :=
  do dev <- bind (gets storage) deref;
  let addr := start_addr dev in
  do r <- storage_read addr sizeof_acfs_header_t;
  match r with
  | None => ret ACFS_ERROR_IO_ERROR
  | Some bs =>
      let h := header_of_bytes bs in
      modify (set_header h) ;;
      if negb (magic h =? ACFS_MAGIC_NUMBER) then
        ret ACFS_ERROR_INVALID_FILESYSTEM
      else
        let crc :=
          acfs_crc32 (take (Z.to_nat (sizeof_acfs_header_t - 4))
                           (header_bytes h)) in
        if negb (crc =? header_crc32 h) then ret ACFS_ERROR_DATA_CORRUPTED
        else ret ACFS_OK
  end.

(** Address of the cluster-list slot of entry [i]. *)
Definition cluster_list_addr (entries_addr entries_size : Z) (i : nat) : Z :=
  u32 (entries_addr + entries_size + Z.of_nat i * ACFS_MAX_CLUSTERS * 2).

Fixpoint save_cluster_lists (entries_addr entries_size : Z) (i n : nat)
  : M acfs_error_t :=
  match n with
  | O => ret ACFS_OK
  | S n' =>
      do es <- gets entries;
      do entry <- deref (array_of es !! i);
      if (0 <? cluster_count entry) && negb (is_null (cluster_list entry))
      then
        do ok <- storage_write (cluster_list_addr entries_addr entries_size i)
                   (cluster_list_bytes (block_of (cluster_list entry)))
                   (cluster_count entry * 2);
        if negb ok then ret ACFS_ERROR_IO_ERROR
        else save_cluster_lists entries_addr entries_size (S i) n'
      else save_cluster_lists entries_addr entries_size (S i) n'
  end.

Definition acfs_save_entries : M acfs_error_t :=
  do dev <- bind (gets storage) deref;
  do h <- gets header;
  let entries_addr := u32 (start_addr dev + sizeof_acfs_header_t) in
  let entries_size := u32 (data_entries h * sizeof_acfs_data_entry_t) in
  do es <- gets entries;
  do ok <- storage_write entries_addr
             (concat (map entry_bytes (array_of es))) entries_size;
  if negb ok then ret ACFS_ERROR_IO_ERROR
  else
    save_cluster_lists entries_addr entries_size 0
                       (Z.to_nat (data_entries h)).

Definition store_entry (i : nat) (e : acfs_data_entry_t) (a : acfs_t)
  : acfs_t :=
  set_entries (fmap (M := option) (fun es => <[i := e]> es) (entries a)) a.

Fixpoint load_cluster_lists (entries_addr entries_size : Z) (i n : nat)
  : M acfs_error_t :=
  match n with
  | O => ret ACFS_OK
  | S n' =>
      do es <- gets entries;
      do entry <- deref (array_of es !! i);
      if 0 <? cluster_count entry then
        do r <- storage_read (cluster_list_addr entries_addr entries_size i)
                  (cluster_count entry * 2);
        match r with
        | None =>
            modify (store_entry i
                      (set_cluster_list
                         (Ptr (repeat 0 (Z.to_nat (cluster_count entry))))
                         entry)) ;;
            ret ACFS_ERROR_IO_ERROR
        | Some bs =>
            modify (store_entry i
                      (set_cluster_list
                         (Ptr (cluster_list_of_bytes
                                 (Z.to_nat (cluster_count entry)) bs))
                         entry)) ;;
            load_cluster_lists entries_addr entries_size (S i) n'
        end
      else load_cluster_lists entries_addr entries_size (S i) n'
  end.

Definition acfs_load_entries : M acfs_error_t :=
  do dev <- bind (gets storage) deref;
  do h <- gets header;
  let entries_addr := u32 (start_addr dev + sizeof_acfs_header_t) in
  let entries_size := u32 (data_entries h * sizeof_acfs_data_entry_t) in
  if entries_size =? 0 then ret ACFS_OK
  else
    do r <- storage_read entries_addr entries_size;
    match r with
    | None => ret ACFS_ERROR_IO_ERROR
    | Some bs =>
        do es <- gets entries;
        let n := Z.to_nat (data_entries h) in
        if (length (array_of es) <? n)%nat then trap
        else
          modify (set_entries
                    (Some (entries_of_bytes n bs ++ drop n (array_of es)))) ;;
          load_cluster_lists entries_addr entries_size 0 n
    end.

(** *** The cluster bitmap *)

(** [bitmap[i / 8] |= (1 << (i % 8))] *)
Definition bitmap_set (i : Z) (bm : list Z) : option (list Z) :=
  let byte_idx := Z.to_nat (u16 (i / 8)) in
  let bit_idx := u8 (i mod 8) in
  match bm !! byte_idx with
  | None => None
  | Some b => Some (<[byte_idx := u8 (Z.lor b (Z.shiftl 1 bit_idx))]> bm)
  end.

(** [bitmap[i / 8] &= ~(1 << (i % 8))] *)
Definition bitmap_clear (i : Z) (bm : list Z) : option (list Z) :=
  let byte_idx := Z.to_nat (u16 (i / 8)) in
  let bit_idx := u8 (i mod 8) in
  match bm !! byte_idx with
  | None => None
  | Some b =>
      Some (<[byte_idx := u8 (Z.land b (Z.lnot (Z.shiftl 1 bit_idx)))]> bm)
  end.

(** [bitmap[i / 8] & (1 << (i % 8))] as a truth value. *)
Definition bitmap_test (i : Z) (bm : list Z) : option bool :=
  let byte_idx := Z.to_nat (u16 (i / 8)) in
  let bit_idx := u8 (i mod 8) in
  match bm !! byte_idx with
  | None => None
  | Some b => Some (negb (Z.land b (Z.shiftl 1 bit_idx) =? 0))
  end.

(** The loop of [acfs_init_bitmap] over the system clusters, and the loops
    of rollback and of [acfs_free_clusters] over a cluster list. *)
Fixpoint bitmap_set_all (l : list Z) (bm : list Z) : option (list Z) :=
  match l with
  | [] => Some bm
  | i :: l' =>
      match bitmap_set i bm with
      | None => None
      | Some bm' => bitmap_set_all l' bm'
      end
  end.

Fixpoint bitmap_clear_all (l : list Z) (bm : list Z) : option (list Z) :=
  match l with
  | [] => Some bm
  | i :: l' =>
      match bitmap_clear i bm with
      | None => None
      | Some bm' => bitmap_clear_all l' bm'
      end
  end.

(** The first [count] elements of a cluster list; reading past the block
    traps. *)
Definition cluster_list_prefix (p : pointer (list Z)) (count : Z)
  : option (list Z) :=
  if Z.of_nat (length (block_of p)) <? count then None
  else Some (take (Z.to_nat count) (block_of p)).

Definition store_bitmap (bm : list Z) (a : acfs_t) : acfs_t :=
  set_cluster_bitmap (fmap (M := option) (fun _ => bm) (cluster_bitmap a)) a.

Fixpoint init_bitmap_entries (es : list acfs_data_entry_t) (n : nat)
                             (i : nat) (bm : list Z) : option (list Z) :=
  match n with
  | O => Some bm
  | S n' =>
      match es !! i with
      | None => None
      | Some entry =>
          if is_valid entry && negb (is_null (cluster_list entry)) then
            match cluster_list_prefix (cluster_list entry)
                                      (cluster_count entry) with
            | None => None
            | Some l =>
                match bitmap_set_all l bm with
                | None => None
                | Some bm' => init_bitmap_entries es n' (S i) bm'
                end
            end
          else init_bitmap_entries es n' (S i) bm
      end
  end.

Definition acfs_init_bitmap (a : acfs_t) : option (acfs_error_t * acfs_t) :=
  let h := header a in
  let bitmap_size := usize (total_clusters h + 7) / 8 in
  let bm0 := array_of (cluster_bitmap a) in
  if Z.of_nat (length bm0) <? bitmap_size then None
  else
    let bm1 := repeat 0 (Z.to_nat bitmap_size)
               ++ drop (Z.to_nat bitmap_size) bm0 in
    match bitmap_set_all (map Z.of_nat (seq 0 (Z.to_nat (sys_clusters h))))
                         bm1 with
    | None => None
    | Some bm2 =>
        match init_bitmap_entries (array_of (entries a))
                (Z.to_nat (data_entries h)) 0 bm2 with
        | None => None
        | Some bm3 => Some (ACFS_OK, store_bitmap bm3 a)
        end
    end.

(** The scan of [acfs_allocate_clusters]: [n] is the number of indices
    left before [total_clusters], [l] the part of [cluster_list] filled
    so far ([allocated] is its length). *)
Fixpoint allocate_scan (n : nat) (i count : Z) (bm l : list Z)
  : option (list Z * list Z) :=
  match n with
  | O => Some (bm, l)
  | S n' =>
      if Z.of_nat (length l) <? count then
        match bitmap_test i bm with
        | None => None
        | Some true => allocate_scan n' (i + 1) count bm l
        | Some false =>
            match bitmap_set i bm with
            | None => None
            | Some bm' => allocate_scan n' (i + 1) count bm' (l ++ [i])
            end
        end
      else Some (bm, l)
  end.

(** [acfs_allocate_clusters(acfs, count, cluster_list)]: the result, what
    the call has stored in [cluster_list], and the new state. *)
Definition acfs_allocate_clusters (count : Z) (a : acfs_t)
  : option (acfs_error_t * list Z * acfs_t) :=
  let h := header a in
  if free_clusters h <? count then Some (ACFS_ERROR_NO_SPACE, [], a)
  else
    match allocate_scan (Z.to_nat (total_clusters h - sys_clusters h))
                        (sys_clusters h) count
                        (array_of (cluster_bitmap a)) [] with
    | None => None
    | Some (bm, l) =>
        if Z.of_nat (length l) <? count then
          match bitmap_clear_all l bm with
          | None => None
          | Some bm' => Some (ACFS_ERROR_NO_SPACE, l, store_bitmap bm' a)
          end
        else
          Some (ACFS_OK, l,
                set_header (set_free_clusters (u16 (free_clusters h - count)) h)
                           (store_bitmap bm a))
    end.

Definition acfs_free_clusters (cluster_list : pointer (list Z)) (count : Z)
                              (a : acfs_t) : option acfs_t :=
  match cluster_list_prefix cluster_list count with
  | None => None
  | Some l =>
      match bitmap_clear_all l (array_of (cluster_bitmap a)) with
      | None => None
      | Some bm =>
          let a' := store_bitmap bm a in
          Some (set_header
                  (set_free_clusters (u16 (free_clusters (header a') + count))
                                     (header a')) a')
      end
  end.

Fixpoint find_entry_loop (es : list acfs_data_entry_t) (id : list Z)
                         (n i : nat) : option (option nat) :=
  match n with
  | O => Some None
  | S n' =>
      match es !! i with
      | None => None
      | Some entry =>
          if is_valid entry
             && strncmp_eq (data_id entry) id (Z.to_nat ACFS_MAX_DATA_ID_LEN)
          then Some (Some i)
          else find_entry_loop es id n' (S i)
      end
  end.

(** [acfs_find_entry]: the index of the entry found, if any. *)
Definition acfs_find_entry (id : list Z) (a : acfs_t)
  : option (option nat) :=
  find_entry_loop (array_of (entries a)) id
                  (Z.to_nat (data_entries (header a))) 0.

Definition acfs_calculate_clusters_needed (csize dsize : Z) : option Z :=
  if csize =? 0 then None
  else Some (u16 (usize (dsize + csize - 1) / csize)).

(** [acfs_read_clusters(acfs, cluster_list, count, data)]: [data] is the
    memory at the destination pointer; the result carries that memory as
    the call leaves it. *)
Fixpoint read_clusters_loop (l : list Z) (n i : nat) (data : list Z)
  : M (acfs_error_t * list Z) :=
  match n with
  | O => ret (ACFS_OK, data)
  | S n' =>
      do dev <- bind (gets storage) deref;
      do h <- gets header;
      do c <- deref (l !! i);
      let addr := u32 (start_addr dev + c * cluster_size h) in
      do r <- storage_read addr (cluster_size h);
      match r with
      | None => ret (ACFS_ERROR_IO_ERROR, data)
      | Some bs =>
          let off := Z.of_nat i * cluster_size h in
          if Z.of_nat (length data) <? off + cluster_size h then trap
          else read_clusters_loop l n' (S i) (splice off bs data)
      end
  end.

Definition acfs_read_clusters (cluster_list : pointer (list Z)) (count : Z)
                              (data : list Z) : M (acfs_error_t * list Z) :=
  read_clusters_loop (block_of cluster_list) (Z.to_nat count) 0 data.

Fixpoint write_clusters_loop (l : list Z) (n i : nat) (data : list Z)
  : M acfs_error_t :=
  match n with
  | O => ret ACFS_OK
  | S n' =>
      do dev <- bind (gets storage) deref;
      do h <- gets header;
      do c <- deref (l !! i);
      let addr := u32 (start_addr dev + c * cluster_size h) in
      let off := Z.of_nat i * cluster_size h in
      do ok <- storage_write addr (drop (Z.to_nat off) data) (cluster_size h);
      if negb ok then ret ACFS_ERROR_IO_ERROR
      else write_clusters_loop l n' (S i) data
  end.

Definition acfs_write_clusters (cluster_list : pointer (list Z)) (count : Z)
                               (data : list Z) : M acfs_error_t :=
  write_clusters_loop (block_of cluster_list) (Z.to_nat count) 0 data.

(** ** The engine: API *)

Definition acfs_format (config : option acfs_config_t) : M acfs_error_t :=
  do st <- gets storage;
  match config, st with
  | Some config, Some dev =>
      if cfg_cluster_size config =? 0 then trap
      else
        let total := u16 (u32 (storage_size dev) / cfg_cluster_size config) in
        if total =? 0 then ret ACFS_ERROR_INVALID_PARAM
        else
          let sys :=
            if reserved_clusters config =? 0 then
              let auto :=
                u16 (usize (sizeof_acfs_header_t + cfg_cluster_size config - 1)
                     / cfg_cluster_size config) in
              if auto <? 2 then 2 else auto
            else reserved_clusters config in
          if total <=? sys then ret ACFS_ERROR_INVALID_PARAM
          else
            let h :=
              mk_header ACFS_MAGIC_NUMBER
                (u16 (Z.lor (Z.shiftl ACFS_VERSION_MAJOR 8)
                            ACFS_VERSION_MINOR))
                (cfg_cluster_size config) total sys 0 (u16 (total - sys)) 0 in
            let h :=
              set_header_crc32
                (acfs_crc32 (take (Z.to_nat (sizeof_acfs_header_t - 4))
                                  (header_bytes h))) h in
            modify (set_header h) ;;
            do r <- acfs_save_header;
            if negb (is_ok r) then ret r
            else
              let zero_buffer :=
                repeat 0 (Z.to_nat (cfg_cluster_size config)) in
              (fix zero_loop (n : nat) (i : Z) : M acfs_error_t :=
                 match n with
                 | O => ret ACFS_OK
                 | S n' =>
                     let addr :=
                       u32 (start_addr dev + i * cfg_cluster_size config) in
                     do ok <- storage_write addr zero_buffer
                                (cfg_cluster_size config);
                     if negb ok then ret ACFS_ERROR_IO_ERROR
                     else zero_loop n' (i + 1)
                 end) (Z.to_nat (sys - 1)) 1
  | _, _ => ret ACFS_ERROR_INVALID_PARAM
  end.

Definition max_entries_of (h : acfs_header_t) : Z :=
  usize (sys_clusters h * cluster_size h - sizeof_acfs_header_t)
  / sizeof_acfs_data_entry_t.

Definition acfs_init (st : option storage_device_t)
                     (config : option acfs_config_t) : M acfs_error_t :=
  match st, config with
  | Some dev, Some config =>
      do init <- gets initialized;
      if init then ret ACFS_ERROR_ALREADY_INITIALIZED
      else
        let cs := cfg_cluster_size config in
        if (cs <? ACFS_CLUSTER_SIZE_MIN) || (ACFS_CLUSTER_SIZE_MAX <? cs)
           || negb (Z.land cs (cs - 1) =? 0)
        then ret ACFS_ERROR_INVALID_PARAM
        else
          modify (fun _ => set_storage (Some dev) zero_acfs) ;;
          do ret1 <- acfs_load_header;
          do h <- gets header;
          do ret2 <-
            (if is_ok ret1 then
               if negb (magic h =? ACFS_MAGIC_NUMBER)
                  || negb (cluster_size h =? cs) then
                 if format_if_invalid config then acfs_format (Some config)
                 else ret ACFS_ERROR_INVALID_FILESYSTEM
               else ret ACFS_OK
             else
               if format_if_invalid config then acfs_format (Some config)
               else ret ACFS_ERROR_INVALID_FILESYSTEM);
          if negb (is_ok ret2) then ret ret2
          else
            do h <- gets header;
            let max_entries := u16 (max_entries_of h) in
            modify (set_entries
                      (Some (repeat zero_entry (Z.to_nat max_entries)))) ;;
            let bitmap_size := usize (total_clusters h + 7) / 8 in
            modify (set_cluster_bitmap
                      (Some (repeat 0 (Z.to_nat bitmap_size)))) ;;
            modify (set_cluster_buffer
                      (Some (repeat 0 (Z.to_nat (cluster_size h))))) ;;
            do ret3 <- acfs_load_entries;
            if negb (is_ok ret3) then ret ret3
            else
              do ret4 <- lift acfs_init_bitmap;
              if negb (is_ok ret4) then ret ret4
              else
                modify (set_initialized true) ;;
                ret ACFS_OK
  | _, _ => ret ACFS_ERROR_INVALID_PARAM
  end.

(** The helpers that work on the [acfs_t] object alone, as steps. *)
Definition find_entry (id : list Z) : M (option nat) :=
  fun w =>
    match acfs_find_entry id (fs w) with
    | Some r => Some (r, w)
    | None => None
    end.

(** [free(p)]: nothing happens for a null pointer, a block that [malloc]
    returned is released; any other address is undefined behaviour. *)
Definition free_block {A} (p : pointer A) : M unit :=
  match p with
  | Wild => trap
  | _ => ret tt
  end.

Definition free_clusters_step (cluster_list : pointer (list Z)) (count : Z)
  : M unit :=
  lift (fun a =>
          match acfs_free_clusters cluster_list count a with
          | Some a' => Some (tt, a')
          | None => None
          end).

Definition allocate_clusters_step (count : Z) : M (acfs_error_t * list Z) :=
  lift (fun a =>
          match acfs_allocate_clusters count a with
          | Some (e, l, a') => Some ((e, l), a')
          | None => None
          end).

Definition update_entry (i : nat)
                        (f : acfs_data_entry_t -> acfs_data_entry_t)
  : M unit :=
  do es <- gets entries;
  do entry <- deref (array_of es !! i);
  modify (store_entry i (f entry)).

Definition entry_at (i : nat) : M acfs_data_entry_t :=
  do es <- gets entries;
  deref (array_of es !! i).

(** The loop of [acfs_deinit] over the directory: each entry's cluster
    list is freed. *)
Fixpoint free_cluster_lists (n i : nat) : M unit :=
  match n with
  | O => ret tt
  | S n' =>
      do entry <- entry_at i;
      free_block (cluster_list entry) ;;
      free_cluster_lists n' (S i)
  end.

Definition acfs_deinit : M acfs_error_t :=
  do init <- gets initialized;
  if negb init then ret ACFS_ERROR_NOT_INITIALIZED
  else
    do es <- gets entries;
    (match es with
     | Some _ =>
         do h <- gets header;
         free_cluster_lists (Z.to_nat (data_entries h)) 0
     | None => ret tt
     end) ;;
    modify (fun _ => zero_acfs) ;;
    ret ACFS_OK.

(** The first half of [acfs_write]: find or create the entry and give it
    [clusters_needed] clusters.  [inl] is an early return, [inr] the index
    of the entry the second half goes on with. *)
Definition acfs_write_entry (id : list Z) (clusters_needed : Z)
  : M (acfs_error_t + nat) :=
  do found <- find_entry id;
  match found with
  | Some i =>
      do entry <- entry_at i;
      if negb (cluster_count entry =? clusters_needed) then
        free_clusters_step (cluster_list entry) (cluster_count entry) ;;
        free_block (cluster_list entry) ;;
        do r <- allocate_clusters_step clusters_needed;
        if negb (is_ok r.1) then
          update_entry i (set_cluster_list NULL) ;;
          ret (inl r.1)
        else
          update_entry i (fun e => set_cluster_count clusters_needed
                                     (set_cluster_list (Ptr r.2) e)) ;;
          ret (inr i)
      else ret (inr i)
  | None =>
      do h <- gets header;
      if max_entries_of h <=? data_entries h then
        ret (inl ACFS_ERROR_CLUSTER_FULL)
      else
        let i := Z.to_nat (data_entries h) in
        update_entry i
          (set_data_id
             (strncpy id (Z.to_nat (ACFS_MAX_DATA_ID_LEN - 1)) ++ [0])) ;;
        do r <- allocate_clusters_step clusters_needed;
        if negb (is_ok r.1) then
          update_entry i (set_cluster_list NULL) ;;
          ret (inl r.1)
        else
          update_entry i (fun e => set_is_valid true
                                     (set_cluster_count clusters_needed
                                        (set_cluster_list (Ptr r.2) e))) ;;
          do h <- gets header;
          modify (set_header (set_data_entries (u16 (data_entries h + 1)) h)) ;;
          ret (inr i)
  end.

(** The second half of [acfs_write]: record size and checksum in entry
    [i], write the clusters, persist header and directory. *)
Definition acfs_write_data (i : nat) (data : list Z) (size : Z)
  : M acfs_error_t :=
  do bytes <- deref (memcpy_src data size);
  update_entry i (fun e => set_crc32 (acfs_crc32 bytes)
                             (set_data_size (u32 size) e)) ;;
  do entry <- entry_at i;
  do ret1 <- acfs_write_clusters (cluster_list entry) (cluster_count entry)
               data;
  if negb (is_ok ret1) then ret ret1
  else
    do ret2 <- acfs_save_header;
    if negb (is_ok ret2) then ret ret2
    else acfs_save_entries.

Definition acfs_write (data_id : option (list Z)) (data : option (list Z))
                      (size : Z) : M acfs_error_t :=
  match data_id, data with
  | Some id, Some data =>
      if size =? 0 then ret ACFS_ERROR_INVALID_PARAM
      else
        do init <- gets initialized;
        if negb init then ret ACFS_ERROR_NOT_INITIALIZED
        else if ACFS_MAX_DATA_ID_LEN <=? strlen id then
          ret ACFS_ERROR_INVALID_PARAM
        else
          do h <- gets header;
          do clusters_needed <-
            deref (acfs_calculate_clusters_needed (cluster_size h) size);
          do r <- acfs_write_entry id clusters_needed;
          match r with
          | inl e => ret e
          | inr i => acfs_write_data i data size
          end
  | _, _ => ret ACFS_ERROR_INVALID_PARAM
  end.

(** [acfs_read(acfs, data_id, data, size, actual_size)]: the result, the
    memory at [data] and the object at [actual_size] as the call leaves
    them. *)
Definition acfs_read (data_id : option (list Z)) (data : option (list Z))
                     (size : Z) (actual_size : option Z)
  : M (acfs_error_t * option (list Z) * option Z) :=
  match data_id, data with
  | Some id, Some data =>
      do init <- gets initialized;
      if negb init then
        ret (ACFS_ERROR_NOT_INITIALIZED, Some data, actual_size)
      else
        do found <- find_entry id;
        match found with
        | None => ret (ACFS_ERROR_DATA_NOT_FOUND, Some data, actual_size)
        | Some i =>
            do entry <- entry_at i;
            if negb (is_valid entry) then
              ret (ACFS_ERROR_DATA_NOT_FOUND, Some data, actual_size)
            else if size <? data_size entry then
              ret (ACFS_ERROR_INVALID_PARAM, Some data,
                   fmap (M := option) (fun _ => data_size entry) actual_size)
            else
              do r <- acfs_read_clusters (cluster_list entry)
                        (cluster_count entry) data;
              if negb (is_ok r.1) then
                ret (r.1, Some r.2, actual_size)
              else
                do bytes <- deref (memcpy_src r.2 (data_size entry));
                let crc := acfs_crc32 bytes in
                if negb (crc =? crc32 entry) then
                  ret (ACFS_ERROR_CRC_MISMATCH, Some r.2, actual_size)
                else
                  ret (ACFS_OK, Some r.2,
                       fmap (M := option) (fun _ => data_size entry)
                            actual_size)
        end
  | _, _ => ret (ACFS_ERROR_INVALID_PARAM, data, actual_size)
  end.

(** The shift loop of [acfs_delete]: [entries[i] = entries[i + 1]] for
    [i] from [entry_index] while [i < data_entries - 1]. *)
Fixpoint delete_shift (n i : nat) : M unit :=
  match n with
  | O => ret tt
  | S n' =>
      do next <- entry_at (S i);
      update_entry i (fun _ => next) ;;
      delete_shift n' (S i)
  end.

Definition acfs_delete (data_id : option (list Z)) : M acfs_error_t :=
  match data_id with
  | Some id =>
      do init <- gets initialized;
      if negb init then ret ACFS_ERROR_NOT_INITIALIZED
      else
        do found <- find_entry id;
        match found with
        | None => ret ACFS_ERROR_DATA_NOT_FOUND
        | Some entry_index =>
            do entry <- entry_at entry_index;
            if negb (is_valid entry) then ret ACFS_ERROR_DATA_NOT_FOUND
            else
              free_clusters_step (cluster_list entry) (cluster_count entry) ;;
              free_block (cluster_list entry) ;;
              do h <- gets header;
              delete_shift
                (Z.to_nat (data_entries h - 1 - Z.of_nat entry_index))
                entry_index ;;
              modify (set_header
                        (set_data_entries (u16 (data_entries h - 1)) h)) ;;
              update_entry (Z.to_nat (u16 (data_entries h - 1)))
                           (fun _ => zero_entry) ;;
              do ret1 <- acfs_save_header;
              if negb (is_ok ret1) then ret ret1
              else acfs_save_entries
        end
  | None => ret ACFS_ERROR_INVALID_PARAM
  end.

Definition acfs_exists (data_id : option (list Z)) : M bool :=
  match data_id with
  | Some id =>
      do init <- gets initialized;
      if negb init then ret false
      else
        do found <- find_entry id;
        match found with
        | None => ret false
        | Some i =>
            do entry <- entry_at i;
            ret (is_valid entry)
        end
  | None => ret false
  end.

(** *** Queries, the integrity check and defragmentation *)

(** [acfs_get_size(acfs, data_id, size)]: the result and the object at
    [size] as the call leaves it. *)
Definition acfs_get_size (data_id : option (list Z)) (size : option Z)
  : M (acfs_error_t * option Z) :=
  match data_id, size with
  | Some id, Some _ =>
      do init <- gets initialized;
      if negb init then ret (ACFS_ERROR_NOT_INITIALIZED, size)
      else
        do found <- find_entry id;
        match found with
        | None => ret (ACFS_ERROR_DATA_NOT_FOUND, size)
        | Some i =>
            do entry <- entry_at i;
            if negb (is_valid entry) then ret (ACFS_ERROR_DATA_NOT_FOUND, size)
            else ret (ACFS_OK, Some (data_size entry))
        end
  | _, _ => ret (ACFS_ERROR_INVALID_PARAM, size)
  end.

Definition acfs_get_free_space (free_size : option Z)
  : M (acfs_error_t * option Z) :=
  match free_size with
  | Some _ =>
      do init <- gets initialized;
      if negb init then ret (ACFS_ERROR_NOT_INITIALIZED, free_size)
      else
        do h <- gets header;
        ret (ACFS_OK, Some (usize (free_clusters h * cluster_size h)))
  | None => ret (ACFS_ERROR_INVALID_PARAM, free_size)
  end.

(** The four objects [acfs_get_stats] writes through its pointers;
    [None] is a null pointer. *)
Record stats_t : Type := mk_stats {
  total_size : option Z;
  used_size : option Z;
  free_size : option Z;
  data_count : option Z
}.

Definition acfs_get_stats (out : stats_t) : M (acfs_error_t * stats_t) :=
  do init <- gets initialized;
  if negb init then ret (ACFS_ERROR_NOT_INITIALIZED, out)
  else
    do h <- gets header;
    let data_area_size :=
      usize (usize (total_clusters h - sys_clusters h) * cluster_size h) in
    let free := usize (free_clusters h * cluster_size h) in
    ret (ACFS_OK,
         mk_stats
           (fmap (M := option) (fun _ => data_area_size) (total_size out))
           (fmap (M := option) (fun _ => usize (data_area_size - free))
                 (used_size out))
           (fmap (M := option) (fun _ => free) (free_size out))
           (fmap (M := option) (fun _ => data_entries h) (data_count out))).

(** [acfs_check_integrity].  The block [malloc(entry->data_size)] returns
    holds indeterminate bytes: [garbage k] is the byte at offset [k] of a
    fresh block. *)
Definition fresh_block (garbage : nat -> Z) (size : Z) : list Z :=
  map garbage (seq 0 (Z.to_nat size)).

Fixpoint check_integrity_loop (garbage : nat -> Z) (n i : nat)
  : M acfs_error_t :=
  match n with
  | O => ret ACFS_OK
  | S n' =>
      do entry <- entry_at i;
      if negb (is_valid entry) then check_integrity_loop garbage n' (S i)
      else
        let temp_data := fresh_block garbage (data_size entry) in
        do r <- acfs_read_clusters (cluster_list entry) (cluster_count entry)
                  temp_data;
        if negb (is_ok r.1) then ret r.1
        else
          do bytes <- deref (memcpy_src r.2 (data_size entry));
          if negb (acfs_crc32 bytes =? crc32 entry) then
            ret ACFS_ERROR_DATA_CORRUPTED
          else check_integrity_loop garbage n' (S i)
  end.

Definition acfs_check_integrity (garbage : nat -> Z) : M acfs_error_t :=
  do init <- gets initialized;
  if negb init then ret ACFS_ERROR_NOT_INITIALIZED
  else
    do h <- gets header;
    check_integrity_loop garbage (Z.to_nat (data_entries h)) 0.

Definition acfs_defragment : M acfs_error_t :=
  do init <- gets initialized;
  if negb init then ret ACFS_ERROR_NOT_INITIALIZED
  else ret ACFS_OK.

(** ** Notions used in the statements *)

(** The characters of a string literal, as the code sees them. *)
Definition cstr (s : string) : list Z :=
  map (fun c => Z.of_N (N_of_ascii c)) (list_ascii_of_string s).

(** Calls of the API, to write down runs of the program. *)
Inductive api_call : Type :=
| Call_init (st : option storage_device_t) (config : option acfs_config_t)
| Call_deinit
| Call_format (config : option acfs_config_t)
| Call_write (data_id : option (list Z)) (data : option (list Z)) (size : Z)
| Call_read (data_id : option (list Z)) (data : option (list Z)) (size : Z)
       (actual_size : option Z)
| Call_delete (data_id : option (list Z))
| Call_exists (data_id : option (list Z)).

Inductive api_result : Type :=
| Returned (e : acfs_error_t)
| ReturnedRead (e : acfs_error_t) (data : option (list Z))
               (actual_size : option Z)
| ReturnedBool (b : bool).

Definition api_step (c : api_call) : M api_result :=
  match c with
  | Call_init st config => do e <- acfs_init st config; ret (Returned e)
  | Call_deinit => do e <- acfs_deinit; ret (Returned e)
  | Call_format config => do e <- acfs_format config; ret (Returned e)
  | Call_write data_id data size =>
      do e <- acfs_write data_id data size; ret (Returned e)
  | Call_read data_id data size actual_size =>
      do r <- acfs_read data_id data size actual_size;
      ret (ReturnedRead r.1.1 r.1.2 r.2)
  | Call_delete data_id => do e <- acfs_delete data_id; ret (Returned e)
  | Call_exists data_id => do b <- acfs_exists data_id; ret (ReturnedBool b)
  end.

Fixpoint api_run (cs : list api_call) : M (list api_result) :=
  match cs with
  | [] => ret []
  | c :: cs' =>
      do r <- api_step c;
      do rs <- api_run cs';
      ret (r :: rs)
  end.

(** A simulated EEPROM of [size] bytes at address 0, with an [acfs_t]
    object that has never been initialised (all zero). *)
Definition eeprom_device (size : Z) : option storage_device_t :=
  (acfs_create_eeprom_device 0 size (mk_media None None)).1.2.

Definition eeprom_world (size : Z) : world :=
  mk_world zero_acfs (acfs_create_eeprom_device 0 size (mk_media None None)).2.

(** Values that fit their C type. *)
Definition is_u8 (x : Z) : Prop := 0 <= x < 2 ^ 8.
Definition is_u16 (x : Z) : Prop := 0 <= x < 2 ^ 16.

(** The set of return values of a computation. *)
Definition returns {A} (m : M A) (P : A -> Prop) : Prop :=
  forall w a w', m w = Some (a, w') -> P a.

(** A computation that leaves the whole state as it found it. *)
Definition read_only {A} (m : M A) : Prop :=
  forall w a w', m w = Some (a, w') -> w' = w.

(** Free clusters plus the clusters of the live entries plus the
    reserved ones, the left-hand side of the accounting invariant. *)
Definition live_entries (a : acfs_t) : list acfs_data_entry_t :=
  take (Z.to_nat (data_entries (header a))) (array_of (entries a)).

Definition clusters_accounted (a : acfs_t) : Z :=
  free_clusters (header a)
  + foldr Z.add 0 (map cluster_count (live_entries a))
  + sys_clusters (header a).

(** The bits of a bitmap are well formed when every element is a byte;
    a bitmap of at most 65536 bits has at most 8192 bytes. *)
Definition bitmap_wf (bm : list Z) : Prop :=
  Forall is_u8 bm /\ Z.of_nat (length bm) <= 8192.

(** The free clusters among [i, i + n), in ascending order. *)
Definition free_clusters_in (bm : list Z) (i n : Z) : list Z :=
  filter (fun c => bitmap_test c bm = Some false) (seqZ i n).

(** The bytes of cluster [c] as the medium holds them. *)
Definition cluster_on_medium (w : world) (c : Z) : option (list Z) :=
  match storage (fs w) with
  | Some dev =>
      ops_read (ops dev)
               (u32 (start_addr dev + c * cluster_size (header (fs w))))
               (cluster_size (header (fs w))) (medium w)
  | None => None
  end.

(** [entry] is a live entry named [id], as [acfs_find_entry] tests it. *)
Definition entry_matches (id : list Z) (entry : acfs_data_entry_t) : bool :=
  is_valid entry
  && strncmp_eq (data_id entry) id (Z.to_nat ACFS_MAX_DATA_ID_LEN).

(** The header as [acfs_save_header] leaves it. *)
Definition header_with_crc (h : acfs_header_t) : acfs_header_t :=
  set_header_crc32
    (acfs_crc32 (take (Z.to_nat (sizeof_acfs_header_t - 4)) (header_bytes h)))
    h.

(** The two saves that end [acfs_write] and [acfs_delete]. *)
Definition persist : M acfs_error_t :=
  do ret1 <- acfs_save_header;
  if negb (is_ok ret1) then ret ret1
  else acfs_save_entries.

(** States whose values fit their C types: the 16-bit fields of the
    header, the bytes of the bitmap, the 32 characters of each [data_id],
    and cluster lists that, when not null, point to at least
    [cluster_count] indices. *)
Definition is_u16b (x : Z) : bool := (0 <=? x) && (x <? 2 ^ 16).

Definition bitmap_typed (bm : list Z) : bool :=
  forallb (fun b => (0 <=? b) && (b <? 2 ^ 8)) bm
  && (Z.of_nat (length bm) <=? 8192).

Definition entry_typed (e : acfs_data_entry_t) : bool :=
  (length (data_id e) =? 32)%nat
  && (is_null (cluster_list e)
      || (cluster_count e <=? Z.of_nat (length (block_of (cluster_list e))))).

Definition acfs_typed (a : acfs_t) : bool :=
  is_u16b (total_clusters (header a)) && is_u16b (sys_clusters (header a))
  && is_u16b (data_entries (header a)) && is_u16b (free_clusters (header a))
  && match cluster_bitmap a with
     | Some bm => bitmap_typed bm
     | None => false
     end
  && (Z.of_nat (length (array_of (entries a))) <? 2 ^ 16)
  && forallb entry_typed (array_of (entries a)).

(** What [acfs_allocate_clusters] does on a bitmap [bm].  When
    [free_clusters] is at least [count] and at least [count] bits are
    clear from [sys_clusters] up to [total_clusters], it succeeds with the
    [count] lowest free clusters, strictly ascending, free before and
    exactly those newly set, and takes [count] from [free_clusters].  In
    every other case it returns NoSpace and leaves the state as it was. *)
Definition allocates_lowest_free (a : acfs_t) (bm : list Z) (count : Z)
  : Prop :=
  let h := header a in
  let free :=
    free_clusters_in bm (sys_clusters h)
                     (total_clusters h - sys_clusters h) in
  (count <= free_clusters h -> count <= Z.of_nat (length free) ->
   exists l a',
     acfs_allocate_clusters count a = Some (ACFS_OK, l, a') /\
     l = take (Z.to_nat count) free /\
     Z.of_nat (length l) = count /\
     StronglySorted Z.lt l /\
     Forall (fun c => bitmap_test c bm = Some false) l /\
     (forall j, is_u16 j ->
        bitmap_test j (array_of (cluster_bitmap a')) =
        if decide (j ∈ l) then Some true else bitmap_test j bm) /\
     free_clusters (header a') = u16 (free_clusters h - count))
  /\ (free_clusters h < count \/ Z.of_nat (length free) < count ->
      exists l, acfs_allocate_clusters count a
                = Some (ACFS_ERROR_NO_SPACE, l, a)).

(** What [acfs_free_clusters] does with the list [l]: every listed bit is
    cleared, the other bits stay, and [free_clusters] grows by the length
    of the list. *)
Definition frees_clusters (a : acfs_t) (bm l : list Z) : Prop :=
  exists a',
    acfs_free_clusters (Ptr l) (Z.of_nat (length l)) a = Some a' /\
    (forall j, is_u16 j ->
       bitmap_test j (array_of (cluster_bitmap a')) =
       if decide (j ∈ l) then Some false else bitmap_test j bm) /\
    free_clusters (header a') =
    u16 (free_clusters (header a) + Z.of_nat (length l)).

(** What a successful [acfs_read] of [id] has done to the memory [data]
    at its destination, of which the caller's buffer is the first [size]
    bytes: with K the entry's [cluster_count] and S the cluster size, the
    first K * S bytes are those of the K clusters on the medium, whole,
    and the rest is untouched.  The bytes past the buffer are therefore
    untouched when K * S <= size, and overwritten up to K * S when not. *)
Definition copies_whole_clusters (w : world) (id data : list Z) (size : Z)
                                 (out : list Z) : Prop :=
  exists i entry copied,
    acfs_find_entry id (fs w) = Some (Some i) /\
    array_of (entries (fs w)) !! i = Some entry /\
    data_size entry <= size /\
    let K := Z.to_nat (cluster_count entry) in
    let KS := Z.of_nat K * cluster_size (header (fs w)) in
    Z.of_nat (length copied) = KS /\
    KS <= Z.of_nat (length data) /\
    out = copied ++ drop (length copied) data /\
    (forall k, (k < K)%nat ->
       exists c, block_of (cluster_list entry) !! k = Some c /\
                 cluster_on_medium w c
                 = Some (slice (Z.of_nat k * cluster_size (header (fs w)))
                               (cluster_size (header (fs w))) copied)) /\
    (KS <= size -> drop (Z.to_nat size) out = drop (Z.to_nat size) data) /\
    (size < KS ->
     take (Z.to_nat (KS - size)) (drop (Z.to_nat size) out)
     = drop (Z.to_nat size) copied).

(** [acfs_delete(id)] on [w1] returns, and leaves [free_clusters] and the
    bitmap as they are in [w], with no entry named [id]. *)
Definition delete_restores (w w1 : world) (id : list Z) : Prop :=
  exists r w2,
    acfs_delete (Some id) w1 = Some (r, w2) /\
    free_clusters (header (fs w2)) = free_clusters (header (fs w)) /\
    cluster_bitmap (fs w2) = cluster_bitmap (fs w) /\
    acfs_exists (Some id) w2 = Some (false, w2).

(** The characters of a C string: those before the first NUL. *)
Fixpoint c_chars (s : list Z) : list Z :=
  match s with
  | [] => []
  | c :: s' => if c =? 0 then [] else c :: c_chars s'
  end.

(** The entry as the second half of [acfs_write] leaves it. *)
Definition written (data : list Z) (size : Z) (e : acfs_data_entry_t)
  : acfs_data_entry_t :=
  set_crc32 (acfs_crc32 (take (Z.to_nat size) data))
            (set_data_size (u32 size) e).

(** The clusters a list of entries holds. *)
Definition sum_counts (es : list acfs_data_entry_t) : Z :=
  foldr Z.add 0 (map cluster_count es).

(** What the check has established for an entry when it goes on to the
    next: the clusters of its list were read from the medium into the
    block, whole and in order, they fit the block, and the CRC-32 of the
    block's [data_size] bytes is the entry's. *)
Definition entry_checked (garbage : nat -> Z) (w : world)
                         (e : acfs_data_entry_t) : Prop :=
  let s := cluster_size (header (fs w)) in
  let K := Z.to_nat (cluster_count e) in
  exists copied,
    Z.of_nat (length copied) = Z.of_nat K * s /\
    (K <> 0%nat -> Z.of_nat K * s <= Z.max 0 (data_size e)) /\
    (forall k, (k < K)%nat ->
       exists c, block_of (cluster_list e) !! k = Some c /\
                 cluster_on_medium w c = Some (slice (Z.of_nat k * s) s copied)) /\
    acfs_crc32 (take (Z.to_nat (data_size e))
                     (copied ++ drop (length copied)
                                     (fresh_block garbage (data_size e))))
    = crc32 e.

(** The fields of a header fit their C types. *)
Definition header_typed (h : acfs_header_t) : Prop :=
  0 <= magic h < 2 ^ 32 /\ is_u16 (version h) /\ is_u16 (cluster_size h) /\
  is_u16 (total_clusters h) /\ is_u16 (sys_clusters h) /\
  is_u16 (data_entries h) /\ is_u16 (free_clusters h) /\
  0 <= header_crc32 h < 2 ^ 32.

(** Cluster [j] is among the first [cluster_count] indices of the list of
    a valid entry. *)
Definition entry_holds (j : Z) (e : acfs_data_entry_t) : bool :=
  is_valid e && negb (is_null (cluster_list e))
  && bool_decide (j ∈ take (Z.to_nat (cluster_count e))
                          (block_of (cluster_list e))).

(** [m], run on the device [dev] with a medium in [I], keeps the device
    and ends with a medium in [I] and a value in [Q]. *)
Definition device_run (dev : storage_device_t) (I : media -> Prop) {A}
                      (m : M A) (Q : A -> Prop) : Prop :=
  forall w a w',
    storage (fs w) = Some dev -> I (medium w) ->
    m w = Some (a, w') ->
    storage (fs w') = Some dev /\ I (medium w') /\ Q a.

(** Byte [p] of the flash holds something else than the erased value. *)
Definition programmed (p : nat) (m : media) : Prop :=
  exists buf b, flash_buffer m = Some buf /\ buf !! p = Some b /\ b <> 0xFF.

(** [eeprom_size] or [flash_size]: the length of the buffer behind the
    operations [o], 0 when there is none. *)
Definition device_bytes (o : storage_ops_t) (m : media) : Z :=
  match match o with
        | eeprom_ops => eeprom_buffer m
        | flash_ops => flash_buffer m
        end with
  | Some buf => Z.of_nat (length buf)
  | None => 0
  end.

(** ** Concrete runs *)

(** 64-byte clusters, reserved area sized by the code, format when the
    medium holds no file system. *)
Definition config64 : option acfs_config_t := Some (mk_config 64 0 true true).

Definition world_after (calls : list api_call) (w : world) : world :=
  match api_run calls w with
  | Some (_, w') => w'
  | None => w
  end.

(** A 4 KiB EEPROM, freshly formatted and mounted: 64 clusters, 2 of them
    reserved, 62 free, room for one directory entry. *)
Definition mounted64 : world :=
  world_after [Call_init (eeprom_device 4096) config64] (eeprom_world 4096).

(** The same after [acfs_write("a", "Hi", 3)] from a 64-byte block. *)
Definition hi_block : list Z := [72; 105; 0] ++ repeat 7 61.

Definition mounted64_hi : world :=
  world_after [Call_write (Some (cstr "a")) (Some hi_block) 3] mounted64.

(** The world a computation leaves. *)
Definition run_from {A} (m : M A) (w : world) : world :=
  match m w with
  | Some (_, w') => w'
  | None => w
  end.

(** A fresh 16-byte EEPROM and a fresh 16-byte flash. *)
Definition eeprom16 : media :=
  (acfs_create_eeprom_device 0 16 (mk_media None None)).2.
Definition flash16 : media :=
  (acfs_create_flash_device 0 16 8 (mk_media None None)).2.

(** The descriptor of the 4 KiB EEPROM. *)
Definition dev4096 : storage_device_t :=
  mk_storage_device 0 4096 STORAGE_TYPE_EEPROM eeprom_ops false 0.

(** The 4 KiB EEPROM with an item of exactly one cluster. *)
Definition mounted64_full : world :=
  world_after [Call_write (Some (cstr "a")) (Some hi_block) 64] mounted64.

(** The 4 KiB EEPROM with four reserved clusters (room for four
    directory entries) and the item "a". *)
Definition config64_4 : option acfs_config_t :=
  Some (mk_config 64 4 true true).
Definition mounted64_4_hi : world :=
  world_after [Call_init (eeprom_device 4096) config64_4;
               Call_write (Some (cstr "a")) (Some hi_block) 3]
              (eeprom_world 4096).

(** A 256-byte flash with erase blocks of 64 bytes, formatted and
    mounted. *)
Definition flash256 : storage_device_t :=
  mk_storage_device 0 256 STORAGE_TYPE_FLASH flash_ops true 64.
Definition mounted_flash : world :=
  world_after [Call_init (Some flash256) config64]
    (mk_world zero_acfs
              (acfs_create_flash_device 0 256 64 (mk_media None None)).2).

(** A 256 KiB EEPROM with clusters of 4096 bytes and two items, "a" in
    cluster 2 and "b" in cluster 3, in this order in the directory. *)
Definition config4096 : option acfs_config_t :=
  Some (mk_config 4096 0 true true).
Definition block4096 : list Z := [72; 105; 0] ++ repeat 7 4093.
Definition two_items : world :=
  world_after [Call_init (eeprom_device 262144) config4096;
               Call_write (Some (cstr "a")) (Some block4096) 3;
               Call_write (Some (cstr "b")) (Some block4096) 3]
              (eeprom_world 262144).
Definition item_a : acfs_data_entry_t :=
  mk_entry (97 :: repeat 0 31) 3 1 (Ptr [2]) 905434500 true.
Definition item_b : acfs_data_entry_t :=
  mk_entry (98 :: repeat 0 31) 3 1 (Ptr [3]) 905434500 true.

(** The 4 KiB EEPROM after a rewrite of "a" that found no room: the entry
    counts one cluster and has lost its list. *)
Definition mounted64_lost : world :=
  world_after [Call_write (Some (cstr "a")) (Some (repeat 1 4096)) 4096]
              mounted64_hi.

(** * Properties *)

(** ** Return values *)

Lemma is_ok_spec e : reflect (e = ACFS_OK) (is_ok e).
Proof. destruct e; constructor; congruence. Qed.

(** ** The monad *)

Lemma bind_Some {A B} (m : M A) (k : A -> M B) w b w' :
  bind m k w = Some (b, w') <->
  exists a w1, m w = Some (a, w1) /\ k a w1 = Some (b, w').
Proof.
  unfold bind. split.
  - destruct (m w) as [[a w1]|]; [eauto | discriminate].
  - intros (a & w1 & -> & H). exact H.
Qed.

Lemma returns_ret {A} (a : A) (P : A -> Prop) : P a -> returns (ret a) P.
Proof. intros H w a' w' [= <- _]. exact H. Qed.

Lemma returns_bind {A B} (m : M A) (k : A -> M B) (P : B -> Prop) :
  (forall a, returns (k a) P) -> returns (bind m k) P.
Proof.
  intros H w b w' (a & w1 & _ & Hk)%bind_Some. exact (H a _ _ _ Hk).
Qed.

Lemma returns_trap {A} (P : A -> Prop) : returns trap P.
Proof. intros w a w'. discriminate. Qed.

Lemma returns_weaken {A} (m : M A) (P Q : A -> Prop) :
  returns m P -> (forall a, P a -> Q a) -> returns m Q.
Proof. intros H HPQ w a w' Hm. eauto. Qed.

Lemma read_only_ret {A} (a : A) : read_only (ret a).
Proof. intros w a' w' [= _ <-]. reflexivity. Qed.

Lemma read_only_trap {A} : read_only (@trap A).
Proof. intros w a w'. discriminate. Qed.

Lemma read_only_bind {A B} (m : M A) (k : A -> M B) :
  read_only m -> (forall a, read_only (k a)) -> read_only (bind m k).
Proof.
  intros Hm Hk w b w' (a & w1 & H1 & H2)%bind_Some.
  apply Hm in H1 as ->. exact (Hk a _ _ _ H2).
Qed.

Lemma read_only_gets {A} (f : acfs_t -> A) : read_only (gets f).
Proof. intros w a w' [= _ <-]. reflexivity. Qed.

Lemma read_only_deref {A} (o : option A) : read_only (deref o).
Proof. destruct o; [apply read_only_ret | apply read_only_trap]. Qed.

Lemma read_only_storage_read addr size : read_only (storage_read addr size).
Proof.
  unfold storage_read. apply read_only_bind.
  - apply read_only_bind; [apply read_only_gets | apply read_only_deref].
  - intros dev w a w' [= _ <-]. reflexivity.
Qed.

Lemma read_only_find_entry id : read_only (find_entry id).
Proof.
  intros w a w'. unfold find_entry.
  destruct (acfs_find_entry id (fs w)); [|discriminate].
  intros [= _ <-]. reflexivity.
Qed.

Lemma read_only_entry_at i : read_only (entry_at i).
Proof.
  unfold entry_at. apply read_only_bind; [apply read_only_gets|].
  intros es. apply read_only_deref.
Qed.

Lemma read_only_read_clusters_loop l n : forall i data,
  read_only (read_clusters_loop l n i data).
Proof.
  induction n as [|n IH]; intros i data; simpl.
  - apply read_only_ret.
  - apply read_only_bind.
    { apply read_only_bind; [apply read_only_gets | apply read_only_deref]. }
    intros dev. apply read_only_bind; [apply read_only_gets|].
    intros h. apply read_only_bind; [apply read_only_deref|].
    intros c. apply read_only_bind; [apply read_only_storage_read|].
    intros [bs|]; [|apply read_only_ret].
    case_match; [apply read_only_trap | apply IH].
Qed.

(** C10.  [acfs_read] leaves the whole state as it found it, the [acfs_t]
    object (header, directory entries, bitmap, free_clusters) and the
    medium alike, whatever it returns: Ok, DataNotFound, InvalidParam on
    a buffer that is too small, Io or CrcMismatch. *)
Theorem acfs_read_leaves_state data_id data size actual_size w r w' :
  acfs_read data_id data size actual_size w = Some (r, w') -> w' = w.
Proof.
  revert w r w'.
  change (read_only (acfs_read data_id data size actual_size)).
  unfold acfs_read.
  destruct data_id as [id|]; [|apply read_only_ret].
  destruct data as [data|]; [|apply read_only_ret].
  apply read_only_bind; [apply read_only_gets|].
  intros init. destruct (negb init); [apply read_only_ret|].
  apply read_only_bind; [apply read_only_find_entry|].
  intros [i|]; [|apply read_only_ret].
  apply read_only_bind; [apply read_only_entry_at|].
  intros entry. destruct (negb (is_valid entry)); [apply read_only_ret|].
  case_match; [apply read_only_ret|].
  apply read_only_bind; [apply read_only_read_clusters_loop|].
  intros r. case_match; [apply read_only_ret|].
  apply read_only_bind; [apply read_only_deref|].
  intros bytes. case_match; apply read_only_ret.
Qed.

Definition ok_or_io (e : acfs_error_t) : Prop :=
  e = ACFS_OK \/ e = ACFS_ERROR_IO_ERROR.

Definition not_invalid_param (e : acfs_error_t) : Prop :=
  e <> ACFS_ERROR_INVALID_PARAM.

Lemma ok_or_io_not_invalid e : ok_or_io e -> not_invalid_param e.
Proof. intros [-> | ->]; discriminate. Qed.

Ltac returns_step :=
  lazymatch goal with
  | |- returns (bind _ _) _ => apply returns_bind; intros ?
  | |- returns (ret _) _ => apply returns_ret
  | |- returns trap _ => apply returns_trap
  | |- returns (if ?b then _ else _) _ => destruct b eqn:?
  | |- returns (match ?x with _ => _ end) _ => destruct x eqn:?
  end.

Lemma returns_save_header : returns acfs_save_header ok_or_io.
Proof.
  unfold acfs_save_header. repeat returns_step; [right | left]; reflexivity.
Qed.

Lemma returns_save_cluster_lists ea esz n : forall i,
  returns (save_cluster_lists ea esz i n) ok_or_io.
Proof.
  induction n as [|n IH]; intros i; simpl.
  - apply returns_ret. left; reflexivity.
  - repeat returns_step; try apply IH. right; reflexivity.
Qed.

Lemma returns_save_entries : returns acfs_save_entries ok_or_io.
Proof.
  unfold acfs_save_entries. repeat returns_step.
  - right; reflexivity.
  - apply returns_save_cluster_lists.
Qed.

Lemma returns_write_clusters_loop l n : forall i data,
  returns (write_clusters_loop l n i data) ok_or_io.
Proof.
  induction n as [|n IH]; intros i data; simpl.
  - apply returns_ret. left; reflexivity.
  - repeat returns_step; try apply IH. right; reflexivity.
Qed.

Lemma allocate_result count a e l a' :
  acfs_allocate_clusters count a = Some (e, l, a') ->
  e = ACFS_OK \/ e = ACFS_ERROR_NO_SPACE.
Proof.
  unfold acfs_allocate_clusters. intros H.
  repeat case_match; simplify_eq; auto.
Qed.

Lemma returns_allocate_clusters_step count :
  returns (allocate_clusters_step count)
          (fun r => r.1 = ACFS_OK \/ r.1 = ACFS_ERROR_NO_SPACE).
Proof.
  intros w r w'. unfold allocate_clusters_step, lift.
  destruct (acfs_allocate_clusters count (fs w)) as [[[e l] a']|] eqn:E;
    [|discriminate].
  intros [= <- _]. simpl. eapply allocate_result, E.
Qed.

Lemma returns_write_entry id k :
  returns (acfs_write_entry id k)
          (fun r => match r with
                    | inl e => not_invalid_param e
                    | inr _ => True
                    end).
Proof.
  unfold acfs_write_entry.
  apply returns_bind; intros [i|].
  - apply returns_bind; intros entry.
    destruct (negb (cluster_count entry =? k)); [|apply returns_ret; exact I].
    apply returns_bind; intros _.
    apply returns_bind; intros _.
    intros w r w' (a & w1 & H1 & H2)%bind_Some.
    apply returns_allocate_clusters_step in H1.
    revert H2. destruct (negb (is_ok a.1)) eqn:E.
    + intros (? & ? & _ & [= <- _])%bind_Some.
      destruct H1 as [H1|H1]; rewrite H1; discriminate.
    + intros (? & ? & _ & [= <- _])%bind_Some. exact I.
  - apply returns_bind; intros h.
    destruct (max_entries_of h <=? data_entries h);
      [apply returns_ret; discriminate|].
    apply returns_bind; intros _.
    intros w r w' (a & w1 & H1 & H2)%bind_Some.
    apply returns_allocate_clusters_step in H1.
    revert H2. destruct (negb (is_ok a.1)) eqn:E.
    + intros (? & ? & _ & [= <- _])%bind_Some.
      destruct H1 as [H1|H1]; rewrite H1; discriminate.
    + intros (? & ? & _ & (? & ? & _ & (? & ? & _ & [= <- _])%bind_Some)%bind_Some)%bind_Some.
      exact I.
Qed.

Lemma returns_write_data i data size :
  returns (acfs_write_data i data size) ok_or_io.
Proof.
  unfold acfs_write_data.
  apply returns_bind; intros bytes.
  apply returns_bind; intros _.
  apply returns_bind; intros entry.
  intros w1 e w' (r1 & w2 & H3 & H4)%bind_Some.
  apply returns_write_clusters_loop in H3. revert H4.
  destruct (negb (is_ok r1)).
  { intros [= <- _]. exact H3. }
  intros (r2 & w3 & H5 & H6)%bind_Some.
  apply returns_save_header in H5. revert H6.
  destruct (negb (is_ok r2)).
  { intros [= <- _]. exact H5. }
  apply returns_save_entries.
Qed.

Lemma strlen_nonneg s : 0 <= strlen s.
Proof. induction s as [|c s IH]; simpl; [lia|]. destruct (c =? 0); lia. Qed.

(** C9, as the code has it.  [acfs_write] returns InvalidParam, and does
    nothing else, when the id pointer or the data pointer is null or
    [size] is 0, in every state, and on a mounted file system when the
    id is 32 characters long or longer; an instance that is not mounted
    answers NotInitialized before it looks at the length.  An id of fewer
    than 32 characters, the empty one included, never gives InvalidParam:
    31 characters are accepted, 32 are rejected. *)
Theorem acfs_write_validates w data_id data size :
  (data_id = None \/ data = None \/ size = 0 ->
   acfs_write data_id data size w = Some (ACFS_ERROR_INVALID_PARAM, w)) /\
  (forall id d, data_id = Some id -> data = Some d -> size <> 0 ->
     (initialized (fs w) = true -> 32 <= strlen id ->
      acfs_write data_id data size w = Some (ACFS_ERROR_INVALID_PARAM, w)) /\
     (initialized (fs w) = false ->
      acfs_write data_id data size w = Some (ACFS_ERROR_NOT_INITIALIZED, w)) /\
     (strlen id < 32 ->
      forall e w', acfs_write data_id data size w = Some (e, w') ->
                   e <> ACFS_ERROR_INVALID_PARAM)).
Proof.
  split.
  - intros H. unfold acfs_write.
    destruct data_id as [id|]; [|reflexivity].
    destruct data as [d|]; [|reflexivity].
    destruct H as [H|[H|H]]; try discriminate. subst size. reflexivity.
  - intros id d -> -> Hsize. unfold acfs_write.
    apply Z.eqb_neq in Hsize. rewrite Hsize.
    split; [|split].
    + intros Hinit Hlen. unfold bind at 1, gets. rewrite Hinit. simpl.
      apply Z.leb_le in Hlen. unfold ACFS_MAX_DATA_ID_LEN. rewrite Hlen.
      reflexivity.
    + intros Hinit. unfold bind at 1, gets. rewrite Hinit. reflexivity.
    + intros Hlen e w'. revert w e w'.
      change (returns
                (do init <- gets initialized;
                 if negb init then ret ACFS_ERROR_NOT_INITIALIZED
                 else if ACFS_MAX_DATA_ID_LEN <=? strlen id then
                   ret ACFS_ERROR_INVALID_PARAM
                 else
                   do h <- gets header;
                   do clusters_needed <-
                     deref (acfs_calculate_clusters_needed (cluster_size h) size);
                   do r <- acfs_write_entry id clusters_needed;
                   match r with
                   | inl e => ret e
                   | inr i => acfs_write_data i d size
                   end) not_invalid_param).
      apply returns_bind; intros init.
      destruct (negb init); [apply returns_ret; discriminate|].
      apply Z.leb_gt in Hlen. unfold ACFS_MAX_DATA_ID_LEN. rewrite Hlen.
      apply returns_bind; intros h.
      apply returns_bind; intros k.
      intros w0 e w' (r & w1 & H1 & H2)%bind_Some.
      apply returns_write_entry in H1. revert H2.
      destruct r as [e0|i].
      * intros [= <- _]. exact H1.
      * intros H2. apply returns_write_data in H2.
        apply ok_or_io_not_invalid, H2.
Qed.

(** ** Bits of the bitmap *)

Lemma u16_small i : is_u16 i -> u16 i = i.
Proof. intros H. apply Z.mod_small. exact H. Qed.

Lemma u8_small i : is_u8 i -> u8 i = i.
Proof. intros H. apply Z.mod_small. exact H. Qed.

Lemma byte_idx_u16 i : is_u16 i -> u16 (i / 8) = i / 8.
Proof.
  intros [H1 H2]. apply u16_small. split.
  - apply Z.div_pos; lia.
  - apply Z.div_lt_upper_bound; lia.
Qed.

Lemma bit_idx_u8 i : u8 (i mod 8) = i mod 8.
Proof.
  apply u8_small. pose proof (Z.mod_pos_bound i 8 ltac:(lia)).
  unfold is_u8. lia.
Qed.

Lemma land_bit_eqb b k :
  0 <= k -> (Z.land b (Z.shiftl 1 k) =? 0) = negb (Z.testbit b k).
Proof.
  intros Hk. rewrite Z.shiftl_1_l.
  destruct (Z.testbit b k) eqn:Hb; simpl.
  - apply Z.eqb_neq. intros H.
    assert (Z.testbit (Z.land b (2 ^ k)) k = false) as Hc
      by (rewrite H; apply Z.bits_0).
    rewrite Z.land_spec, Hb, Z.pow2_bits_true in Hc by lia. discriminate.
  - apply Z.eqb_eq. apply Z.bits_inj'. intros n Hn.
    rewrite Z.land_spec, Z.bits_0, Z.pow2_bits_eqb by lia.
    destruct (Z.eqb_spec k n) as [->|]; [rewrite Hb|]; auto using andb_false_r.
Qed.

Lemma u8_testbit x k : 0 <= k < 8 -> Z.testbit (u8 x) k = Z.testbit x k.
Proof. intros Hk. unfold u8. apply Z.mod_pow2_bits_low. lia. Qed.

Lemma u8_is_u8 x : is_u8 (u8 x).
Proof. apply Z.mod_pos_bound. lia. Qed.

Lemma bitmap_test_lookup i bm :
  is_u16 i ->
  bitmap_test i bm =
  (fun b => Z.testbit b (i mod 8)) <$> (bm !! Z.to_nat (i / 8)).
Proof.
  intros Hi. unfold bitmap_test. rewrite byte_idx_u16, bit_idx_u8 by done.
  destruct (bm !! Z.to_nat (i / 8)) as [b|]; simpl; [|done].
  rewrite land_bit_eqb by (apply Z.mod_pos_bound; lia).
  by rewrite negb_involutive.
Qed.

Lemma same_byte_same_bit i j :
  i / 8 = j / 8 -> i mod 8 = j mod 8 -> i = j.
Proof.
  intros H1 H2. rewrite (Z.div_mod i 8), (Z.div_mod j 8) by lia. congruence.
Qed.

Lemma bitmap_set_test i bm bm' :
  is_u16 i -> bitmap_set i bm = Some bm' ->
  forall j, is_u16 j ->
    bitmap_test j bm' = if decide (j = i) then Some true else bitmap_test j bm.
Proof.
  intros Hi Hset j Hj. unfold bitmap_set in Hset.
  rewrite byte_idx_u16, bit_idx_u8 in Hset by done.
  destruct (bm !! Z.to_nat (i / 8)) as [b|] eqn:Hb; [|discriminate].
  injection Hset as <-. rewrite !bitmap_test_lookup by done.
  assert (0 <= i mod 8 < 8) by (apply Z.mod_pos_bound; lia).
  assert (0 <= j mod 8 < 8) by (apply Z.mod_pos_bound; lia).
  assert (0 <= i / 8) by (apply Z.div_pos; unfold is_u16 in Hi; lia).
  assert (0 <= j / 8) by (apply Z.div_pos; unfold is_u16 in Hj; lia).
  destruct (decide (j / 8 = i / 8)) as [Heq|Hne].
  - rewrite Heq, list_lookup_insert_eq by (eapply lookup_lt_Some, Hb).
    simpl. rewrite u8_testbit, Z.lor_spec, Z.shiftl_1_l, Z.pow2_bits_eqb by lia.
    destruct (decide (j = i)) as [->|Hji].
    + by rewrite Z.eqb_refl, orb_true_r.
    + rewrite Hb. simpl. f_equal.
      destruct (Z.eqb_spec (i mod 8) (j mod 8)) as [Hm|]; [|apply orb_false_r].
      exfalso. apply Hji. by apply same_byte_same_bit.
  - rewrite list_lookup_insert_ne by lia.
    destruct (decide (j = i)) as [->|]; [done|reflexivity].
Qed.

Lemma bitmap_clear_test i bm bm' :
  is_u16 i -> bitmap_clear i bm = Some bm' ->
  forall j, is_u16 j ->
    bitmap_test j bm' = if decide (j = i) then Some false else bitmap_test j bm.
Proof.
  intros Hi Hset j Hj. unfold bitmap_clear in Hset.
  rewrite byte_idx_u16, bit_idx_u8 in Hset by done.
  destruct (bm !! Z.to_nat (i / 8)) as [b|] eqn:Hb; [|discriminate].
  injection Hset as <-. rewrite !bitmap_test_lookup by done.
  assert (0 <= i mod 8 < 8) by (apply Z.mod_pos_bound; lia).
  assert (0 <= j mod 8 < 8) by (apply Z.mod_pos_bound; lia).
  assert (0 <= i / 8) by (apply Z.div_pos; unfold is_u16 in Hi; lia).
  assert (0 <= j / 8) by (apply Z.div_pos; unfold is_u16 in Hj; lia).
  destruct (decide (j / 8 = i / 8)) as [Heq|Hne].
  - rewrite Heq, list_lookup_insert_eq by (eapply lookup_lt_Some, Hb).
    simpl. rewrite u8_testbit, Z.land_spec, Z.lnot_spec, Z.shiftl_1_l,
      Z.pow2_bits_eqb by lia.
    destruct (decide (j = i)) as [->|Hji].
    + rewrite Z.eqb_refl. simpl. by rewrite andb_false_r.
    + rewrite Hb. simpl. f_equal.
      destruct (Z.eqb_spec (i mod 8) (j mod 8)) as [Hm|]; [|apply andb_true_r].
      exfalso. apply Hji. by apply same_byte_same_bit.
  - rewrite list_lookup_insert_ne by lia.
    destruct (decide (j = i)) as [->|]; [done|reflexivity].
Qed.

Lemma bitmap_set_wf i bm bm' :
  bitmap_set i bm = Some bm' -> bitmap_wf bm ->
  bitmap_wf bm' /\ length bm' = length bm.
Proof.
  unfold bitmap_set. case_match; [|discriminate]. intros [= <-] [H1 H2].
  split; [split|]; rewrite ?length_insert; [|done|done].
  apply Forall_insert; [done | apply u8_is_u8].
Qed.

Lemma bitmap_clear_wf i bm bm' :
  bitmap_clear i bm = Some bm' -> bitmap_wf bm ->
  bitmap_wf bm' /\ length bm' = length bm.
Proof.
  unfold bitmap_clear. case_match; [|discriminate]. intros [= <-] [H1 H2].
  split; [split|]; rewrite ?length_insert; [|done|done].
  apply Forall_insert; [done | apply u8_is_u8].
Qed.

Lemma bitmap_set_length i bm bm' :
  bitmap_set i bm = Some bm' -> length bm' = length bm.
Proof.
  unfold bitmap_set. case_match; [|discriminate]. intros [= <-].
  apply length_insert.
Qed.

Lemma bitmap_clear_length i bm bm' :
  bitmap_clear i bm = Some bm' -> length bm' = length bm.
Proof.
  unfold bitmap_clear. case_match; [|discriminate]. intros [= <-].
  apply length_insert.
Qed.

Lemma bitmap_test_is_Some i bm :
  is_u16 i -> is_Some (bitmap_test i bm) <-> (Z.to_nat (i / 8) < length bm)%nat.
Proof.
  intros Hi. rewrite bitmap_test_lookup by done.
  rewrite fmap_is_Some. apply lookup_lt_is_Some.
Qed.

Lemma bitmap_set_is_Some i bm :
  is_u16 i -> is_Some (bitmap_set i bm) <-> is_Some (bitmap_test i bm).
Proof.
  intros Hi. unfold bitmap_set, bitmap_test.
  destruct (bm !! _); split; intros [? ?]; eauto; discriminate.
Qed.

Lemma bitmap_clear_is_Some i bm :
  is_u16 i -> is_Some (bitmap_clear i bm) <-> is_Some (bitmap_test i bm).
Proof.
  intros Hi. unfold bitmap_clear, bitmap_test.
  destruct (bm !! _); split; intros [? ?]; eauto; discriminate.
Qed.

(** Two well-formed bitmaps with the same bits are the same block. *)
Lemma bitmap_ext bm1 bm2 :
  bitmap_wf bm1 -> bitmap_wf bm2 -> length bm1 = length bm2 ->
  (forall j, is_u16 j -> bitmap_test j bm1 = bitmap_test j bm2) ->
  bm1 = bm2.
Proof.
  intros [Hu1 Hl1] [Hu2 Hl2] Hlen Hbits.
  apply list_eq. intros k.
  destruct (decide (k < length bm1)%nat) as [Hk|Hk].
  2:{ rewrite !lookup_ge_None_2 by lia. done. }
  destruct (lookup_lt_is_Some_2 bm1 k Hk) as [b1 Hb1].
  assert (k < length bm2)%nat as Hk2 by lia.
  destruct (lookup_lt_is_Some_2 bm2 k Hk2) as [b2 Hb2].
  rewrite Hb1, Hb2. f_equal.
  assert (is_u8 b1) as [? ?] by (eapply (Forall_lookup_1 _ bm1); eauto).
  assert (is_u8 b2) as [? ?] by (eapply (Forall_lookup_1 _ bm2); eauto).
  apply Z.bits_inj'. intros n Hn.
  destruct (decide (n < 8)) as [Hn8|Hn8].
  - assert (is_u16 (8 * Z.of_nat k + n)) as Hj by (unfold is_u16; lia).
    specialize (Hbits _ Hj). rewrite !bitmap_test_lookup in Hbits by done.
    replace ((8 * Z.of_nat k + n) / 8) with (Z.of_nat k) in Hbits
      by (symmetry; rewrite Z.mul_comm, Z.div_add_l by lia;
          rewrite (Z.div_small n 8) by lia; lia).
    replace ((8 * Z.of_nat k + n) mod 8) with n in Hbits
      by (rewrite Z.add_comm, Z.mul_comm, Z.mod_add by lia;
          symmetry; apply Z.mod_small; lia).
    rewrite Nat2Z.id, Hb1, Hb2 in Hbits. simpl in Hbits. congruence.
  - rewrite !(Z.bits_above_log2) ; [done| lia | | lia | ].
    + destruct (decide (b2 = 0)) as [->|]; [simpl; lia|].
      assert (Z.log2 b2 < 8) by (apply Z.log2_lt_pow2; lia). lia.
    + destruct (decide (b1 = 0)) as [->|]; [simpl; lia|].
      assert (Z.log2 b1 < 8) by (apply Z.log2_lt_pow2; lia). lia.
Qed.

Ltac elem_cases :=
  repeat case_decide; subst; try done; exfalso;
  repeat match goal with
         | H : _ ∈ _ :: _ |- _ => apply elem_of_cons in H as [?|?]
         | H : _ ∉ _ :: _ |- _ => apply not_elem_of_cons in H as [? ?]
         end;
  subst; done.

Lemma filter_ext_elem {A} (P Q : A -> Prop)
    `{!forall x, Decision (P x)} `{!forall x, Decision (Q x)} (l : list A) :
  (forall x, x ∈ l -> (P x <-> Q x)) -> filter P l = filter Q l.
Proof.
  induction l as [|x l IH]; intros Hext; [done|].
  rewrite !filter_cons.
  rewrite IH by (intros y Hy; apply Hext; by right).
  destruct (decide (P x)) as [HP|HP], (decide (Q x)) as [HQ|HQ]; try done.
  - exfalso. apply HQ, Hext, HP. left.
  - exfalso. apply HP, Hext, HQ. left.
Qed.

Lemma bitmap_clear_all_spec l : forall bm,
  Forall is_u16 l ->
  Forall (fun c => is_Some (bitmap_test c bm)) l ->
  exists bm',
    bitmap_clear_all l bm = Some bm' /\
    length bm' = length bm /\
    (bitmap_wf bm -> bitmap_wf bm') /\
    forall j, is_u16 j ->
      bitmap_test j bm' =
      if decide (j ∈ l) then Some false else bitmap_test j bm.
Proof.
  induction l as [|i l IH]; intros bm Hu Hin; cbn [bitmap_clear_all].
  - exists bm. split; [done|]. split; [done|]. split; [done|].
    intros j Hj. rewrite decide_False by apply not_elem_of_nil. done.
  - apply Forall_cons in Hu as [Hi Hu]. apply Forall_cons in Hin as [Hti Hin].
    apply bitmap_clear_is_Some in Hti as [bm1 Hc]; [|done]. rewrite Hc.
    pose proof (bitmap_clear_test _ _ _ Hi Hc) as Ht.
    destruct (IH bm1 Hu) as (bm' & Hall & Hlen & Hwf & Hbits).
    { rewrite Forall_forall in Hin, Hu |- *. intros c Hc'.
      rewrite Ht by auto. case_decide; [by eexists | auto]. }
    exists bm'. split; [done|]. split; [|split].
    + rewrite Hlen. eapply bitmap_clear_length, Hc.
    + intros Hbm. apply Hwf. eapply bitmap_clear_wf; eauto.
    + intros j Hj. rewrite Hbits, Ht by done.
      elem_cases.
Qed.

Lemma bitmap_clear_all_inv l : forall bm bm',
  Forall is_u16 l ->
  bitmap_clear_all l bm = Some bm' ->
  Forall (fun c => is_Some (bitmap_test c bm)) l.
Proof.
  induction l as [|i l IH]; intros bm bm' Hu H; simpl in *; [constructor|].
  apply Forall_cons in Hu as [Hi Hu].
  destruct (bitmap_clear i bm) as [bm1|] eqn:Hc; [|discriminate].
  constructor.
  - apply bitmap_clear_is_Some; [done|]. by eexists.
  - specialize (IH _ _ Hu H).
    rewrite Forall_forall in IH, Hu |- *. intros c Hcl.
    specialize (IH c Hcl). rewrite (bitmap_clear_test _ _ _ Hi Hc) in IH by auto.
    case_decide; [subst|done].
    apply bitmap_clear_is_Some; [done|]. by eexists.
Qed.

Lemma bitmap_set_all_spec l : forall bm bm',
  Forall is_u16 l ->
  bitmap_set_all l bm = Some bm' ->
  length bm' = length bm /\
  (bitmap_wf bm -> bitmap_wf bm') /\
  forall j, is_u16 j ->
    bitmap_test j bm' =
    if decide (j ∈ l) then Some true else bitmap_test j bm.
Proof.
  induction l as [|i l IH]; intros bm bm' Hu H; cbn [bitmap_set_all] in *.
  - injection H as <-. split; [done|]. split; [done|].
    intros j Hj. rewrite decide_False by apply not_elem_of_nil. done.
  - apply Forall_cons in Hu as [Hi Hu].
    destruct (bitmap_set i bm) as [bm1|] eqn:Hs; [|discriminate].
    destruct (IH _ _ Hu H) as (Hlen & Hwf & Hbits).
    pose proof (bitmap_set_test _ _ _ Hi Hs) as Ht.
    split; [|split].
    + rewrite Hlen. eapply bitmap_set_length, Hs.
    + intros Hbm. apply Hwf. eapply bitmap_set_wf; eauto.
    + intros j Hj. rewrite Hbits, Ht by done.
      elem_cases.
Qed.

(** ** The scan of the allocator *)

Lemma free_clusters_in_cons bm i n :
  free_clusters_in bm i (Z.of_nat (S n)) =
  (if decide (bitmap_test i bm = Some false) then [i] else [])
  ++ free_clusters_in bm (i + 1) (Z.of_nat n).
Proof.
  unfold free_clusters_in. rewrite seqZ_cons by lia.
  replace (Z.pred (Z.of_nat (S n))) with (Z.of_nat n) by lia.
  replace (Z.succ i) with (i + 1) by lia.
  rewrite filter_cons. by case_decide.
Qed.

Lemma free_clusters_in_elem bm i n c :
  c ∈ free_clusters_in bm i n ->
  i <= c < i + n /\ bitmap_test c bm = Some false.
Proof.
  unfold free_clusters_in. rewrite list_elem_of_filter, elem_of_seqZ. tauto.
Qed.

Lemma free_clusters_in_ext bm bm' i n :
  (forall c, i <= c < i + n -> bitmap_test c bm' = bitmap_test c bm) ->
  free_clusters_in bm' i n = free_clusters_in bm i n.
Proof.
  intros H. unfold free_clusters_in. apply filter_ext_elem.
  intros c Hc%elem_of_seqZ. by rewrite H.
Qed.

Lemma allocate_scan_spec n : forall i count bm l0 bm' l',
  0 <= i -> i + Z.of_nat n <= 2 ^ 16 ->
  allocate_scan n i count bm l0 = Some (bm', l') ->
  exists l1,
    l' = l0 ++ l1 /\
    l1 = take (Z.to_nat (count - Z.of_nat (length l0)))
              (free_clusters_in bm i (Z.of_nat n)) /\
    length bm' = length bm /\
    (bitmap_wf bm -> bitmap_wf bm') /\
    forall j, is_u16 j ->
      bitmap_test j bm' =
      if decide (j ∈ l1) then Some true else bitmap_test j bm.
Proof.
  induction n as [|n IH]; intros i count bm l0 bm' l' Hi Hn H.
  - simpl in H. injection H as <- <-. exists []. rewrite app_nil_r.
    split; [done|]. split; [|split; [done|split; [done|]]].
    + unfold free_clusters_in. rewrite seqZ_nil by lia. by rewrite filter_nil, take_nil.
    + intros j Hj. by rewrite decide_False by apply not_elem_of_nil.
  - cbn [allocate_scan] in H.
    destruct (Z.ltb_spec (Z.of_nat (length l0)) count) as [Hlt|Hge].
    2:{ injection H as <- <-. exists []. rewrite app_nil_r.
        split; [done|]. split; [|split; [done|split; [done|]]].
        - replace (Z.to_nat _) with 0%nat by lia. done.
        - intros j Hj. by rewrite decide_False by apply not_elem_of_nil. }
    assert (is_u16 i) as Hiu by (unfold is_u16; lia).
    rewrite free_clusters_in_cons.
    destruct (bitmap_test i bm) as [[|]|] eqn:Ht; [| |discriminate].
    + apply IH in H as (l1 & -> & -> & Hlen & Hwf & Hbits); [|lia..].
      exists (take (Z.to_nat (count - Z.of_nat (length l0)))
                   (free_clusters_in bm (i + 1) (Z.of_nat n))).
      rewrite decide_False by done. simpl.
      split; [done|]. split; [done|]. split; [done|]. split; [done|]. done.
    + destruct (bitmap_set i bm) as [bm1|] eqn:Hs; [|discriminate].
      pose proof (bitmap_set_test _ _ _ Hiu Hs) as Hset.
      assert (free_clusters_in bm1 (i + 1) (Z.of_nat n)
              = free_clusters_in bm (i + 1) (Z.of_nat n)) as Hext.
      { apply free_clusters_in_ext. intros c Hc.
        rewrite Hset by (unfold is_u16; lia).
        rewrite decide_False by lia. done. }
      apply IH in H as (l1 & -> & -> & Hlen & Hwf & Hbits); [|lia..].
      rewrite Hext in *.
      rewrite decide_True by done. rewrite length_app in *. simpl in *.
      replace (Z.to_nat (count - Z.of_nat (length l0)))
        with (S (Z.to_nat (count - Z.of_nat (length l0 + 1)))) by lia.
      simpl. eexists. split; [by rewrite <- app_assoc|]. split; [done|].
      split; [|split].
      * rewrite Hlen. eapply bitmap_set_length, Hs.
      * intros Hbm. apply Hwf. eapply bitmap_set_wf; eauto.
      * intros j Hj. rewrite Hbits, Hset by done.
        cbn [app]. elem_cases.
Qed.

Lemma allocate_scan_total n : forall i count bm l0,
  0 <= i -> i + Z.of_nat n <= 2 ^ 16 ->
  (n <> 0%nat -> i + Z.of_nat n <= 8 * Z.of_nat (length bm)) ->
  is_Some (allocate_scan n i count bm l0).
Proof.
  induction n as [|n IH]; intros i count bm l0 Hi Hn Hbm; simpl; [by eexists|].
  case_match; [|by eexists].
  specialize (Hbm ltac:(done)).
  assert (is_u16 i) as Hiu by (unfold is_u16; lia).
  assert (Z.to_nat (i / 8) < length bm)%nat as Hidx.
  { assert (i / 8 < Z.of_nat (length bm)) by (apply Z.div_lt_upper_bound; lia).
    assert (0 <= i / 8) by (apply Z.div_pos; lia). lia. }
  destruct (proj2 (bitmap_test_is_Some i bm Hiu) Hidx) as [b Hb].
  rewrite Hb. destruct b.
  - apply IH; lia.
  - destruct (proj2 (bitmap_set_is_Some i bm Hiu)) as [bm1 Hs]; [by eexists|].
    rewrite Hs. apply IH; try lia.
    rewrite (bitmap_set_length _ _ _ Hs). lia.
Qed.

Lemma seqZ_sorted n : forall i, StronglySorted Z.lt (seqZ i (Z.of_nat n)).
Proof.
  induction n as [|n IH]; intros i.
  - rewrite seqZ_nil by lia. constructor.
  - rewrite seqZ_cons by lia.
    replace (Z.pred (Z.of_nat (S n))) with (Z.of_nat n) by lia.
    constructor; [apply IH|].
    apply Forall_forall. intros c Hc%elem_of_seqZ. lia.
Qed.

Lemma StronglySorted_filter_lt (P : Z -> Prop) `{!forall x, Decision (P x)} l :
  StronglySorted Z.lt l -> StronglySorted Z.lt (filter P l).
Proof.
  induction 1 as [|x l Hs IH Hx]; [constructor|].
  rewrite filter_cons. case_decide; [|done].
  constructor; [done|].
  rewrite Forall_forall in Hx |- *.
  intros y [_ Hy]%list_elem_of_filter. auto.
Qed.

Lemma StronglySorted_take_lt k (l : list Z) :
  StronglySorted Z.lt l -> StronglySorted Z.lt (take k l).
Proof.
  intros H. rewrite <- (take_drop k l) in H.
  eapply StronglySorted_app_1_l, H.
Qed.

Lemma free_clusters_in_sorted bm i n k :
  StronglySorted Z.lt (take k (free_clusters_in bm i n)).
Proof.
  apply StronglySorted_take_lt, StronglySorted_filter_lt.
  destruct (decide (0 <= n)) as [Hn|Hn].
  - rewrite <- (Z2Nat.id n) by done. apply seqZ_sorted.
  - rewrite seqZ_nil by lia. constructor.
Qed.

Lemma store_bitmap_same a bm :
  cluster_bitmap a = Some bm -> store_bitmap bm a = a.
Proof. destruct a. simpl. intros ->. reflexivity. Qed.

Lemma cluster_bitmap_store_bitmap a bm bm' :
  cluster_bitmap a = Some bm ->
  cluster_bitmap (store_bitmap bm' a) = Some bm'.
Proof. intros H. unfold store_bitmap. simpl. rewrite H. reflexivity. Qed.

(** What the scan has set, a rollback (or a later free) clears again. *)
Lemma allocate_scan_undo n i count bm bm' l :
  0 <= i -> i + Z.of_nat n <= 2 ^ 16 ->
  bitmap_wf bm ->
  allocate_scan n i count bm [] = Some (bm', l) ->
  bitmap_clear_all l bm' = Some bm.
Proof.
  intros Hi Hn Hwf Hscan.
  apply allocate_scan_spec in Hscan as (l1 & Hl & Hl1 & Hlen & Hwf' & Hbits);
    [|done..].
  simpl in Hl. subst l1.
  assert (Forall (fun c => is_u16 c /\ bitmap_test c bm = Some false) l)
    as Hfree.
  { apply Forall_forall. intros c Hc. rewrite Hl1 in Hc.
    apply (subseteq_take _ _ c) in Hc.
    apply free_clusters_in_elem in Hc as [? ?]. unfold is_u16. split; [lia|done]. }
  destruct (bitmap_clear_all_spec l bm') as (bm2 & Hclr & Hlen2 & Hwf2 & Hbits2).
  { eapply Forall_impl; [exact Hfree|]. by intros c [? _]. }
  { rewrite Forall_forall in Hfree |- *. intros c Hc.
    rewrite Hbits by (by apply Hfree). rewrite decide_True by done.
    by eexists. }
  rewrite Hclr. f_equal. apply bitmap_ext; auto; [congruence|].
  intros j Hj. rewrite Hbits2, Hbits by done.
  case_decide as Hjl; [|done].
  rewrite Forall_forall in Hfree. symmetry. by apply Hfree.
Qed.

(** ** Typed states *)

Lemma is_u16b_spec x : is_u16b x = true -> is_u16 x.
Proof. unfold is_u16b, is_u16. lia. Qed.

Lemma bitmap_typed_wf bm : bitmap_typed bm = true -> bitmap_wf bm.
Proof.
  unfold bitmap_typed, bitmap_wf. intros [H1 H2]%andb_prop. split; [|lia].
  rewrite forallb_forall in H1. apply Forall_forall. intros b Hb.
  apply list_elem_of_In, H1 in Hb. unfold is_u8. lia.
Qed.

(** ** The allocator *)

(** C8.  On a mounted file system, whose bitmap covers all clusters, a
    request for [count] clusters succeeds exactly when [free_clusters] is
    at least [count] and at least [count] clusters are free from
    [sys_clusters] on.  It then returns the [count] lowest-indexed free
    clusters found scanning forward from [sys_clusters], in strictly
    ascending order, all of them free before and exactly those bits newly
    set.  In every other case it fails with NoSpace and leaves the state,
    the bitmap included, as it was: the bits a failed scan has set are
    cleared again. *)
Theorem acfs_allocate_clusters_spec a count bm :
  cluster_bitmap a = Some bm ->
  bitmap_typed bm = true ->
  is_u16b (sys_clusters (header a)) = true ->
  is_u16b (total_clusters (header a)) = true ->
  total_clusters (header a) <= 8 * Z.of_nat (length bm) ->
  0 <= count ->
  allocates_lowest_free a bm count.
Proof.
  intros Hbm Hwf%bitmap_typed_wf [HR HR']%is_u16b_spec [HN HN']%is_u16b_spec
         Hcover Hcount.
  unfold allocates_lowest_free. cbn zeta.
  set (free := free_clusters_in bm (sys_clusters (header a))
                 (total_clusters (header a) - sys_clusters (header a))).
  unfold acfs_allocate_clusters.
  destruct (Z.ltb_spec (free_clusters (header a)) count) as [HF|HF];
    [split; [lia | intros _; by eexists]|].
  rewrite Hbm. simpl array_of.
  set (R := sys_clusters (header a)) in *.
  set (N := total_clusters (header a)) in *.
  assert (R + Z.of_nat (Z.to_nat (N - R)) <= 2 ^ 16) as Hfuel by lia.
  destruct (allocate_scan_total (Z.to_nat (N - R)) R count bm [])
    as [[bm' l] Hscan]; [done | done | lia |].
  rewrite Hscan.
  destruct (allocate_scan_spec _ _ _ _ _ _ _ HR Hfuel Hscan)
    as (l1 & Hl & Hl1 & Hlen & Hwf' & Hbits).
  simpl in Hl. subst l1. simpl in Hl1. rewrite Z.sub_0_r in Hl1.
  assert (free_clusters_in bm R (Z.of_nat (Z.to_nat (N - R))) = free) as Hfree.
  { unfold free, free_clusters_in.
    destruct (decide (0 <= N - R)); [by rewrite Z2Nat.id|].
    rewrite !seqZ_nil by lia. done. }
  rewrite Hfree in Hl1.
  assert (length l = Nat.min (Z.to_nat count) (length free)) as Hlenl
    by (rewrite Hl1; apply length_take).
  destruct (Z.ltb_spec (Z.of_nat (length l)) count) as [Hshort|Hfull].
  - split; [lia|]. intros _.
    rewrite (allocate_scan_undo _ _ _ _ _ _ HR Hfuel Hwf Hscan).
    rewrite (store_bitmap_same _ _ Hbm). by eexists.
  - split; [|lia]. intros _ _. eexists _, _. split; [reflexivity|].
    split; [done|]. split; [|split; [|split; [|split]]].
    + lia.
    + rewrite Hl1. apply free_clusters_in_sorted.
    + apply Forall_forall. intros c Hc. rewrite Hl1 in Hc.
      apply (subseteq_take _ _ c) in Hc.
      by apply free_clusters_in_elem in Hc as [_ ?].
    + intros j Hj. simpl. unfold store_bitmap. simpl. rewrite Hbm. simpl.
      by apply Hbits.
    + by destruct a.
Qed.

(** ** Freeing clusters *)

(** C6, as the code has it.  For a list of cluster indices whose bits are
    set in the bitmap, [acfs_free_clusters] clears each listed bit, leaves
    the other bits alone, and adds the length of the list to
    [free_clusters] (as a 16-bit value): the counter of free clusters
    goes up, not down. *)
Theorem acfs_free_clusters_spec a bm l :
  cluster_bitmap a = Some bm ->
  Forall (fun c => is_u16 c /\ bitmap_test c bm = Some true) l ->
  frees_clusters a bm l.
Proof.
  intros Hbm Hl.
  assert (Forall is_u16 l) as Hu
    by (eapply Forall_impl; [exact Hl|]; by intros c [? _]).
  assert (Forall (fun c => bitmap_test c bm = Some true) l) as Hset
    by (eapply Forall_impl; [exact Hl|]; by intros c [_ ?]).
  unfold frees_clusters, acfs_free_clusters, cluster_list_prefix.
  simpl block_of. rewrite Z.ltb_irrefl, Nat2Z.id, firstn_all.
  rewrite Hbm. simpl array_of.
  destruct (bitmap_clear_all_spec l bm Hu) as (bm' & Hclr & _ & _ & Hbits).
  { eapply Forall_impl; [exact Hset|]. intros c ->. by eexists. }
  rewrite Hclr. eexists. split; [reflexivity|]. split.
  - intros j Hj. simpl. unfold store_bitmap. simpl. rewrite Hbm. simpl.
    by apply Hbits.
  - reflexivity.
Qed.

Lemma ret_inv {A} (a b : A) w w' : ret a w = Some (b, w') -> b = a /\ w' = w.
Proof. intros [= -> ->]. done. Qed.

Lemma gets_inv {A} (f : acfs_t -> A) a w w' :
  gets f w = Some (a, w') -> a = f (fs w) /\ w' = w.
Proof. intros [= <- <-]. done. Qed.

Lemma modify_inv f u w w' :
  modify f w = Some (u, w') -> w' = mk_world (f (fs w)) (medium w).
Proof. intros [= _ <-]. done. Qed.

Lemma deref_inv {A} (o : option A) a w w' :
  deref o w = Some (a, w') -> o = Some a /\ w' = w.
Proof. destruct o; [intros [= -> ->]; done | discriminate]. Qed.

Ltac monad_inv :=
  repeat match goal with
    | H : bind _ _ _ = Some _ |- _ =>
        let a := fresh "a" in let w := fresh "w" in let Ha := fresh "Hstep" in
        apply bind_Some in H as (a & w & Ha & H)
    | H : ret _ _ = Some _ |- _ => apply ret_inv in H as [-> ->]
    | H : gets _ _ = Some _ |- _ => apply gets_inv in H as [-> ->]
    | H : modify _ _ = Some _ |- _ => apply modify_inv in H as ->
    | H : trap _ = Some _ |- _ => discriminate H
    | H : deref _ _ = Some _ |- _ =>
        let E := fresh "Hderef" in apply deref_inv in H as [E ->]
    end.

Lemma slice_length off len l :
  0 <= off -> 0 <= len -> off + len <= Z.of_nat (length l) ->
  length (slice off len l) = Z.to_nat len.
Proof.
  intros. unfold slice. rewrite length_take, length_drop. lia.
Qed.

Lemma ops_read_length o addr size m bs :
  0 <= addr -> 0 <= size ->
  ops_read o addr size m = Some bs -> length bs = Z.to_nat size.
Proof.
  intros Ha Hs. destruct o; simpl; unfold eeprom_read, flash_read;
    (case_match; [|discriminate]);
    (destruct (Z.ltb_spec (Z.of_nat (length l)) (addr + size)); [discriminate|]);
    intros [= <-]; apply slice_length; lia.
Qed.

Lemma u32_nonneg x : 0 <= u32 x.
Proof. apply Z.mod_pos_bound. lia. Qed.

Lemma storage_read_inv addr size w r w' :
  storage_read addr size w = Some (r, w') ->
  w' = w /\ exists dev, storage (fs w) = Some dev /\
                        r = ops_read (ops dev) addr size (medium w).
Proof.
  unfold storage_read. intros H. monad_inv. injection H as <- <-.
  split; [done|]. eauto.
Qed.

Lemma splice_take_drop off bs l :
  (off + length bs <= length l)%nat ->
  take (off + length bs) (splice (Z.of_nat off) bs l) = take off l ++ bs /\
  (forall k, (off + length bs <= k)%nat ->
             drop k (splice (Z.of_nat off) bs l) = drop k l) /\
  length (splice (Z.of_nat off) bs l) = length l.
Proof.
  intros H. unfold splice. rewrite Nat2Z.id. split; [|split].
  - rewrite app_assoc. rewrite take_app_length'; [done|].
    rewrite length_app, length_take. lia.
  - intros k Hk. rewrite app_assoc, drop_app_ge
      by (rewrite length_app, length_take; lia).
    rewrite length_app, length_take, drop_drop. f_equal. lia.
  - rewrite !length_app, length_take, length_drop. lia.
Qed.

Lemma read_clusters_loop_spec l n : forall i data w out w',
  0 <= cluster_size (header (fs w)) ->
  read_clusters_loop l n i data w = Some ((ACFS_OK, out), w') ->
  let s := Z.to_nat (cluster_size (header (fs w))) in
  exists copied,
    length copied = (n * s)%nat /\
    (n <> 0%nat -> ((i + n) * s <= length data)%nat) /\
    out = take (i * s) data ++ copied ++ drop ((i + n) * s) data /\
    forall k, (k < n)%nat ->
      exists c, l !! (i + k)%nat = Some c /\
                cluster_on_medium w c = Some (take s (drop (k * s) copied)).
Proof.
  induction n as [|n IH]; intros i data w out w' HS H s.
  - simpl in H. apply ret_inv in H as [[= ->] ->]. exists []. split; [done|].
    rewrite Nat.add_0_r. split; [done|]. split.
    + simpl. by rewrite take_drop.
    + intros k Hk. lia.
  - cbn [read_clusters_loop] in H.
    apply bind_Some in H as (dev & w1 & Hdev & H).
    apply bind_Some in Hdev as (odev & w0 & Hg & Hdev).
    apply gets_inv in Hg as [-> ->]. apply deref_inv in Hdev as [Hst ->].
    apply bind_Some in H as (h & w1 & Hg & H). apply gets_inv in Hg as [-> ->].
    apply bind_Some in H as (c & w1 & Hc & H). apply deref_inv in Hc as [Hli ->].
    apply bind_Some in H as (r & w1 & Hr & H).
    apply storage_read_inv in Hr as (-> & dev2 & Hst2 & ->).
    rewrite Hst in Hst2. injection Hst2 as <-.
    destruct (ops_read _ _ _ _) as [bs|] eqn:Hread;
      [|apply ret_inv in H as [[=] _]].
    pose proof (ops_read_length _ _ _ _ _ (u32_nonneg _) HS Hread) as Hlen.
    fold s in Hlen.
    destruct (Z.ltb_spec (Z.of_nat (length data))
                (Z.of_nat i * cluster_size (header (fs w))
                 + cluster_size (header (fs w)))) as [|Hfit];
      [discriminate|].
    assert (Z.of_nat i * cluster_size (header (fs w)) = Z.of_nat (i * s)) as Hoff
      by (unfold s; lia).
    rewrite Hoff in H.
    assert (i * s + length bs <= length data)%nat as Hfit' by lia.
    destruct (splice_take_drop (i * s) bs data Hfit') as (Htk & Hdr & Hlen').
    apply IH in H as (copied & Hcl & Hbound & Hout & Hreads); [|done].
    fold s in Hcl, Hbound, Hout, Hreads.
    exists (bs ++ copied). split; [|split; [|split]].
    + rewrite length_app. lia.
    + intros _. destruct n as [|n']; [lia|].
      specialize (Hbound ltac:(done)). rewrite Hlen' in Hbound. lia.
    + rewrite Hout. replace (S i * s)%nat with (i * s + length bs)%nat by lia.
      rewrite Htk, Hdr by lia. rewrite <- !app_assoc.
      do 3 f_equal. f_equal. lia.
    + intros k Hk. destruct k as [|k].
      * exists c. rewrite Nat.add_0_r. split; [done|].
        unfold cluster_on_medium. rewrite Hst, Hread. f_equal.
        rewrite Nat.mul_0_l, drop_0. fold s.
        rewrite take_app_length'; [done|lia].
      * destruct (Hreads k ltac:(lia)) as (c2 & Hlk & Hmed).
        exists c2. split; [rewrite <- Hlk; f_equal; lia|].
        rewrite Hmed. f_equal.
        replace (S k * s)%nat with (length bs + k * s)%nat by lia.
        by rewrite drop_app_add.
Qed.

Lemma find_entry_inv id w r w' :
  find_entry id w = Some (r, w') -> acfs_find_entry id (fs w) = Some r /\ w' = w.
Proof.
  unfold find_entry. destruct (acfs_find_entry id (fs w)); [|discriminate].
  intros [= -> ->]. done.
Qed.

Lemma entry_at_inv i e w w' :
  entry_at i w = Some (e, w') ->
  array_of (entries (fs w)) !! i = Some e /\ w' = w.
Proof.
  unfold entry_at. intros H.
  apply bind_Some in H as (es & w1 & Hg & H).
  apply gets_inv in Hg as [-> ->]. by apply deref_inv in H.
Qed.

(** C4.  A successful [acfs_read] of an entry with [cluster_count] K has
    copied exactly K * S bytes from the medium to the destination, the
    last cluster in full: [size >= data_size] keeps the copy inside the
    caller's [size] bytes only when [size >= K * S]; otherwise the bytes
    from [size] up to K * S, past the buffer, are overwritten too. *)
Theorem acfs_read_copies_whole_clusters w id data size act out act' w' :
  0 <= cluster_size (header (fs w)) ->
  0 <= size ->
  acfs_read (Some id) (Some data) size act w
  = Some ((ACFS_OK, Some out, act'), w') ->
  copies_whole_clusters w id data size out.
Proof.
  unfold copies_whole_clusters.
  intros HS Hsize H. unfold acfs_read in H.
  apply bind_Some in H as (init & w1 & Hg & H). apply gets_inv in Hg as [-> ->].
  destruct (negb (initialized (fs w))); [apply ret_inv in H as [[=] _]|].
  apply bind_Some in H as (found & w1 & Hf & H).
  apply find_entry_inv in Hf as [Hfind ->].
  destruct found as [i|]; [|apply ret_inv in H as [[=] _]].
  apply bind_Some in H as (entry & w1 & He & H).
  apply entry_at_inv in He as [Hentry ->].
  destruct (negb (is_valid entry)); [apply ret_inv in H as [[=] _]|].
  destruct (Z.ltb_spec size (data_size entry)) as [|Hfits];
    [apply ret_inv in H as [[=] _]|].
  apply bind_Some in H as ([e out1] & w1 & Hrd & H).
  pose proof (read_only_read_clusters_loop _ _ _ _ _ _ _ Hrd) as ->.
  simpl in H.
  destruct (is_ok_spec e) as [->|Hne]; simpl in H;
    [|apply ret_inv in H as [[= ? ?] _]; congruence].
  apply bind_Some in H as (bytes & w1 & Hb & H).
  apply deref_inv in Hb as [_ ->].
  destruct (negb (acfs_crc32 bytes =? crc32 entry));
    [apply ret_inv in H as [[=] _]|].
  apply ret_inv in H as [[= <- _] _].
  unfold acfs_read_clusters in Hrd.
  apply read_clusters_loop_spec in Hrd
    as (copied & Hlen & Hbound & Hout & Hreads); [|done].
  set (s := Z.to_nat (cluster_size (header (fs w)))) in *.
  set (K := Z.to_nat (cluster_count entry)) in *.
  assert (Z.of_nat K * cluster_size (header (fs w)) = Z.of_nat (K * s)) as HKS
    by (unfold s; lia).
  simpl in Hout.
  exists i, entry, copied. split; [done|]. split; [done|]. split; [done|].
  cbv zeta. fold K. rewrite HKS. split; [lia|]. split; [|split; [|split; [|split]]].
  - destruct K; [lia|]. specialize (Hbound ltac:(done)). lia.
  - rewrite Hout, Hlen. done.
  - intros k Hk. destruct (Hreads k Hk) as (c & Hc & Hmed).
    exists c. split; [done|]. rewrite Hmed. unfold slice. fold s.
    do 3 f_equal. unfold s. lia.
  - intros Hin. rewrite Hout. rewrite drop_app_ge by lia.
    rewrite drop_drop. f_equal. lia.
  - intros Hover. rewrite Hout. rewrite drop_app_le by lia.
    rewrite take_app_length'; [done|]. rewrite length_drop. lia.
Qed.

(** ** How each step changes the [acfs_t] object *)

Lemma storage_write_inv addr data size w ok w' :
  storage_write addr data size w = Some (ok, w') ->
  fs w' = fs w /\ is_Some (storage (fs w)).
Proof.
  unfold storage_write. intros H.
  apply bind_Some in H as (dev & w1 & Hdev & H).
  apply bind_Some in Hdev as (odev & w0 & Hg & Hdev).
  apply gets_inv in Hg as [-> ->]. apply deref_inv in Hdev as [Hst ->].
  split; [|by eexists].
  destruct (ops_write _ _ _ _ _) as [[m'|]|]; simplify_eq; done.
Qed.

Lemma write_clusters_loop_fs l n : forall i data w r w',
  write_clusters_loop l n i data w = Some (r, w') -> fs w' = fs w.
Proof.
  induction n as [|n IH]; intros i data w r w' H.
  - by apply ret_inv in H as [_ ->].
  - cbn [write_clusters_loop] in H.
    apply bind_Some in H as (dev & w1 & Hdev & H).
    apply bind_Some in Hdev as (odev & w0 & Hg & Hdev).
    apply gets_inv in Hg as [-> ->]. apply deref_inv in Hdev as [Hst ->].
    apply bind_Some in H as (h & w1 & Hg & H). apply gets_inv in Hg as [-> ->].
    apply bind_Some in H as (c & w1 & Hc & H). apply deref_inv in Hc as [Hli ->].
    apply bind_Some in H as (ok & w1 & Hw & H).
    apply storage_write_inv in Hw as [Hfs _].
    destruct (negb ok).
    + apply ret_inv in H as [_ ->]. done.
    + apply IH in H. congruence.
Qed.

Lemma acfs_save_header_inv w r w' :
  acfs_save_header w = Some (r, w') ->
  fs w' = set_header (header_with_crc (header (fs w))) (fs w)
  /\ is_Some (storage (fs w)).
Proof.
  unfold acfs_save_header. intros H.
  apply bind_Some in H as (h & w1 & Hg & H). apply gets_inv in Hg as [-> ->].
  apply bind_Some in H as (u & w1 & Hm & H). apply modify_inv in Hm as ->.
  apply bind_Some in H as (dev & w1 & Hdev & H).
  apply bind_Some in Hdev as (odev & w0 & Hg & Hdev).
  apply gets_inv in Hg as [-> ->]. apply deref_inv in Hdev as [Hst ->].
  apply bind_Some in H as (ok & w1 & Hw & H).
  apply storage_write_inv in Hw as [Hfs _]. simpl in Hfs, Hst.
  split; [|by eexists].
  destruct (negb ok); apply ret_inv in H as [_ ->]; exact Hfs.
Qed.

Lemma save_cluster_lists_fs ea esz n : forall i w r w',
  save_cluster_lists ea esz i n w = Some (r, w') -> fs w' = fs w.
Proof.
  induction n as [|n IH]; intros i w r w' H.
  - by apply ret_inv in H as [_ ->].
  - cbn [save_cluster_lists] in H.
    apply bind_Some in H as (es & w1 & Hg & H). apply gets_inv in Hg as [-> ->].
    apply bind_Some in H as (e & w1 & Hc & H). apply deref_inv in Hc as [Hli ->].
    destruct (_ && _).
    + apply bind_Some in H as (ok & w1 & Hw & H).
      apply storage_write_inv in Hw as [Hfs _].
      destruct (negb ok).
      * apply ret_inv in H as [_ ->]. done.
      * apply IH in H. congruence.
    + by apply IH in H.
Qed.

Lemma acfs_save_entries_fs w r w' :
  acfs_save_entries w = Some (r, w') -> fs w' = fs w.
Proof.
  unfold acfs_save_entries. intros H.
  apply bind_Some in H as (dev & w1 & Hdev & H).
  apply bind_Some in Hdev as (odev & w0 & Hg & Hdev).
  apply gets_inv in Hg as [-> ->]. apply deref_inv in Hdev as [Hst ->].
  apply bind_Some in H as (h & w1 & Hg & H). apply gets_inv in Hg as [-> ->].
  apply bind_Some in H as (es & w1 & Hg & H). apply gets_inv in Hg as [-> ->].
  apply bind_Some in H as (ok & w1 & Hw & H).
  apply storage_write_inv in Hw as [Hfs _].
  destruct (negb ok).
  - apply ret_inv in H as [_ ->]. done.
  - apply save_cluster_lists_fs in H. congruence.
Qed.

Lemma update_entry_inv i f w u w' :
  update_entry i f w = Some (u, w') ->
  exists es e,
    entries (fs w) = Some es /\ es !! i = Some e /\
    w' = mk_world (set_entries (Some (<[i := f e]> es)) (fs w)) (medium w).
Proof.
  unfold update_entry. intros H.
  apply bind_Some in H as (oes & w1 & Hg & H). apply gets_inv in Hg as [-> ->].
  apply bind_Some in H as (e & w1 & Hc & H). apply deref_inv in Hc as [Hli ->].
  apply modify_inv in H as ->.
  destruct (entries (fs w)) as [es|] eqn:Hes; [|done].
  exists es, e. split; [done|]. split; [done|].
  unfold store_entry. rewrite Hes. done.
Qed.

Lemma allocate_clusters_step_inv count w r w' :
  allocate_clusters_step count w = Some (r, w') ->
  exists a', acfs_allocate_clusters count (fs w) = Some (r.1, r.2, a')
             /\ w' = mk_world a' (medium w).
Proof.
  unfold allocate_clusters_step, lift.
  destruct (acfs_allocate_clusters count (fs w)) as [[[e l] a']|]; [|done].
  intros [= <- <-]. eauto.
Qed.

Lemma free_clusters_step_inv p count w u w' :
  free_clusters_step p count w = Some (u, w') ->
  exists a', acfs_free_clusters p count (fs w) = Some a'
             /\ w' = mk_world a' (medium w).
Proof.
  unfold free_clusters_step, lift.
  destruct (acfs_free_clusters p count (fs w)) as [a'|]; [|done].
  intros [= _ <-]. eauto.
Qed.

(** What a successful allocation leaves in the state. *)
Lemma acfs_allocate_clusters_ok count a l a' :
  acfs_allocate_clusters count a = Some (ACFS_OK, l, a') ->
  exists bm',
    allocate_scan
      (Z.to_nat (total_clusters (header a) - sys_clusters (header a)))
      (sys_clusters (header a)) count (array_of (cluster_bitmap a)) []
    = Some (bm', l) /\
    count <= free_clusters (header a) /\
    count <= Z.of_nat (length l) /\
    a' = set_header
           (set_free_clusters (u16 (free_clusters (header a) - count))
                              (header a))
           (store_bitmap bm' a).
Proof.
  unfold acfs_allocate_clusters. intros H.
  destruct (Z.ltb_spec (free_clusters (header a)) count); [discriminate|].
  destruct (allocate_scan _ _ _ _ _) as [[bm' l']|]; [|discriminate].
  destruct (Z.ltb_spec (Z.of_nat (length l')) count).
  - destruct (bitmap_clear_all l' bm'); discriminate.
  - injection H as <- <-. eauto.
Qed.

(** ** Strings *)

Lemma strncpy_length src : forall n, length (strncpy src n) = n.
Proof.
  induction src as [|c src IH]; intros [|n]; simpl; try done.
  - by rewrite repeat_length.
  - destruct (c =? 0); simpl; [by rewrite repeat_length | by rewrite IH].
Qed.

Lemma hd_repeat_0 n (l : list Z) : hd 0 (repeat 0 n ++ [0]) = 0.
Proof. by destruct n. Qed.

Lemma strncmp_strncpy id : forall n,
  strlen id <= Z.of_nat n ->
  strncmp_eq (strncpy id n ++ [0]) id (S n) = true.
Proof.
  induction id as [|c id IH]; intros n Hlen.
  - cbn [strncmp_eq]. destruct n; reflexivity.
  - cbn [strlen] in Hlen. cbn [strncmp_eq].
    destruct n as [|n].
    + simpl. destruct (Z.eqb_spec c 0) as [->|Hc]; [reflexivity|].
      exfalso.
      assert (0 <= strlen id) by (clear; induction id as [|x l IHl]; simpl;
                                   [lia | destruct (x =? 0); lia]).
      lia.
    + cbn [strncpy]. destruct (Z.eqb_spec c 0) as [->|Hc].
      * reflexivity.
      * simpl. rewrite Z.eqb_refl. apply Z.eqb_neq in Hc. rewrite Hc.
        apply IH. lia.
Qed.

(** ** Looking an entry up *)

Lemma find_entry_loop_None es id n : forall i,
  find_entry_loop es id n i = Some None <->
  forall k, (k < n)%nat ->
    exists e, es !! (i + k)%nat = Some e /\ entry_matches id e = false.
Proof.
  induction n as [|n IH]; intros i; cbn [find_entry_loop].
  - split; [intros _ k Hk; lia | done].
  - split.
    + intros H k Hk.
      destruct (es !! i) as [e|] eqn:He; [|discriminate].
      fold (entry_matches id e) in H.
      destruct (entry_matches id e) eqn:Hm; [discriminate|].
      destruct k as [|k].
      * rewrite Nat.add_0_r. eauto.
      * apply IH with (k := k) in H; [|lia].
        by replace (i + S k)%nat with (S i + k)%nat by lia.
    + intros H. destruct (H 0%nat ltac:(lia)) as (e & He & Hm).
      rewrite Nat.add_0_r in He. rewrite He.
      fold (entry_matches id e). rewrite Hm. apply IH.
      intros k Hk. specialize (H (S k) ltac:(lia)).
      by replace (S i + k)%nat with (i + S k)%nat by lia.
Qed.

Lemma find_entry_loop_Some es id n : forall i j,
  find_entry_loop es id n i = Some (Some j) ->
  exists e, es !! j = Some e /\ entry_matches id e = true.
Proof.
  induction n as [|n IH]; intros i j H; cbn [find_entry_loop] in H;
    [discriminate|].
  destruct (es !! i) as [e|] eqn:He; [|discriminate].
  fold (entry_matches id e) in H.
  destruct (entry_matches id e) eqn:Hm.
  - injection H as <-. eauto.
  - eauto.
Qed.

Lemma find_entry_loop_last es id n e :
  find_entry_loop es id n 0 = Some None ->
  es !! n = Some e -> entry_matches id e = true ->
  find_entry_loop es id (S n) 0 = Some (Some n).
Proof.
  intros Hnone. rewrite find_entry_loop_None in Hnone.
  assert (forall m i, (i + m = n)%nat ->
            (forall k, (k < m)%nat -> exists e', es !! (i + k)%nat = Some e'
                                        /\ entry_matches id e' = false) ->
            es !! n = Some e -> entry_matches id e = true ->
            find_entry_loop es id (S m) i = Some (Some n)) as Hgen.
  { clear. induction m as [|m IH]; intros i Hi Hno He Hm.
    - cbn [find_entry_loop]. rewrite Nat.add_0_r in Hi. subst i. rewrite He.
      fold (entry_matches id e). by rewrite Hm.
    - remember (S m) as m' eqn:Hm'. cbn [find_entry_loop].
      destruct (Hno 0%nat ltac:(lia)) as (e' & He' & Hm0).
      rewrite Nat.add_0_r in He'. rewrite He'.
      fold (entry_matches id e'). rewrite Hm0. subst m'.
      apply IH; [lia| |done|done].
      intros k Hk. specialize (Hno (S k) ltac:(lia)).
      by replace (S i + k)%nat with (i + S k)%nat by lia. }
  intros He Hm. apply Hgen; auto.
Qed.

Lemma find_entry_loop_ext es es' id n : forall i,
  (forall k, (k < n)%nat -> es' !! (i + k)%nat = es !! (i + k)%nat) ->
  find_entry_loop es' id n i = find_entry_loop es id n i.
Proof.
  induction n as [|n IH]; intros i H; cbn [find_entry_loop]; [done|].
  pose proof (H 0%nat ltac:(lia)) as H0. rewrite Nat.add_0_r in H0.
  rewrite H0.
  destruct (es !! i); [|done]. case_match; [done|].
  apply IH. intros k Hk. specialize (H (S k) ltac:(lia)).
  by replace (S i + k)%nat with (i + S k)%nat by lia.
Qed.

Lemma acfs_write_new_entry w id data size w1 :
  acfs_find_entry id (fs w) = Some None ->
  acfs_write (Some id) (Some data) size w = Some (ACFS_OK, w1) ->
  let h := header (fs w) in
  let nE := Z.to_nat (data_entries h) in
  exists K es e0 l bm' efin,
    is_u16 K /\
    initialized (fs w) = true /\
    strlen id < 32 /\
    entries (fs w) = Some es /\
    es !! nE = Some e0 /\
    allocate_scan (Z.to_nat (total_clusters h - sys_clusters h))
                  (sys_clusters h) K (array_of (cluster_bitmap (fs w))) []
    = Some (bm', l) /\
    K <= free_clusters h /\
    K <= Z.of_nat (length l) /\
    is_Some (storage (fs w)) /\
    fs w1 = mk_acfs (storage (fs w))
              (header_with_crc
                 (set_data_entries (u16 (data_entries h + 1))
                    (set_free_clusters (u16 (free_clusters h - K)) h)))
              (Some (<[nE := efin]> es))
              (fmap (M := option) (fun _ => bm') (cluster_bitmap (fs w)))
              true (cluster_buffer (fs w)) /\
    data_id efin = strncpy id 31 ++ [0] /\
    cluster_count efin = K /\
    cluster_list efin = Ptr l /\
    is_valid efin = true.
Proof.
  intros Hfind H h nE. unfold acfs_write in H.
  destruct (size =? 0); [apply ret_inv in H as [[=] _]|].
  apply bind_Some in H as (init & w0 & Hg & H). apply gets_inv in Hg as [-> ->].
  destruct (initialized (fs w)) eqn:Hinit; simpl in H;
    [|apply ret_inv in H as [[=] _]].
  destruct (Z.leb_spec ACFS_MAX_DATA_ID_LEN (strlen id)) as [|Hlen];
    [apply ret_inv in H as [[=] _]|].
  apply bind_Some in H as (h0 & w0 & Hg & H). apply gets_inv in Hg as [-> ->].
  apply bind_Some in H as (K & w0 & HK & H). apply deref_inv in HK as [HK ->].
  apply bind_Some in H as (r & wa & Hentry & H).
  (* the first half: a new entry *)
  unfold acfs_write_entry in Hentry.
  apply bind_Some in Hentry as (found & w0 & Hf & Hentry).
  apply find_entry_inv in Hf as [Hf ->]. rewrite Hfind in Hf.
  injection Hf as <-.
  apply bind_Some in Hentry as (h0 & w0 & Hg & Hentry).
  apply gets_inv in Hg as [-> ->]. fold h in Hentry.
  destruct (max_entries_of h <=? data_entries h);
    [apply ret_inv in Hentry as [-> ->]; apply ret_inv in H as [[=] _]|].
  fold nE in Hentry.
  apply bind_Some in Hentry as (u & w2 & Hupd & Hentry).
  apply update_entry_inv in Hupd as (es & e0 & Hes & He0 & ->).
  apply bind_Some in Hentry as ([e l] & w3 & Halloc & Hentry).
  apply allocate_clusters_step_inv in Halloc as (a' & Halloc & ->).
  simpl in Halloc, Hentry.
  destruct (is_ok_spec e) as [->|Hne]; simpl in Hentry.
  2:{ apply bind_Some in Hentry as (u2 & w4 & _ & Hentry).
      apply ret_inv in Hentry as [-> ->].
      apply ret_inv in H as [[= <-] _]. done. }
  apply acfs_allocate_clusters_ok in Halloc as (bm' & Hscan & HF & Hl & ->).
  simpl in Hscan, HF, Hl. fold h in Hscan, HF.
  apply bind_Some in Hentry as (u2 & w4 & Hupd & Hentry).
  apply update_entry_inv in Hupd as (es2 & e2 & Hes2 & He2 & ->).
  simpl in Hes2. injection Hes2 as <-.
  rewrite list_lookup_insert_eq in He2 by (eapply lookup_lt_Some, He0).
  injection He2 as <-.
  apply bind_Some in Hentry as (h2 & w5 & Hg & Hentry).
  apply gets_inv in Hg as [-> ->].
  apply bind_Some in Hentry as (u3 & w6 & Hm & Hentry).
  apply modify_inv in Hm as ->. apply ret_inv in Hentry as [-> ->].
  simpl in H.
  (* the second half *)
  unfold acfs_write_data in H.
  apply bind_Some in H as (bytes & w0 & Hb & H). apply deref_inv in Hb as [Hb ->].
  apply bind_Some in H as (u4 & w7 & Hupd & H).
  apply update_entry_inv in Hupd as (es3 & e3 & Hes3 & He3 & ->).
  simpl in Hes3. injection Hes3 as <-.
  rewrite list_insert_insert_eq in He3.
  rewrite list_lookup_insert_eq in He3 by (eapply lookup_lt_Some, He0).
  injection He3 as <-. simpl in H.
  rewrite !list_insert_insert_eq in H.
  apply bind_Some in H as (entry & w8 & He & H).
  apply entry_at_inv in He as [He ->]. simpl in He.
  apply bind_Some in H as (r1 & w9 & Hwc & H).
  apply write_clusters_loop_fs in Hwc as Hfs9. simpl in Hfs9.
  destruct (is_ok_spec r1) as [->|Hne]; simpl in H;
    [|apply ret_inv in H as [[= <-] _]; done].
  apply bind_Some in H as (r2 & w10 & Hsh & H).
  apply acfs_save_header_inv in Hsh as [Hfs10 Hst].
  destruct (is_ok_spec r2) as [->|Hne]; simpl in H;
    [|apply ret_inv in H as [[= <-] _]; done].
  apply acfs_save_entries_fs in H as Hfs1.
  rewrite Hfs1, Hfs10, Hfs9. rewrite Hfs9 in Hst. simpl in Hst. simpl.
  eexists K, es, e0, l, bm', _.
  split.
  { unfold acfs_calculate_clusters_needed in HK.
    destruct (cluster_size (header (fs w)) =? 0); [discriminate|].
    injection HK as <-. apply Z.mod_pos_bound. lia. }
  split; [done|]. split; [unfold ACFS_MAX_DATA_ID_LEN in Hlen; lia|].
  split; [done|]. split; [done|]. split; [done|]. split; [done|].
  split; [done|]. split; [done|]. split.
  { unfold set_header, store_bitmap, set_entries. simpl. rewrite Hinit.
    reflexivity. }
  simpl. done.
Qed.

(** ** Steps that cannot trap *)

Lemma le_bytes_length n : forall x, length (le_bytes n x) = n.
Proof. induction n as [|n IH]; intros x; simpl; [done | by rewrite IH]. Qed.

Lemma header_bytes_length h : length (header_bytes h) = 20%nat.
Proof. unfold header_bytes. rewrite !length_app, !le_bytes_length. done. Qed.

Lemma entry_bytes_length e :
  length (data_id e) = 32%nat -> length (entry_bytes e) = 56%nat.
Proof.
  intros H. unfold entry_bytes. rewrite !length_app, !le_bytes_length, H. done.
Qed.

Lemma entries_bytes_length es :
  forallb entry_typed es = true ->
  length (concat (map entry_bytes es)) = (56 * length es)%nat.
Proof.
  induction es as [|e es IH]; [done|]. cbn [forallb map concat length].
  intros [[He _]%andb_prop Hes]%andb_prop.
  apply Nat.eqb_eq in He.
  rewrite length_app, entry_bytes_length, IH by done. lia.
Qed.

Lemma cluster_list_bytes_length l :
  length (cluster_list_bytes l) = (2 * length l)%nat.
Proof.
  unfold cluster_list_bytes. induction l as [|c l IH]; [done|].
  cbn [map concat length]. rewrite length_app, IH. simpl. lia.
Qed.

Lemma ops_write_total o addr data size m :
  size <= Z.of_nat (length data) ->
  is_Some (ops_write o addr data size m).
Proof.
  intros H.
  assert (memcpy_src data size = Some (take (Z.to_nat size) data)) as Hsrc.
  { unfold memcpy_src. destruct (Z.ltb_spec (Z.of_nat (length data)) size);
      [lia|done]. }
  destruct o; simpl; unfold eeprom_write, flash_write; rewrite Hsrc;
    repeat case_match; by eexists.
Qed.

Lemma storage_write_total addr data size w :
  is_Some (storage (fs w)) ->
  size <= Z.of_nat (length data) ->
  exists ok w', storage_write addr data size w = Some (ok, w')
                /\ fs w' = fs w.
Proof.
  intros [dev Hst] Hsize. unfold storage_write, bind, gets. rewrite Hst. simpl.
  destruct (ops_write_total (ops dev) addr data size (medium w) Hsize)
    as [[m'|] ->]; eauto.
Qed.

Lemma acfs_save_header_total w :
  is_Some (storage (fs w)) ->
  exists r w', acfs_save_header w = Some (r, w') /\
               fs w' = set_header (header_with_crc (header (fs w))) (fs w).
Proof.
  intros Hst. unfold acfs_save_header.
  set (w1 := mk_world (set_header (header_with_crc (header (fs w))) (fs w))
                      (medium w)).
  destruct (storage_write_total
              (start_addr (default (mk_storage_device 0 0 STORAGE_TYPE_EEPROM
                                      eeprom_ops false 0) (storage (fs w))))
              (header_bytes (header_with_crc (header (fs w))))
              sizeof_acfs_header_t w1) as (ok & w' & Hw & Hfs).
  { done. }
  { rewrite header_bytes_length. unfold sizeof_acfs_header_t. lia. }
  destruct Hst as [dev Hst].
  unfold bind at 1, gets. unfold bind at 1, modify. fold (header_with_crc (header (fs w))).
  fold w1. unfold bind at 1. unfold bind at 1, gets. simpl storage.
  rewrite Hst in Hw |- *. simpl in Hw |- *. unfold bind at 1. rewrite Hw.
  destruct (negb ok); eexists _, _; (split; [reflexivity|]); exact Hfs.
Qed.

Lemma save_cluster_lists_total ea esz n : forall i w,
  is_Some (storage (fs w)) ->
  (forall k, (k < n)%nat ->
     exists e, array_of (entries (fs w)) !! (i + k)%nat = Some e
               /\ entry_typed e = true) ->
  exists r w', save_cluster_lists ea esz i n w = Some (r, w') /\ fs w' = fs w.
Proof.
  induction n as [|n IH]; intros i w Hst Hes; cbn [save_cluster_lists].
  - by eexists _, _.
  - destruct (Hes 0%nat ltac:(lia)) as (e & He & Hty).
    rewrite Nat.add_0_r in He.
    unfold bind at 1, gets. unfold bind at 1. rewrite He. simpl.
    assert (forall w', fs w' = fs w ->
              exists r w'', save_cluster_lists ea esz (S i) n w' = Some (r, w'')
                            /\ fs w'' = fs w) as Hnext.
    { intros w' Hfs. destruct (IH (S i) w') as (r & w'' & Hr & Hfs').
      - by rewrite Hfs.
      - intros k Hk. rewrite Hfs. specialize (Hes (S k) ltac:(lia)).
        by replace (S i + k)%nat with (i + S k)%nat by lia.
      - exists r, w''. split; [done|congruence]. }
    destruct ((0 <? cluster_count e) && negb (is_null (cluster_list e))) eqn:Hc.
    + apply andb_prop in Hc as [Hpos Hnn]. apply negb_true_iff in Hnn.
      apply andb_prop in Hty as [_ Hty]. rewrite Hnn in Hty. simpl in Hty.
      apply Z.leb_le in Hty.
      destruct (storage_write_total (cluster_list_addr ea esz i)
                  (cluster_list_bytes (block_of (cluster_list e)))
                  (cluster_count e * 2) w Hst) as (ok & w' & Hw & Hfs).
      { rewrite cluster_list_bytes_length. lia. }
      unfold bind at 1. rewrite Hw. destruct (negb ok).
      * eexists _, _. split; [reflexivity|done].
      * by apply Hnext.
    + by apply Hnext.
Qed.

Lemma acfs_save_entries_total w :
  is_Some (storage (fs w)) ->
  forallb entry_typed (array_of (entries (fs w))) = true ->
  0 <= data_entries (header (fs w)) ->
  data_entries (header (fs w))
  <= Z.of_nat (length (array_of (entries (fs w)))) ->
  exists r w', acfs_save_entries w = Some (r, w') /\ fs w' = fs w.
Proof.
  intros Hst Hty HE0 HE. unfold acfs_save_entries.
  destruct Hst as [dev Hst].
  unfold bind at 1. unfold bind at 1, gets. rewrite Hst. simpl.
  unfold bind at 1, gets. unfold bind at 1, gets.
  destruct (storage_write_total
              (u32 (start_addr dev + sizeof_acfs_header_t))
              (concat (map entry_bytes (array_of (entries (fs w)))))
              (u32 (data_entries (header (fs w)) * sizeof_acfs_data_entry_t))
              w) as (ok & w' & Hw & Hfs).
  { by eexists. }
  { rewrite entries_bytes_length by done. unfold u32, sizeof_acfs_data_entry_t.
    pose proof (Z.mod_le (data_entries (header (fs w)) * 56) (2 ^ 32)
                  ltac:(lia) ltac:(lia)). lia. }
  unfold bind at 1. rewrite Hw. destruct (negb ok).
  - eexists _, _. split; [reflexivity|done].
  - destruct (save_cluster_lists_total
                (u32 (start_addr dev + sizeof_acfs_header_t))
                (u32 (data_entries (header (fs w)) * sizeof_acfs_data_entry_t))
                (Z.to_nat (data_entries (header (fs w)))) 0%nat w')
      as (r & w'' & Hr & Hfs').
    + rewrite Hfs. by eexists.
    + intros k Hk. rewrite Hfs. simpl.
      destruct (lookup_lt_is_Some_2 (array_of (entries (fs w))) k) as [e He];
        [lia|].
      exists e. split; [done|].
      rewrite forallb_forall in Hty. apply Hty.
      apply list_elem_of_In, list_elem_of_lookup. eauto.
    + exists r, w''. split; [done|congruence].
Qed.

Lemma persist_total w :
  is_Some (storage (fs w)) ->
  forallb entry_typed (array_of (entries (fs w))) = true ->
  0 <= data_entries (header (fs w)) ->
  data_entries (header (fs w))
  <= Z.of_nat (length (array_of (entries (fs w)))) ->
  exists r w', persist w = Some (r, w') /\
               fs w' = set_header (header_with_crc (header (fs w))) (fs w).
Proof.
  intros Hst Hty HE0 HE. unfold persist.
  destruct (acfs_save_header_total w Hst) as (r1 & w1 & H1 & Hfs1).
  unfold bind. rewrite H1.
  destruct (negb (is_ok r1)).
  - eexists _, _. split; [reflexivity|done].
  - destruct (acfs_save_entries_total w1) as (r & w' & Hr & Hfs');
      rewrite ?Hfs1; try done.
    exists r, w'. split; [done|]. congruence.
Qed.

Lemma acfs_typed_spec a :
  acfs_typed a = true ->
  is_u16 (total_clusters (header a)) /\ is_u16 (sys_clusters (header a)) /\
  is_u16 (data_entries (header a)) /\ is_u16 (free_clusters (header a)) /\
  (exists bm, cluster_bitmap a = Some bm /\ bitmap_wf bm) /\
  Z.of_nat (length (array_of (entries a))) < 2 ^ 16 /\
  forallb entry_typed (array_of (entries a)) = true.
Proof.
  unfold acfs_typed. intros H.
  repeat (apply andb_prop in H as [H ?]).
  destruct (cluster_bitmap a) as [bm|]; [|discriminate].
  split; [unfold is_u16; lia|]. split; [by apply is_u16b_spec|].
  split; [by apply is_u16b_spec|]. split; [by apply is_u16b_spec|].
  split; [|split; [lia|done]].
  exists bm. split; [done|]. by apply bitmap_typed_wf.
Qed.

(** ** Running the steps forwards *)

Lemma bind_gets {A B} (f : acfs_t -> A) (k : A -> M B) w :
  bind (gets f) k w = k (f (fs w)) w.
Proof. reflexivity. Qed.

Lemma bind_ret {A B} (a : A) (k : A -> M B) w : bind (ret a) k w = k a w.
Proof. reflexivity. Qed.

Lemma bind_modify {B} f (k : unit -> M B) w :
  bind (modify f) k w = k tt (mk_world (f (fs w)) (medium w)).
Proof. reflexivity. Qed.

Lemma bind_find_entry {B} id (k : option nat -> M B) w r :
  acfs_find_entry id (fs w) = Some r -> bind (find_entry id) k w = k r w.
Proof. intros H. unfold bind, find_entry. by rewrite H. Qed.

Lemma bind_entry_at {B} i (k : acfs_data_entry_t -> M B) w e :
  array_of (entries (fs w)) !! i = Some e -> bind (entry_at i) k w = k e w.
Proof.
  intros H. unfold bind at 1. unfold entry_at. by rewrite bind_gets, H.
Qed.

Lemma bind_free_clusters_step {B} p c (k : unit -> M B) w a' :
  acfs_free_clusters p c (fs w) = Some a' ->
  bind (free_clusters_step p c) k w = k tt (mk_world a' (medium w)).
Proof. intros H. unfold bind, free_clusters_step, lift. by rewrite H. Qed.

Lemma bind_update_entry {B} i f (k : unit -> M B) w es e :
  entries (fs w) = Some es -> es !! i = Some e ->
  bind (update_entry i f) k w
  = k tt (mk_world (set_entries (Some (<[i := f e]> es)) (fs w)) (medium w)).
Proof.
  intros Hes He. unfold bind at 1. unfold update_entry.
  rewrite bind_gets, Hes. simpl array_of. unfold bind at 1. rewrite He.
  simpl. unfold store_entry. rewrite Hes. done.
Qed.

Lemma acfs_write_ok_initialized data_id data size w w1 :
  acfs_write data_id data size w = Some (ACFS_OK, w1) ->
  initialized (fs w) = true.
Proof.
  unfold acfs_write. intros H.
  destruct data_id; [|by apply ret_inv in H as [[=] _]].
  destruct data; [|by apply ret_inv in H as [[=] _]].
  destruct (size =? 0); [by apply ret_inv in H as [[=] _]|].
  rewrite bind_gets in H.
  destruct (initialized (fs w)); [done|by apply ret_inv in H as [[=] _]].
Qed.

Lemma acfs_exists_false_inv id w :
  initialized (fs w) = true ->
  acfs_exists (Some id) w = Some (false, w) ->
  acfs_find_entry id (fs w) = Some None.
Proof.
  intros Hinit H. unfold acfs_exists in H. rewrite bind_gets, Hinit in H.
  simpl in H. apply bind_Some in H as (found & w0 & Hf & H).
  apply find_entry_inv in Hf as [Hf ->].
  destruct found as [i|]; [|done].
  apply bind_Some in H as (e & w0 & He & H). apply entry_at_inv in He as [He ->].
  apply ret_inv in H as [Hv _].
  apply find_entry_loop_Some in Hf as (e' & He' & Hm).
  rewrite He in He'. injection He' as <-.
  unfold entry_matches in Hm. rewrite <- Hv in Hm. discriminate.
Qed.

Lemma entry_typed_zero : entry_typed zero_entry = true.
Proof. reflexivity. Qed.

Lemma forallb_insert {A} (f : A -> bool) (l : list A) i x :
  forallb f l = true -> f x = true -> forallb f (<[i := x]> l) = true.
Proof.
  revert i. induction l as [|y l IH]; intros i Hl Hx; [done|].
  cbn [forallb] in Hl. apply andb_prop in Hl as [Hy Hl].
  destruct i; simpl.
  - by rewrite Hx, Hl.
  - by rewrite Hy, IH.
Qed.

Lemma acfs_exists_false id w :
  initialized (fs w) = true ->
  acfs_find_entry id (fs w) = Some None ->
  acfs_exists (Some id) w = Some (false, w).
Proof.
  intros Hinit Hfind. unfold acfs_exists. rewrite bind_gets, Hinit.
  cbn [negb]. by rewrite (bind_find_entry _ _ _ _ Hfind).
Qed.

(** C7.  On a mounted file system, for an id that is not present, a
    successful [acfs_write(id, data, size)] followed by [acfs_delete(id)]
    leaves [free_clusters] and the cluster bitmap exactly as they were
    before the write, and [acfs_exists(id)] is false afterwards.  The
    delete returns: none of its steps traps. *)
Theorem acfs_write_then_delete w id data size w1 :
  acfs_typed (fs w) = true ->
  acfs_exists (Some id) w = Some (false, w) ->
  acfs_write (Some id) (Some data) size w = Some (ACFS_OK, w1) ->
  delete_restores w w1 id.
Proof.
  unfold delete_restores.
  intros Hty Hex Hwr.
  pose proof (acfs_write_ok_initialized _ _ _ _ _ Hwr) as Hinit.
  pose proof (acfs_exists_false_inv _ _ Hinit Hex) as Hfind.
  destruct (acfs_typed_spec _ Hty)
    as (HN & HR & HE & HF & (bm & Hbm & Hwf) & Hcap & Hents).
  destruct (acfs_write_new_entry _ _ _ _ _ Hfind Hwr)
    as (K & es & e0 & l & bm' & efin & HK & _ & Hlen & Hes & He0 & Hscan
        & HKF & HKl & Hst & Hfs1 & Hid & Hcnt & Hlist & Hvalid).
  set (h := header (fs w)) in *.
  set (nE := Z.to_nat (data_entries h)) in *.
  rewrite Hbm in Hscan, Hfs1. simpl in Hscan, Hfs1.
  destruct w1 as [a1 m1]. cbn [fs] in Hfs1. subst a1.
  rewrite Hes in Hcap, Hents. simpl in Hcap, Hents.
  assert (nE < length es)%nat as HnE by (eapply lookup_lt_Some, He0).
  assert (Z.of_nat nE = data_entries h) as HnEZ
    by (unfold nE; destruct HE; lia).
  assert (u16 (data_entries h + 1) = data_entries h + 1) as HE1
    by (apply u16_small; unfold is_u16 in *; lia).
  (* the clusters the write took *)
  assert (0 <= sys_clusters h) as HR0 by apply HR.
  assert (sys_clusters h
          + Z.of_nat (Z.to_nat (total_clusters h - sys_clusters h)) <= 2 ^ 16)
    as Hfuel by (unfold is_u16 in *; lia).
  pose proof (allocate_scan_undo _ _ _ _ _ _ HR0 Hfuel Hwf Hscan) as Hundo.
  destruct (allocate_scan_spec _ _ _ _ _ _ _ HR0 Hfuel Hscan)
    as (l1 & Hl1 & Hl1' & _). simpl in Hl1. subst l1.
  assert (Z.of_nat (length l) = K) as HlK.
  { assert (length l <= Z.to_nat K)%nat
      by (rewrite Hl1', length_take; simpl; lia). destruct HK. lia. }
  assert (u16 (u16 (free_clusters h - K) + K) = free_clusters h) as HFK.
  { rewrite (u16_small (free_clusters h - K))
      by (unfold is_u16 in *; lia).
    replace (free_clusters h - K + K) with (free_clusters h) by lia.
    by apply u16_small. }
  (* the entry as the write left it *)
  set (es1 := <[nE := efin]> es) in *.
  assert (es1 !! nE = Some efin) as Hefin
    by (unfold es1; by apply list_lookup_insert_eq).
  assert (entry_matches id efin = true) as Hmatch.
  { unfold entry_matches. rewrite Hvalid, Hid, andb_true_l.
    change (Z.to_nat ACFS_MAX_DATA_ID_LEN) with (S 31).
    apply strncmp_strncpy. lia. }
  assert (find_entry_loop es1 id nE 0 = Some None) as Hfind1.
  { rewrite (find_entry_loop_ext es es1).
    - unfold acfs_find_entry in Hfind. by rewrite Hes in Hfind.
    - intros k Hk. unfold es1. rewrite list_lookup_insert_ne by lia. done. }
  match goal with
  | |- context [acfs_delete _ ?wx] => set (w1 := wx) in *
  end.
  assert (acfs_find_entry id (fs w1) = Some (Some nE)) as Hfound.
  { unfold acfs_find_entry. simpl. rewrite HE1.
    replace (Z.to_nat (data_entries h + 1)) with (S nE) by lia.
    by apply find_entry_loop_last with (e := efin). }
  assert (acfs_free_clusters (Ptr l) K (fs w1)
          = Some (mk_acfs (storage (fs w))
                    (set_free_clusters (free_clusters h)
                       (header_with_crc
                          (set_data_entries (data_entries h + 1)
                             (set_free_clusters (u16 (free_clusters h - K)) h))))
                    (Some es1) (Some bm) true (cluster_buffer (fs w))))
    as Hfree.
  { unfold acfs_free_clusters, cluster_list_prefix. simpl block_of.
    rewrite <- HlK, Z.ltb_irrefl, Nat2Z.id, firstn_all.
    simpl array_of. rewrite Hundo. simpl.
    rewrite HE1, HlK, HFK. reflexivity. }
  (* run the delete *)
  unfold acfs_delete.
  rewrite bind_gets. change (initialized (fs w1)) with true.
  cbn [negb].
  rewrite (bind_find_entry _ _ _ _ Hfound).
  rewrite (bind_entry_at nE _ w1 efin) by exact Hefin.
  rewrite Hvalid, Hlist, Hcnt. cbn [negb].
  rewrite (bind_free_clusters_step _ _ _ _ _ Hfree).
  cbn [free_block]. rewrite bind_ret.
  rewrite bind_gets. cbn [fs header set_free_clusters header_with_crc
                          set_header_crc32 set_data_entries data_entries].
  replace (Z.to_nat (data_entries h + 1 - 1 - Z.of_nat nE)) with 0%nat by lia.
  cbn [delete_shift]. rewrite bind_ret, bind_modify. cbn [fs medium].
  replace (u16 (data_entries h + 1 - 1)) with (data_entries h)
    by (replace (data_entries h + 1 - 1) with (data_entries h) by lia;
        symmetry; by apply u16_small).
  fold nE.
  rewrite (bind_update_entry nE _ _ _ es1 efin) by done.
  simpl fs. simpl medium. unfold es1. rewrite list_insert_insert_eq.
  match goal with
  | |- exists r w2, bind acfs_save_header _ ?wx = _ /\ _ =>
      destruct (persist_total wx) as (r & w2 & Hp & Hfs2)
  end.
  { exact Hst. }
  { simpl. apply forallb_insert; [done | apply entry_typed_zero]. }
  { simpl. apply HE. }
  { simpl. rewrite length_insert. lia. }
  exists r, w2. split; [exact Hp|]. simpl in Hfs2.
  split; [by rewrite Hfs2|]. split; [by rewrite Hfs2|].
  apply acfs_exists_false; rewrite Hfs2; [reflexivity|].
  unfold acfs_find_entry. simpl. fold nE.
  rewrite (find_entry_loop_ext es).
  - unfold acfs_find_entry in Hfind. by rewrite Hes in Hfind.
  - intros k Hk. rewrite list_lookup_insert_ne by lia. done.
Qed.

(** ** Instances of the theorems on the 4 KiB EEPROM *)

Lemma acfs_read_leaves_state_witness :
  acfs_read (Some (cstr "a")) (Some (repeat 0 64)) 16 (Some 0) mounted64_hi
  = Some ((ACFS_OK, Some hi_block, Some 3),
          world_after [Call_read (Some (cstr "a")) (Some (repeat 0 64)) 16
                                 (Some 0)] mounted64_hi)
  /\ world_after [Call_read (Some (cstr "a")) (Some (repeat 0 64)) 16
                            (Some 0)] mounted64_hi
     = mounted64_hi.
Proof.
  assert (acfs_read (Some (cstr "a")) (Some (repeat 0 64)) 16 (Some 0)
                    mounted64_hi
          = Some ((ACFS_OK, Some hi_block, Some 3),
                  world_after [Call_read (Some (cstr "a"))
                                 (Some (repeat 0 64)) 16 (Some 0)]
                              mounted64_hi)) as Hrun
    by (vm_compute; reflexivity).
  split; [exact Hrun|].
  exact (acfs_read_leaves_state _ _ _ _ _ _ _ Hrun).
Defined.

Lemma acfs_read_copies_whole_clusters_witness :
  0 <= cluster_size (header (fs mounted64_hi)) /\
  0 <= 16 /\
  acfs_read (Some (cstr "a")) (Some (repeat 0 64)) 16 (Some 0) mounted64_hi
  = Some ((ACFS_OK, Some hi_block, Some 3), mounted64_hi) /\
  copies_whole_clusters mounted64_hi (cstr "a") (repeat 0 64) 16 hi_block.
Proof.
  assert (0 <= cluster_size (header (fs mounted64_hi))) as HS
    by (vm_compute; discriminate).
  assert (0 <= 16) as Hsize by lia.
  assert (acfs_read (Some (cstr "a")) (Some (repeat 0 64)) 16 (Some 0)
                    mounted64_hi
          = Some ((ACFS_OK, Some hi_block, Some 3), mounted64_hi)) as Hrun
    by (vm_compute; reflexivity).
  split; [exact HS|]. split; [exact Hsize|]. split; [exact Hrun|].
  exact (acfs_read_copies_whole_clusters _ _ _ _ _ _ _ _ HS Hsize Hrun).
Defined.

Lemma acfs_write_then_delete_witness :
  acfs_typed (fs mounted64) = true /\
  acfs_exists (Some (cstr "a")) mounted64 = Some (false, mounted64) /\
  acfs_write (Some (cstr "a")) (Some hi_block) 3 mounted64
  = Some (ACFS_OK, mounted64_hi) /\
  delete_restores mounted64 mounted64_hi (cstr "a").
Proof.
  assert (acfs_typed (fs mounted64) = true) as Hty
    by (vm_compute; reflexivity).
  assert (acfs_exists (Some (cstr "a")) mounted64 = Some (false, mounted64))
    as Hex by (vm_compute; reflexivity).
  assert (acfs_write (Some (cstr "a")) (Some hi_block) 3 mounted64
          = Some (ACFS_OK, mounted64_hi)) as Hwr
    by (vm_compute; reflexivity).
  split; [exact Hty|]. split; [exact Hex|]. split; [exact Hwr|].
  exact (acfs_write_then_delete _ _ _ _ _ Hty Hex Hwr).
Defined.

Lemma acfs_allocate_clusters_spec_witness :
  cluster_bitmap (fs mounted64_hi) = Some [7; 0; 0; 0; 0; 0; 0; 0] /\
  bitmap_typed [7; 0; 0; 0; 0; 0; 0; 0] = true /\
  is_u16b (sys_clusters (header (fs mounted64_hi))) = true /\
  is_u16b (total_clusters (header (fs mounted64_hi))) = true /\
  total_clusters (header (fs mounted64_hi))
  <= 8 * Z.of_nat (length [7; 0; 0; 0; 0; 0; 0; 0]) /\
  0 <= 3 /\
  (exists a',
     acfs_allocate_clusters 3 (fs mounted64_hi)
     = Some (ACFS_OK, [3; 4; 5], a') /\
     cluster_bitmap a' = Some [63; 0; 0; 0; 0; 0; 0; 0] /\
     free_clusters (header a') = 58) /\
  (exists l, acfs_allocate_clusters 62 (fs mounted64_hi)
             = Some (ACFS_ERROR_NO_SPACE, l, fs mounted64_hi)).
Proof.
  assert (cluster_bitmap (fs mounted64_hi) = Some [7; 0; 0; 0; 0; 0; 0; 0])
    as Hbm by (vm_compute; reflexivity).
  assert (bitmap_typed [7; 0; 0; 0; 0; 0; 0; 0] = true) as Hty
    by reflexivity.
  assert (is_u16b (sys_clusters (header (fs mounted64_hi))) = true) as HR
    by (vm_compute; reflexivity).
  assert (is_u16b (total_clusters (header (fs mounted64_hi))) = true) as HN
    by (vm_compute; reflexivity).
  assert (total_clusters (header (fs mounted64_hi))
          <= 8 * Z.of_nat (length [7; 0; 0; 0; 0; 0; 0; 0])) as Hcover
    by (vm_compute; discriminate).
  assert (0 <= 3) as Hcount by lia.
  assert (0 <= 62) as Hcount' by lia.
  repeat (split; [assumption|]).
  split.
  - destruct (acfs_allocate_clusters_spec _ _ _ Hbm Hty HR HN Hcover Hcount)
      as [Hok _].
    destruct Hok as (l & a' & Hrun & Hl & _ & _ & _ & _ & HF);
      [vm_compute; discriminate | vm_compute; discriminate |].
    assert (fmap (fun r => (r.1, cluster_bitmap r.2, free_clusters (header r.2)))
                 (acfs_allocate_clusters 3 (fs mounted64_hi))
            = Some ((ACFS_OK, [3; 4; 5]), Some [63; 0; 0; 0; 0; 0; 0; 0], 58))
      as Hval by (vm_compute; reflexivity).
    rewrite Hrun in Hval. cbn [fmap option_fmap option_map fst snd] in Hval.
    injection Hval as -> Hbm' HF'.
    exists a'. split; [exact Hrun|]. split; [exact Hbm' | exact HF'].
  - destruct (acfs_allocate_clusters_spec _ _ _ Hbm Hty HR HN Hcover Hcount')
      as [_ Hfail].
    apply Hfail. left. vm_compute. reflexivity.
Defined.

Lemma acfs_free_clusters_spec_witness :
  cluster_bitmap (fs mounted64_hi) = Some [7; 0; 0; 0; 0; 0; 0; 0] /\
  Forall (fun c => is_u16 c /\ bitmap_test c [7; 0; 0; 0; 0; 0; 0; 0]
                                = Some true) [2] /\
  frees_clusters (fs mounted64_hi) [7; 0; 0; 0; 0; 0; 0; 0] [2].
Proof.
  assert (cluster_bitmap (fs mounted64_hi) = Some [7; 0; 0; 0; 0; 0; 0; 0])
    as Hbm by (vm_compute; reflexivity).
  assert (Forall (fun c => is_u16 c /\ bitmap_test c [7; 0; 0; 0; 0; 0; 0; 0]
                                       = Some true) [2]) as Hl.
  { constructor; [|constructor]. split; [unfold is_u16; lia | reflexivity]. }
  split; [exact Hbm|]. split; [exact Hl|].
  exact (acfs_free_clusters_spec _ _ _ Hbm Hl).
Defined.

Lemma acfs_write_validates_witness :
  acfs_write (Some (repeat 97 32)) (Some hi_block) 3 mounted64
  = Some (ACFS_ERROR_INVALID_PARAM, mounted64) /\
  acfs_write (Some (repeat 97 31)) (Some hi_block) 3 mounted64
  = Some (ACFS_OK,
          world_after [Call_write (Some (repeat 97 31)) (Some hi_block) 3]
                      mounted64) /\
  ACFS_OK <> ACFS_ERROR_INVALID_PARAM.
Proof.
  destruct (acfs_write_validates mounted64 (Some (repeat 97 32))
                                 (Some hi_block) 3) as [_ H32].
  destruct (H32 _ _ eq_refl eq_refl ltac:(lia)) as (H32' & _ & _).
  destruct (acfs_write_validates mounted64 (Some (repeat 97 31))
                                 (Some hi_block) 3) as [_ H31].
  destruct (H31 _ _ eq_refl eq_refl ltac:(lia)) as (_ & _ & H31').
  assert (acfs_write (Some (repeat 97 31)) (Some hi_block) 3 mounted64
          = Some (ACFS_OK,
                  world_after [Call_write (Some (repeat 97 31))
                                 (Some hi_block) 3] mounted64)) as Hrun
    by (vm_compute; reflexivity).
  split; [|split; [exact Hrun|]].
  - apply H32'; [reflexivity | vm_compute; discriminate].
  - apply (H31' ltac:(vm_compute; reflexivity) _ _ Hrun).
Defined.

(** ** Where the code departs from the specification *)

(** C6, as the specification words it, fails: freeing cluster 2 of the
    entry "a" does not take [free_clusters] from 61 to 60. *)
Lemma acfs_free_clusters_does_not_decrement :
  ~ exists a',
      acfs_free_clusters (Ptr [2]) 1 (fs mounted64_hi) = Some a' /\
      free_clusters (header a')
      = free_clusters (header (fs mounted64_hi)) - 1.
Proof.
  intros (a' & Hfree & HF). vm_compute in Hfree. injection Hfree as <-.
  vm_compute in HF. discriminate.
Qed.

(** C9, as the specification words it, fails: on a mounted file system
    the empty id is accepted, and on an instance that is not mounted an
    id of 32 characters is answered with NotInitialized. *)
Lemma acfs_write_accepts_empty_id :
  fmap fst (acfs_write (Some []) (Some hi_block) 3 mounted64)
  = Some ACFS_OK /\
  fmap fst (acfs_write (Some (repeat 97 32)) (Some hi_block) 3
                       (eeprom_world 4096))
  = Some ACFS_ERROR_NOT_INITIALIZED.
Proof. split; vm_compute; reflexivity. Qed.

(** C1 on the code.  On the freshly formatted 4 KiB EEPROM with 64-byte
    clusters, [acfs_write("a", data, 1856)] of 1856 bytes 0xA5 returns Ok
    and takes the 29 clusters 2..30.  [acfs_save_entries] then stores the
    58 bytes of the cluster list at address 20 + 56 = 76, past the end of
    the reserved area at 128: the indices 28, 29 and 30 land on the first
    six bytes of cluster 2.  The read that follows returns CrcMismatch,
    with those six bytes in the caller's buffer and no size reported. *)
Theorem acfs_write_read_clobbered :
  fmap fst
    (api_run [Call_init (eeprom_device 4096) config64;
              Call_write (Some (cstr "a")) (Some (repeat 0xA5 1856)) 1856;
              Call_read (Some (cstr "a")) (Some (repeat 0 1856)) 1856
                        (Some 0)]
             (eeprom_world 4096))
  = Some [Returned ACFS_OK; Returned ACFS_OK;
          ReturnedRead ACFS_ERROR_CRC_MISMATCH
            (Some ([28; 0; 29; 0; 30; 0] ++ repeat 0xA5 1850)) (Some 0)].
Proof. vm_compute. reflexivity. Qed.

(** C2 on the code.  The same write, then [acfs_deinit] and [acfs_init]
    on the same medium with the same cluster size: the mount succeeds and
    the read of "a" returns CrcMismatch, not the 1856 bytes written. *)
Theorem acfs_remount_read_clobbered :
  fmap fst
    (api_run [Call_init (eeprom_device 4096) config64;
              Call_write (Some (cstr "a")) (Some (repeat 0xA5 1856)) 1856;
              Call_deinit;
              Call_init (eeprom_device 4096) config64;
              Call_read (Some (cstr "a")) (Some (repeat 0 1856)) 1856
                        (Some 0)]
             (eeprom_world 4096))
  = Some [Returned ACFS_OK; Returned ACFS_OK; Returned ACFS_OK;
          Returned ACFS_OK;
          ReturnedRead ACFS_ERROR_CRC_MISMATCH
            (Some ([28; 0; 29; 0; 30; 0] ++ repeat 0xA5 1850)) (Some 0)].
Proof. vm_compute. reflexivity. Qed.

(** C3 on the code.  With "a" stored in one cluster and 61 clusters free,
    a rewrite of "a" with 4096 bytes needs 64 clusters: the old cluster
    is freed, the allocation fails, and [acfs_write] returns NoSpace.  The
    entry stays in the directory with a null cluster_list, but its
    [cluster_count] is still 1. *)
Theorem acfs_failed_rewrite_keeps_count :
  let w := world_after
             [Call_write (Some (cstr "a")) (Some (repeat 1 4096)) 4096]
             mounted64_hi in
  fmap fst (acfs_write (Some (cstr "a")) (Some (repeat 1 4096)) 4096
                       mounted64_hi)
  = Some ACFS_ERROR_NO_SPACE /\
  data_entries (header (fs w)) = 1 /\
  fmap (fun e => (is_valid e, cluster_list e, cluster_count e))
       (array_of (entries (fs w)) !! 0%nat)
  = Some (true, NULL, 1).
Proof. vm_compute. repeat split; reflexivity. Qed.

(** C5 on the code.  After the same failed rewrite the freed cluster is
    counted twice, once in [free_clusters] and once in the stale
    [cluster_count]: 62 free + 1 in the entry + 2 reserved is 65, for 64
    clusters in all.  Before the failed call the sum is 64. *)
Theorem acfs_failed_rewrite_breaks_accounting :
  let w := world_after
             [Call_write (Some (cstr "a")) (Some (repeat 1 4096)) 4096]
             mounted64_hi in
  clusters_accounted (fs mounted64_hi) = 64 /\
  total_clusters (header (fs mounted64_hi)) = 64 /\
  clusters_accounted (fs w) = 65 /\
  total_clusters (header (fs w)) = 64.
Proof. vm_compute. repeat split; reflexivity. Qed.

(** * Further properties of the code *)

(** ** Blocks of bytes *)

Lemma splice_length off bytes l :
  0 <= off -> off + Z.of_nat (length bytes) <= Z.of_nat (length l) ->
  length (splice off bytes l) = length l.
Proof.
  intros H0 H. unfold splice.
  rewrite !length_app, length_take, length_drop. lia.
Qed.

Lemma slice_splice_same off bytes l :
  0 <= off -> off + Z.of_nat (length bytes) <= Z.of_nat (length l) ->
  slice off (Z.of_nat (length bytes)) (splice off bytes l) = bytes.
Proof.
  intros H0 H. unfold slice, splice. rewrite Nat2Z.id.
  rewrite drop_app_length' by (rewrite length_take; lia).
  by rewrite take_app_length.
Qed.

Lemma slice_splice off len bytes l :
  0 <= off -> len = Z.of_nat (length bytes) ->
  off + len <= Z.of_nat (length l) ->
  slice off len (splice off bytes l) = bytes.
Proof. intros H0 -> H. by apply slice_splice_same. Qed.

Lemma lookup_splice off bytes l (i : nat) :
  0 <= off -> off + Z.of_nat (length bytes) <= Z.of_nat (length l) ->
  splice off bytes l !! i =
  if decide (Z.of_nat i < off) then l !! i
  else if decide (Z.of_nat i < off + Z.of_nat (length bytes))
       then bytes !! (i - Z.to_nat off)%nat
       else l !! i.
Proof.
  intros H0 H. unfold splice.
  destruct (decide (Z.of_nat i < off)).
  - rewrite lookup_app_l by (rewrite length_take; lia).
    apply lookup_take_lt. lia.
  - rewrite lookup_app_r by (rewrite length_take; lia).
    rewrite length_take, Nat.min_l by lia.
    destruct (decide (Z.of_nat i < off + Z.of_nat (length bytes))).
    + by rewrite lookup_app_l by lia.
    + rewrite lookup_app_r by lia. rewrite lookup_drop. f_equal. lia.
Qed.

Lemma lookup_slice off len l (i : nat) :
  slice off len l !! i =
  if decide (i < Z.to_nat len)%nat then l !! (Z.to_nat off + i)%nat else None.
Proof.
  unfold slice. rewrite lookup_take. destruct (decide _); [|done].
  apply lookup_drop.
Qed.

Lemma slice_splice_disjoint a n off bytes l :
  0 <= a -> 0 <= n -> 0 <= off ->
  off + Z.of_nat (length bytes) <= Z.of_nat (length l) ->
  a + n <= off \/ off + Z.of_nat (length bytes) <= a ->
  slice a n (splice off bytes l) = slice a n l.
Proof.
  intros Ha Hn H0 H Hdis. apply list_eq. intros i.
  rewrite !lookup_slice. destruct (decide _); [|done].
  rewrite lookup_splice by done.
  repeat destruct (decide _); try done; lia.
Qed.

Lemma memcpy_src_Some data size bytes :
  memcpy_src data size = Some bytes ->
  bytes = take (Z.to_nat size) data /\ size <= Z.of_nat (length data).
Proof.
  unfold memcpy_src.
  destruct (Z.ltb_spec (Z.of_nat (length data)) size); [discriminate|].
  intros [= <-]. done.
Qed.

Lemma memcpy_src_length data size bytes :
  0 <= size -> memcpy_src data size = Some bytes ->
  Z.of_nat (length bytes) = size.
Proof.
  intros H0 H. apply memcpy_src_Some in H as [-> H]. rewrite length_take. lia.
Qed.

Lemma forallb_eqb_repeat c l :
  forallb (Z.eqb c) l = true <-> l = repeat c (length l).
Proof.
  induction l as [|x l IH]; [done|]. cbn [forallb length repeat]. split.
  - intros [->%Z.eqb_eq Hl]%andb_prop. f_equal. by apply IH.
  - intros [= <- Hl]. rewrite Z.eqb_refl. by apply IH.
Qed.

(** ** The storage adapters *)

Lemma eeprom_write_Some addr data size m m' :
  eeprom_write addr data size m = Some (Some m') ->
  exists buf,
    eeprom_buffer m = Some buf /\
    addr + size <= Z.of_nat (length buf) /\
    size <= Z.of_nat (length data) /\
    m' = mk_media (Some (splice addr (take (Z.to_nat size) data) buf))
                  (flash_buffer m).
Proof.
  unfold eeprom_write.
  destruct (eeprom_buffer m) as [buf|] eqn:Hbuf; [|discriminate].
  destruct (Z.ltb_spec (Z.of_nat (length buf)) (addr + size)) as [|Hin];
    [discriminate|].
  destruct (memcpy_src data size) as [bytes|] eqn:Hsrc; [|discriminate].
  apply memcpy_src_Some in Hsrc as [-> Hlen].
  intros [= <-]. eauto.
Qed.

Lemma flash_write_Some addr data size m m' :
  flash_write addr data size m = Some (Some m') ->
  exists buf,
    flash_buffer m = Some buf /\
    addr + size <= Z.of_nat (length buf) /\
    size <= Z.of_nat (length data) /\
    forallb (Z.eqb 0xFF) (slice addr size buf) = true /\
    m' = mk_media (eeprom_buffer m)
                  (Some (splice addr (take (Z.to_nat size) data) buf)).
Proof.
  unfold flash_write.
  destruct (flash_buffer m) as [buf|] eqn:Hbuf; [|discriminate].
  destruct (Z.ltb_spec (Z.of_nat (length buf)) (addr + size)) as [|Hin];
    [discriminate|].
  destruct (forallb (Z.eqb 255) (slice addr size buf)) eqn:Herased;
    [|discriminate].
  destruct (memcpy_src data size) as [bytes|] eqn:Hsrc; [|discriminate].
  apply memcpy_src_Some in Hsrc as [-> Hlen].
  intros [= <-]. eauto 10.
Qed.

(** Reading a buffer: in range it gives the slice, out of range -1. *)
Lemma read_buffer addr size (buf : list Z) :
  (if Z.of_nat (length buf) <? addr + size then None
   else Some (slice addr size buf))
  = if decide (addr + size <= Z.of_nat (length buf))
    then Some (slice addr size buf) else None.
Proof.
  destruct (Z.ltb_spec (Z.of_nat (length buf)) (addr + size));
    destruct (decide _); done || lia.
Qed.

(** A successful EEPROM write is read back by a read of the same range,
    and changes no byte outside the range, nor the Flash buffer. *)
Theorem eeprom_write_read addr data size m m' :
  0 <= addr -> 0 <= size ->
  eeprom_write addr data size m = Some (Some m') ->
  eeprom_read addr size m' = Some (take (Z.to_nat size) data) /\
  (forall a n, 0 <= a -> 0 <= n -> a + n <= addr \/ addr + size <= a ->
     eeprom_read a n m' = eeprom_read a n m) /\
  flash_buffer m' = flash_buffer m.
Proof.
  intros Ha Hs H.
  apply eeprom_write_Some in H as (buf & Hbuf & Hin & Hdata & ->).
  unfold eeprom_read. rewrite Hbuf. cbn [eeprom_buffer flash_buffer].
  set (bytes := take (Z.to_nat size) data).
  assert (Z.of_nat (length bytes) = size) as Hlen
    by (unfold bytes; rewrite length_take; lia).
  assert (length (splice addr bytes buf) = length buf) as Hsl
    by (apply splice_length; lia).
  rewrite !read_buffer, Hsl.
  split; [|split; [|done]].
  - rewrite decide_True by lia. rewrite slice_splice by lia. done.
  - intros a n Ha' Hn Hdis. rewrite ?Hsl.
    destruct (Z.of_nat (length buf) <? a + n); [done|].
    by rewrite slice_splice_disjoint by lia.
Qed.

(** Flash is programmed only where it is erased: a write succeeds only on
    a range that holds 0xFF throughout; it is then read back, and changes
    nothing outside the range.  Once data other than 0xFF is written, a
    second write of the same range fails. *)
Theorem flash_write_once addr data size m m' :
  0 <= addr -> 0 <= size ->
  flash_write addr data size m = Some (Some m') ->
  flash_read addr size m = Some (repeat 0xFF (Z.to_nat size)) /\
  flash_read addr size m' = Some (take (Z.to_nat size) data) /\
  (forall a n, 0 <= a -> 0 <= n -> a + n <= addr \/ addr + size <= a ->
     flash_read a n m' = flash_read a n m) /\
  (take (Z.to_nat size) data <> repeat 0xFF (Z.to_nat size) ->
   forall data', flash_write addr data' size m' = Some None).
Proof.
  intros Ha Hs H.
  apply flash_write_Some in H as (buf & Hbuf & Hin & Hdata & Herased & ->).
  unfold flash_read, flash_write. rewrite Hbuf.
  cbn [eeprom_buffer flash_buffer].
  set (bytes := take (Z.to_nat size) data).
  assert (Z.of_nat (length bytes) = size) as Hlen
    by (unfold bytes; rewrite length_take; lia).
  assert (length (splice addr bytes buf) = length buf) as Hsl
    by (apply splice_length; lia).
  rewrite !read_buffer, Hsl.
  rewrite !decide_True by lia.
  rewrite slice_splice by lia.
  split; [|split; [done|split]].
  - f_equal. apply forallb_eqb_repeat in Herased.
    rewrite slice_length in Herased by lia. done.
  - intros a n Ha' Hn Hdis. rewrite ?Hsl.
    destruct (Z.of_nat (length buf) <? a + n); [done|].
    by rewrite slice_splice_disjoint by lia.
  - intros Hne data'.
    destruct (Z.ltb_spec (Z.of_nat (length buf)) (addr + size)); [lia|].
    destruct (forallb (Z.eqb 255) bytes) eqn:Hall; [|done].
    exfalso. apply Hne.
    apply forallb_eqb_repeat in Hall. rewrite Hall. f_equal. lia.
Qed.

(** Erasing a Flash range makes it writable again: the write that follows
    succeeds and is read back. *)
Theorem flash_erase_write_read addr data size m m1 :
  0 <= addr -> 0 <= size -> size <= Z.of_nat (length data) ->
  flash_erase addr size m = Some m1 ->
  exists m2,
    flash_write addr data size m1 = Some (Some m2) /\
    flash_read addr size m2 = Some (take (Z.to_nat size) data).
Proof.
  intros Ha Hs Hdata. unfold flash_erase, flash_write, flash_read.
  destruct (flash_buffer m) as [buf|] eqn:Hbuf; [|discriminate].
  destruct (Z.ltb_spec (Z.of_nat (length buf)) (addr + size)) as [|Hin];
    [discriminate|].
  intros [= <-]. cbn [flash_buffer eeprom_buffer].
  assert (Z.of_nat (length (repeat 255 (Z.to_nat size))) = size) as Hlen
    by (rewrite repeat_length; lia).
  rewrite splice_length by lia.
  destruct (Z.ltb_spec (Z.of_nat (length buf)) (addr + size)); [lia|].
  rewrite (slice_splice addr size) by lia.
  assert (forallb (Z.eqb 255) (repeat 255 (Z.to_nat size)) = true) as ->.
  { apply forallb_eqb_repeat. by rewrite repeat_length. }
  unfold memcpy_src.
  destruct (Z.ltb_spec (Z.of_nat (length data)) size); [lia|].
  eexists. split; [reflexivity|]. cbn [flash_buffer].
  set (bytes := take (Z.to_nat size) data).
  assert (Z.of_nat (length bytes) = size) as Hb
    by (unfold bytes; rewrite length_take; lia).
  set (buf1 := splice addr (repeat 255 (Z.to_nat size)) buf).
  assert (length buf1 = length buf) as Hl1
    by (unfold buf1; apply splice_length; lia).
  rewrite splice_length by lia. rewrite Hl1.
  destruct (Z.ltb_spec (Z.of_nat (length buf)) (addr + size)); [lia|].
  by rewrite (slice_splice addr size) by lia.
Qed.

(** ** Cluster counts *)

Lemma clusters_needed_ceiling csize dsize :
  0 < csize < 2 ^ 16 -> 0 < dsize <= 65535 * csize ->
  exists k, acfs_calculate_clusters_needed csize dsize = Some k /\
            1 <= k <= 65535 /\ (k - 1) * csize < dsize <= k * csize.
Proof.
  intros Hc Hd. unfold acfs_calculate_clusters_needed.
  destruct (Z.eqb_spec csize 0); [lia|].
  assert (usize (dsize + csize - 1) = dsize + csize - 1) as ->
    by (unfold usize; apply Z.mod_small; nia).
  set (k := (dsize + csize - 1) / csize).
  assert (k * csize <= dsize + csize - 1 < (k + 1) * csize) as Hk.
  { unfold k. pose proof (Z.mul_div_le (dsize + csize - 1) csize ltac:(lia)).
    pose proof (Z.mul_succ_div_gt (dsize + csize - 1) csize ltac:(lia)).
    lia. }
  assert (1 <= k <= 65535) as Hrange by nia.
  exists k. split; [|split; [done|nia]].
  f_equal. unfold u16. apply Z.mod_small. lia.
Qed.

(** [acfs_calculate_clusters_needed] is the ceiling of size / cluster
    size as long as that is at most 65535: the least number of clusters
    that hold the data.  The result is cut to 16 bits, so a size of
    exactly 65536 clusters asks for none. *)
Theorem acfs_calculate_clusters_needed_ceiling csize dsize :
  0 < csize < 2 ^ 16 -> 0 < dsize ->
  (dsize <= 65535 * csize ->
   exists k, acfs_calculate_clusters_needed csize dsize = Some k /\
             1 <= k <= 65535 /\ (k - 1) * csize < dsize <= k * csize) /\
  acfs_calculate_clusters_needed csize (65536 * csize) = Some 0.
Proof.
  intros Hc Hd. split.
  - intros Hmax. apply clusters_needed_ceiling; lia.
  - unfold acfs_calculate_clusters_needed.
    destruct (Z.eqb_spec csize 0); [lia|]. f_equal.
    assert (usize (65536 * csize + csize - 1) = 65536 * csize + (csize - 1))
      as -> by (unfold usize; rewrite Z.mod_small; lia).
    rewrite Z.div_add_l by lia.
    rewrite Z.div_small by lia. reflexivity.
Qed.

(** ** Calls on an instance that is not mounted *)

Lemma read_only_free_block {A} (p : pointer A) : read_only (free_block p).
Proof. destruct p; [apply read_only_ret | apply read_only_trap | apply read_only_ret]. Qed.

Lemma read_only_free_cluster_lists n : forall i,
  read_only (free_cluster_lists n i).
Proof.
  induction n as [|n IH]; intros i; cbn [free_cluster_lists].
  - apply read_only_ret.
  - apply read_only_bind; [apply read_only_entry_at|]. intros entry.
    apply read_only_bind; [apply read_only_free_block|]. intros _. apply IH.
Qed.

(** Once [acfs_deinit] has succeeded the instance is zeroed, the medium
    is as it was, and every call but [acfs_init] answers NotInitialized
    (false for [acfs_exists]) and leaves its outputs and the state alone:
    none of them touches the freed arrays. *)
Theorem acfs_deinit_then_not_initialized garbage w w' :
  acfs_deinit w = Some (ACFS_OK, w') ->
  fs w' = zero_acfs /\ medium w' = medium w /\
  acfs_deinit w' = Some (ACFS_ERROR_NOT_INITIALIZED, w') /\
  (forall id data size act,
     acfs_read (Some id) (Some data) size act w'
     = Some ((ACFS_ERROR_NOT_INITIALIZED, Some data, act), w')) /\
  (forall id data size, size <> 0 ->
     acfs_write (Some id) (Some data) size w'
     = Some (ACFS_ERROR_NOT_INITIALIZED, w')) /\
  (forall id, acfs_delete (Some id) w'
              = Some (ACFS_ERROR_NOT_INITIALIZED, w')) /\
  (forall id, acfs_exists (Some id) w' = Some (false, w')) /\
  (forall id sz, acfs_get_size (Some id) (Some sz) w'
                 = Some ((ACFS_ERROR_NOT_INITIALIZED, Some sz), w')) /\
  (forall sz, acfs_get_free_space (Some sz) w'
              = Some ((ACFS_ERROR_NOT_INITIALIZED, Some sz), w')) /\
  (forall out, acfs_get_stats out w'
               = Some ((ACFS_ERROR_NOT_INITIALIZED, out), w')) /\
  acfs_check_integrity garbage w' = Some (ACFS_ERROR_NOT_INITIALIZED, w') /\
  acfs_defragment w' = Some (ACFS_ERROR_NOT_INITIALIZED, w').
Proof.
  unfold acfs_deinit. rewrite bind_gets.
  destruct (initialized (fs w)); cbn [negb]; [|intros [=]].
  rewrite bind_gets. intros H.
  apply bind_Some in H as (u & w0 & Hfree & H).
  assert (w0 = w) as ->.
  { destruct (entries (fs w)); [|by apply ret_inv in Hfree as [_ ->]].
    rewrite bind_gets in Hfree.
    by apply read_only_free_cluster_lists in Hfree. }
  rewrite bind_modify in H. injection H as <-. cbn [fs medium].
  repeat split; try done.
  intros id data size Hsize. unfold acfs_write.
  destruct (Z.eqb_spec size 0); [done|]. reflexivity.
Qed.

(** ** Looking up an id that is not stored *)

(** On a mounted file system, when [acfs_exists(id)] is false, reading,
    deleting and sizing [id] all answer DataNotFound; the state, the
    destination buffer and the size outputs are left as they were. *)
Theorem acfs_missing_id_not_found w id :
  initialized (fs w) = true ->
  acfs_exists (Some id) w = Some (false, w) ->
  (forall data size act,
     acfs_read (Some id) (Some data) size act w
     = Some ((ACFS_ERROR_DATA_NOT_FOUND, Some data, act), w)) /\
  acfs_delete (Some id) w = Some (ACFS_ERROR_DATA_NOT_FOUND, w) /\
  (forall sz, acfs_get_size (Some id) (Some sz) w
              = Some ((ACFS_ERROR_DATA_NOT_FOUND, Some sz), w)).
Proof.
  intros Hinit Hex.
  pose proof (acfs_exists_false_inv _ _ Hinit Hex) as Hfind.
  split; [|split].
  - intros data size act. unfold acfs_read. rewrite bind_gets, Hinit.
    cbn [negb]. by rewrite (bind_find_entry _ _ _ _ Hfind).
  - unfold acfs_delete. rewrite bind_gets, Hinit.
    cbn [negb]. by rewrite (bind_find_entry _ _ _ _ Hfind).
  - intros sz. unfold acfs_get_size. rewrite bind_gets, Hinit.
    cbn [negb]. by rewrite (bind_find_entry _ _ _ _ Hfind).
Qed.

(** ** Statistics *)

Lemma usize_sub_add a b : usize (usize (a - b) + b) = usize a.
Proof. unfold usize. rewrite Zplus_mod_idemp_l. f_equal. lia. Qed.

(** On a mounted file system [acfs_get_stats] succeeds without changing
    the state; the sizes it reports always satisfy used + free = total
    in [size_t] arithmetic, the free size is the one
    [acfs_get_free_space] reports, and the count is [data_entries].
    When the header's counts are consistent (F <= N - R) nothing wraps:
    total = (N - R) * S, free = F * S and used = (N - R - F) * S. *)
Theorem acfs_get_stats_consistent w t u f c :
  initialized (fs w) = true ->
  let h := header (fs w) in
  exists T U F,
    acfs_get_stats (mk_stats (Some t) (Some u) (Some f) (Some c)) w
    = Some ((ACFS_OK,
             mk_stats (Some T) (Some U) (Some F) (Some (data_entries h))), w) /\
    usize (U + F) = T /\
    acfs_get_free_space (Some f) w = Some ((ACFS_OK, Some F), w) /\
    (is_u16 (total_clusters h) -> is_u16 (cluster_size h) ->
     0 <= sys_clusters h -> 0 <= free_clusters h ->
     free_clusters h <= total_clusters h - sys_clusters h ->
     T = (total_clusters h - sys_clusters h) * cluster_size h /\
     F = free_clusters h * cluster_size h /\
     U = (total_clusters h - sys_clusters h - free_clusters h)
         * cluster_size h).
Proof.
  intros Hinit h. unfold acfs_get_stats, acfs_get_free_space.
  rewrite !bind_gets, Hinit. cbn [negb]. rewrite !bind_gets. fold h.
  cbn [total_size used_size free_size data_count fmap option_fmap option_map].
  eexists _, _, _. split; [reflexivity|]. split; [|split; [reflexivity|]].
  - rewrite usize_sub_add. unfold usize. apply Z.mod_mod. lia.
  - intros HN HS HR HF HFN. unfold is_u16 in *.
    assert (usize (total_clusters h - sys_clusters h)
            = total_clusters h - sys_clusters h) as ->
      by (unfold usize; apply Z.mod_small; lia).
    assert (usize ((total_clusters h - sys_clusters h) * cluster_size h)
            = (total_clusters h - sys_clusters h) * cluster_size h) as ->
      by (unfold usize; apply Z.mod_small; nia).
    assert (usize (free_clusters h * cluster_size h)
            = free_clusters h * cluster_size h) as ->
      by (unfold usize; apply Z.mod_small; nia).
    split; [done|]. split; [done|].
    unfold usize. rewrite Z.mod_small; nia.
Qed.

(** ** Names *)

Lemma strlen_c_chars s : strlen s = Z.of_nat (length (c_chars s)).
Proof.
  induction s as [|c s IH]; [done|]. cbn [strlen c_chars].
  destruct (c =? 0); [done|]. cbn [length]. lia.
Qed.

Lemma strncmp_eq_nul s n : strncmp_eq [0] s (S n) = true <-> c_chars s = [].
Proof.
  cbn [strncmp_eq hd]. destruct s as [|c s]; cbn [hd c_chars]; [done|].
  destruct (Z.eqb_spec 0 c) as [<-|Hc]; [done|].
  destruct (Z.eqb_spec c 0); [lia|done].
Qed.

Lemma strncmp_eq_nul_l l s n :
  strncmp_eq (0 :: l) s (S n) = true <-> c_chars s = [].
Proof.
  cbn [strncmp_eq hd]. destruct s as [|c s]; cbn [hd c_chars]; [done|].
  destruct (Z.eqb_spec 0 c) as [<-|Hc]; [done|].
  destruct (Z.eqb_spec c 0); [lia|done].
Qed.

Lemma strncmp_stored n : forall id id',
  strlen id <= Z.of_nat n ->
  strncmp_eq (strncpy id n ++ [0]) id' (S n) = true <-> c_chars id' = c_chars id.
Proof.
  induction n as [|n IH]; intros id id' Hlen.
  - assert (c_chars id = []) as ->.
    { pose proof (strlen_c_chars id). destruct (c_chars id); [done|].
      simpl in *. lia. }
    assert (strncpy id 0 = []) as -> by (by destruct id).
    apply strncmp_eq_nul.
  - destruct id as [|c id].
    + cbn [strncpy c_chars]. change (repeat 0 (S n) ++ [0])
        with (0 :: (repeat 0 n ++ [0])). apply strncmp_eq_nul_l.
    + cbn [strncpy c_chars strlen] in *.
      destruct (Z.eqb_spec c 0) as [->|Hc].
      * change (repeat 0 (S n) ++ [0]) with (0 :: (repeat 0 n ++ [0])).
        apply strncmp_eq_nul_l.
      * rewrite <- app_comm_cons.
        remember (S n) as m eqn:Hm. cbn [strncmp_eq hd tl]. subst m.
        destruct id' as [|c' id']; cbn [hd tl c_chars].
        -- destruct (Z.eqb_spec c 0); [lia|]. done.
        -- destruct (Z.eqb_spec c c') as [<-|Hcc].
           ++ destruct (Z.eqb_spec c 0); [lia|].
              rewrite IH by lia. split; [by intros ->|by intros [= ->]].
           ++ destruct (Z.eqb_spec c' 0); [done|].
              split; [done|]. intros [= ? _]. congruence.
Qed.

(** The name [acfs_write] stores for an id (its first 31 characters, NUL
    terminated) is matched by [acfs_find_entry]'s comparison with exactly
    the ids that are the same C string: no two different names of fewer
    than 32 characters are ever confused, and bytes after the terminator
    play no part. *)
Theorem stored_id_matches_same_name id id' :
  strlen id < ACFS_MAX_DATA_ID_LEN ->
  strncmp_eq (strncpy id (Z.to_nat (ACFS_MAX_DATA_ID_LEN - 1)) ++ [0]) id'
             (Z.to_nat ACFS_MAX_DATA_ID_LEN) = true
  <-> c_chars id' = c_chars id.
Proof.
  intros Hlen. change (Z.to_nat (ACFS_MAX_DATA_ID_LEN - 1)) with 31%nat.
  change (Z.to_nat ACFS_MAX_DATA_ID_LEN) with (S 31).
  apply strncmp_stored. unfold ACFS_MAX_DATA_ID_LEN in Hlen. lia.
Qed.

(** ** The capacity of the directory *)

(** The directory of a file system with R reserved clusters of S bytes
    has room for (R * S - 20) / 56 entries.  When that many are stored,
    writing an id that is not present is refused with ClusterFull and
    nothing is changed. *)
Theorem acfs_write_directory_full w id data size :
  let h := header (fs w) in
  initialized (fs w) = true ->
  acfs_exists (Some id) w = Some (false, w) ->
  strlen id < ACFS_MAX_DATA_ID_LEN -> size <> 0 -> cluster_size h <> 0 ->
  20 <= sys_clusters h * cluster_size h < 2 ^ 64 ->
  (sys_clusters h * cluster_size h - 20) / 56 <= data_entries h ->
  acfs_write (Some id) (Some data) size w
  = Some (ACFS_ERROR_CLUSTER_FULL, w).
Proof.
  intros h Hinit Hex Hlen Hsize HS HRS Hfull.
  pose proof (acfs_exists_false_inv _ _ Hinit Hex) as Hfind.
  unfold acfs_write. destruct (Z.eqb_spec size 0); [done|].
  rewrite bind_gets, Hinit. cbn [negb].
  destruct (Z.leb_spec ACFS_MAX_DATA_ID_LEN (strlen id)); [lia|].
  rewrite bind_gets. fold h.
  unfold acfs_calculate_clusters_needed.
  destruct (Z.eqb_spec (cluster_size h) 0); [done|].
  cbn [deref]. rewrite bind_ret.
  unfold acfs_write_entry. unfold bind at 1.
  rewrite (bind_find_entry _ _ _ _ Hfind), bind_gets. fold h.
  assert ((max_entries_of h <=? data_entries h) = true) as ->.
  { apply Z.leb_le. unfold max_entries_of, usize, sizeof_acfs_header_t,
      sizeof_acfs_data_entry_t. rewrite Z.mod_small by lia. done. }
  reflexivity.
Qed.

(** ** What [acfs_init] refuses *)

Lemma power_of_two_sizes cs :
  ACFS_CLUSTER_SIZE_MIN <= cs <= ACFS_CLUSTER_SIZE_MAX ->
  Z.land cs (cs - 1) = 0 ->
  cs ∈ [64; 128; 256; 512; 1024; 2048; 4096].
Proof.
  unfold ACFS_CLUSTER_SIZE_MIN, ACFS_CLUSTER_SIZE_MAX. intros Hr Hl.
  assert (forallb (fun c => negb (Z.land c (c - 1) =? 0)
                            || bool_decide
                                 (c ∈ [64; 128; 256; 512; 1024; 2048; 4096]))
                  (seqZ 64 4033) = true) as Hall by (vm_compute; reflexivity).
  rewrite forallb_forall in Hall.
  specialize (Hall cs). rewrite Hl in Hall. cbn [Z.eqb negb orb] in Hall.
  assert (In cs (seqZ 64 4033)) as Hin
    by (apply list_elem_of_In, elem_of_seqZ; lia).
  apply Hall in Hin. by apply bool_decide_eq_true in Hin.
Qed.

(** [acfs_init] accepts seven cluster sizes, the powers of two from 64 to
    4096: with any other it returns InvalidParam; on an instance that is
    already mounted it returns AlreadyInitialized, whatever the
    configuration.  Both refusals leave the instance and the medium as
    they were. *)
Theorem acfs_init_refuses w dev config :
  (initialized (fs w) = true ->
   acfs_init (Some dev) (Some config) w
   = Some (ACFS_ERROR_ALREADY_INITIALIZED, w)) /\
  (initialized (fs w) = false ->
   cfg_cluster_size config ∉ [64; 128; 256; 512; 1024; 2048; 4096] ->
   acfs_init (Some dev) (Some config) w
   = Some (ACFS_ERROR_INVALID_PARAM, w)).
Proof.
  unfold acfs_init. rewrite bind_gets. split; intros ->; [done|].
  intros Hcs. set (cs := cfg_cluster_size config) in *.
  destruct (Z.ltb_spec cs ACFS_CLUSTER_SIZE_MIN); [done|].
  destruct (Z.ltb_spec ACFS_CLUSTER_SIZE_MAX cs); [done|].
  destruct (Z.eqb_spec (Z.land cs (cs - 1)) 0) as [Hl|]; [|done].
  exfalso. apply Hcs. by apply power_of_two_sizes.
Qed.

(** ** Mounting: what is read and what is written *)

Lemma acfs_load_header_inv w r w' :
  acfs_load_header w = Some (r, w') ->
  exists dev,
    storage (fs w) = Some dev /\
    match ops_read (ops dev) (start_addr dev) sizeof_acfs_header_t (medium w)
    with
    | None => r = ACFS_ERROR_IO_ERROR /\ w' = w
    | Some bs =>
        w' = mk_world (set_header (header_of_bytes bs) (fs w)) (medium w) /\
        (r = ACFS_OK ->
         magic (header_of_bytes bs) = ACFS_MAGIC_NUMBER /\
         header_crc32 (header_of_bytes bs)
         = acfs_crc32 (take (Z.to_nat (sizeof_acfs_header_t - 4))
                            (header_bytes (header_of_bytes bs))))
    end.
Proof.
  unfold acfs_load_header. intros H.
  apply bind_Some in H as (dev & w1 & Hdev & H).
  apply bind_Some in Hdev as (odev & w0 & Hg & Hdev).
  apply gets_inv in Hg as [-> ->]. apply deref_inv in Hdev as [Hst ->].
  exists dev. split; [done|].
  apply bind_Some in H as (rd & w1 & Hr & H).
  apply storage_read_inv in Hr as (-> & dev2 & Hst2 & ->).
  rewrite Hst in Hst2. injection Hst2 as <-.
  destruct (ops_read _ _ _ _) as [bs|].
  - apply bind_Some in H as (u & w1 & Hm & H). apply modify_inv in Hm as ->.
    destruct (negb (magic (header_of_bytes bs) =? ACFS_MAGIC_NUMBER))
      eqn:Hmagic; [by apply ret_inv in H as [-> ->]|].
    match type of H with
    | context [negb (?c =? ?d)] => destruct (negb (c =? d)) eqn:Hcrc
    end; apply ret_inv in H as [-> ->]; [done|].
    apply negb_false_iff, Z.eqb_eq in Hmagic, Hcrc.
    split; [done|]. intros _. split; [exact Hmagic|]. symmetry. exact Hcrc.
  - by apply ret_inv in H as [-> ->].
Qed.

Lemma load_cluster_lists_inv ea esz n : forall i w r w',
  load_cluster_lists ea esz i n w = Some (r, w') ->
  exists es', fs w' = set_entries es' (fs w) /\ medium w' = medium w.
Proof.
  induction n as [|n IH]; intros i w r w' H.
  - apply ret_inv in H as [_ ->]. exists (entries (fs w)).
    by destruct (fs w).
  - cbn [load_cluster_lists] in H.
    apply bind_Some in H as (es & w1 & Hg & H). apply gets_inv in Hg as [-> ->].
    apply bind_Some in H as (e & w1 & Hc & H). apply deref_inv in Hc as [Hli ->].
    destruct (0 <? cluster_count e).
    + apply bind_Some in H as (rd & w1 & Hr & H).
      apply storage_read_inv in Hr as (-> & _).
      destruct rd as [bs|].
      * apply bind_Some in H as (u & w1 & Hm & H). apply modify_inv in Hm as ->.
        apply IH in H as (es' & Hfs & Hmed). exists es'.
        rewrite Hfs, Hmed. done.
      * apply bind_Some in H as (u & w1 & Hm & H). apply modify_inv in Hm as ->.
        apply ret_inv in H as [_ ->]. eexists. done.
    + by apply IH in H.
Qed.

Lemma acfs_load_entries_inv w r w' :
  acfs_load_entries w = Some (r, w') ->
  exists es', fs w' = set_entries es' (fs w) /\ medium w' = medium w.
Proof.
  unfold acfs_load_entries. intros H.
  apply bind_Some in H as (dev & w1 & Hdev & H).
  apply bind_Some in Hdev as (odev & w0 & Hg & Hdev).
  apply gets_inv in Hg as [-> ->]. apply deref_inv in Hdev as [Hst ->].
  apply bind_Some in H as (h & w1 & Hg & H). apply gets_inv in Hg as [-> ->].
  assert (exists es', fs w = set_entries es' (fs w) /\ medium w = medium w)
    as Hsame by (exists (entries (fs w)); by destruct (fs w)).
  case_match; [by apply ret_inv in H as [_ ->]|].
  apply bind_Some in H as (rd & w1 & Hr & H).
  apply storage_read_inv in Hr as (-> & _).
  destruct rd as [bs|]; [|by apply ret_inv in H as [_ ->]].
  apply bind_Some in H as (es & w1 & Hg & H). apply gets_inv in Hg as [-> ->].
  case_match; [done|].
  apply bind_Some in H as (u & w1 & Hm & H). apply modify_inv in Hm as ->.
  apply load_cluster_lists_inv in H as (es' & Hfs & Hmed).
  exists es'. rewrite Hfs, Hmed. done.
Qed.

Lemma lift_inv {A} (f : acfs_t -> option (A * acfs_t)) w a w' :
  lift f w = Some (a, w') ->
  exists s, f (fs w) = Some (a, s) /\ w' = mk_world s (medium w).
Proof.
  unfold lift. destruct (f (fs w)) as [[a' s]|]; [|done].
  intros [= <- <-]. eauto.
Qed.

Lemma acfs_init_bitmap_inv a r a' :
  acfs_init_bitmap a = Some (r, a') ->
  r = ACFS_OK /\ exists bm, a' = store_bitmap bm a.
Proof.
  unfold acfs_init_bitmap. intros H.
  repeat case_match; try discriminate. injection H as <- <-. eauto.
Qed.

(** Without [format_if_invalid], [acfs_init] never writes: whatever it
    returns, the medium is as it was.  It succeeds only when the 20 bytes
    at [start_addr] are a header with the magic number, a checksum that
    matches and the configured cluster size; that header is then the one
    of the mounted instance. *)
Theorem acfs_init_without_format dev config w r w' :
  format_if_invalid config = false ->
  initialized (fs w) = false ->
  acfs_init (Some dev) (Some config) w = Some (r, w') ->
  medium w' = medium w /\
  (r = ACFS_OK ->
   exists bs,
     ops_read (ops dev) (start_addr dev) sizeof_acfs_header_t (medium w)
     = Some bs /\
     header (fs w') = header_of_bytes bs /\
     magic (header_of_bytes bs) = ACFS_MAGIC_NUMBER /\
     header_crc32 (header_of_bytes bs)
     = acfs_crc32 (take (Z.to_nat (sizeof_acfs_header_t - 4))
                        (header_bytes (header_of_bytes bs))) /\
     cluster_size (header_of_bytes bs) = cfg_cluster_size config /\
     initialized (fs w') = true).
Proof.
  intros Hfmt Hinit H. unfold acfs_init in H.
  rewrite bind_gets, Hinit in H.
  case_match; [by apply ret_inv in H as [-> ->]|].
  rewrite bind_modify in H. cbn [fs medium] in H.
  apply bind_Some in H as (ret1 & w1 & Hload & H).
  apply acfs_load_header_inv in Hload as (dev' & Hst & Hload).
  cbn [fs storage set_storage zero_acfs medium] in Hst, Hload.
  injection Hst as <-.
  rewrite bind_gets, Hfmt in H.
  destruct (ops_read _ _ _ _) as [bs|] eqn:Hread.
  2:{ destruct Hload as [-> ->]. cbn [is_ok] in H. rewrite bind_ret in H.
      cbn [is_ok negb] in H. by apply ret_inv in H as [-> ->]. }
  destruct Hload as [-> Hok]. cbn [fs header set_header] in H.
  remember (header_of_bytes bs) as hb eqn:Hhb.
  destruct (is_ok_spec ret1) as [->|Hne];
    [|rewrite bind_ret in H; by apply ret_inv in H as [-> ->]].
  destruct (Hok eq_refl) as [Hmagic Hcrc].
  destruct (Z.eqb_spec (magic hb) ACFS_MAGIC_NUMBER) as [_|]; [|done].
  destruct (Z.eqb_spec (cluster_size hb) (cfg_cluster_size config)) as [Hcs|];
    cbn [negb is_ok orb] in H;
    [|rewrite bind_ret in H; by apply ret_inv in H as [-> ->]].
  rewrite bind_ret in H. cbn [is_ok negb] in H.
  rewrite bind_gets, !bind_modify in H. cbn [fs medium] in H.
  apply bind_Some in H as (ret3 & w3 & Hle & H).
  apply acfs_load_entries_inv in Hle as (es' & Hfs3 & Hmed3).
  cbn [fs medium] in Hfs3, Hmed3.
  destruct (is_ok_spec ret3) as [->|Hne]; cbn [negb] in H;
    [|apply ret_inv in H as [-> ->]; split; [done|done]].
  apply bind_Some in H as (ret4 & w4 & Hib & H).
  apply lift_inv in Hib as (s & Hib & ->).
  apply acfs_init_bitmap_inv in Hib as [-> [bm ->]]. cbn [is_ok negb] in H.
  rewrite bind_modify in H. apply ret_inv in H as [-> ->].
  cbn [fs medium]. split; [done|]. intros _.
  exists bs. rewrite Hfs3, <- Hhb.
  split; [reflexivity|]. split; [reflexivity|]. split; [exact Hmagic|].
  split; [exact Hcrc|]. split; [exact Hcs|reflexivity].
Qed.

(** ** The integrity check *)

Lemma fresh_block_length garbage size :
  length (fresh_block garbage size) = Z.to_nat size.
Proof. unfold fresh_block. by rewrite length_map, length_seq. Qed.

Lemma bind_storage_read {B} addr size (k : option (list Z) -> M B) w dev :
  storage (fs w) = Some dev ->
  bind (storage_read addr size) k w
  = k (ops_read (ops dev) addr size (medium w)) w.
Proof.
  intros Hst. unfold bind at 1. unfold storage_read.
  unfold bind at 1. unfold bind at 1. unfold gets. rewrite Hst. reflexivity.
Qed.

(** The read loop runs off the end of a destination that is shorter than
    the clusters it copies. *)
Lemma read_clusters_loop_overflow l n : forall i data w,
  0 <= cluster_size (header (fs w)) ->
  (forall c, c ∈ l -> is_Some (cluster_on_medium w c)) ->
  n <> 0%nat ->
  Z.of_nat (length data) < Z.of_nat (i + n) * cluster_size (header (fs w)) ->
  read_clusters_loop l n i data w = None.
Proof.
  induction n as [|n IH]; intros i data w HS Hread Hn Hshort; [done|].
  cbn [read_clusters_loop].
  destruct (storage (fs w)) as [dev|] eqn:Hst;
    [|unfold bind at 1; unfold bind at 1; unfold gets; by rewrite Hst].
  unfold bind at 1. unfold bind at 1. unfold gets at 1. rewrite Hst.
  cbn [deref ret]. rewrite bind_gets.
  destruct (l !! i) as [c|] eqn:Hc; [|done]. cbn [deref]. rewrite bind_ret.
  rewrite (bind_storage_read _ _ _ _ dev Hst).
  destruct (Hread c) as [bs Hbs]; [by eapply list_elem_of_lookup_2|].
  unfold cluster_on_medium in Hbs. rewrite Hst in Hbs. rewrite Hbs.
  pose proof (ops_read_length _ _ _ _ _ (u32_nonneg _) HS Hbs) as Hlen.
  destruct (Z.ltb_spec (Z.of_nat (length data))
              (Z.of_nat i * cluster_size (header (fs w))
               + cluster_size (header (fs w)))) as [|Hfit]; [done|].
  apply IH; [done|done| |].
  - intros ->. lia.
  - rewrite splice_length by lia. lia.
Qed.

(** [acfs_check_integrity] gives the read loop a block of [data_size]
    bytes and lets it copy [cluster_count] whole clusters into it.  When
    the first valid entry's size is not a whole number of clusters (any
    size that is not a multiple of the cluster size, as [acfs_write]
    stores it), the last cluster is copied past the end of the block: the
    check has no defined result. *)
Theorem acfs_check_integrity_overflows garbage w i e :
  let h := header (fs w) in
  initialized (fs w) = true ->
  Z.of_nat i < data_entries h ->
  (forall j e', (j < i)%nat -> array_of (entries (fs w)) !! j = Some e' ->
                is_valid e' = false) ->
  array_of (entries (fs w)) !! i = Some e ->
  is_valid e = true ->
  0 < cluster_size h ->
  0 <= data_size e < cluster_count e * cluster_size h ->
  (forall c, c ∈ block_of (cluster_list e) ->
             is_Some (cluster_on_medium w c)) ->
  acfs_check_integrity garbage w = None.
Proof.
  intros h Hinit Hi Hbefore He Hvalid HS Hsize Hread.
  unfold acfs_check_integrity. rewrite bind_gets, Hinit. cbn [negb].
  rewrite bind_gets. fold h.
  assert (forall k j n, (j + k = i)%nat -> (i < j + n)%nat ->
            check_integrity_loop garbage n j w = None) as Hloop.
  { induction k as [|k IH]; intros j n Hj Hn.
    - rewrite Nat.add_0_r in Hj. subst j.
      destruct n as [|n]; [lia|]. cbn [check_integrity_loop].
      rewrite (bind_entry_at _ _ _ _ He), Hvalid. cbn [negb].
      unfold bind, acfs_read_clusters.
      rewrite read_clusters_loop_overflow; [done|fold h; lia|done| |].
      + nia.
      + rewrite fresh_block_length. fold h. nia.
    - destruct n as [|n]; [lia|]. cbn [check_integrity_loop].
      destruct (lookup_lt_is_Some_2 (array_of (entries (fs w))) j) as [e' He'].
      { apply lookup_lt_Some in He. lia. }
      rewrite (bind_entry_at _ _ _ _ He').
      rewrite (Hbefore j e') by (done || lia). cbn [negb].
      apply IH; lia. }
  apply (Hloop i 0%nat); lia.
Qed.

Lemma read_only_check_integrity_loop garbage n : forall i,
  read_only (check_integrity_loop garbage n i).
Proof.
  induction n as [|n IH]; intros i; cbn [check_integrity_loop].
  - apply read_only_ret.
  - apply read_only_bind; [apply read_only_entry_at|].
    intros entry. destruct (negb (is_valid entry)); [apply IH|].
    apply read_only_bind; [apply read_only_read_clusters_loop|].
    intros r. destruct (negb (is_ok r.1)); [apply read_only_ret|].
    apply read_only_bind; [apply read_only_deref|].
    intros bytes. case_match; [apply read_only_ret | apply IH].
Qed.


Lemma check_integrity_loop_ok garbage n : forall i w w',
  0 <= cluster_size (header (fs w)) ->
  check_integrity_loop garbage n i w = Some (ACFS_OK, w') ->
  forall k e, (k < n)%nat ->
    array_of (entries (fs w)) !! (i + k)%nat = Some e ->
    is_valid e = true -> entry_checked garbage w e.
Proof.
  induction n as [|n IH]; intros i w w' HS H k e Hk He Hvalid; [lia|].
  cbn [check_integrity_loop] in H.
  apply bind_Some in H as (entry & w1 & Hent & H).
  apply entry_at_inv in Hent as [Hent ->].
  assert (forall w2, check_integrity_loop garbage n (S i) w = Some (ACFS_OK, w2) ->
                     k <> 0%nat -> entry_checked garbage w e) as Hnext.
  { intros w2 H2 Hk0. apply (IH (S i) w w2 HS H2 (k - 1)%nat); [lia| |done].
    rewrite <- He. f_equal. lia. }
  destruct (is_valid entry) eqn:Hv; cbn [negb] in H.
  2:{ destruct k as [|k]; [|by eapply Hnext].
      rewrite Nat.add_0_r in He. congruence. }
  apply bind_Some in H as ([r out] & w1 & Hrd & H).
  pose proof (read_only_read_clusters_loop _ _ _ _ _ _ _ Hrd) as ->.
  cbn [fst snd] in H.
  destruct (is_ok_spec r) as [->|Hne]; cbn [negb] in H;
    [|apply ret_inv in H as [Heq _]; congruence].
  apply bind_Some in H as (bytes & w1 & Hb & H).
  apply deref_inv in Hb as [Hb ->].
  destruct (negb (acfs_crc32 bytes =? crc32 entry)) eqn:Hcrc;
    [by apply ret_inv in H as [[=] _]|].
  destruct k as [|k]; [|by eapply Hnext].
  rewrite Nat.add_0_r in He. rewrite Hent in He. injection He as <-.
  apply negb_false_iff, Z.eqb_eq in Hcrc.
  apply memcpy_src_Some in Hb as [-> _].
  unfold acfs_read_clusters in Hrd.
  apply read_clusters_loop_spec in Hrd
    as (copied & Hlen & Hbound & Hout & Hreads); [|done].
  cbn zeta in Hlen, Hbound, Hout, Hreads.
  rewrite fresh_block_length in Hbound.
  set (s := cluster_size (header (fs w))) in *.
  set (K := Z.to_nat (cluster_count entry)) in *.
  exists copied. fold s K.
  assert (Z.of_nat (length copied) = Z.of_nat K * s) as HKs
    by (rewrite Hlen; lia).
  split; [exact HKs|]. split; [|split].
  - intros HK. specialize (Hbound HK). lia.
  - intros j Hj. destruct (Hreads j Hj) as (c & Hc & Hmed).
    exists c. split; [done|]. rewrite Hmed. unfold slice.
    do 3 f_equal. lia.
  - rewrite <- Hcrc, Hout. rewrite take_0, app_nil_l.
    do 4 f_equal. lia.
Qed.

(** When [acfs_check_integrity] answers Ok, the state is unchanged and
    every valid entry of the directory has passed the check: its clusters
    on the medium fit [data_size] and hash to the stored CRC-32. *)
Theorem acfs_check_integrity_ok garbage w w' :
  0 <= cluster_size (header (fs w)) ->
  acfs_check_integrity garbage w = Some (ACFS_OK, w') ->
  w' = w /\
  forall i e, Z.of_nat i < data_entries (header (fs w)) ->
    array_of (entries (fs w)) !! i = Some e -> is_valid e = true ->
    entry_checked garbage w e.
Proof.
  intros HS H. unfold acfs_check_integrity in H. rewrite bind_gets in H.
  destruct (initialized (fs w)); cbn [negb] in H;
    [|by apply ret_inv in H as [[=] _]].
  rewrite bind_gets in H. split.
  - by eapply read_only_check_integrity_loop.
  - intros i e Hi He Hvalid.
    eapply (check_integrity_loop_ok _ _ 0%nat w w' HS H i); [lia|done|done].
Qed.

(** ** The steps of [acfs_write] *)

Lemma acfs_write_steps id data size w r w1 :
  acfs_write (Some id) (Some data) size w = Some (r, w1) ->
  r <> ACFS_ERROR_INVALID_PARAM -> r <> ACFS_ERROR_NOT_INITIALIZED ->
  initialized (fs w) = true /\ size <> 0 /\
  strlen id < ACFS_MAX_DATA_ID_LEN /\
  exists K ri wa,
    acfs_calculate_clusters_needed (cluster_size (header (fs w))) size
    = Some K /\
    acfs_write_entry id K w = Some (ri, wa) /\
    match ri with
    | inl e => r = e /\ w1 = wa
    | inr i => acfs_write_data i data size wa = Some (r, w1)
    end.
Proof.
  unfold acfs_write. intros H Hr1 Hr2.
  destruct (Z.eqb_spec size 0) as [|Hsize];
    [by apply ret_inv in H as [-> _]|].
  rewrite bind_gets in H.
  destruct (initialized (fs w)); cbn [negb] in H;
    [|by apply ret_inv in H as [-> _]].
  destruct (Z.leb_spec ACFS_MAX_DATA_ID_LEN (strlen id)) as [|Hlen];
    [by apply ret_inv in H as [-> _]|].
  rewrite bind_gets in H.
  apply bind_Some in H as (K & w0 & HK & H). apply deref_inv in HK as [HK ->].
  apply bind_Some in H as (ri & wa & Hentry & H).
  split; [done|]. split; [done|]. split; [done|].
  exists K, ri, wa. split; [done|]. split; [done|].
  destruct ri as [e|i]; [by apply ret_inv in H as [-> ->]|done].
Qed.

Lemma storage_write_ok addr data size w w' :
  storage_write addr data size w = Some (true, w') ->
  exists dev m',
    storage (fs w) = Some dev /\
    ops_write (ops dev) addr data size (medium w) = Some (Some m') /\
    w' = mk_world (fs w) m'.
Proof.
  unfold storage_write. intros H.
  apply bind_Some in H as (dev & w1 & Hdev & H).
  apply bind_Some in Hdev as (odev & w0 & Hg & Hdev).
  apply gets_inv in Hg as [-> ->]. apply deref_inv in Hdev as [Hst ->].
  exists dev. destruct (ops_write _ _ _ _ _) as [[m'|]|]; [|done..].
  injection H as <-. eauto.
Qed.

Lemma ops_write_src o addr data size m m' :
  ops_write o addr data size m = Some (Some m') ->
  size <= Z.of_nat (length data).
Proof.
  destruct o; cbn [ops_write]; unfold eeprom_write, flash_write;
    repeat case_match; try discriminate; intros _;
    match goal with
    | H : memcpy_src _ _ = Some _ |- _ => by apply memcpy_src_Some in H as [_ ?]
    end.
Qed.

(** Each cluster written is read in full from the source. *)
Lemma write_clusters_loop_reads l n : forall i data w w',
  0 < cluster_size (header (fs w)) ->
  write_clusters_loop l n i data w = Some (ACFS_OK, w') ->
  n <> 0%nat ->
  Z.of_nat (i + n) * cluster_size (header (fs w)) <= Z.of_nat (length data).
Proof.
  induction n as [|n IH]; intros i data w w' HS H Hn; [done|].
  cbn [write_clusters_loop] in H.
  apply bind_Some in H as (dev & w1 & Hdev & H).
  apply bind_Some in Hdev as (odev & w0 & Hg & Hdev).
  apply gets_inv in Hg as [-> ->]. apply deref_inv in Hdev as [Hst ->].
  apply bind_Some in H as (h & w1 & Hg & H). apply gets_inv in Hg as [-> ->].
  apply bind_Some in H as (c & w1 & Hc & H). apply deref_inv in Hc as [Hli ->].
  apply bind_Some in H as (ok & w1 & Hw & H).
  destruct ok; cbn [negb] in H; [|by apply ret_inv in H as [[=] _]].
  apply storage_write_ok in Hw as (dev' & m' & _ & Hw & ->).
  apply ops_write_src in Hw. rewrite length_drop in Hw.
  destruct n as [|n].
  - lia.
  - apply IH in H; [|done|done]. cbn [fs] in H. lia.
Qed.

Lemma acfs_write_data_inv i data size wa w1 :
  acfs_write_data i data size wa = Some (ACFS_OK, w1) ->
  exists es e,
    entries (fs wa) = Some es /\ es !! i = Some e /\
    size <= Z.of_nat (length data) /\
    (0 < cluster_size (header (fs wa)) -> 0 < cluster_count e ->
     cluster_count e * cluster_size (header (fs wa))
     <= Z.of_nat (length data)) /\
    fs w1 = set_header (header_with_crc (header (fs wa)))
              (set_entries
                 (Some (<[i := set_crc32
                                  (acfs_crc32 (take (Z.to_nat size) data))
                                  (set_data_size (u32 size) e)]> es))
                 (fs wa)).
Proof.
  unfold acfs_write_data. intros H.
  apply bind_Some in H as (bytes & w0 & Hb & H). apply deref_inv in Hb as [Hb ->].
  apply memcpy_src_Some in Hb as [-> Hsize].
  apply bind_Some in H as (u & w2 & Hupd & H).
  apply update_entry_inv in Hupd as (es & e & Hes & He & ->).
  apply bind_Some in H as (entry & w3 & Hent & H).
  apply entry_at_inv in Hent as [Hent ->]. cbn [fs entries set_entries array_of]
    in Hent.
  rewrite list_lookup_insert_eq in Hent by (by eapply lookup_lt_Some).
  injection Hent as <-.
  apply bind_Some in H as (r1 & w4 & Hwc & H).
  pose proof (write_clusters_loop_fs _ _ _ _ _ _ _ Hwc) as Hfs4.
  destruct (is_ok_spec r1) as [->|Hne]; cbn [negb] in H;
    [|apply ret_inv in H as [Heq _]; congruence].
  apply bind_Some in H as (r2 & w5 & Hsh & H).
  apply acfs_save_header_inv in Hsh as [Hfs5 _].
  destruct (is_ok_spec r2) as [->|Hne]; cbn [negb] in H;
    [|apply ret_inv in H as [Heq _]; congruence].
  apply acfs_save_entries_fs in H as Hfs1.
  exists es, e. split; [done|]. split; [done|]. split; [done|]. split.
  - intros HS HK. unfold acfs_write_clusters in Hwc.
    apply write_clusters_loop_reads in Hwc; [|by destruct (fs wa)|];
      cbn [cluster_count set_crc32 set_data_size] in *.
    + cbn [fs set_entries header] in Hwc. lia.
    + lia.
  - rewrite Hfs1, Hfs5, Hfs4. cbn [fs]. by destruct (fs wa).
Qed.

Lemma acfs_allocate_clusters_frame K a e l a' :
  acfs_allocate_clusters K a = Some (e, l, a') ->
  storage a' = storage a /\ entries a' = entries a /\
  initialized a' = initialized a /\ cluster_buffer a' = cluster_buffer a /\
  exists F, header a' = set_free_clusters F (header a).
Proof.
  unfold acfs_allocate_clusters. intros H.
  assert (header a = set_free_clusters (free_clusters (header a)) (header a))
    as Hsame by (by destruct (header a)).
  repeat case_match; simplify_eq; cbn; eauto 10.
Qed.

Lemma acfs_free_clusters_frame p c a a' :
  acfs_free_clusters p c a = Some a' ->
  storage a' = storage a /\ entries a' = entries a /\
  initialized a' = initialized a /\ cluster_buffer a' = cluster_buffer a /\
  exists F, header a' = set_free_clusters F (header a).
Proof.
  unfold acfs_free_clusters. intros H.
  repeat case_match; simplify_eq; cbn; eauto 10.
Qed.

(** The first half of [acfs_write] on an id that is stored. *)
Lemma acfs_write_entry_found id K w i ri wa :
  acfs_find_entry id (fs w) = Some (Some i) ->
  acfs_write_entry id K w = Some (ri, wa) ->
  exists es e,
    entries (fs w) = Some es /\ es !! i = Some e /\ medium wa = medium w /\
    ((cluster_count e = K /\ ri = inr i /\ wa = w) \/
     (cluster_count e <> K /\
      exists a1 err l a2,
        acfs_free_clusters (cluster_list e) (cluster_count e) (fs w) = Some a1 /\
        acfs_allocate_clusters K a1 = Some (err, l, a2) /\
        ((err = ACFS_OK /\ ri = inr i /\
          fs wa = set_entries
                    (Some (<[i := set_cluster_count K
                                    (set_cluster_list (Ptr l) e)]> es)) a2) \/
         (err <> ACFS_OK /\ ri = inl err /\
          fs wa = set_entries (Some (<[i := set_cluster_list NULL e]> es))
                              a2)))).
Proof.
  intros Hfind H. unfold acfs_write_entry in H.
  rewrite (bind_find_entry _ _ _ _ Hfind) in H.
  apply bind_Some in H as (e & w0 & Hent & H).
  apply entry_at_inv in Hent as [Hent ->].
  destruct (entries (fs w)) as [es|] eqn:Hes; [|done]. cbn [array_of] in Hent.
  exists es, e. split; [done|]. split; [done|].
  destruct (Z.eqb_spec (cluster_count e) K) as [HK|HK]; cbn [negb] in H.
  { apply ret_inv in H as [-> ->]. split; [done|]. by left. }
  apply bind_Some in H as (u & w2 & Hfree & H).
  apply free_clusters_step_inv in Hfree as (a1 & Hfree & ->).
  apply bind_Some in H as (u' & w2 & Hfb & H).
  apply read_only_free_block in Hfb as ->.
  apply bind_Some in H as ([err l] & w3 & Halloc & H).
  apply allocate_clusters_step_inv in Halloc as (a2 & Halloc & ->).
  cbn [fst snd fs medium] in Halloc, H.
  destruct (acfs_free_clusters_frame _ _ _ _ Hfree) as (_ & Hes1 & _).
  destruct (acfs_allocate_clusters_frame _ _ _ _ _ Halloc) as (_ & Hes2 & _).
  assert (entries a2 = Some es) as Hes' by congruence.
  destruct (is_ok_spec err) as [->|Hne]; cbn [negb] in H.
  - apply bind_Some in H as (u2 & w4 & Hupd & H).
    apply update_entry_inv in Hupd as (es2 & e2 & Hes2' & He2 & ->).
    cbn [fs] in Hes2'. rewrite Hes' in Hes2'. injection Hes2' as <-.
    rewrite Hent in He2. injection He2 as <-.
    apply ret_inv in H as [-> ->]. split; [done|]. right. split; [done|].
    exists a1, ACFS_OK, l, a2. split; [done|]. split; [done|]. left. done.
  - apply bind_Some in H as (u2 & w4 & Hupd & H).
    apply update_entry_inv in Hupd as (es2 & e2 & Hes2' & He2 & ->).
    cbn [fs] in Hes2'. rewrite Hes' in Hes2'. injection Hes2' as <-.
    rewrite Hent in He2. injection He2 as <-.
    apply ret_inv in H as [-> ->]. split; [done|]. right. split; [done|].
    exists a1, err, l, a2. split; [done|]. split; [done|]. right. done.
Qed.

(** The first half of [acfs_write] on an id that is not stored. *)
Lemma acfs_write_entry_new id K w ri wa :
  acfs_find_entry id (fs w) = Some None ->
  acfs_write_entry id K w = Some (ri, wa) ->
  let h := header (fs w) in
  let nE := Z.to_nat (data_entries h) in
  let name := strncpy id (Z.to_nat (ACFS_MAX_DATA_ID_LEN - 1)) ++ [0] in
  medium wa = medium w /\
  ((max_entries_of h <= data_entries h /\
    ri = inl ACFS_ERROR_CLUSTER_FULL /\ wa = w) \/
   (data_entries h < max_entries_of h /\
    exists es e0 err l a2,
      entries (fs w) = Some es /\ es !! nE = Some e0 /\
      acfs_allocate_clusters K (fs w) = Some (err, l, a2) /\
      ((err = ACFS_OK /\ ri = inr nE /\
        fs wa = set_header
                  (set_data_entries (u16 (data_entries (header a2) + 1))
                                    (header a2))
                  (set_entries
                     (Some (<[nE := set_is_valid true
                                      (set_cluster_count K
                                         (set_cluster_list (Ptr l)
                                            (set_data_id name e0)))]> es))
                     a2)) \/
       (err <> ACFS_OK /\ ri = inl err /\
        fs wa = set_entries
                  (Some (<[nE := set_cluster_list NULL
                                   (set_data_id name e0)]> es)) a2)))).
Proof.
  intros Hfind H h nE name. unfold acfs_write_entry in H.
  rewrite (bind_find_entry _ _ _ _ Hfind), bind_gets in H. fold h in H.
  destruct (Z.leb_spec (max_entries_of h) (data_entries h)) as [Hfull|Hroom].
  { apply ret_inv in H as [-> ->]. split; [done|]. by left. }
  fold nE name in H.
  apply bind_Some in H as (u & w2 & Hupd & H).
  apply update_entry_inv in Hupd as (es & e0 & Hes & He0 & ->).
  apply bind_Some in H as ([err l] & w3 & Halloc & H).
  apply allocate_clusters_step_inv in Halloc as (a2' & Halloc & ->).
  cbn [fst snd fs medium] in Halloc, H.
  assert (nE < length es)%nat as HnE by (by eapply lookup_lt_Some).
  (* the allocator does not look at the directory *)
  assert (exists a2, acfs_allocate_clusters K (fs w) = Some (err, l, a2) /\
                     a2' = set_entries
                             (Some (<[nE := set_data_id name e0]> es)) a2 /\
                     entries a2 = Some es) as (a2 & Halloc2 & -> & Hes2).
  { revert Halloc. unfold acfs_allocate_clusters.
    cbn [header cluster_bitmap set_entries].
    destruct (free_clusters (header (fs w)) <? K).
    - intros [= <- <- <-]. eexists. split; [done|]. split; [|done].
      by destruct (fs w).
    - destruct (allocate_scan _ _ _ _ _) as [[bm l']|]; [|done].
      destruct (Z.of_nat (length l') <? K).
      + destruct (bitmap_clear_all l' bm); [|done].
        intros [= <- <- <-]. eexists. split; [done|]. split; [|done]. done.
      + intros [= <- <- <-]. eexists. split; [done|]. split; [|done]. done. }
  destruct (is_ok_spec err) as [->|Hne]; cbn [negb] in H.
  - apply bind_Some in H as (u2 & w4 & Hupd & H).
    apply update_entry_inv in Hupd as (es3 & e3 & Hes3 & He3 & ->).
    cbn [fs entries set_entries] in Hes3. injection Hes3 as <-.
    rewrite list_lookup_insert_eq in He3 by done. injection He3 as <-.
    rewrite bind_gets, bind_modify in H. apply ret_inv in H as [-> ->].
    split; [done|]. right. split; [done|]. exists es, e0, ACFS_OK, l, a2.
    split; [done|]. split; [done|]. split; [done|].
    left. split; [done|]. split; [done|]. cbn [fs medium].
    rewrite list_insert_insert_eq. by destruct a2.
  - apply bind_Some in H as (u2 & w4 & Hupd & H).
    apply update_entry_inv in Hupd as (es3 & e3 & Hes3 & He3 & ->).
    cbn [fs entries set_entries] in Hes3. injection Hes3 as <-.
    rewrite list_lookup_insert_eq in He3 by done. injection He3 as <-.
    apply ret_inv in H as [-> ->].
    split; [done|]. right. split; [done|]. exists es, e0, err, l, a2.
    split; [done|]. split; [done|]. split; [done|].
    right. split; [done|]. split; [done|]. cbn [fs medium].
    rewrite list_insert_insert_eq. by destruct a2.
Qed.

Lemma acfs_write_entry_finds id K w ri wa :
  acfs_write_entry id K w = Some (ri, wa) ->
  exists found, acfs_find_entry id (fs w) = Some found.
Proof.
  unfold acfs_write_entry. intros H.
  apply bind_Some in H as (found & w0 & Hf & _).
  apply find_entry_inv in Hf as [Hf _]. eauto.
Qed.


(** The [acfs_t] object after a successful [acfs_write], in its three
    cases: the id is stored with the number of clusters the new data
    needs; it is stored with another number; it is not stored. *)
Lemma acfs_write_ok_cases w id data size w1 :
  acfs_write (Some id) (Some data) size w = Some (ACFS_OK, w1) ->
  let h := header (fs w) in
  let nE := Z.to_nat (data_entries h) in
  let name := strncpy id (Z.to_nat (ACFS_MAX_DATA_ID_LEN - 1)) ++ [0] in
  initialized (fs w) = true /\ size <> 0 /\
  strlen id < ACFS_MAX_DATA_ID_LEN /\
  exists K es,
    acfs_calculate_clusters_needed (cluster_size h) size = Some K /\
    entries (fs w) = Some es /\
    size <= Z.of_nat (length data) /\
    (0 < cluster_size h -> 0 < K ->
     K * cluster_size h <= Z.of_nat (length data)) /\
    ((exists i e,
        acfs_find_entry id (fs w) = Some (Some i) /\ es !! i = Some e /\
        cluster_count e = K /\
        fs w1 = set_header (header_with_crc h)
                  (set_entries (Some (<[i := written data size e]> es))
                               (fs w))) \/
     (exists i e a1 l a2,
        acfs_find_entry id (fs w) = Some (Some i) /\ es !! i = Some e /\
        cluster_count e <> K /\
        acfs_free_clusters (cluster_list e) (cluster_count e) (fs w)
        = Some a1 /\
        acfs_allocate_clusters K a1 = Some (ACFS_OK, l, a2) /\
        fs w1 = set_header (header_with_crc (header a2))
                  (set_entries
                     (Some (<[i := written data size
                                     (set_cluster_count K
                                        (set_cluster_list (Ptr l) e))]> es))
                     a2)) \/
     (exists e0 l a2,
        acfs_find_entry id (fs w) = Some None /\
        data_entries h < max_entries_of h /\ es !! nE = Some e0 /\
        acfs_allocate_clusters K (fs w) = Some (ACFS_OK, l, a2) /\
        fs w1 = set_header
                  (header_with_crc
                     (set_data_entries (u16 (data_entries (header a2) + 1))
                                       (header a2)))
                  (set_entries
                     (Some (<[nE := written data size
                                      (set_is_valid true
                                         (set_cluster_count K
                                            (set_cluster_list (Ptr l)
                                               (set_data_id name e0))))]> es))
                     a2))).
Proof.
  intros H h nE name.
  apply acfs_write_steps in H as (Hinit & Hsize & Hlen & K & ri & wa & HK
                                  & Hentry & H); [|done..].
  split; [done|]. split; [done|]. split; [done|]. fold h in HK.
  destruct (acfs_write_entry_finds _ _ _ _ _ Hentry) as [found Hfind].
  destruct found as [i|].
  - destruct (acfs_write_entry_found _ _ _ _ _ _ Hfind Hentry)
      as (es & e & Hes & He & Hmed & Hcase).
    exists K, es. split; [done|]. split; [done|].
    destruct Hcase as [(HKe & -> & ->)|(HKe & a1 & err & l & a2 & Hfree
                                        & Halloc & Hcase)].
    + apply acfs_write_data_inv in H as (es' & e' & Hes' & He' & Hsz & Hrd & Hfs).
      rewrite Hes in Hes'. injection Hes' as <-.
      rewrite He in He'. injection He' as <-.
      split; [done|]. split; [by rewrite HKe in Hrd|]. left.
      exists i, e. done.
    + destruct Hcase as [(-> & -> & Hfsa)|(Hne & -> & _)];
        [|by destruct H as [<- _]].
      apply acfs_write_data_inv in H as (es' & e' & Hes' & He' & Hsz & Hrd & Hfs).
      rewrite Hfsa in Hes', Hrd, Hfs. cbn [entries set_entries] in Hes'.
      injection Hes' as <-.
      rewrite list_lookup_insert_eq in He' by (by eapply lookup_lt_Some).
      injection He' as <-. rewrite list_insert_insert_eq in Hfs.
      cbn [header set_entries cluster_count set_cluster_count] in Hrd, Hfs.
      destruct (acfs_free_clusters_frame _ _ _ _ Hfree) as (_ & _ & _ & _ & F1 & Hh1).
      destruct (acfs_allocate_clusters_frame _ _ _ _ _ Halloc)
        as (_ & _ & _ & _ & F2 & Hh2).
      assert (cluster_size (header a2) = cluster_size h) as HS
        by (rewrite Hh2, Hh1; reflexivity).
      rewrite HS in Hrd.
      split; [done|]. split; [done|]. right. left.
      exists i, e, a1, l, a2. split; [done|]. split; [done|]. split; [done|].
      split; [done|]. split; [done|]. rewrite Hfs. by destruct a2.
  - destruct (acfs_write_entry_new _ _ _ _ _ Hfind Hentry)
      as (Hmed & [(_ & -> & _)|(Hroom & es & e0 & err & l & a2 & Hes & He0
                                & Halloc & Hcase)]);
      [by destruct H as [[=] _]|].
    exists K, es. split; [done|]. split; [done|].
    destruct Hcase as [(-> & -> & Hfsa)|(Hne & -> & _)];
      [|by destruct H as [<- _]].
    apply acfs_write_data_inv in H as (es' & e' & Hes' & He' & Hsz & Hrd & Hfs).
    rewrite Hfsa in Hes', Hrd, Hfs. cbn [entries set_entries set_header] in Hes'.
    injection Hes' as <-.
    rewrite list_lookup_insert_eq in He' by (by eapply lookup_lt_Some).
    injection He' as <-. rewrite list_insert_insert_eq in Hfs.
    cbn [header set_entries set_header cluster_count set_cluster_count
         set_is_valid cluster_size set_data_entries] in Hrd, Hfs.
    destruct (acfs_allocate_clusters_frame _ _ _ _ _ Halloc)
      as (_ & _ & _ & _ & F2 & Hh2).
    assert (cluster_size (header a2) = cluster_size h) as HS
      by (rewrite Hh2; reflexivity).
    rewrite HS in Hrd.
    split; [done|]. split; [done|]. right. right.
    exists e0, l, a2. split; [done|]. split; [done|]. split; [done|].
    split; [done|]. rewrite Hfs. by destruct a2.
Qed.

(** ** What a successful [acfs_write] leaves behind *)

(** [acfs_write] copies whole clusters from its source: a successful
    write of [size] bytes has read K * S bytes at [data], K being the
    number of clusters the data needs.  When [size] is not a multiple of
    the cluster size S these are more than [size] bytes: the bytes that
    follow the caller's [size] bytes in memory are read as well. *)
Theorem acfs_write_reads_whole_clusters w id data size w1 :
  0 < cluster_size (header (fs w)) < 2 ^ 16 ->
  0 < size <= 65535 * cluster_size (header (fs w)) ->
  acfs_write (Some id) (Some data) size w = Some (ACFS_OK, w1) ->
  exists K,
    acfs_calculate_clusters_needed (cluster_size (header (fs w))) size
    = Some K /\
    size <= K * cluster_size (header (fs w)) <= Z.of_nat (length data).
Proof.
  intros HS Hsize H.
  apply acfs_write_ok_cases in H as (_ & _ & _ & K & es & HK & _ & _ & Hrd & _).
  destruct (clusters_needed_ceiling _ _ HS Hsize) as (K' & HK' & Hrange & Hceil).
  rewrite HK in HK'. injection HK' as <-.
  exists K. split; [done|]. split; [lia|]. apply Hrd; lia.
Qed.

Lemma find_entry_loop_insert_same es id n i e' : forall j,
  find_entry_loop es id n j = Some (Some i) ->
  entry_matches id e' = true ->
  find_entry_loop (<[i := e']> es) id n j = Some (Some i).
Proof.
  induction n as [|n IH]; intros j H Hm; cbn [find_entry_loop] in *; [done|].
  destruct (es !! j) as [e|] eqn:He; [|done].
  fold (entry_matches id e) in H.
  destruct (decide (j = i)) as [->|Hji].
  - rewrite list_lookup_insert_eq by (by eapply lookup_lt_Some).
    fold (entry_matches id e'). by rewrite Hm.
  - rewrite list_lookup_insert_ne by done. rewrite He.
    fold (entry_matches id e).
    destruct (entry_matches id e); [congruence|]. by apply IH.
Qed.

Lemma entry_matches_written id data size e :
  entry_matches id (written data size e) = entry_matches id e.
Proof. reflexivity. Qed.

Lemma lookup_results id w i e sz :
  initialized (fs w) = true ->
  acfs_find_entry id (fs w) = Some (Some i) ->
  array_of (entries (fs w)) !! i = Some e ->
  is_valid e = true ->
  acfs_exists (Some id) w = Some (true, w) /\
  acfs_get_size (Some id) (Some sz) w = Some ((ACFS_OK, Some (data_size e)), w).
Proof.
  intros Hinit Hfind He Hvalid. unfold acfs_exists, acfs_get_size.
  rewrite !bind_gets, Hinit. cbn [negb].
  rewrite !(bind_find_entry _ _ _ _ Hfind), !(bind_entry_at _ _ _ _ He), Hvalid.
  done.
Qed.

Lemma acfs_typed_directory a es :
  acfs_typed a = true -> entries a = Some es ->
  0 <= data_entries (header a) /\ Z.of_nat (length es) < 2 ^ 16.
Proof.
  intros Hty Hes.
  destruct (acfs_typed_spec _ Hty) as (_ & _ & HE & _ & _ & Hcap & _).
  rewrite Hes in Hcap. split; [apply HE|exact Hcap].
Qed.

(** After a successful [acfs_write(id, data, size)] the id is stored:
    [acfs_exists(id)] is true and [acfs_get_size(id)] reports [size] (as
    the 32-bit [data_size] holds it), whether the id was new or was
    rewritten. *)
Theorem acfs_write_then_lookup w id data size w1 sz :
  acfs_typed (fs w) = true ->
  acfs_write (Some id) (Some data) size w = Some (ACFS_OK, w1) ->
  acfs_exists (Some id) w1 = Some (true, w1) /\
  acfs_get_size (Some id) (Some sz) w1
  = Some ((ACFS_OK, Some (u32 size)), w1).
Proof.
  intros Hty H.
  apply acfs_write_ok_cases in H
    as (Hinit & _ & Hlen & K & es & _ & Hes & _ & _ & Hcase).
  set (h := header (fs w)) in *.
  set (nE := Z.to_nat (data_entries h)) in *.
  destruct Hcase as [(i & e & Hfind & He & _ & Hfs)
                    |[(i & e & a1 & l & a2 & Hfind & He & _ & Hfree & Halloc
                       & Hfs)
                     |(e0 & l & a2 & Hfind & Hroom & He0 & Halloc & Hfs)]].
  - pose proof Hfind as Hfind'. unfold acfs_find_entry in Hfind'.
    rewrite Hes in Hfind'. cbn [array_of] in Hfind'.
    destruct (find_entry_loop_Some _ _ _ _ _ Hfind') as (e' & He' & Hm).
    rewrite He in He'. injection He' as <-.
    apply (lookup_results id w1 i (written data size e)).
    + rewrite Hfs. exact Hinit.
    + rewrite Hfs. unfold acfs_find_entry.
      cbn [entries set_header set_entries array_of header header_with_crc
           set_header_crc32 data_entries].
      by apply find_entry_loop_insert_same.
    + rewrite Hfs. cbn [entries set_header set_entries array_of].
      apply list_lookup_insert_eq. by eapply lookup_lt_Some.
    + by apply andb_prop in Hm as [? _].
  - pose proof Hfind as Hfind'. unfold acfs_find_entry in Hfind'.
    rewrite Hes in Hfind'. cbn [array_of] in Hfind'.
    destruct (find_entry_loop_Some _ _ _ _ _ Hfind') as (e' & He' & Hm).
    rewrite He in He'. injection He' as <-.
    destruct (acfs_free_clusters_frame _ _ _ _ Hfree)
      as (_ & _ & Hi1 & _ & F1 & Hh1).
    destruct (acfs_allocate_clusters_frame _ _ _ _ _ Halloc)
      as (_ & _ & Hi2 & _ & F2 & Hh2).
    apply (lookup_results id w1 i
             (written data size
                (set_cluster_count K (set_cluster_list (Ptr l) e)))).
    + rewrite Hfs. cbn [initialized set_header set_entries]. congruence.
    + rewrite Hfs. unfold acfs_find_entry.
      cbn [entries set_header set_entries array_of header header_with_crc
           set_header_crc32 data_entries].
      rewrite Hh2, Hh1. cbn [data_entries set_free_clusters].
      by apply find_entry_loop_insert_same.
    + rewrite Hfs. cbn [entries set_header set_entries array_of].
      apply list_lookup_insert_eq. by eapply lookup_lt_Some.
    + by apply andb_prop in Hm as [? _].
  - destruct (acfs_allocate_clusters_frame _ _ _ _ _ Halloc)
      as (_ & _ & Hi2 & _ & F2 & Hh2).
    destruct (acfs_typed_directory _ _ Hty Hes) as [HD Hcap]. fold h in HD.
    assert (nE < length es)%nat as HnE by (by eapply lookup_lt_Some).
    set (name := strncpy id (Z.to_nat (ACFS_MAX_DATA_ID_LEN - 1)) ++ [0]) in *.
    set (efin := written data size
                   (set_is_valid true
                      (set_cluster_count K
                         (set_cluster_list (Ptr l) (set_data_id name e0)))))
      in *.
    apply (lookup_results id w1 nE efin).
    + rewrite Hfs. cbn [initialized set_header set_entries]. congruence.
    + rewrite Hfs. unfold acfs_find_entry.
      cbn [entries set_header set_entries array_of header header_with_crc
           set_header_crc32 data_entries set_data_entries].
      rewrite Hh2. cbn [data_entries set_free_clusters]. fold h.
      rewrite u16_small by (unfold is_u16, nE in *; lia).
      replace (Z.to_nat (data_entries h + 1)) with (S nE) by (unfold nE; lia).
      apply find_entry_loop_last with (e := efin).
      * rewrite (find_entry_loop_ext es).
        -- unfold acfs_find_entry in Hfind. by rewrite Hes in Hfind.
        -- intros k Hk. by rewrite list_lookup_insert_ne by lia.
      * by apply list_lookup_insert_eq.
      * unfold entry_matches, efin. cbn [is_valid written set_crc32
          set_data_size set_is_valid data_id set_cluster_count
          set_cluster_list set_data_id]. rewrite andb_true_l.
        unfold name. change (Z.to_nat (ACFS_MAX_DATA_ID_LEN - 1)) with 31%nat.
        change (Z.to_nat ACFS_MAX_DATA_ID_LEN) with (S 31).
        apply strncmp_strncpy. unfold ACFS_MAX_DATA_ID_LEN in Hlen. lia.
    + rewrite Hfs. cbn [entries set_header set_entries array_of].
      by apply list_lookup_insert_eq.
    + reflexivity.
Qed.

(** ** Rewriting an id in place *)

Lemma write_clusters_loop_total l n : forall i data w,
  is_Some (storage (fs w)) ->
  (forall k, (k < n)%nat -> is_Some (l !! (i + k)%nat)) ->
  0 <= cluster_size (header (fs w)) ->
  Z.of_nat (i + n) * cluster_size (header (fs w)) <= Z.of_nat (length data) ->
  exists r w', write_clusters_loop l n i data w = Some (r, w') /\ fs w' = fs w.
Proof.
  induction n as [|n IH]; intros i data w Hst Hl HS Hdata;
    cbn [write_clusters_loop]; [by eexists _, _|].
  destruct Hst as [dev Hst].
  unfold bind at 1. unfold bind at 1. unfold gets at 1. rewrite Hst.
  cbn [deref ret]. rewrite bind_gets.
  destruct (Hl 0%nat ltac:(lia)) as [c Hc]. rewrite Nat.add_0_r in Hc.
  rewrite Hc. cbn [deref]. rewrite bind_ret.
  destruct (storage_write_total
              (u32 (start_addr dev + c * cluster_size (header (fs w))))
              (drop (Z.to_nat (Z.of_nat i * cluster_size (header (fs w)))) data)
              (cluster_size (header (fs w))) w) as (ok & w' & Hw & Hfs).
  { by eexists. }
  { rewrite length_drop. nia. }
  unfold bind at 1. rewrite Hw. destruct (negb ok).
  - by eexists _, _.
  - destruct (IH (S i) data w') as (r & w'' & Hr & Hfs').
    + rewrite Hfs. by eexists.
    + intros k Hk. specialize (Hl (S k) ltac:(lia)).
      by replace (S i + k)%nat with (i + S k)%nat by lia.
    + by rewrite Hfs.
    + rewrite Hfs. by replace (S i + n)%nat with (i + S n)%nat by lia.
    + exists r, w''. split; [done|]. congruence.
Qed.

(** Writing an id that is stored with data that needs the clusters the
    entry already has never allocates.  On a well-typed mounted instance,
    for an entry whose cluster list is a block ([Ptr l]: neither null nor
    a stale address) and a source of at least [size] bytes and at least
    as many whole clusters as the entry counts, the call returns Ok or
    Io, and in both cases the bitmap, [free_clusters], [data_entries] and
    the other entries are as before; the entry keeps its cluster list and
    count and takes the new size and CRC-32. *)
Theorem acfs_rewrite_in_place w id data size i es e l :
  let h := header (fs w) in
  acfs_typed (fs w) = true ->
  initialized (fs w) = true ->
  is_Some (storage (fs w)) ->
  data_entries h <= Z.of_nat (length es) ->
  strlen id < ACFS_MAX_DATA_ID_LEN -> size <> 0 ->
  acfs_find_entry id (fs w) = Some (Some i) ->
  entries (fs w) = Some es -> es !! i = Some e ->
  cluster_list e = Ptr l ->
  acfs_calculate_clusters_needed (cluster_size h) size
  = Some (cluster_count e) ->
  0 <= cluster_size h ->
  size <= Z.of_nat (length data) ->
  cluster_count e * cluster_size h <= Z.of_nat (length data) ->
  exists r w1,
    acfs_write (Some id) (Some data) size w = Some (r, w1) /\
    (r = ACFS_OK \/ r = ACFS_ERROR_IO_ERROR) /\
    cluster_bitmap (fs w1) = cluster_bitmap (fs w) /\
    free_clusters (header (fs w1)) = free_clusters h /\
    data_entries (header (fs w1)) = data_entries h /\
    entries (fs w1)
    = Some (<[i := set_crc32 (acfs_crc32 (take (Z.to_nat size) data))
                     (set_data_size (u32 size) e)]> es).
Proof.
  intros h Hty Hinit Hst HD Hlen Hsize Hfind Hes He Hlist HK HS Hdata HKS.
  destruct (acfs_typed_spec _ Hty) as (_ & _ & HE & _ & _ & _ & Hents).
  rewrite Hes in Hents. cbn [array_of] in Hents.
  assert (entry_typed e = true) as Hte.
  { rewrite forallb_forall in Hents. apply Hents.
    apply list_elem_of_In, list_elem_of_lookup. eauto. }
  unfold acfs_write. destruct (Z.eqb_spec size 0); [done|].
  rewrite bind_gets, Hinit. cbn [negb].
  destruct (Z.leb_spec ACFS_MAX_DATA_ID_LEN (strlen id)); [lia|].
  rewrite bind_gets. fold h. rewrite HK. cbn [deref]. rewrite bind_ret.
  unfold acfs_write_entry. unfold bind at 1.
  rewrite (bind_find_entry _ _ _ _ Hfind).
  rewrite (bind_entry_at i _ w e) by (by rewrite Hes).
  rewrite Z.eqb_refl. cbn [negb ret].
  unfold acfs_write_data.
  assert (memcpy_src data size = Some (take (Z.to_nat size) data)) as ->.
  { unfold memcpy_src.
    destruct (Z.ltb_spec (Z.of_nat (length data)) size); [lia|done]. }
  cbn [deref]. rewrite bind_ret.
  rewrite (bind_update_entry i _ _ w es e) by done.
  set (e' := set_crc32 (acfs_crc32 (take (Z.to_nat size) data))
               (set_data_size (u32 size) e)).
  set (wa := mk_world (set_entries (Some (<[i := e']> es)) (fs w)) (medium w)).
  assert (i < length es)%nat as Hi by (by eapply lookup_lt_Some).
  rewrite (bind_entry_at i _ wa e')
    by (cbn; by apply list_lookup_insert_eq).
  assert (cluster_count e <= Z.of_nat (length l)) as Hll.
  { unfold entry_typed in Hte. rewrite Hlist in Hte. cbn in Hte.
    apply andb_prop in Hte as [_ Hte]. lia. }
  destruct (write_clusters_loop_total l (Z.to_nat (cluster_count e)) 0 data wa)
    as (r1 & w2 & Hwc & Hfs2).
  { exact Hst. }
  { intros k Hk. apply lookup_lt_is_Some_2. lia. }
  { exact HS. }
  { cbn [fs wa set_entries header]. fold h. nia. }
  unfold acfs_write_clusters.
  change (cluster_list e') with (cluster_list e).
  change (cluster_count e') with (cluster_count e). rewrite Hlist.
  cbn [block_of]. unfold bind at 1. rewrite Hwc.
  pose proof (returns_write_clusters_loop _ _ _ _ _ _ _ Hwc) as Hr1.
  destruct (is_ok_spec r1) as [->|Hne]; cbn [negb].
  2:{ exists r1, w2. split; [done|]. rewrite Hfs2.
      split; [destruct Hr1; by auto|]. done. }
  destruct (persist_total w2) as (r2 & w3 & Hp & Hfs3).
  { by rewrite Hfs2. }
  { rewrite Hfs2. cbn [wa fs entries set_entries array_of].
    by apply forallb_insert. }
  { rewrite Hfs2. apply HE. }
  { rewrite Hfs2. cbn [wa fs entries set_entries array_of header].
    rewrite length_insert. exact HD. }
  unfold persist in Hp. exists r2, w3. split; [exact Hp|].
  rewrite Hfs3, Hfs2. split; [|done].
  revert Hp. fold persist.
  pose proof returns_save_header as Hsh.
  pose proof returns_save_entries as Hse.
  unfold persist. intros Hp.
  apply bind_Some in Hp as (ra & wb & Ha & Hp).
  apply Hsh in Ha. destruct (is_ok_spec ra) as [->|Hne]; cbn [negb] in Hp.
  - by apply Hse in Hp.
  - apply ret_inv in Hp as [-> _]. destruct Ha; by auto.
Qed.

(** ** The accounting of clusters *)


Lemma sum_counts_app es1 es2 :
  sum_counts (es1 ++ es2) = sum_counts es1 + sum_counts es2.
Proof.
  unfold sum_counts. induction es1 as [|e es1 IH]; cbn; [done|]. rewrite IH. lia.
Qed.

Lemma sum_counts_insert es i e e' :
  es !! i = Some e ->
  sum_counts (<[i := e']> es)
  = sum_counts es - cluster_count e + cluster_count e'.
Proof.
  revert i. induction es as [|x es IH]; intros [|i] He; try done.
  - injection He as ->. unfold sum_counts. cbn. lia.
  - cbn in He. specialize (IH i He). unfold sum_counts in *.
    change (<[S i := e']> (x :: es)) with (x :: <[i := e']> es).
    cbn [map foldr]. lia.
Qed.

Lemma sum_counts_lookup es i e :
  Forall (fun e => 0 <= cluster_count e) es ->
  es !! i = Some e -> 0 <= cluster_count e <= sum_counts es.
Proof.
  intros Hnn. revert i. induction Hnn as [|x es Hx Hnn IH]; intros [|i] He;
    try done; unfold sum_counts in *; cbn in *.
  - injection He as ->.
    assert (0 <= foldr Z.add 0 (map cluster_count es)).
    { clear -Hnn. induction Hnn; cbn; lia. }
    lia.
  - specialize (IH i He). lia.
Qed.

Lemma find_entry_loop_lt es id n : forall j i,
  find_entry_loop es id n j = Some (Some i) -> (j <= i < j + n)%nat.
Proof.
  induction n as [|n IH]; intros j i H; cbn [find_entry_loop] in H; [done|].
  destruct (es !! j); [|done]. case_match.
  - injection H as <-. lia.
  - apply IH in H. lia.
Qed.

Lemma acfs_free_clusters_header p c a a' :
  acfs_free_clusters p c a = Some a' ->
  header a' = set_free_clusters (u16 (free_clusters (header a) + c)) (header a)
  /\ entries a' = entries a.
Proof.
  unfold acfs_free_clusters. intros H.
  repeat case_match; simplify_eq. done.
Qed.

Lemma clusters_accounted_eq a :
  clusters_accounted a
  = free_clusters (header a) + sum_counts (live_entries a)
    + sys_clusters (header a).
Proof. reflexivity. Qed.

(** A successful [acfs_write] keeps the books: when free clusters plus
    the clusters of the stored entries plus the reserved ones add up to
    the total before the call, they do so after it, whether the call
    added an entry, gave an entry other clusters or rewrote it in
    place. *)
Theorem acfs_write_keeps_accounting w id data size w1 :
  acfs_typed (fs w) = true ->
  Forall (fun e => 0 <= cluster_count e) (live_entries (fs w)) ->
  clusters_accounted (fs w) = total_clusters (header (fs w)) ->
  acfs_write (Some id) (Some data) size w = Some (ACFS_OK, w1) ->
  clusters_accounted (fs w1) = total_clusters (header (fs w1)).
Proof.
  intros Hty Hnn Hacc H.
  apply acfs_write_ok_cases in H
    as (Hinit & _ & Hlen & K & es & HK & Hes & _ & _ & Hcase).
  destruct (acfs_typed_spec _ Hty) as (HN & HR & HE & HF & _ & Hcap & _).
  rewrite Hes in Hcap. cbn [array_of] in Hcap.
  rewrite clusters_accounted_eq in *. unfold live_entries in *.
  rewrite Hes in Hacc, Hnn. cbn [array_of] in Hacc, Hnn.
  set (h := header (fs w)) in *.
  set (nE := Z.to_nat (data_entries h)) in *.
  assert (0 <= K) as HK0.
  { unfold acfs_calculate_clusters_needed in HK.
    destruct (cluster_size h =? 0); [done|]. injection HK as <-.
    apply Z.mod_pos_bound. lia. }
  destruct Hcase as [(i & e & Hfind & He & HKe & Hfs)
                    |[(i & e & a1 & l & a2 & Hfind & He & HKe & Hfree & Halloc
                       & Hfs)
                     |(e0 & l & a2 & Hfind & Hroom & He0 & Halloc & Hfs)]].
  - unfold acfs_find_entry in Hfind. rewrite Hes in Hfind.
    apply find_entry_loop_lt in Hfind. fold h nE in Hfind.
    rewrite Hfs. cbn [header set_header set_entries entries array_of
                      header_with_crc set_header_crc32 free_clusters
                      data_entries sys_clusters total_clusters]. fold h nE.
    rewrite take_insert_lt by lia.
    rewrite (sum_counts_insert _ _ e)
      by (rewrite lookup_take_lt by lia; done).
    cbn [cluster_count written set_crc32 set_data_size]. lia.
  - unfold acfs_find_entry in Hfind. rewrite Hes in Hfind.
    apply find_entry_loop_lt in Hfind. fold h nE in Hfind.
    apply acfs_free_clusters_header in Hfree as [Hh1 Hes1].
    apply acfs_allocate_clusters_ok in Halloc as (bm' & _ & HKF & _ & ->).
    rewrite Hh1 in HKF. cbn [free_clusters set_free_clusters] in HKF.
    fold h in HKF.
    rewrite Hfs. cbn [header set_header set_entries entries array_of
                      header_with_crc set_header_crc32 free_clusters
                      data_entries sys_clusters total_clusters
                      set_free_clusters store_bitmap].
    rewrite Hh1. cbn [free_clusters data_entries sys_clusters total_clusters
                      set_free_clusters]. fold h nE.
    rewrite take_insert_lt by lia.
    rewrite (sum_counts_insert _ _ e)
      by (rewrite lookup_take_lt by lia; done).
    cbn [cluster_count written set_crc32 set_data_size set_cluster_count].
    pose proof (sum_counts_lookup (take nE es) i e Hnn
                  ltac:(rewrite lookup_take_lt by lia; done)) as Hle.
    unfold is_u16 in *.
    assert (u16 (free_clusters h + cluster_count e)
            = free_clusters h + cluster_count e) as HF1
      by (apply u16_small; unfold is_u16; lia).
    rewrite HF1 in HKF |- *.
    rewrite u16_small by (unfold is_u16; lia). lia.
  - apply acfs_allocate_clusters_ok in Halloc as (bm' & _ & HKF & _ & ->).
    fold h in HKF.
    assert (nE < length es)%nat as HnE by (by eapply lookup_lt_Some).
    rewrite Hfs. cbn [header set_header set_entries entries array_of
                      header_with_crc set_header_crc32 free_clusters
                      data_entries sys_clusters total_clusters
                      set_free_clusters store_bitmap set_data_entries].
    fold h. unfold is_u16 in *.
    rewrite (u16_small (data_entries h + 1)) by (unfold is_u16, nE in *; lia).
    replace (Z.to_nat (data_entries h + 1)) with (S nE) by (unfold nE; lia).
    rewrite (take_S_r _ _ (written data size
                             (set_is_valid true
                                (set_cluster_count K
                                   (set_cluster_list (Ptr l)
                                      (set_data_id
                                         (strncpy id
                                            (Z.to_nat (ACFS_MAX_DATA_ID_LEN - 1))
                                          ++ [0]) e0))))))
      by (by apply list_lookup_insert_eq).
    rewrite take_insert_ge by lia.
    rewrite sum_counts_app. unfold sum_counts at 2.
    cbn [map foldr cluster_count written set_crc32 set_data_size
         set_is_valid set_cluster_count].
    rewrite u16_small by (unfold is_u16; lia). lia.
Qed.

(** ** A write that finds no room *)

Lemma acfs_allocate_clusters_fails K a err l a' :
  acfs_typed a = true ->
  acfs_allocate_clusters K a = Some (err, l, a') ->
  err <> ACFS_OK -> a' = a.
Proof.
  intros Hty H Hne.
  destruct (acfs_typed_spec _ Hty) as (HN & HR & _ & _ & (bm & Hbm & Hwf) & _).
  unfold acfs_allocate_clusters in H. rewrite Hbm in H. cbn [array_of] in H.
  destruct (free_clusters (header a) <? K); [by injection H as _ _ <-|].
  destruct (allocate_scan _ _ _ _ _) as [[bm1 l1]|] eqn:Hscan; [|done].
  destruct (Z.of_nat (length l1) <? K); [|by injection H as <- _ _].
  apply allocate_scan_undo in Hscan; [|apply HR|unfold is_u16 in *; lia|done].
  rewrite Hscan in H. injection H as _ _ <-. by apply store_bitmap_same.
Qed.

(** When [acfs_write] of an id that is not stored finds too few free
    clusters it returns NoSpace and nothing that can be observed has
    changed: the medium, the header, the bitmap (bits set by the failed
    scan are cleared again) and the stored entries are as before, and the
    id still does not exist. *)
Theorem acfs_write_no_space_new w id data size w1 :
  acfs_typed (fs w) = true ->
  initialized (fs w) = true ->
  acfs_exists (Some id) w = Some (false, w) ->
  acfs_write (Some id) (Some data) size w = Some (ACFS_ERROR_NO_SPACE, w1) ->
  medium w1 = medium w /\ header (fs w1) = header (fs w) /\
  cluster_bitmap (fs w1) = cluster_bitmap (fs w) /\
  live_entries (fs w1) = live_entries (fs w) /\
  acfs_exists (Some id) w1 = Some (false, w1).
Proof.
  intros Hty Hinit Hex H.
  pose proof (acfs_exists_false_inv _ _ Hinit Hex) as Hfind.
  apply acfs_write_steps in H as (_ & _ & _ & K & ri & wa & _ & Hentry & H);
    [|done..].
  destruct (acfs_write_entry_new _ _ _ _ _ Hfind Hentry)
    as (Hmed & [(_ & -> & _)|(Hroom & es & e0 & err & l & a2 & Hes & He0
                              & Halloc & Hcase)]);
    [by destruct H as [[=] _]|].
  destruct Hcase as [(-> & -> & _)|(Hne & -> & Hfsa)].
  { apply returns_write_data in H as [H|H]; discriminate. }
  destruct H as [<- ->].
  apply acfs_allocate_clusters_fails in Halloc as ->; [|done..].
  assert (Z.to_nat (data_entries (header (fs w))) < length es)%nat as HnE
    by (by eapply lookup_lt_Some).
  assert (live_entries (fs wa) = live_entries (fs w)) as Hlive.
  { unfold live_entries. rewrite Hfsa, Hes.
    cbn [header set_entries entries array_of].
    by rewrite take_insert_ge by lia. }
  split; [done|]. split; [by rewrite Hfsa|]. split; [by rewrite Hfsa|].
  split; [done|].
  apply acfs_exists_false; [by rewrite Hfsa|].
  unfold acfs_find_entry in *. rewrite Hfsa.
  cbn [header set_entries entries array_of]. rewrite Hes in Hfind.
  rewrite (find_entry_loop_ext es); [done|].
  intros k Hk. by rewrite list_lookup_insert_ne by lia.
Qed.

(** ** The other ids *)

Lemma strncmp_eq_both n : forall a id id',
  strncmp_eq a id n = true -> strncmp_eq a id' n = true ->
  strlen id < Z.of_nat n -> c_chars id' = c_chars id.
Proof.
  induction n as [|n IH]; intros a id id' H1 H2 Hlen.
  - pose proof (strlen_nonneg id). lia.
  - cbn [strncmp_eq] in H1, H2.
    destruct (Z.eqb_spec (hd 0 a) (hd 0 id)) as [E1|]; [|done].
    destruct (Z.eqb_spec (hd 0 a) (hd 0 id')) as [E2|]; [|done].
    destruct (Z.eqb_spec (hd 0 a) 0) as [E0|E0].
    + destruct id as [|c id], id' as [|c' id']; cbn [hd c_chars] in *; try done.
      * assert (c' = 0) as -> by lia. done.
      * assert (c = 0) as -> by lia. done.
      * assert (c = 0) as -> by lia. assert (c' = 0) as -> by lia. done.
    + destruct id as [|c id], id' as [|c' id']; cbn [hd tl c_chars strlen] in *;
        try lia.
      assert (c' = c) as -> by lia.
      destruct (Z.eqb_spec c 0); [lia|].
      f_equal. apply (IH (tl a)); [done|done|lia].
Qed.

Lemma find_entry_loop_total es id n : forall j,
  (j + n <= length es)%nat -> is_Some (find_entry_loop es id n j).
Proof.
  induction n as [|n IH]; intros j Hj; cbn [find_entry_loop]; [by eexists|].
  destruct (lookup_lt_is_Some_2 es j) as [e ->]; [lia|].
  case_match; [by eexists|]. apply IH. lia.
Qed.

Lemma find_entry_loop_same_matches es es' id n : forall j,
  (forall k, (k < n)%nat ->
     entry_matches id <$> es' !! (j + k)%nat
     = entry_matches id <$> es !! (j + k)%nat) ->
  find_entry_loop es' id n j = find_entry_loop es id n j.
Proof.
  induction n as [|n IH]; intros j H; cbn [find_entry_loop]; [done|].
  pose proof (H 0%nat ltac:(lia)) as H0. rewrite Nat.add_0_r in H0.
  assert (find_entry_loop es' id n (S j) = find_entry_loop es id n (S j)) as Hn.
  { apply IH. intros k Hk. specialize (H (S k) ltac:(lia)).
    by replace (S j + k)%nat with (j + S k)%nat by lia. }
  destruct (es' !! j) as [e'|], (es !! j) as [e|]; cbn in H0; try done.
  fold (entry_matches id e') (entry_matches id e).
  injection H0 as ->. by rewrite Hn.
Qed.

Lemma find_entry_loop_unfold es id n j :
  find_entry_loop es id (S n) j =
  match es !! j with
  | Some e => if entry_matches id e then Some (Some j)
              else find_entry_loop es id n (S j)
  | None => None
  end.
Proof. reflexivity. Qed.

Lemma find_entry_loop_S es id n : forall j,
  find_entry_loop es id (S n) j =
  match find_entry_loop es id n j with
  | Some None =>
      match es !! (j + n)%nat with
      | Some e => if entry_matches id e then Some (Some (j + n)%nat)
                  else Some None
      | None => None
      end
  | r => r
  end.
Proof.
  induction n as [|n IH]; intros j.
  - rewrite find_entry_loop_unfold. cbn [find_entry_loop].
    rewrite Nat.add_0_r. destruct (es !! j) as [e|]; [|done].
    by destruct (entry_matches id e).
  - rewrite find_entry_loop_unfold, (find_entry_loop_unfold es id n j).
    destruct (es !! j) as [e|] eqn:He; [|done].
    destruct (entry_matches id e); [done|].
    rewrite IH. by replace (S j + n)%nat with (j + S n)%nat by lia.
Qed.

Lemma same_answers id w w1 f sz :
  initialized (fs w) = true -> initialized (fs w1) = true ->
  acfs_find_entry id (fs w) = Some f ->
  acfs_find_entry id (fs w1) = Some f ->
  (forall j, f = Some j ->
     is_Some (array_of (entries (fs w)) !! j) /\
     array_of (entries (fs w1)) !! j = array_of (entries (fs w)) !! j) ->
  exists b r,
    acfs_exists (Some id) w = Some (b, w) /\
    acfs_exists (Some id) w1 = Some (b, w1) /\
    acfs_get_size (Some id) (Some sz) w = Some (r, w) /\
    acfs_get_size (Some id) (Some sz) w1 = Some (r, w1).
Proof.
  intros Hi Hi1 Hf Hf1 Hsame. unfold acfs_exists, acfs_get_size.
  rewrite !bind_gets, Hi, Hi1. cbn [negb].
  rewrite !(bind_find_entry _ _ _ _ Hf), !(bind_find_entry _ _ _ _ Hf1).
  destruct f as [j|]; [|by eexists _, _].
  destruct (Hsame j eq_refl) as [[e He] He1]. rewrite He in He1.
  rewrite !(bind_entry_at _ _ _ _ He), !(bind_entry_at _ _ _ _ He1).
  destruct (is_valid e); by eexists _, _.
Qed.

(** A successful [acfs_write(id, ...)] does not disturb the directory
    entries of the other ids: for every id of a different name,
    [acfs_exists] and [acfs_get_size] answer after the write what they
    answered before it. *)
Theorem acfs_write_keeps_others w id data size w1 id' sz :
  acfs_typed (fs w) = true ->
  data_entries (header (fs w))
  <= Z.of_nat (length (array_of (entries (fs w)))) ->
  acfs_write (Some id) (Some data) size w = Some (ACFS_OK, w1) ->
  c_chars id' <> c_chars id ->
  exists b r,
    acfs_exists (Some id') w = Some (b, w) /\
    acfs_exists (Some id') w1 = Some (b, w1) /\
    acfs_get_size (Some id') (Some sz) w = Some (r, w) /\
    acfs_get_size (Some id') (Some sz) w1 = Some (r, w1).
Proof.
  intros Hty HD H Hnames.
  apply acfs_write_ok_cases in H
    as (Hinit & _ & Hlen & K & es & _ & Hes & _ & _ & Hcase).
  rewrite Hes in HD. cbn [array_of] in HD.
  destruct (acfs_typed_directory _ _ Hty Hes) as [HD0 Hcap].
  set (h := header (fs w)) in *.
  set (nE := Z.to_nat (data_entries h)) in *.
  destruct (find_entry_loop_total es id' nE 0) as [f Hf]; [lia|].
  assert (acfs_find_entry id' (fs w) = Some f) as Hfind'
    by (unfold acfs_find_entry; by rewrite Hes).
  assert (forall i e e1,
            acfs_find_entry id (fs w) = Some (Some i) -> es !! i = Some e ->
            data_id e1 = data_id e -> is_valid e1 = is_valid e ->
            find_entry_loop (<[i := e1]> es) id' nE 0 = Some f /\
            forall j, f = Some j ->
              is_Some (es !! j) /\ <[i := e1]> es !! j = es !! j) as Hfound.
  { intros i e e1 Hfind He Hid Hvalid.
    unfold acfs_find_entry in Hfind. rewrite Hes in Hfind.
    cbn [array_of] in Hfind. fold h nE in Hfind.
    destruct (find_entry_loop_Some _ _ _ _ _ Hfind) as (e2 & He2 & Hm).
    rewrite He in He2. injection He2 as <-.
    assert (i < length es)%nat as Hi by (by eapply lookup_lt_Some).
    split.
    - rewrite <- Hf. apply find_entry_loop_same_matches. intros k Hk.
      cbn [Nat.add]. destruct (decide (k = i)) as [->|Hki].
      + rewrite list_lookup_insert_eq by done. rewrite He. cbn.
        unfold entry_matches. by rewrite Hid, Hvalid.
      + by rewrite list_lookup_insert_ne by done.
    - intros j ->. destruct (find_entry_loop_Some _ _ _ _ _ Hf) as (e2 & He2 & Hm2).
      split; [by eexists|].
      destruct (decide (j = i)) as [->|Hji];
        [|by rewrite list_lookup_insert_ne by done].
      exfalso. rewrite He in He2. injection He2 as <-.
      apply andb_prop in Hm as [_ Hm]. apply andb_prop in Hm2 as [_ Hm2].
      apply Hnames.
      apply (strncmp_eq_both _ _ _ _ Hm Hm2).
      unfold ACFS_MAX_DATA_ID_LEN in *. lia. }
  destruct Hcase as [(i & e & Hfind & He & _ & Hfs)
                    |[(i & e & a1 & l & a2 & Hfind & He & _ & Hfree & Halloc
                       & Hfs)
                     |(e0 & l & a2 & Hfind & Hroom & He0 & Halloc & Hfs)]].
  - destruct (Hfound i e (written data size e) Hfind He eq_refl eq_refl)
      as [Hf1 Hsame].
    apply (same_answers id' w w1 f sz); try done.
    + by rewrite Hfs.
    + rewrite Hfs. unfold acfs_find_entry.
      cbn [entries set_header set_entries array_of header header_with_crc
           set_header_crc32 data_entries]. exact Hf1.
    + intros j Hj. rewrite Hfs, Hes.
      cbn [entries set_header set_entries array_of]. by apply Hsame.
  - destruct (Hfound i e (written data size
                            (set_cluster_count K (set_cluster_list (Ptr l) e)))
                Hfind He eq_refl eq_refl) as [Hf1 Hsame].
    destruct (acfs_free_clusters_frame _ _ _ _ Hfree)
      as (_ & _ & Hi1 & _ & F1 & Hh1).
    destruct (acfs_allocate_clusters_frame _ _ _ _ _ Halloc)
      as (_ & _ & Hi2 & _ & F2 & Hh2).
    apply (same_answers id' w w1 f sz); try done.
    + rewrite Hfs. cbn [initialized set_header set_entries]. congruence.
    + rewrite Hfs. unfold acfs_find_entry.
      cbn [entries set_header set_entries array_of header header_with_crc
           set_header_crc32 data_entries].
      rewrite Hh2, Hh1. cbn [data_entries set_free_clusters]. exact Hf1.
    + intros j Hj. rewrite Hfs, Hes.
      cbn [entries set_header set_entries array_of]. by apply Hsame.
  - destruct (acfs_allocate_clusters_frame _ _ _ _ _ Halloc)
      as (_ & _ & Hi2 & _ & F2 & Hh2).
    assert (nE < length es)%nat as HnE by (by eapply lookup_lt_Some).
    set (name := strncpy id (Z.to_nat (ACFS_MAX_DATA_ID_LEN - 1)) ++ [0]) in *.
    set (efin := written data size
                   (set_is_valid true
                      (set_cluster_count K
                         (set_cluster_list (Ptr l) (set_data_id name e0)))))
      in *.
    assert (entry_matches id' efin = false) as Hno.
    { unfold entry_matches, efin. cbn [is_valid written set_crc32
          set_data_size set_is_valid data_id set_cluster_count
          set_cluster_list set_data_id]. rewrite andb_true_l.
      apply not_true_is_false. intros Hm. apply Hnames.
      eapply strncmp_stored; [|exact Hm]. unfold ACFS_MAX_DATA_ID_LEN in *. lia. }
    apply (same_answers id' w w1 f sz); try done.
    + rewrite Hfs. cbn [initialized set_header set_entries]. congruence.
    + rewrite Hfs. unfold acfs_find_entry.
      cbn [entries set_header set_entries array_of header header_with_crc
           set_header_crc32 data_entries set_data_entries].
      rewrite Hh2. cbn [data_entries set_free_clusters]. fold h.
      rewrite u16_small by (unfold is_u16, nE in *; lia).
      replace (Z.to_nat (data_entries h + 1)) with (S nE) by (unfold nE; lia).
      rewrite find_entry_loop_S.
      rewrite (find_entry_loop_ext es)
        by (intros k Hk; by rewrite list_lookup_insert_ne by lia).
      rewrite Hf. destruct f as [j|]; [done|]. cbn [Nat.add].
      rewrite list_lookup_insert_eq by done. by rewrite Hno.
    + intros j ->. rewrite Hfs, Hes.
      cbn [entries set_header set_entries array_of].
      apply find_entry_loop_lt in Hf.
      split; [apply lookup_lt_is_Some_2; lia|].
      by rewrite list_lookup_insert_ne by lia.
Qed.

(** ** Deleting an entry *)

Lemma world_set_entries_same w es :
  entries (fs w) = Some es ->
  mk_world (set_entries (Some es) (fs w)) (medium w) = w.
Proof. destruct w as [[] ?]. cbn. by intros ->. Qed.

Lemma set_entries_set_entries es1 es2 a :
  set_entries es1 (set_entries es2 a) = set_entries es1 a.
Proof. reflexivity. Qed.

(** The shift loop moves the [n] entries that follow index [i] one place
    down. *)
Lemma delete_shift_spec n : forall i w es,
  entries (fs w) = Some es -> (i + n < length es)%nat ->
  delete_shift n i w
  = Some (tt, mk_world
                (set_entries
                   (Some (take i es ++ take n (drop (S i) es)
                          ++ drop (i + n) es)) (fs w))
                (medium w)).
Proof.
  induction n as [|n IH]; intros i w es Hes Hlen; cbn [delete_shift].
  - rewrite Nat.add_0_r, take_0, app_nil_l, take_drop.
    by rewrite world_set_entries_same.
  - destruct (lookup_lt_is_Some_2 es (S i)) as [x Hx]; [lia|].
    destruct (lookup_lt_is_Some_2 es i) as [y Hy]; [lia|].
    rewrite (bind_entry_at (S i) _ w x) by (by rewrite Hes).
    rewrite (bind_update_entry i _ _ w es y) by done.
    rewrite (IH (S i) _ (<[i := x]> es)); [|done|rewrite length_insert; lia].
    cbn [fs medium].
    rewrite set_entries_set_entries. do 5 f_equal.
    rewrite (take_S_r _ i x) by (apply list_lookup_insert_eq; lia).
    rewrite take_insert_ge by lia.
    rewrite !drop_insert_lt by lia.
    rewrite (drop_S es x (S i)) by done. rewrite firstn_cons.
    rewrite <- app_assoc. cbn [app].
    by replace (S i + n)%nat with (i + S n)%nat by lia.
Qed.

(** The state [acfs_delete] reaches for the entry at index [k]. *)
Lemma acfs_delete_runs w id k es e l bm :
  let h := header (fs w) in
  let D := Z.to_nat (data_entries h) in
  let K := Z.to_nat (cluster_count e) in
  acfs_typed (fs w) = true ->
  initialized (fs w) = true ->
  is_Some (storage (fs w)) ->
  data_entries h <= Z.of_nat (length es) ->
  acfs_find_entry id (fs w) = Some (Some k) ->
  entries (fs w) = Some es -> es !! k = Some e ->
  cluster_list e = Ptr l -> 0 <= cluster_count e ->
  cluster_bitmap (fs w) = Some bm ->
  Forall (fun c => is_u16 c /\ is_Some (bitmap_test c bm)) (take K l) ->
  exists r w1 bm1,
    acfs_delete (Some id) w = Some (r, w1) /\
    (r = ACFS_OK \/ r = ACFS_ERROR_IO_ERROR) /\
    bitmap_clear_all (take K l) bm = Some bm1 /\
    fs w1 = mk_acfs (storage (fs w))
              (header_with_crc
                 (set_data_entries (data_entries h - 1)
                    (set_free_clusters
                       (u16 (free_clusters h + cluster_count e)) h)))
              (Some (take k es ++ take (D - 1 - k) (drop (S k) es)
                     ++ zero_entry :: drop D es))
              (Some bm1) true (cluster_buffer (fs w)).
Proof.
  intros h D K Hty Hinit Hst HD Hfind Hes He Hlist HK0 Hbm Hbits.
  destruct (acfs_typed_spec _ Hty) as (_ & _ & HE & _ & _ & Hcap & Hents).
  rewrite Hes in Hcap, Hents. cbn [array_of] in Hcap, Hents.
  assert (entry_typed e = true) as Hte.
  { rewrite forallb_forall in Hents. apply Hents.
    apply list_elem_of_In, list_elem_of_lookup. eauto. }
  assert (cluster_count e <= Z.of_nat (length l)) as Hll.
  { unfold entry_typed in Hte. rewrite Hlist in Hte. cbn in Hte.
    apply andb_prop in Hte as [_ Hte]. lia. }
  pose proof Hfind as Hfind'. unfold acfs_find_entry in Hfind'.
  rewrite Hes in Hfind'. cbn [array_of] in Hfind'. fold h D in Hfind'.
  destruct (find_entry_loop_Some _ _ _ _ _ Hfind') as (e2 & He2 & Hm).
  rewrite He in He2. injection He2 as <-.
  apply andb_prop in Hm as [Hvalid _].
  apply find_entry_loop_lt in Hfind'.
  destruct (bitmap_clear_all_spec (take K l) bm) as (bm1 & Hclr & _).
  { eapply Forall_impl; [exact Hbits|]. by intros c [? _]. }
  { eapply Forall_impl; [exact Hbits|]. by intros c [_ ?]. }
  assert (acfs_free_clusters (Ptr l) (cluster_count e) (fs w)
          = Some (set_header
                    (set_free_clusters
                       (u16 (free_clusters h + cluster_count e)) h)
                    (store_bitmap bm1 (fs w)))) as Hfree.
  { unfold acfs_free_clusters, cluster_list_prefix. cbn [block_of].
    destruct (Z.ltb_spec (Z.of_nat (length l)) (cluster_count e)); [lia|].
    rewrite Hbm. cbn [array_of]. fold K. rewrite Hclr. reflexivity. }
  unfold acfs_delete. rewrite bind_gets, Hinit. cbn [negb].
  rewrite (bind_find_entry _ _ _ _ Hfind).
  rewrite (bind_entry_at k _ w e) by (by rewrite Hes).
  rewrite Hvalid, Hlist. cbn [negb].
  rewrite (bind_free_clusters_step _ _ _ _ _ Hfree).
  cbn [free_block]. rewrite bind_ret.
  rewrite bind_gets. cbn [fs header set_header data_entries set_free_clusters].
  fold h. unfold bind at 1.
  replace (Z.to_nat (data_entries h - 1 - Z.of_nat k)) with (D - 1 - k)%nat
    by (unfold D; lia).
  rewrite (delete_shift_spec _ _ _ es);
    [|exact Hes|unfold is_u16, D in *; lia].
  rewrite bind_modify. cbn [fs medium].
  unfold is_u16 in HE. fold h in HE.
  rewrite u16_small by (unfold is_u16; unfold D in *; lia).
  set (es1 := take k es ++ _ ++ _).
  assert (length es1 = length es) as Hlen1.
  { unfold es1. rewrite !length_app, !length_take, !length_drop.
    unfold D in *. lia. }
  destruct (lookup_lt_is_Some_2 es1 (Z.to_nat (data_entries h - 1)))
    as [x Hx]; [unfold D in *; lia|].
  rewrite (bind_update_entry _ _ _ _ es1 x) by done.
  cbn [fs medium].
  match goal with
  | |- exists r w1 bm1, bind acfs_save_header _ ?wx = _ /\ _ =>
      destruct (persist_total wx) as (r & w2 & Hp & Hfs2)
  end.
  { exact Hst. }
  { cbn [fs entries set_entries array_of].
    apply forallb_insert; [|apply entry_typed_zero].
    unfold es1. rewrite !forallb_app. rewrite <- (take_drop k es) in Hents.
    rewrite forallb_app in Hents. apply andb_prop in Hents as [H1 H2].
    rewrite H1. cbn [andb].
    assert (forall n (xs : list acfs_data_entry_t),
              forallb entry_typed xs = true ->
              forallb entry_typed (take n xs) = true
              /\ forallb entry_typed (drop n xs) = true) as Hsub.
    { intros n xs Hxs. rewrite <- (take_drop n xs), forallb_app in Hxs.
      by apply andb_prop in Hxs. }
    destruct (Hsub 1%nat _ H2) as [_ H3]. rewrite drop_drop in H3.
    replace (k + 1)%nat with (S k) in H3 by lia.
    destruct (Hsub (D - 1 - k)%nat _ H3) as [-> _]. cbn [andb].
    destruct (Hsub (k + (D - 1 - k))%nat es) as [_ ->]; [|done].
    rewrite <- (take_drop k es), forallb_app. by rewrite H1, H2. }
  { cbn [fs header set_header data_entries set_data_entries set_entries].
    unfold D in *. lia. }
  { cbn [fs header set_header data_entries set_data_entries entries
         set_entries array_of]. rewrite length_insert, Hlen1. lia. }
  exists r, w2, bm1. split; [exact Hp|]. split.
  { revert Hp. unfold persist. intros Hp.
    apply bind_Some in Hp as (ra & wb & Ha & Hp).
    apply returns_save_header in Ha.
    destruct (is_ok_spec ra) as [->|Hne]; cbn [negb] in Hp.
    - by apply returns_save_entries in Hp.
    - apply ret_inv in Hp as [-> _]. destruct Ha; by auto. }
  split; [done|]. rewrite Hfs2.
  unfold set_header, set_entries, store_bitmap, set_cluster_bitmap.
  cbn [storage header entries cluster_bitmap initialized cluster_buffer].
  rewrite Hbm, Hinit. cbn [fmap option_fmap option_map]. f_equal. f_equal.
  unfold es1.
  replace (Z.to_nat (data_entries h - 1)) with (k + (D - 1 - k))%nat
    by (unfold D in *; lia).
  rewrite app_assoc.
  rewrite (insert_app_r_alt _ _ (k + (D - 1 - k)))
    by (rewrite length_app, !length_take, length_drop; unfold D in *; lia).
  rewrite length_app, !length_take, length_drop.
  replace (k + (D - 1 - k)
           - (k `min` length es
              + (D - 1 - k) `min` (length es - S k)))%nat
    with 0%nat by (unfold D in *; lia).
  destruct (lookup_lt_is_Some_2 es (k + (D - 1 - k))) as [y Hy];
    [unfold D in *; lia|].
  rewrite (drop_S es y (k + (D - 1 - k))) by done.
  cbn [insert list_insert]. rewrite <- app_assoc.
  cbn [entries fs]. do 5 f_equal. unfold D in *. lia.
Qed.

Lemma sum_counts_delete es k e :
  es !! k = Some e ->
  sum_counts (delete k es) = sum_counts es - cluster_count e.
Proof.
  intros He. rewrite delete_take_drop.
  rewrite <- (take_drop_middle es k e He) at 3.
  rewrite !sum_counts_app. unfold sum_counts at 4. cbn [map foldr].
  fold (sum_counts (drop (S k) es)). lia.
Qed.

Lemma live_entries_after_delete (es : list acfs_data_entry_t) k D x :
  (k < D <= length es)%nat ->
  take (D - 1) (take k es ++ take (D - 1 - k) (drop (S k) es)
                ++ x :: drop D es)
  = delete k (take D es).
Proof.
  intros Hk. rewrite delete_take_drop, take_take, Nat.min_l by lia.
  rewrite app_assoc, take_app_length'
    by (rewrite length_app, !length_take, length_drop; lia).
  f_equal. rewrite take_drop_commute. do 2 f_equal. lia.
Qed.

(** [acfs_delete] of a stored id, on a well-typed mounted instance, for
    an entry whose cluster list is a block ([Ptr l]: neither null nor a
    stale address) with the indices the entry counts inside the bitmap:
    the call returns Ok or Io and, either way, has taken the entry out of
    the directory: the entries that followed it have moved one place down
    in their order, [data_entries] is one less, the bits of the entry's
    clusters are cleared and the others kept, and [free_clusters] has
    grown by the entry's cluster count. *)
Theorem acfs_delete_compacts w id k es e l bm :
  let h := header (fs w) in
  let K := Z.to_nat (cluster_count e) in
  acfs_typed (fs w) = true ->
  initialized (fs w) = true ->
  is_Some (storage (fs w)) ->
  data_entries h <= Z.of_nat (length es) ->
  acfs_find_entry id (fs w) = Some (Some k) ->
  entries (fs w) = Some es -> es !! k = Some e ->
  cluster_list e = Ptr l -> 0 <= cluster_count e ->
  cluster_bitmap (fs w) = Some bm ->
  Forall (fun c => is_u16 c /\ is_Some (bitmap_test c bm)) (take K l) ->
  exists r w1,
    acfs_delete (Some id) w = Some (r, w1) /\
    (r = ACFS_OK \/ r = ACFS_ERROR_IO_ERROR) /\
    live_entries (fs w1) = delete k (live_entries (fs w)) /\
    data_entries (header (fs w1)) = data_entries h - 1 /\
    free_clusters (header (fs w1)) = u16 (free_clusters h + cluster_count e) /\
    forall j, is_u16 j ->
      bitmap_test j (array_of (cluster_bitmap (fs w1))) =
      if decide (j ∈ take K l) then Some false else bitmap_test j bm.
Proof.
  intros h K Hty Hinit Hst HD Hfind Hes He Hlist HK0 Hbm Hbits.
  destruct (acfs_delete_runs w id k es e l bm Hty Hinit Hst HD Hfind Hes He
              Hlist HK0 Hbm Hbits) as (r & w1 & bm1 & Hdel & Hr & Hclr & Hfs).
  fold h K in Hclr, Hfs.
  destruct (acfs_typed_spec _ Hty) as (_ & _ & HE & _).
  unfold acfs_find_entry in Hfind. rewrite Hes in Hfind.
  apply find_entry_loop_lt in Hfind. fold h in Hfind, HE.
  exists r, w1. split; [done|]. split; [done|].
  rewrite Hfs. cbn [header entries cluster_bitmap array_of].
  split; [|split; [done|split; [done|]]].
  - unfold live_entries. cbn [header entries array_of data_entries
                               header_with_crc set_header_crc32
                               set_data_entries].
    rewrite Hes. cbn [array_of]. fold h.
    replace (Z.to_nat (data_entries h - 1))
      with (Z.to_nat (data_entries h) - 1)%nat by lia.
    apply live_entries_after_delete. unfold is_u16 in HE. lia.
  - destruct (bitmap_clear_all_spec (take K l) bm)
      as (bm2 & Hclr2 & _ & _ & Hbits2).
    { eapply Forall_impl; [exact Hbits|]. by intros c [? _]. }
    { eapply Forall_impl; [exact Hbits|]. by intros c [_ ?]. }
    rewrite Hclr in Hclr2. injection Hclr2 as <-. exact Hbits2.
Qed.

(** [acfs_delete] keeps the books.  On a well-typed mounted instance,
    for an entry whose cluster list is a block ([Ptr l]: neither null nor
    a stale address) with the indices the entry counts inside the bitmap,
    and no negative cluster count in the directory: when free clusters
    plus the clusters of the stored entries plus the reserved ones add up
    to the total before the call, the call returns and they do so after
    it. *)
Theorem acfs_delete_keeps_accounting w id k es e l bm :
  let h := header (fs w) in
  let K := Z.to_nat (cluster_count e) in
  acfs_typed (fs w) = true ->
  initialized (fs w) = true ->
  is_Some (storage (fs w)) ->
  data_entries h <= Z.of_nat (length es) ->
  acfs_find_entry id (fs w) = Some (Some k) ->
  entries (fs w) = Some es -> es !! k = Some e ->
  cluster_list e = Ptr l ->
  cluster_bitmap (fs w) = Some bm ->
  Forall (fun c => is_u16 c /\ is_Some (bitmap_test c bm)) (take K l) ->
  Forall (fun e => 0 <= cluster_count e) (live_entries (fs w)) ->
  clusters_accounted (fs w) = total_clusters h ->
  exists r w1,
    acfs_delete (Some id) w = Some (r, w1) /\
    clusters_accounted (fs w1) = total_clusters (header (fs w1)).
Proof.
  intros h K Hty Hinit Hst HD Hfind Hes He Hlist Hbm Hbits Hnn Hacc.
  destruct (acfs_typed_spec _ Hty) as (HN & HR & HE & HF & _).
  pose proof Hfind as Hlt. unfold acfs_find_entry in Hlt. rewrite Hes in Hlt.
  apply find_entry_loop_lt in Hlt. fold h in Hlt, HE, HN, HR, HF.
  assert (live_entries (fs w) !! k = Some e) as Hlive.
  { unfold live_entries. rewrite Hes. cbn [array_of]. fold h.
    rewrite lookup_take_lt by lia. done. }
  pose proof (sum_counts_lookup _ _ _ Hnn Hlive) as [HK0 HKle].
  destruct (acfs_delete_runs w id k es e l bm Hty Hinit Hst HD Hfind Hes He
              Hlist HK0 Hbm Hbits) as (r & w1 & bm1 & Hdel & Hr & Hclr & Hfs).
  fold h K in Hclr, Hfs.
  exists r, w1. split; [done|].
  rewrite clusters_accounted_eq in *. fold h in Hacc.
  assert (live_entries (fs w1) = delete k (live_entries (fs w))) as ->.
  { rewrite Hfs. unfold live_entries.
    cbn [header entries array_of data_entries header_with_crc
         set_header_crc32 set_data_entries].
    rewrite Hes. cbn [array_of]. fold h.
    replace (Z.to_nat (data_entries h - 1))
      with (Z.to_nat (data_entries h) - 1)%nat by lia.
    apply live_entries_after_delete. unfold is_u16 in HE. lia. }
  rewrite (sum_counts_delete _ _ _ Hlive).
  rewrite Hfs. cbn [header free_clusters sys_clusters total_clusters
                    header_with_crc set_header_crc32 set_data_entries
                    set_free_clusters].
  fold h. unfold is_u16 in *.
  rewrite u16_small by (unfold is_u16; lia). lia.
Qed.

(** ** Little-endian fields *)

Lemma le_value_le_bytes n : forall x,
  0 <= x < 256 ^ Z.of_nat n -> le_value (le_bytes n x) = x.
Proof.
  induction n as [|n IH]; intros x Hx; cbn [le_bytes le_value].
  - change (256 ^ Z.of_nat 0) with 1 in Hx. lia.
  - rewrite Nat2Z.inj_succ, Z.pow_succ_r in Hx by lia.
    rewrite IH.
    + pose proof (Z.div_mod x 256 ltac:(lia)). lia.
    + split; [apply Z.div_pos; lia|]. apply Z.div_lt_upper_bound; lia.
Qed.

Lemma le_bytes_bytes n : forall x, Forall is_u8 (le_bytes n x).
Proof.
  induction n as [|n IH]; intros x; cbn [le_bytes]; constructor; [|apply IH].
  unfold is_u8. apply Z.mod_pos_bound. lia.
Qed.

Lemma slice_app_l n (a b : list Z) :
  Z.of_nat (length a) = n -> slice 0 n (a ++ b) = a.
Proof.
  intros <-. unfold slice. rewrite Nat2Z.id, drop_0.
  by rewrite take_app_length.
Qed.

Lemma slice_app_r off n k (a b : list Z) :
  Z.of_nat (length a) = k -> 0 <= off ->
  slice (k + off) n (a ++ b) = slice off n b.
Proof.
  intros <- Hoff. unfold slice. f_equal.
  rewrite Z2Nat.inj_add, Nat2Z.id by lia.
  by rewrite <- drop_drop, drop_app_length.
Qed.

(** A header whose fields fit their C types. *)

Lemma header_of_bytes_bytes h bs :
  header_typed h -> header_of_bytes (header_bytes h ++ bs) = h.
Proof.
  intros (Hm & Hv & Hc & Ht & Hs & Hd & Hf & Hcrc). unfold is_u16 in *.
  unfold header_of_bytes, header_bytes. rewrite <- !app_assoc.
  rewrite (slice_app_l 4) by (by rewrite le_bytes_length).
  rewrite (slice_app_r 0 2 4) by (by rewrite ?le_bytes_length).
  rewrite (slice_app_l 2) by (by rewrite le_bytes_length).
  change 6 with (4 + 2). rewrite (slice_app_r 2 2 4), (slice_app_r 0 2 2)
    by (by rewrite ?le_bytes_length).
  rewrite (slice_app_l 2) by (by rewrite le_bytes_length).
  change 8 with (4 + (2 + 2)).
  rewrite (slice_app_r _ 2 4), (slice_app_r _ 2 2), (slice_app_r 0 2 2)
    by (by rewrite ?le_bytes_length).
  rewrite (slice_app_l 2) by (by rewrite le_bytes_length).
  change 10 with (4 + (2 + (2 + 2))).
  rewrite (slice_app_r _ 2 4), (slice_app_r _ 2 2), (slice_app_r _ 2 2),
    (slice_app_r 0 2 2) by (by rewrite ?le_bytes_length).
  rewrite (slice_app_l 2) by (by rewrite le_bytes_length).
  change 12 with (4 + (2 + (2 + (2 + 2)))).
  rewrite (slice_app_r _ 2 4), (slice_app_r _ 2 2), (slice_app_r _ 2 2),
    (slice_app_r _ 2 2), (slice_app_r 0 2 2) by (by rewrite ?le_bytes_length).
  rewrite (slice_app_l 2) by (by rewrite le_bytes_length).
  change 14 with (4 + (2 + (2 + (2 + (2 + 2))))).
  rewrite (slice_app_r _ 2 4), (slice_app_r _ 2 2), (slice_app_r _ 2 2),
    (slice_app_r _ 2 2), (slice_app_r _ 2 2), (slice_app_r 0 2 2)
    by (by rewrite ?le_bytes_length).
  rewrite (slice_app_l 2) by (by rewrite le_bytes_length).
  change 16 with (4 + (2 + (2 + (2 + (2 + (2 + 2)))))).
  rewrite (slice_app_r _ 4 4), (slice_app_r _ 4 2), (slice_app_r _ 4 2),
    (slice_app_r _ 4 2), (slice_app_r _ 4 2), (slice_app_r _ 4 2),
    (slice_app_r 0 4 2) by (by rewrite ?le_bytes_length).
  rewrite (slice_app_l 4) by (by rewrite le_bytes_length).
  rewrite !le_value_le_bytes by (cbn; lia).
  by destruct h.
Qed.

(** ** The range of the CRC-32 *)

Lemma lxor_bound n a b :
  0 <= n -> 0 <= a < 2 ^ n -> 0 <= b < 2 ^ n -> 0 <= Z.lxor a b < 2 ^ n.
Proof.
  intros Hn Ha Hb.
  assert (0 <= Z.lxor a b) as Hnn by (apply Z.lxor_nonneg; split; lia).
  split; [done|].
  destruct (Z.eq_dec n 0) as [->|Hn0].
  { assert (a = 0) as -> by lia. assert (b = 0) as -> by lia. done. }
  destruct (Z.eq_dec (Z.lxor a b) 0) as [->|Hne]; [lia|].
  assert (0 < Z.lxor a b) as Hpos by lia.
  apply Z.log2_lt_pow2; [done|].
  pose proof (Z.log2_lxor a b ltac:(lia) ltac:(lia)) as Hl.
  assert (Z.log2 a < n) as Hla.
  { destruct (Z.eq_dec a 0) as [->|]; [cbn; lia|].
    apply Z.log2_lt_pow2; lia. }
  assert (Z.log2 b < n) as Hlb.
  { destruct (Z.eq_dec b 0) as [->|]; [cbn; lia|].
    apply Z.log2_lt_pow2; lia. }
  lia.
Qed.

Lemma crc32_bit_range c : 0 <= c < 2 ^ 32 -> 0 <= crc32_bit c < 2 ^ 32.
Proof.
  intros Hc. unfold crc32_bit.
  assert (0 <= Z.shiftr c 1 < 2 ^ 32) as Hs.
  { rewrite Z.shiftr_div_pow2 by lia. change (2 ^ 1) with 2.
    split; [apply Z.div_pos; lia|]. apply Z.div_lt_upper_bound; lia. }
  destruct (Z.odd c); [|done]. apply lxor_bound; lia.
Qed.

Lemma crc32_byte_range c b :
  0 <= c < 2 ^ 32 -> is_u8 b -> 0 <= crc32_byte c b < 2 ^ 32.
Proof.
  intros Hc Hb. unfold crc32_byte, is_u8 in *.
  assert (0 <= Z.lxor c b < 2 ^ 32) as Hx by (apply lxor_bound; lia).
  cbn [Nat.iter nat_rect]. by do 8 apply crc32_bit_range.
Qed.

Lemma acfs_crc32_range data :
  Forall is_u8 data -> 0 <= acfs_crc32 data < 2 ^ 32.
Proof.
  intros Hdata. unfold acfs_crc32. apply lxor_bound; [lia| |lia].
  assert (forall c, 0 <= c < 2 ^ 32 ->
            0 <= fold_left crc32_byte data c < 2 ^ 32) as Hfold.
  { induction Hdata as [|b data Hb Hdata IH]; intros c Hc; cbn [fold_left];
      [done|]. apply IH. by apply crc32_byte_range. }
  apply Hfold. lia.
Qed.

Lemma header_bytes_bytes h : Forall is_u8 (header_bytes h).
Proof. unfold header_bytes. rewrite !Forall_app. repeat split; apply le_bytes_bytes. Qed.

Lemma header_with_crc_typed h :
  header_typed h -> header_typed (header_with_crc h).
Proof.
  intros (Hm & Hv & Hc & Ht & Hs & Hd & Hf & _).
  unfold header_typed, header_with_crc.
  cbn [magic version cluster_size total_clusters sys_clusters data_entries
       free_clusters header_crc32 set_header_crc32].
  do 7 (split; [done|]).
  apply acfs_crc32_range, Forall_take, header_bytes_bytes.
Qed.

Lemma header_bytes_crc_span c h :
  take (Z.to_nat (sizeof_acfs_header_t - 4))
       (header_bytes (set_header_crc32 c h))
  = take (Z.to_nat (sizeof_acfs_header_t - 4)) (header_bytes h).
Proof.
  unfold header_bytes.
  cbn [magic version cluster_size total_clusters sys_clusters data_entries
       free_clusters set_header_crc32 header_crc32].
  rewrite !app_assoc.
  change (Z.to_nat (sizeof_acfs_header_t - 4)) with 16%nat.
  rewrite !(take_app_length' _ _ 16)
    by (rewrite !length_app, !le_bytes_length; reflexivity).
  done.
Qed.

Lemma header_with_crc_idem h :
  header_with_crc (header_with_crc h) = header_with_crc h.
Proof.
  unfold header_with_crc. rewrite header_bytes_crc_span. reflexivity.
Qed.

(** ** Reading back what was written *)

Lemma ops_write_read o addr data size m m' :
  0 <= addr -> 0 <= size ->
  ops_write o addr data size m = Some (Some m') ->
  ops_read o addr size m' = Some (take (Z.to_nat size) data).
Proof.
  intros Ha Hs. destruct o; cbn [ops_write ops_read]; intros H.
  - apply eeprom_write_Some in H as (buf & Hbuf & Hin & Hdata & ->).
    unfold eeprom_read. cbn [eeprom_buffer].
    rewrite read_buffer, splice_length by (rewrite ?length_take; lia).
    rewrite decide_True by lia.
    by rewrite slice_splice by (rewrite ?length_take; lia).
  - apply flash_write_Some in H as (buf & Hbuf & Hin & Hdata & _ & ->).
    unfold flash_read. cbn [flash_buffer].
    rewrite read_buffer, splice_length by (rewrite ?length_take; lia).
    rewrite decide_True by lia.
    by rewrite slice_splice by (rewrite ?length_take; lia).
Qed.

Lemma acfs_save_header_ok w w1 :
  acfs_save_header w = Some (ACFS_OK, w1) ->
  exists dev m',
    storage (fs w) = Some dev /\
    ops_write (ops dev) (start_addr dev)
              (header_bytes (header_with_crc (header (fs w))))
              sizeof_acfs_header_t (medium w) = Some (Some m') /\
    w1 = mk_world (set_header (header_with_crc (header (fs w))) (fs w)) m'.
Proof.
  unfold acfs_save_header. intros H.
  rewrite bind_gets, bind_modify in H.
  apply bind_Some in H as (dev & w0 & Hdev & H).
  apply bind_Some in Hdev as (odev & w2 & Hg & Hdev).
  apply gets_inv in Hg as [-> ->]. apply deref_inv in Hdev as [Hst ->].
  cbn [fs storage set_header] in Hst.
  apply bind_Some in H as (ok & w3 & Hw & H).
  destruct ok; cbn [negb] in H; [|by apply ret_inv in H as [[=] _]].
  apply ret_inv in H as [_ ->].
  apply storage_write_ok in Hw as (dev' & m' & Hst' & Hw & ->).
  cbn [fs storage set_header medium] in Hst', Hw.
  rewrite Hst in Hst'. injection Hst' as <-.
  exists dev, m'. done.
Qed.

Lemma header_crc32_with_crc h :
  header_crc32 (header_with_crc h)
  = acfs_crc32 (take (Z.to_nat (sizeof_acfs_header_t - 4)) (header_bytes h)).
Proof. reflexivity. Qed.

Lemma header_bytes_with_crc_span h :
  take (Z.to_nat (sizeof_acfs_header_t - 4))
       (header_bytes (header_with_crc h))
  = take (Z.to_nat (sizeof_acfs_header_t - 4)) (header_bytes h).
Proof. apply header_bytes_crc_span. Qed.

(** The header [acfs_save_header] has written is accepted by
    [acfs_load_header]: on any instance that uses the device, loading
    from the medium as the save left it passes the magic and the CRC
    checks and gives the header that was saved, checksum included. *)
Theorem acfs_save_then_load_header w w1 dev a :
  storage (fs w) = Some dev -> storage a = Some dev ->
  0 <= start_addr dev ->
  header_typed (header (fs w)) ->
  magic (header (fs w)) = ACFS_MAGIC_NUMBER ->
  acfs_save_header w = Some (ACFS_OK, w1) ->
  header (fs w1) = header_with_crc (header (fs w)) /\
  acfs_load_header (mk_world a (medium w1))
  = Some (ACFS_OK,
          mk_world (set_header (header_with_crc (header (fs w))) a)
                   (medium w1)).
Proof.
  intros Hst Hsta Hstart Hty Hmagic H.
  apply acfs_save_header_ok in H as (dev' & m' & Hst' & Hw & ->).
  rewrite Hst in Hst'. injection Hst' as <-.
  split; [done|]. cbn [medium].
  set (h' := header_with_crc (header (fs w))) in *.
  apply ops_write_read in Hw; [|done|by unfold sizeof_acfs_header_t].
  rewrite take_ge in Hw
    by (rewrite header_bytes_length; by unfold sizeof_acfs_header_t).
  unfold acfs_load_header.
  unfold bind at 1. unfold bind at 1. unfold gets at 1.
  cbn [fs]. rewrite Hsta. cbn [deref ret].
  rewrite (bind_storage_read _ _ _ _ dev) by done.
  cbn [medium]. rewrite Hw.
  assert (header_of_bytes (header_bytes h') = h') as ->.
  { rewrite <- (app_nil_r (header_bytes h')).
    apply header_of_bytes_bytes. by apply header_with_crc_typed. }
  rewrite bind_modify.
  assert (magic h' = ACFS_MAGIC_NUMBER) as -> by exact Hmagic.
  rewrite Z.eqb_refl.
  unfold h'. rewrite header_bytes_with_crc_span, header_crc32_with_crc.
  rewrite Z.eqb_refl. reflexivity.
Qed.

(** ** The self-test of a device *)

Lemma ops_read_prefix o addr n k m bs :
  0 <= k <= n ->
  ops_read o addr n m = Some bs ->
  ops_read o addr k m = Some (slice 0 k bs).
Proof.
  intros Hk.
  assert (forall buf : list Z,
            (if Z.of_nat (length buf) <? addr + n then None
             else Some (slice addr n buf)) = Some bs ->
            (if Z.of_nat (length buf) <? addr + k then None
             else Some (slice addr k buf)) = Some (slice 0 k bs)) as Hbuf.
  { intros buf H.
    destruct (Z.ltb_spec (Z.of_nat (length buf)) (addr + n)); [done|].
    injection H as <-.
    destruct (Z.ltb_spec (Z.of_nat (length buf)) (addr + k)); [lia|].
    f_equal. unfold slice. rewrite drop_0, take_take. f_equal. lia. }
  destruct o; cbn [ops_read]; unfold eeprom_read, flash_read;
    case_match; done || apply Hbuf.
Qed.

(** A self-test that answers Ok has overwritten the first four bytes at
    [start_addr]: they hold 55 AA 33 CC on a device without erase and
    FF FF FF FF on one with erase.  A file system that was stored on the
    device is lost: [acfs_load_header] no longer accepts its header. *)
Theorem acfs_test_storage_device_overwrites dev m m' :
  0 <= start_addr dev ->
  acfs_test_storage_device (Some dev) m = Some (ACFS_OK, m') ->
  ops_read (ops dev) (start_addr dev) 4 m'
  = Some (if need_erase dev then repeat 0xFF 4 else test_data) /\
  forall a r w', storage a = Some dev ->
    acfs_load_header (mk_world a m') = Some (r, w') -> r <> ACFS_OK.
Proof.
  intros Hstart H.
  assert (ops_read (ops dev) (start_addr dev) 4 m'
          = Some (if need_erase dev then repeat 0xFF 4 else test_data))
    as Hread.
  { unfold acfs_test_storage_device in H.
    destruct (ops_write _ _ _ _ _) as [[m1|]|]; [|done|done].
    destruct (ops_read (ops dev) (start_addr dev) 4 m1) as [rd|] eqn:Hrd;
      [|done].
    destruct (bool_decide_reflect (rd = test_data)) as [->|];
      cbn [negb] in H; [|done].
    destruct (need_erase dev); [|by injection H as <-].
    destruct (ops_erase _ _ _ _) as [m2|]; [|done].
    destruct (ops_read (ops dev) (start_addr dev) 4 m2) as [rd2|] eqn:Hrd2;
      [|done].
    destruct (forallb (Z.eqb 255) rd2) eqn:Hall; [|done].
    injection H as <-. rewrite Hrd2. f_equal.
    apply forallb_eqb_repeat in Hall. rewrite Hall.
    by rewrite (ops_read_length _ _ 4 _ _ Hstart ltac:(lia) Hrd2). }
  split; [exact Hread|].
  intros a r w' Hst Hload ->.
  apply acfs_load_header_inv in Hload as (dev' & Hst' & Hload).
  cbn [fs medium] in Hst', Hload. rewrite Hst in Hst'. injection Hst' as <-.
  destruct (ops_read (ops dev) (start_addr dev) sizeof_acfs_header_t m')
    as [bs|] eqn:Hbs; [|by destruct Hload].
  destruct Hload as [_ Hok]. destruct (Hok eq_refl) as [Hmagic _].
  apply (ops_read_prefix _ _ _ 4) in Hbs;
    [|by unfold sizeof_acfs_header_t].
  rewrite Hread in Hbs. injection Hbs as Hbs.
  unfold header_of_bytes in Hmagic. cbn [magic] in Hmagic.
  rewrite <- Hbs in Hmagic. by destruct (need_erase dev).
Qed.

(** ** Runs that keep a property of the medium *)


Section device_runs.
Variables (dev : storage_device_t) (I : media -> Prop).
Hypothesis HI : forall addr data size m m',
  0 <= addr -> I m ->
  ops_write (ops dev) addr data size m = Some (Some m') -> I m'.

Lemma device_run_ret {A} (a : A) (Q : A -> Prop) :
  Q a -> device_run dev I (ret a) Q.
Proof. intros HQ w a' w' Hst Hp [= <- <-]. done. Qed.

Lemma device_run_bind {A B} (m : M A) (k : A -> M B) P Q :
  device_run dev I m P -> (forall a, P a -> device_run dev I (k a) Q) ->
  device_run dev I (bind m k) Q.
Proof.
  intros Hm Hk w b w' Hst Hp H.
  apply bind_Some in H as (a & w1 & H1 & H2).
  destruct (Hm _ _ _ Hst Hp H1) as (Hst1 & Hp1 & HP).
  exact (Hk a HP _ _ _ Hst1 Hp1 H2).
Qed.

Lemma device_run_read_only {A} (m : M A) :
  read_only m -> device_run dev I m (fun _ => True).
Proof. intros Hm w a w' Hst Hp H. apply Hm in H as ->. done. Qed.

Lemma device_run_gets {A} (f : acfs_t -> A) :
  device_run dev I (gets f) (fun _ => True).
Proof. apply device_run_read_only, read_only_gets. Qed.

Lemma device_run_deref {A} (o : option A) :
  device_run dev I (deref o) (fun _ => True).
Proof. apply device_run_read_only, read_only_deref. Qed.

Lemma device_run_find_entry id :
  device_run dev I (find_entry id) (fun _ => True).
Proof. apply device_run_read_only, read_only_find_entry. Qed.

Lemma device_run_entry_at i :
  device_run dev I (entry_at i) (fun _ => True).
Proof. apply device_run_read_only, read_only_entry_at. Qed.

Lemma device_run_modify f :
  (forall a, storage (f a) = storage a) ->
  device_run dev I (modify f) (fun _ => True).
Proof.
  intros Hf w a w' Hst Hp H. apply modify_inv in H as ->.
  cbn [fs medium]. by rewrite Hf.
Qed.

Lemma device_run_lift {A} (f : acfs_t -> option (A * acfs_t)) :
  (forall a r a', f a = Some (r, a') -> storage a' = storage a) ->
  device_run dev I (lift f) (fun _ => True).
Proof.
  intros Hf w a w' Hst Hp H. apply lift_inv in H as (s & H & ->).
  apply Hf in H as Hs. cbn [fs medium]. by rewrite Hs.
Qed.

Lemma device_run_update_entry i f :
  device_run dev I (update_entry i f) (fun _ => True).
Proof.
  unfold update_entry.
  eapply device_run_bind; [apply device_run_gets|]. intros es _.
  eapply device_run_bind; [apply device_run_deref|]. intros e _.
  apply device_run_modify. by intros [].
Qed.

Lemma device_run_free_block {A} (p : pointer A) :
  device_run dev I (free_block p) (fun _ => True).
Proof. apply device_run_read_only, read_only_free_block. Qed.

Lemma device_run_free_clusters_step l c :
  device_run dev I (free_clusters_step l c) (fun _ => True).
Proof.
  apply device_run_lift. intros a r a' H.
  destruct (acfs_free_clusters l c a) as [a1|] eqn:Hf; [|done].
  injection H as <- <-. by apply acfs_free_clusters_frame in Hf as [-> _].
Qed.

Lemma device_run_allocate_clusters_step c :
  device_run dev I (allocate_clusters_step c) (fun _ => True).
Proof.
  apply device_run_lift. intros a r a' H.
  destruct (acfs_allocate_clusters c a) as [[[e l] a1]|] eqn:Hf; [|done].
  injection H as <- <-.
  by apply acfs_allocate_clusters_frame in Hf as [-> _].
Qed.

(** A write keeps [I]; what it returns is read off the adapter. *)
Lemma device_run_storage_write addr data size (Q : bool -> Prop) :
  0 <= addr ->
  (forall m, I m ->
     match ops_write (ops dev) addr data size m with
     | Some (Some _) => Q true
     | Some None => Q false
     | None => True
     end) ->
  device_run dev I (storage_write addr data size) Q.
Proof.
  intros Ha HQ w ok w' Hst Hp H. unfold storage_write in H.
  unfold bind at 1 in H. unfold bind at 1 in H. unfold gets in H.
  rewrite Hst in H. cbn [deref ret] in H.
  specialize (HQ _ Hp).
  destruct (ops_write (ops dev) addr data size (medium w))
    as [[m'|]|] eqn:Hw; [|by injection H as <- <-|done].
  injection H as <- <-. cbn [fs medium]. eauto.
Qed.

Lemma device_run_write_clusters_loop l n : forall i data,
  device_run dev I (write_clusters_loop l n i data) (fun _ => True).
Proof.
  induction n as [|n IH]; intros i data; cbn [write_clusters_loop].
  - by apply device_run_ret.
  - eapply device_run_bind.
    { apply device_run_read_only, read_only_bind;
        [apply read_only_gets | intros; apply read_only_deref]. }
    intros d _.
    eapply device_run_bind; [apply device_run_gets|]. intros h _.
    eapply device_run_bind; [apply device_run_deref|]. intros c _.
    eapply device_run_bind.
    { apply (device_run_storage_write _ _ _ (fun _ => True)).
      - unfold u32. by apply Z.mod_pos_bound.
      - intros m _. by repeat case_match. }
    intros ok _. destruct ok; cbn [negb]; [apply IH|by apply device_run_ret].
Qed.

Lemma device_run_delete_shift n : forall i,
  device_run dev I (delete_shift n i) (fun _ => True).
Proof.
  induction n as [|n IH]; intros i; cbn [delete_shift].
  - by apply device_run_ret.
  - eapply device_run_bind; [apply device_run_entry_at|]. intros next _.
    eapply device_run_bind; [apply device_run_update_entry|]. intros _ _.
    apply IH.
Qed.

Lemma device_run_write_entry id K :
  device_run dev I (acfs_write_entry id K)
             (fun ri => forall e, ri = inl e -> e <> ACFS_OK).
Proof.
  assert (forall i (f : acfs_error_t * list Z -> M (acfs_error_t + nat)),
            (forall r, device_run dev I (f r)
               (fun ri => forall e, ri = inl e -> e <> ACFS_OK)) ->
            device_run dev I
              (do r <- allocate_clusters_step K;
               if negb (is_ok r.1) then
                 update_entry i (set_cluster_list NULL) ;; ret (inl r.1)
               else f r)
              (fun ri => forall e, ri = inl e -> e <> ACFS_OK)) as Halloc.
  { intros i f Hf.
    eapply device_run_bind; [apply device_run_allocate_clusters_step|].
    intros r _. destruct (is_ok_spec r.1) as [|Hne]; cbn [negb]; [apply Hf|].
    eapply device_run_bind; [apply device_run_update_entry|].
    intros _ _. apply device_run_ret. by intros e [= <-]. }
  unfold acfs_write_entry.
  eapply device_run_bind; [apply device_run_find_entry|].
  intros [i|] _.
  - eapply device_run_bind; [apply device_run_entry_at|]. intros entry _.
    destruct (negb _);
      [|apply device_run_ret; intros e He; by simplify_eq].
    eapply device_run_bind; [apply device_run_free_clusters_step|].
    intros _ _.
    eapply device_run_bind; [apply device_run_free_block|].
    intros _ _. apply Halloc. intros r.
    eapply device_run_bind; [apply device_run_update_entry|].
    intros _ _. apply device_run_ret; intros e He; by simplify_eq.
  - eapply device_run_bind; [apply device_run_gets|]. intros h _.
    destruct (_ <=? _);
      [apply device_run_ret; intros e He; by simplify_eq|].
    eapply device_run_bind; [apply device_run_update_entry|].
    intros _ _. apply Halloc. intros r.
    eapply device_run_bind; [apply device_run_update_entry|]. intros _ _.
    eapply device_run_bind; [apply device_run_gets|]. intros h' _.
    eapply device_run_bind; [apply device_run_modify; by intros []|].
    intros _ _. apply device_run_ret; intros e He; by simplify_eq.
Qed.

(** When the header cannot be saved, neither [acfs_write] nor
    [acfs_delete] returns Ok. *)
Hypothesis Hheader :
  device_run dev I acfs_save_header (fun r => r <> ACFS_OK).

Lemma device_run_write_data i data size :
  device_run dev I (acfs_write_data i data size) (fun r => r <> ACFS_OK).
Proof.
  unfold acfs_write_data.
  eapply device_run_bind; [apply device_run_deref|]. intros bytes _.
  eapply device_run_bind; [apply device_run_update_entry|]. intros _ _.
  eapply device_run_bind; [apply device_run_entry_at|]. intros entry _.
  eapply device_run_bind; [apply device_run_write_clusters_loop|].
  intros ret1 _.
  destruct (is_ok_spec ret1) as [|Hne]; cbn [negb];
    [|by apply device_run_ret].
  eapply device_run_bind; [apply Hheader|].
  intros ret2 Hne. destruct (is_ok_spec ret2); [done|].
  cbn [negb]. by apply device_run_ret.
Qed.

Lemma device_run_write id data size :
  device_run dev I (acfs_write id data size) (fun r => r <> ACFS_OK).
Proof.
  unfold acfs_write. destruct id as [id|]; [|by apply device_run_ret].
  destruct data as [data|]; [|by apply device_run_ret].
  destruct (size =? 0); [by apply device_run_ret|].
  eapply device_run_bind; [apply device_run_gets|]. intros init _.
  destruct (negb init); [by apply device_run_ret|].
  destruct (_ <=? _); [by apply device_run_ret|].
  eapply device_run_bind; [apply device_run_gets|]. intros h _.
  eapply device_run_bind; [apply device_run_deref|]. intros K _.
  eapply device_run_bind; [apply device_run_write_entry|].
  intros [e|i] Hri; [apply device_run_ret; by apply Hri|].
  apply device_run_write_data.
Qed.

Lemma device_run_delete id :
  device_run dev I (acfs_delete id) (fun r => r <> ACFS_OK).
Proof.
  unfold acfs_delete. destruct id as [id|]; [|by apply device_run_ret].
  eapply device_run_bind; [apply device_run_gets|]. intros init _.
  destruct (negb init); [by apply device_run_ret|].
  eapply device_run_bind; [apply device_run_find_entry|].
  intros [i|] _; [|by apply device_run_ret].
  eapply device_run_bind; [apply device_run_entry_at|]. intros entry _.
  destruct (negb _); [by apply device_run_ret|].
  eapply device_run_bind; [apply device_run_free_clusters_step|].
  intros _ _.
  eapply device_run_bind; [apply device_run_free_block|]. intros _ _.
  eapply device_run_bind; [apply device_run_gets|]. intros h _.
  eapply device_run_bind; [apply device_run_delete_shift|]. intros _ _.
  eapply device_run_bind; [apply device_run_modify; by intros []|].
  intros _ _.
  eapply device_run_bind; [apply device_run_update_entry|]. intros _ _.
  eapply device_run_bind; [apply Hheader|].
  intros ret1 Hne. destruct (is_ok_spec ret1); [done|].
  cbn [negb]. by apply device_run_ret.
Qed.
End device_runs.

(** ** Flash: the engine never erases *)

Lemma flash_write_blocked addr data size m m' p :
  0 <= addr -> programmed p m ->
  flash_write addr data size m = Some (Some m') ->
  ~ (addr <= Z.of_nat p < addr + size) /\ programmed p m'.
Proof.
  intros Ha (buf & b & Hbuf & Hb & Hne) H.
  apply flash_write_Some in H as (buf' & Hbuf' & Hin & Hdata & Hall & ->).
  rewrite Hbuf in Hbuf'. injection Hbuf' as <-.
  assert (~ (addr <= Z.of_nat p < addr + size)) as Hout.
  { intros Hp. apply forallb_eqb_repeat in Hall.
    assert (slice addr size buf !! (p - Z.to_nat addr)%nat = Some b) as Hs.
    { rewrite lookup_slice, decide_True by lia. rewrite <- Hb. f_equal. lia. }
    rewrite Hall in Hs. apply list_elem_of_lookup_2, list_elem_of_In in Hs.
    apply repeat_spec in Hs. congruence. }
  split; [exact Hout|]. exists (splice addr (take (Z.to_nat size) data) buf), b.
  split; [done|]. split; [|done].
  destruct (Z.le_gt_cases size 0) as [Hs|Hs].
  - replace (Z.to_nat size) with 0%nat by lia. unfold splice.
    rewrite take_0, app_nil_l. cbn [length]. rewrite Nat.add_0_r.
    by rewrite take_drop.
  - rewrite lookup_splice by (rewrite ?length_take; lia).
    rewrite length_take.
    destruct (decide (Z.of_nat p < addr)); [done|].
    destruct (decide _); [lia|done].
Qed.

Lemma programmed_kept dev p addr data size m m' :
  ops dev = flash_ops -> 0 <= addr -> programmed p m ->
  ops_write (ops dev) addr data size m = Some (Some m') -> programmed p m'.
Proof.
  intros -> Ha Hp H. by destruct (flash_write_blocked _ _ _ _ _ _ Ha Hp H).
Qed.

Lemma flash_save_header_blocked dev p :
  ops dev = flash_ops -> 0 <= start_addr dev ->
  start_addr dev <= Z.of_nat p < start_addr dev + sizeof_acfs_header_t ->
  device_run dev (programmed p) acfs_save_header (fun r => r <> ACFS_OK).
Proof.
  intros Hflash Hstart Hp.
  pose proof (programmed_kept dev p) as HI.
  unfold acfs_save_header.
  eapply device_run_bind; [apply device_run_gets|]. intros h _.
  eapply device_run_bind; [apply device_run_modify; by intros []|].
  intros _ _ w a w' Hst Hpr H.
  apply bind_Some in H as (d & w1 & Hd & H).
  apply bind_Some in Hd as (od & w0 & Hg & Hd).
  apply gets_inv in Hg as [-> ->]. apply deref_inv in Hd as [Hd ->].
  rewrite Hst in Hd. injection Hd as <-.
  match type of H with
  | bind ?m ?k _ = _ =>
      assert (device_run dev (programmed p) (bind m k)
                         (fun r => r <> ACFS_OK)) as Hrun
  end.
  { eapply device_run_bind.
    - apply (device_run_storage_write dev (programmed p))
        with (Q := fun ok => ok = false); [by eauto|done|].
      intros m Hm. rewrite Hflash. cbn [ops_write].
      destruct (flash_write _ _ _ m) as [[m'|]|] eqn:Hw; [|done|done].
      by destruct (flash_write_blocked _ _ _ _ _ _ Hstart Hm Hw).
    - intros ok ->. cbn [negb]. by apply device_run_ret. }
  exact (Hrun _ _ _ Hst Hpr H).
Qed.

(** On the flash adapter a stored header cannot be replaced: the engine
    never erases, and the adapter refuses to program bytes that are not
    erased.  Once a byte of the header area holds something else than
    0xFF (as after [acfs_format]), neither [acfs_write] nor [acfs_delete]
    ever returns Ok, and the byte stays as it is. *)
Theorem flash_header_blocks_updates dev p w :
  ops dev = flash_ops ->
  0 <= start_addr dev ->
  start_addr dev <= Z.of_nat p < start_addr dev + sizeof_acfs_header_t ->
  storage (fs w) = Some dev ->
  programmed p (medium w) ->
  (forall id data size r w',
     acfs_write id data size w = Some (r, w') ->
     r <> ACFS_OK /\ programmed p (medium w')) /\
  (forall id r w',
     acfs_delete id w = Some (r, w') ->
     r <> ACFS_OK /\ programmed p (medium w')).
Proof.
  intros Hflash Hstart Hp Hst Hpr.
  pose proof (fun addr data size m m' Ha Hm =>
                programmed_kept dev p addr data size m m' Hflash Ha Hm) as HI.
  pose proof (flash_save_header_blocked dev p Hflash Hstart Hp) as Hh.
  split.
  - intros id data size r w' H.
    destruct (device_run_write dev _ HI Hh id data size _ _ _ Hst Hpr H)
      as (_ & ? & ?).
    done.
  - intros id r w' H.
    destruct (device_run_delete dev _ Hh id _ _ _ Hst Hpr H)
      as (_ & ? & ?).
    done.
Qed.

(** ** The slots of the cluster lists *)

Lemma ops_write_device_bytes o addr data size m m' :
  0 <= addr ->
  ops_write o addr data size m = Some (Some m') ->
  device_bytes o m' = device_bytes o m.
Proof.
  intros Ha. destruct o; cbn [ops_write]; intros H.
  - apply eeprom_write_Some in H as (buf & Hbuf & Hin & Hdata & ->).
    unfold device_bytes. cbn [eeprom_buffer]. rewrite Hbuf.
    destruct (Z.le_gt_cases size 0).
    + replace (Z.to_nat size) with 0%nat by lia. unfold splice.
      rewrite take_0, app_nil_l. cbn [length]. rewrite Nat.add_0_r.
      by rewrite take_drop.
    + by rewrite splice_length by (rewrite ?length_take; lia).
  - apply flash_write_Some in H as (buf & Hbuf & Hin & Hdata & _ & ->).
    unfold device_bytes. cbn [flash_buffer]. rewrite Hbuf.
    destruct (Z.le_gt_cases size 0).
    + replace (Z.to_nat size) with 0%nat by lia. unfold splice.
      rewrite take_0, app_nil_l. cbn [length]. rewrite Nat.add_0_r.
      by rewrite take_drop.
    + by rewrite splice_length by (rewrite ?length_take; lia).
Qed.

Lemma ops_write_out_of_range o addr data size m :
  device_bytes o m < addr + size ->
  ops_write o addr data size m = Some None.
Proof.
  unfold device_bytes.
  destruct o; cbn [ops_write]; unfold eeprom_write, flash_write;
    (case_match; [|done]); intros Hlt;
    by destruct (Z.ltb_spec (Z.of_nat (length l)) (addr + size)); [|lia].
Qed.

Lemma save_cluster_lists_out_of_range dev ea esz i e n : forall j w r w',
  storage (fs w) = Some dev ->
  array_of (entries (fs w)) !! i = Some e ->
  0 < cluster_count e -> is_null (cluster_list e) = false ->
  (j <= i < j + n)%nat ->
  device_bytes (ops dev) (medium w)
  < cluster_list_addr ea esz i + cluster_count e * 2 ->
  save_cluster_lists ea esz j n w = Some (r, w') ->
  r = ACFS_ERROR_IO_ERROR.
Proof.
  induction n as [|n IH]; intros j w r w' Hst He Hcount Hnull Hj Hsmall H;
    [lia|].
  cbn [save_cluster_lists] in H. rewrite bind_gets in H.
  apply bind_Some in H as (entry & w0 & Hd & H).
  apply deref_inv in Hd as [Hentry ->].
  assert (forall w1, fs w1 = fs w ->
            device_bytes (ops dev) (medium w1)
            = device_bytes (ops dev) (medium w) ->
            save_cluster_lists ea esz (S j) n w1 = Some (r, w') ->
            j <> i -> r = ACFS_ERROR_IO_ERROR) as Hnext.
  { intros w1 Hfs Hmed H1 Hne.
    apply (IH (S j) w1 r w'); rewrite ?Hfs, ?Hmed; done || lia. }
  destruct (decide (j = i)) as [->|Hne].
  - rewrite He in Hentry. injection Hentry as <-.
    destruct (Z.ltb_spec 0 (cluster_count e)); [|lia].
    rewrite Hnull in H. cbn [negb andb] in H.
    unfold storage_write in H. unfold bind at 1 in H. unfold bind at 1 in H.
    unfold bind at 1 in H. unfold gets in H. rewrite Hst in H.
    cbn [deref ret] in H.
    rewrite ops_write_out_of_range in H by done.
    cbn [negb] in H. by apply ret_inv in H as [-> _].
  - destruct ((0 <? cluster_count entry)
              && negb (is_null (cluster_list entry)));
      [|by apply (Hnext w)].
    apply bind_Some in H as (ok & w1 & Hw & H).
    destruct ok; cbn [negb] in H; [|by apply ret_inv in H as [-> _]].
    apply storage_write_ok in Hw as (dev' & m' & Hst' & Hw & ->).
    rewrite Hst in Hst'. injection Hst' as <-.
    apply (Hnext (mk_world (fs w) m') eq_refl); [|done|done]. cbn [medium].
    apply ops_write_device_bytes in Hw; [done|].
    unfold cluster_list_addr, u32. by apply Z.mod_pos_bound.
Qed.

Lemma acfs_save_entries_out_of_range dev i e w r w' :
  storage (fs w) = Some dev ->
  array_of (entries (fs w)) !! i = Some e ->
  Z.of_nat i < data_entries (header (fs w)) ->
  0 < cluster_count e -> is_null (cluster_list e) = false ->
  device_bytes (ops dev) (medium w)
  < cluster_list_addr (u32 (start_addr dev + sizeof_acfs_header_t))
                      (u32 (data_entries (header (fs w))
                            * sizeof_acfs_data_entry_t)) i
    + cluster_count e * 2 ->
  acfs_save_entries w = Some (r, w') ->
  r = ACFS_ERROR_IO_ERROR.
Proof.
  intros Hst He Hi Hcount Hnull Hsmall H. unfold acfs_save_entries in H.
  unfold bind at 1 in H. unfold bind at 1 in H. unfold gets at 1 in H.
  rewrite Hst in H. cbn [deref ret] in H. rewrite !bind_gets in H.
  apply bind_Some in H as (ok & w1 & Hw & H).
  destruct ok; cbn [negb] in H; [|by apply ret_inv in H as [-> _]].
  apply storage_write_ok in Hw as (dev' & m' & Hst' & Hw & ->).
  rewrite Hst in Hst'. injection Hst' as <-.
  apply ops_write_device_bytes in Hw;
    [|unfold u32; by apply Z.mod_pos_bound].
  eapply (save_cluster_lists_out_of_range dev _ _ i e); [..|exact H];
    cbn [fs medium]; try done; [lia|by rewrite Hw].
Qed.

(** The slot of the cluster list of entry [i >= 1] begins more than
    131070 bytes after [start_addr]. *)
Lemma cluster_list_addr_far start nD i :
  0 <= start <= 131070 -> (1 <= i)%nat -> Z.of_nat i < nD <= 32000 ->
  131070 < cluster_list_addr (u32 (start + sizeof_acfs_header_t))
                             (u32 (nD * sizeof_acfs_data_entry_t)) i.
Proof.
  intros Hs Hi HD.
  unfold cluster_list_addr, u32, sizeof_acfs_header_t,
    sizeof_acfs_data_entry_t, ACFS_MAX_CLUSTERS.
  rewrite (Z.mod_small (start + 20)) by lia.
  rewrite (Z.mod_small (nD * 56)) by lia.
  rewrite Z.mod_small by lia. lia.
Qed.

Lemma acfs_write_data_saves i data size wa w1 :
  acfs_write_data i data size wa = Some (ACFS_OK, w1) ->
  exists es e w5,
    entries (fs wa) = Some es /\ es !! i = Some e /\
    fs w5 = set_header (header_with_crc (header (fs wa)))
              (set_entries (Some (<[i := written data size e]> es)) (fs wa)) /\
    acfs_save_entries w5 = Some (ACFS_OK, w1) /\
    forall dev I,
      (forall addr data size m m', 0 <= addr -> I m ->
         ops_write (ops dev) addr data size m = Some (Some m') -> I m') ->
      storage (fs wa) = Some dev -> 0 <= start_addr dev ->
      I (medium wa) -> I (medium w5).
Proof.
  unfold acfs_write_data. intros H.
  apply bind_Some in H as (bytes & w0 & Hb & H). apply deref_inv in Hb as [Hb ->].
  apply memcpy_src_Some in Hb as [-> Hsize].
  apply bind_Some in H as (u & w2 & Hupd & H).
  apply update_entry_inv in Hupd as (es & e & Hes & He & ->).
  apply bind_Some in H as (entry & w3 & Hent & H).
  apply entry_at_inv in Hent as [Hent ->].
  apply bind_Some in H as (r1 & w4 & Hwc & H).
  pose proof (write_clusters_loop_fs _ _ _ _ _ _ _ Hwc) as Hfs4.
  destruct (is_ok_spec r1) as [->|Hne]; cbn [negb] in H;
    [|apply ret_inv in H as [Heq _]; congruence].
  apply bind_Some in H as (r2 & w5 & Hsh & H).
  pose proof (acfs_save_header_inv _ _ _ Hsh) as [Hfs5 _].
  destruct (is_ok_spec r2) as [->|Hne]; cbn [negb] in H;
    [|apply ret_inv in H as [Heq _]; congruence].
  exists es, e, w5. split; [done|]. split; [done|]. split; [|split; [done|]].
  - rewrite Hfs5, Hfs4. unfold written. cbn [fs].
    assert (forall X a, header (set_entries X a) = header a) as Hh
      by (by intros ? []).
    by rewrite Hh.
  - intros dev I HI Hst Hstart HIa.
    assert (forall X a, storage (set_entries X a) = storage a) as Hs
      by (by intros ? []).
    eapply (device_run_write_clusters_loop dev I HI) in Hwc
      as (Hst4 & HI4 & _); [|cbn [fs]; by rewrite Hs|exact HIa].
    apply acfs_save_header_ok in Hsh as (dev' & m' & Hst' & Hw & ->).
    rewrite Hst4 in Hst'. injection Hst' as <-. cbn [medium].
    by eapply HI; [|exact HI4|exact Hw].
Qed.

Lemma data_entries_with_crc h :
  data_entries (header_with_crc h) = data_entries h.
Proof. reflexivity. Qed.

(** The cluster list of directory entry [i] is stored
    [i * ACFS_MAX_CLUSTERS * 2] bytes after the directory, that is more
    than 131070 bytes after [start_addr] for every entry but the first.
    On a device of at most 131070 bytes (any device below 128 KiB) the
    adapter refuses that write: storing an item under a new id when the
    directory already holds one never returns Ok. *)
Theorem acfs_write_further_item_small_device dev w id data size r w' :
  let h := header (fs w) in
  storage (fs w) = Some dev ->
  0 <= start_addr dev <= 131070 ->
  device_bytes (ops dev) (medium w) <= 131070 ->
  initialized (fs w) = true ->
  acfs_exists (Some id) w = Some (false, w) ->
  1 <= data_entries h < 32000 ->
  0 < cluster_size h < 2 ^ 16 ->
  0 < size <= 65535 * cluster_size h ->
  acfs_write (Some id) (Some data) size w = Some (r, w') ->
  r <> ACFS_OK.
Proof.
  intros h Hst Hstart Hsmall Hinit Hex HD HS Hsize H ->.
  pose proof (acfs_exists_false_inv _ _ Hinit Hex) as Hfind.
  apply acfs_write_steps in H as (_ & _ & _ & K & ri & wa & HK & Hentry & H);
    [|done|done].
  fold h in HK.
  destruct (clusters_needed_ceiling _ _ HS Hsize) as (k & HK' & Hk & _).
  rewrite HK in HK'. injection HK' as <-.
  destruct (acfs_write_entry_new _ _ _ _ _ Hfind Hentry) as [Hmed Hcases].
  cbn zeta in Hcases. fold h in Hcases.
  destruct Hcases as [(_ & -> & _)|(_ & es & e0 & err & l & a2 & Hes & He0
                                    & Halloc & Hcases)]; [by destruct H|].
  destruct Hcases as [(-> & -> & Hfsa)|(Hne & -> & _)];
    [|destruct H as [<- _]; done].
  apply acfs_allocate_clusters_frame in Halloc
    as (Hst2 & _ & _ & _ & F & Hh2).
  set (nE := Z.to_nat (data_entries h)) in *.
  assert (data_entries (header a2) = data_entries h) as HD2
    by (rewrite Hh2; by destruct (header (fs w))).
  rewrite HD2 in Hfsa.
  assert (u16 (data_entries h + 1) = data_entries h + 1) as Hu16
    by (unfold u16; apply Z.mod_small; lia).
  rewrite Hu16 in Hfsa.
  assert (storage (fs wa) = Some dev) as Hsta
    by (rewrite Hfsa, <- Hst, <- Hst2; by destruct a2).
  apply acfs_write_data_saves in H
    as (es' & e' & w5 & Hes' & He' & Hfs5 & Hsave & Hmedium).
  assert (device_bytes (ops dev) (medium w5) <= 131070) as Hsmall5.
  { apply (Hmedium dev (fun m => device_bytes (ops dev) m <= 131070));
      [|done|lia|by rewrite Hmed].
    intros addr data' size' m m' Ha Hm Hw.
    by rewrite (ops_write_device_bytes _ _ _ _ _ _ Ha Hw). }
  assert (nE < length es)%nat as HnE by (by eapply lookup_lt_Some).
  rewrite Hfsa in Hes'. cbn [entries set_header set_entries] in Hes'.
  injection Hes' as <-.
  rewrite list_lookup_insert_eq in He' by done. injection He' as <-.
  rewrite list_insert_insert_eq in Hfs5.
  eapply (acfs_save_entries_out_of_range dev nE) in Hsave; [done|..].
  - rewrite Hfs5. cbn [storage set_header set_entries]. exact Hsta.
  - rewrite Hfs5. cbn [entries set_header set_entries array_of].
    by apply list_lookup_insert_eq.
  - rewrite Hfs5. cbn [header set_header].
    rewrite data_entries_with_crc, Hfsa. cbn [header set_header data_entries
      set_data_entries]. lia.
  - unfold written. cbn [cluster_count set_crc32 set_data_size set_is_valid
      set_cluster_count]. lia.
  - reflexivity.
  - rewrite Hfs5. cbn [header set_header].
    rewrite data_entries_with_crc, Hfsa. cbn [header set_header data_entries
      set_data_entries].
    pose proof (cluster_list_addr_far (start_addr dev) (data_entries h + 1) nE).
    unfold written. cbn [cluster_count set_crc32 set_data_size set_is_valid
      set_cluster_count]. lia.
Qed.

(** ** Formatting a mounted instance *)

(** [acfs_format] rewrites the header and nothing else of the instance:
    when it answers Ok the directory is empty (no id exists any more) and
    every cluster outside the reserved area is counted free, but the
    entries array and the cluster bitmap are as they were, so the
    clusters of the items that were stored stay marked as used. *)
Theorem acfs_format_keeps_bitmap config w w' :
  acfs_format (Some config) w = Some (ACFS_OK, w') ->
  let h' := header (fs w') in
  magic h' = ACFS_MAGIC_NUMBER /\
  cluster_size h' = cfg_cluster_size config /\
  data_entries h' = 0 /\
  free_clusters h' = u16 (total_clusters h' - sys_clusters h') /\
  entries (fs w') = entries (fs w) /\
  cluster_bitmap (fs w') = cluster_bitmap (fs w) /\
  initialized (fs w') = initialized (fs w) /\
  (initialized (fs w) = true ->
   forall id, acfs_exists (Some id) w' = Some (false, w')).
Proof.
  intros H. unfold acfs_format in H. rewrite bind_gets in H.
  destruct (storage (fs w)) as [dev|] eqn:Hst;
    [|by apply ret_inv in H as [[=] _]].
  destruct (cfg_cluster_size config =? 0); [done|].
  destruct (_ =? 0); [by apply ret_inv in H as [[=] _]|].
  destruct (_ <=? _); [by apply ret_inv in H as [[=] _]|].
  rewrite bind_modify in H.
  apply bind_Some in H as (r1 & w1 & Hsh & H).
  apply acfs_save_header_inv in Hsh as [Hfs1 _].
  cbn [fs header set_header] in Hfs1.
  destruct (is_ok_spec r1) as [->|Hne]; cbn [negb] in H;
    [|apply ret_inv in H as [Heq _]; congruence].
  match type of H with
  | ?loop _ _ w1 = _ =>
      assert (forall k j w2 r w3, loop k j w2 = Some (r, w3) -> fs w3 = fs w2)
        as Hloop
  end.
  { clear. induction k as [|k IH]; intros i w r w' H.
    - by apply ret_inv in H as [_ ->].
    - apply bind_Some in H as (ok & w1 & Hw & H).
      apply storage_write_inv in Hw as [Hfs _].
      destruct ok; cbn [negb] in H; [|apply ret_inv in H as [_ ->]; done].
      apply IH in H. congruence. }
  apply Hloop in H. rewrite H, Hfs1. clear Hloop.
  intros h'.
  subst h'.
  assert (forall X a, header (set_header X a) = X) as Hh by (by intros ? []).
  assert (forall X a, entries (set_header X a) = entries a) as He
    by (by intros ? []).
  assert (forall X a, cluster_bitmap (set_header X a) = cluster_bitmap a)
    as Hb by (by intros ? []).
  assert (forall X a, initialized (set_header X a) = initialized a) as Hi
    by (by intros ? []).
  rewrite !Hh, !He, !Hb, !Hi. unfold header_with_crc.
  cbn [magic cluster_size data_entries free_clusters total_clusters
       sys_clusters set_header_crc32].
  do 7 (split; [reflexivity|]).
  intros Hinit id. apply acfs_exists_false; [by rewrite H, Hfs1, !Hi|].
  unfold acfs_find_entry. rewrite H, Hfs1, Hh. reflexivity.
Qed.

(** ** Mounting with a format *)

Lemma acfs_format_ok config w w' dev :
  storage (fs w) = Some dev ->
  acfs_format (Some config) w = Some (ACFS_OK, w') ->
  exists h,
    fs w' = set_header (header_with_crc h) (fs w) /\
    magic h = ACFS_MAGIC_NUMBER /\
    cluster_size h = cfg_cluster_size config /\
    total_clusters h
    = u16 (u32 (storage_size dev) / cfg_cluster_size config) /\
    (reserved_clusters config <> 0 ->
     sys_clusters h = reserved_clusters config) /\
    (reserved_clusters config = 0 -> 2 <= sys_clusters h < 2 ^ 16) /\
    sys_clusters h < total_clusters h /\
    data_entries h = 0 /\
    free_clusters h = u16 (total_clusters h - sys_clusters h).
Proof.
  intros Hst H. unfold acfs_format in H. rewrite bind_gets, Hst in H.
  destruct (cfg_cluster_size config =? 0); [done|].
  destruct (_ =? 0); [by apply ret_inv in H as [[=] _]|].
  destruct (Z.leb_spec
              (u16 (u32 (storage_size dev) / cfg_cluster_size config))
              (if reserved_clusters config =? 0
               then
                 if u16 (usize (sizeof_acfs_header_t
                                + cfg_cluster_size config - 1)
                         / cfg_cluster_size config) <? 2
                 then 2
                 else u16 (usize (sizeof_acfs_header_t
                                  + cfg_cluster_size config - 1)
                           / cfg_cluster_size config)
               else reserved_clusters config)) as [|Hlt];
    [by apply ret_inv in H as [[=] _]|].
  rewrite bind_modify in H.
  apply bind_Some in H as (r1 & w1 & Hsh & H).
  apply acfs_save_header_inv in Hsh as [Hfs1 _].
  cbn [fs header set_header] in Hfs1.
  destruct (is_ok_spec r1) as [->|Hne]; cbn [negb] in H;
    [|apply ret_inv in H as [Heq _]; congruence].
  match type of H with
  | ?loop _ _ w1 = _ =>
      assert (forall k j w2 r w3, loop k j w2 = Some (r, w3) -> fs w3 = fs w2)
        as Hloop
  end.
  { clear. induction k as [|k IH]; intros i w r w' H.
    - by apply ret_inv in H as [_ ->].
    - apply bind_Some in H as (ok & w1 & Hw & H).
      apply storage_write_inv in Hw as [Hfs _].
      destruct ok; cbn [negb] in H; [|apply ret_inv in H as [_ ->]; done].
      apply IH in H. congruence. }
  apply Hloop in H. clear Hloop.
  match type of Hfs1 with
  | _ = set_header (header_with_crc ?h0) _ => exists h0
  end.
  split; [rewrite H, Hfs1; by destruct (fs w)|].
  cbn [magic cluster_size data_entries free_clusters total_clusters
       sys_clusters set_header_crc32].
  split; [reflexivity|]. split; [reflexivity|]. split; [reflexivity|].
  split; [|split; [|split; [exact Hlt|split; reflexivity]]].
  - intros Hr. by destruct (Z.eqb_spec (reserved_clusters config) 0).
  - intros ->. cbn [Z.eqb].
    pose proof (Z.mod_pos_bound
                  (usize (sizeof_acfs_header_t + cfg_cluster_size config - 1)
                   / cfg_cluster_size config) (2 ^ 16) ltac:(lia)) as Hb.
    fold (u16 (usize (sizeof_acfs_header_t + cfg_cluster_size config - 1)
               / cfg_cluster_size config)) in Hb.
    match goal with
    | |- context [?a <? 2] => destruct (Z.ltb_spec a 2)
    end; lia.
Qed.

Lemma acfs_load_entries_empty w dev :
  storage (fs w) = Some dev ->
  data_entries (header (fs w)) = 0 ->
  acfs_load_entries w = Some (ACFS_OK, w).
Proof.
  intros Hst HD. unfold acfs_load_entries.
  unfold bind at 1. unfold bind at 1. unfold gets at 1. rewrite Hst.
  cbn [deref ret]. rewrite bind_gets, HD. reflexivity.
Qed.

Lemma bitmap_wf_typed bm : bitmap_wf bm -> bitmap_typed bm = true.
Proof.
  intros [Hall Hlen]. unfold bitmap_typed.
  apply andb_true_intro. split; [|by apply Z.leb_le].
  apply forallb_forall. intros b Hb.
  rewrite Forall_forall in Hall. apply list_elem_of_In, Hall in Hb.
  unfold is_u8 in Hb.
  apply andb_true_intro. split; [apply Z.leb_le | apply Z.ltb_lt]; lia.
Qed.

Lemma bitmap_test_zeros j n :
  is_u16 j -> (Z.to_nat (j / 8) < n)%nat ->
  bitmap_test j (repeat 0 n) = Some false.
Proof.
  intros Hj Hn. rewrite bitmap_test_lookup by done.
  assert (repeat 0 n !! Z.to_nat (j / 8) = Some 0) as ->.
  { destruct (repeat 0 n !! Z.to_nat (j / 8)) as [b|] eqn:Hb.
    - apply list_elem_of_lookup_2, list_elem_of_In, repeat_spec in Hb.
      by subst.
    - apply lookup_ge_None in Hb. rewrite repeat_length in Hb. lia. }
  cbn [fmap option_fmap option_map]. by rewrite Z.testbit_0_l.
Qed.

(** When [acfs_init] had to format (the medium held no header that
    [acfs_load_header] accepts) and answers Ok, the instance is mounted
    on an empty file system: no id exists, the bitmap marks exactly the
    reserved clusters, every other cluster is counted free, the instance
    is well typed and free + used + reserved clusters = total clusters. *)
Theorem acfs_init_formats dev config w r1 w1 w' :
  initialized (fs w) = false ->
  is_u16 (reserved_clusters config) ->
  acfs_load_header (mk_world (set_storage (Some dev) zero_acfs) (medium w))
  = Some (r1, w1) ->
  r1 <> ACFS_OK ->
  acfs_init (Some dev) (Some config) w = Some (ACFS_OK, w') ->
  let a := fs w' in
  let h := header a in
  initialized a = true /\ storage a = Some dev /\
  magic h = ACFS_MAGIC_NUMBER /\
  cluster_size h = cfg_cluster_size config /\
  total_clusters h = u16 (u32 (storage_size dev) / cfg_cluster_size config) /\
  sys_clusters h < total_clusters h /\
  data_entries h = 0 /\
  free_clusters h = total_clusters h - sys_clusters h /\
  acfs_typed a = true /\
  clusters_accounted a = total_clusters h /\
  (forall j, 0 <= j < total_clusters h ->
     bitmap_test j (array_of (cluster_bitmap a))
     = Some (j <? sys_clusters h)) /\
  (forall id, acfs_exists (Some id) w' = Some (false, w')).
Proof.
  intros Hinit HR Hload Hne H. unfold acfs_init in H.
  rewrite bind_gets, Hinit in H.
  case_match; [by apply ret_inv in H as [[=] _]|].
  rewrite bind_modify in H. cbn [fs medium] in H.
  apply bind_Some in H as (ret1 & w1' & Hload' & H).
  rewrite Hload in Hload'. injection Hload' as <- <-.
  apply acfs_load_header_inv in Hload as (dev' & Hst & Hload).
  cbn [fs storage set_storage zero_acfs medium] in Hst, Hload.
  injection Hst as <-.
  assert (storage (fs w1) = Some dev) as Hst1.
  { destruct (ops_read _ _ _ _); [by destruct Hload as [-> _]|].
    by destruct Hload as [_ ->]. }
  clear Hload.
  rewrite bind_gets in H.
  destruct (is_ok_spec r1) as [|_]; [done|].
  destruct (format_if_invalid config);
    [|rewrite bind_ret in H; by apply ret_inv in H as [[=] _]].
  apply bind_Some in H as (ret2 & w2 & Hfmt & H).
  destruct (is_ok_spec ret2) as [->|Hne2]; cbn [negb] in H;
    [|apply ret_inv in H as [Heq _]; congruence].
  apply (acfs_format_ok _ _ _ dev Hst1) in Hfmt
    as (h0 & Hfs2 & Hmagic & Hcs & HN & HRn & HR0 & HRN & HD & HF).
  rewrite bind_gets, !bind_modify in H. cbn [fs medium] in H.
  rewrite Hfs2 in H.
  assert (forall X a, header (set_header X a) = X) as Hh by (by intros ? []).
  rewrite !Hh in H.
  set (hc := header_with_crc h0) in *.
  assert (magic hc = magic h0 /\ cluster_size hc = cluster_size h0 /\
          total_clusters hc = total_clusters h0 /\
          sys_clusters hc = sys_clusters h0 /\
          data_entries hc = data_entries h0 /\
          free_clusters hc = free_clusters h0)
    as (Hc1 & Hc2 & Hc3 & Hc4 & Hc5 & Hc6) by done.
  set (N := total_clusters hc) in *.
  set (R := sys_clusters hc) in *.
  assert (0 <= R < N /\ N < 2 ^ 16) as [HRr HNr].
  { rewrite <- Hc3, <- Hc4 in HRN.
    assert (N < 2 ^ 16) as HNr.
    { rewrite Hc3, HN. unfold u16. apply Z.mod_pos_bound. lia. }
    split; [|done]. split; [|done]. rewrite Hc4.
    destruct (Z.eq_dec (reserved_clusters config) 0) as [Hz|Hz].
    - specialize (HR0 Hz). lia.
    - rewrite (HRn Hz). unfold is_u16 in HR. lia. }
  set (bs := usize (N + 7) / 8) in *.
  assert (0 <= bs <= 8192 /\ N <= 8 * bs) as [Hbs HbsN].
  { unfold bs, usize. rewrite Z.mod_small by lia.
    pose proof (Z.mul_div_le (N + 7) 8 ltac:(lia)).
    pose proof (Z.mul_succ_div_gt (N + 7) 8 ltac:(lia)). lia. }
  set (me := Z.to_nat (u16 (max_entries_of hc))) in *.
  match type of H with
  | bind _ _ (mk_world ?x _) = _ => set (a0 := x) in *
  end.
  assert (storage a0 = Some dev) as Hst0
    by (unfold a0; rewrite <- Hst1; by destruct (fs w1)).
  assert (header a0 = hc) as Hh0 by (unfold a0; by destruct (fs w1)).
  assert (entries a0 = Some (repeat zero_entry me)) as He0
    by (unfold a0; by destruct (fs w1)).
  assert (cluster_bitmap a0 = Some (repeat 0 (Z.to_nat bs))) as Hb0
    by (unfold a0; by destruct (fs w1)).
  clearbody a0.
  unfold bind at 1 in H.
  rewrite (acfs_load_entries_empty _ dev) in H
    by (cbn [fs]; rewrite ?Hh0; congruence).
  cbn [is_ok negb] in H.
  apply bind_Some in H as (ret4 & w4 & Hib & H).
  apply lift_inv in Hib as (a4 & Hib & ->). cbn [fs medium] in Hib, H.
  unfold acfs_init_bitmap in Hib. rewrite Hh0, Hb0, He0 in Hib.
  cbn [array_of] in Hib. fold N R bs in Hib.
  rewrite repeat_length, drop_ge, app_nil_r in Hib
    by (rewrite repeat_length; lia).
  destruct (Z.ltb_spec (Z.of_nat (Z.to_nat bs)) bs); [lia|].
  destruct (bitmap_set_all _ _) as [bm2|] eqn:Hset; [|done].
  rewrite Hc5, HD in Hib. cbn [Z.to_nat init_bitmap_entries] in Hib.
  injection Hib as <- <-. cbn [is_ok negb] in H.
  rewrite bind_modify in H. apply ret_inv in H as [_ ->]. cbn [fs medium].
  assert (Forall is_u16 (map Z.of_nat (seq 0 (Z.to_nat R)))) as Hl.
  { apply Forall_forall. intros j Hj. apply list_elem_of_fmap in Hj
      as (k & -> & Hk). apply elem_of_seq in Hk. unfold is_u16. lia. }
  assert (bitmap_wf (repeat 0 (Z.to_nat bs))) as Hwf0.
  { split; [|rewrite repeat_length; lia].
    apply Forall_forall. intros b Hb.
    apply list_elem_of_In, repeat_spec in Hb. subst. unfold is_u8. lia. }
  destruct (bitmap_set_all_spec _ _ _ Hl Hset) as (Hlen2 & Hwf2 & Htest2).
  specialize (Hwf2 Hwf0).
  set (a := set_initialized true (store_bitmap bm2 a0)).
  assert (header a = hc) as Hha by (unfold a; rewrite <- Hh0; by destruct a0).
  assert (entries a = Some (repeat zero_entry me)) as Hea
    by (unfold a; rewrite <- He0; by destruct a0).
  assert (cluster_bitmap a = Some bm2) as Hba.
  { unfold a, store_bitmap. rewrite Hb0. by destruct a0. }
  assert (storage a = Some dev) as Hsta
    by (unfold a; rewrite <- Hst0; by destruct a0).
  assert (initialized a = true) as Hia by (unfold a; by destruct a0).
  clearbody a. rewrite Hha. fold N R.
  assert (free_clusters hc = N - R) as HFa.
  { rewrite Hc6, HF. rewrite <- Hc3, <- Hc4. fold N R.
    unfold u16. apply Z.mod_small. lia. }
  split; [done|]. split; [done|]. split; [by rewrite Hc1|].
  split; [by rewrite Hc2|]. split; [by rewrite Hc3|].
  split; [lia|]. split; [by rewrite Hc5|]. split; [done|].
  split; [|split; [|split]].
  - unfold acfs_typed. rewrite Hha, Hba, Hea. fold N R.
    rewrite Hc5, HD, HFa. cbn [array_of].
    rewrite bitmap_wf_typed by done.
    rewrite repeat_length.
    assert (forallb entry_typed (repeat zero_entry me) = true) as ->.
    { apply forallb_forall. intros e He. apply repeat_spec in He.
      subst. apply entry_typed_zero. }
    assert (Z.of_nat me < 2 ^ 16) as Hme.
    { unfold me, u16.
      pose proof (Z.mod_pos_bound (max_entries_of hc) (2 ^ 16) ltac:(lia)).
      lia. }
    unfold is_u16b.
    repeat (apply andb_true_intro; split);
      try (apply Z.leb_le; lia); try (apply Z.ltb_lt; lia); done.
  - unfold clusters_accounted, live_entries. rewrite Hha, Hc5, HD, HFa.
    fold R. cbn [Z.to_nat]. rewrite take_0. cbn [map foldr]. lia.
  - intros j Hj. rewrite Hba. cbn [array_of].
    rewrite Htest2 by (unfold is_u16; lia).
    destruct (decide (j ∈ map Z.of_nat (seq 0 (Z.to_nat R)))) as [Hin|Hout].
    + apply list_elem_of_fmap in Hin as (k & -> & Hk).
      apply elem_of_seq in Hk.
      by destruct (Z.ltb_spec (Z.of_nat k) R); [|lia].
    + destruct (Z.ltb_spec j R) as [Hlt|].
      * exfalso. apply Hout. apply list_elem_of_fmap.
        exists (Z.to_nat j). split; [lia|]. apply elem_of_seq. lia.
      * apply bitmap_test_zeros; [unfold is_u16; lia|].
        pose proof (Z.div_lt_upper_bound j 8 bs ltac:(lia) ltac:(lia)).
        pose proof (Z.div_pos j 8 ltac:(lia) ltac:(lia)). lia.
  - intros id. apply acfs_exists_false; [done|].
    unfold acfs_find_entry. cbn [fs]. by rewrite Hha, Hc5, HD.
Qed.

(** ** Rebuilding the bitmap *)

Lemma init_bitmap_entries_spec es j n : forall i bm bm',
  is_u16 j ->
  (forall k e, (i <= k < i + n)%nat -> es !! k = Some e ->
     is_valid e = true -> is_null (cluster_list e) = false ->
     Forall is_u16 (take (Z.to_nat (cluster_count e))
                         (block_of (cluster_list e)))) ->
  init_bitmap_entries es n i bm = Some bm' ->
  length bm' = length bm /\
  bitmap_test j bm' =
  if existsb (entry_holds j) (take n (drop i es)) then Some true
  else bitmap_test j bm.
Proof.
  induction n as [|n IH]; intros i bm bm' Hj Hu16 H.
  - injection H as <-. by rewrite take_0.
  - cbn [init_bitmap_entries] in H.
    destruct (es !! i) as [e|] eqn:He; [|done].
    rewrite (drop_S _ _ _ He), firstn_cons. cbn [existsb].
    assert (forall k e', (S i <= k < S i + n)%nat -> es !! k = Some e' ->
              is_valid e' = true -> is_null (cluster_list e') = false ->
              Forall is_u16 (take (Z.to_nat (cluster_count e'))
                                  (block_of (cluster_list e')))) as Hu16'
      by (intros k e' Hk; apply Hu16; lia).
    unfold entry_holds at 1.
    destruct (is_valid e && negb (is_null (cluster_list e))) eqn:Hlive.
    + apply andb_prop in Hlive as [Hv Hnn]. apply negb_true_iff in Hnn.
      unfold cluster_list_prefix in H.
      destruct (_ <? _); [done|].
      destruct (bitmap_set_all _ bm) as [bm1|] eqn:Hset; [|done].
      specialize (Hu16 i e ltac:(lia) He Hv Hnn).
      destruct (bitmap_set_all_spec _ _ _ Hu16 Hset) as (Hlen1 & _ & Ht1).
      destruct (IH (S i) bm1 bm' Hj Hu16' H) as [Hlen' Ht'].
      split; [congruence|]. rewrite Ht', Ht1 by done. cbn [andb].
      destruct (bool_decide_reflect
                  (j ∈ take (Z.to_nat (cluster_count e))
                            (block_of (cluster_list e)))) as [Hin|Hout].
      * rewrite decide_True by done. cbn [orb]. by destruct (existsb _ _).
      * by rewrite decide_False by done.
    + cbn [andb orb]. by apply IH.
Qed.

(** [acfs_init_bitmap] rebuilds the bitmap from the header and the
    directory: when it returns, a cluster below [total_clusters] is marked
    as used exactly when it is reserved or is held by a valid entry of the
    directory.  The header and the entries are unchanged. *)
Theorem acfs_init_bitmap_marks a r a' :
  let h := header a in
  0 <= sys_clusters h < 2 ^ 16 ->
  0 <= total_clusters h <= 2 ^ 16 ->
  (forall k e, (k < Z.to_nat (data_entries h))%nat ->
     array_of (entries a) !! k = Some e ->
     is_valid e = true -> is_null (cluster_list e) = false ->
     Forall is_u16 (take (Z.to_nat (cluster_count e))
                         (block_of (cluster_list e)))) ->
  acfs_init_bitmap a = Some (r, a') ->
  r = ACFS_OK /\ header a' = header a /\ entries a' = entries a /\
  forall j, 0 <= j < total_clusters h ->
    bitmap_test j (array_of (cluster_bitmap a'))
    = Some ((j <? sys_clusters h)
            || existsb (entry_holds j) (live_entries a)).
Proof.
  intros h HR HN Hu16 H. unfold acfs_init_bitmap in H. fold h in H.
  set (bs := usize (total_clusters h + 7) / 8) in *.
  assert (0 <= bs <= 8192 /\ total_clusters h <= 8 * bs) as [Hbs HbsN].
  { unfold bs, usize. rewrite Z.mod_small by lia.
    pose proof (Z.mul_div_le (total_clusters h + 7) 8 ltac:(lia)).
    pose proof (Z.mul_succ_div_gt (total_clusters h + 7) 8 ltac:(lia)). lia. }
  destruct (Z.ltb_spec (Z.of_nat (length (array_of (cluster_bitmap a)))) bs)
    as [|Hlen0]; [done|].
  destruct (bitmap_set_all _ _) as [bm2|] eqn:Hset; [|done].
  destruct (init_bitmap_entries _ _ _ _) as [bm3|] eqn:Hents; [|done].
  injection H as <- <-.
  split; [done|]. split; [by destruct a|]. split; [by destruct a|].
  intros j Hj.
  assert (is_u16 j) as Hju by (unfold is_u16; lia).
  assert (exists bm0, cluster_bitmap a = Some bm0) as [bm0 Hbm0].
  { destruct (cluster_bitmap a) as [bm0|]; [by eexists|].
    cbn [array_of length] in Hlen0. lia. }
  assert (cluster_bitmap (store_bitmap bm3 a) = Some bm3) as ->
    by (unfold store_bitmap; rewrite Hbm0; by destruct a).
  cbn [array_of].
  assert (Forall is_u16 (map Z.of_nat (seq 0 (Z.to_nat (sys_clusters h)))))
    as Hl.
  { apply Forall_forall. intros c Hc. apply list_elem_of_fmap in Hc
      as (k & -> & Hk). apply elem_of_seq in Hk. unfold is_u16. lia. }
  destruct (bitmap_set_all_spec _ _ _ Hl Hset) as (_ & _ & Ht2).
  destruct (init_bitmap_entries_spec (array_of (entries a)) j
              (Z.to_nat (data_entries h)) 0%nat bm2 bm3 Hju
              ltac:(intros k e Hk; apply Hu16; lia) Hents) as [_ Ht3].
  rewrite Ht3, Ht2 by done. rewrite drop_0.
  assert (bitmap_test j (repeat 0 (Z.to_nat bs)
                         ++ drop (Z.to_nat bs) (array_of (cluster_bitmap a)))
          = Some false) as ->.
  { rewrite bitmap_test_lookup by done.
    pose proof (Z.div_lt_upper_bound j 8 bs ltac:(lia) ltac:(lia)).
    pose proof (Z.div_pos j 8 ltac:(lia) ltac:(lia)).
    rewrite lookup_app_l by (rewrite repeat_length; lia).
    pose proof (bitmap_test_zeros j (Z.to_nat bs) Hju ltac:(lia)) as Hz.
    by rewrite bitmap_test_lookup in Hz by done. }
  unfold live_entries. fold h.
  destruct (existsb (entry_holds j) _); [by rewrite orb_true_r|].
  rewrite orb_false_r.
  destruct (decide (j ∈ map Z.of_nat (seq 0 (Z.to_nat (sys_clusters h)))))
    as [Hin|Hout].
  - apply list_elem_of_fmap in Hin as (k & -> & Hk). apply elem_of_seq in Hk.
    by destruct (Z.ltb_spec (Z.of_nat k) (sys_clusters h)); [|lia].
  - destruct (Z.ltb_spec j (sys_clusters h)) as [Hlt|]; [|done].
    exfalso. apply Hout. apply list_elem_of_fmap.
    exists (Z.to_nat j). split; [lia|]. apply elem_of_seq. lia.
Qed.

(** ** An entry without its cluster list *)

Lemma acfs_free_clusters_no_block (p : pointer (list Z)) count a :
  p = NULL \/ p = Wild -> 0 < count ->
  acfs_free_clusters p count a = None.
Proof.
  intros Hp Hcount. unfold acfs_free_clusters, cluster_list_prefix.
  assert (block_of p = []) as -> by (by destruct Hp as [-> | ->]).
  cbn [length]. by destruct (Z.ltb_spec (Z.of_nat 0) count); [|lia].
Qed.

(** An entry that counts clusters but holds no list (a null pointer, as a
    rewrite that failed with NoSpace leaves it, or a stale address) cannot
    be deleted or written again: [acfs_delete] and [acfs_write] of its id
    read the list through the pointer, and have no defined result. *)
Theorem acfs_entry_without_list_traps w id k e :
  initialized (fs w) = true ->
  acfs_find_entry id (fs w) = Some (Some k) ->
  array_of (entries (fs w)) !! k = Some e ->
  cluster_list e = NULL \/ cluster_list e = Wild ->
  0 < cluster_count e ->
  acfs_delete (Some id) w = None /\
  forall data size,
    size <> 0 -> strlen id < ACFS_MAX_DATA_ID_LEN ->
    acfs_write (Some id) (Some data) size w = None.
Proof.
  intros Hinit Hfind He Hlist Hcount.
  assert (is_valid e = true) as Hvalid.
  { unfold acfs_find_entry in Hfind.
    destruct (find_entry_loop_Some _ _ _ _ _ Hfind) as (e2 & He2 & Hm).
    rewrite He in He2. injection He2 as <-.
    by apply andb_prop in Hm as [? _]. }
  split.
  - destruct (acfs_delete (Some id) w) as [[r w1]|] eqn:H; [exfalso|done].
    unfold acfs_delete in H. rewrite bind_gets, Hinit in H. cbn [negb] in H.
    rewrite (bind_find_entry _ _ _ _ Hfind) in H.
    rewrite (bind_entry_at k _ w e) in H by exact He.
    rewrite Hvalid in H. cbn [negb] in H.
    apply bind_Some in H as (u & w2 & Hfree & _).
    apply free_clusters_step_inv in Hfree as (a1 & Hfree & _).
    by rewrite acfs_free_clusters_no_block in Hfree.
  - intros data size Hsize Hlen.
    destruct (acfs_write (Some id) (Some data) size w) as [[r w1]|] eqn:H;
      [exfalso|done].
    unfold acfs_write in H. destruct (Z.eqb_spec size 0); [done|].
    rewrite bind_gets, Hinit in H. cbn [negb] in H.
    destruct (Z.leb_spec ACFS_MAX_DATA_ID_LEN (strlen id)); [lia|].
    rewrite bind_gets in H.
    apply bind_Some in H as (K & w0 & HK & H).
    apply deref_inv in HK as [_ ->].
    apply bind_Some in H as (ri & wa & Hentry & H).
    destruct (acfs_write_entry_found _ _ _ _ _ _ Hfind Hentry)
      as (es & e' & Hes & He' & _ & Hcase).
    rewrite Hes in He. cbn [array_of] in He. rewrite He in He'.
    injection He' as <-.
    destruct Hcase as [(HKe & -> & ->)|(_ & a1 & err & l & a2 & Hfree & _)];
      [|by rewrite acfs_free_clusters_no_block in Hfree].
    unfold acfs_write_data in H.
    apply bind_Some in H as (bytes & w2 & Hb & H).
    apply deref_inv in Hb as [_ ->].
    apply bind_Some in H as (u & w3 & Hupd & H).
    apply update_entry_inv in Hupd as (es2 & e2 & Hes2 & He2 & ->).
    rewrite Hes in Hes2. injection Hes2 as <-.
    rewrite He in He2. injection He2 as <-.
    apply bind_Some in H as (entry & w4 & Hent & H).
    apply entry_at_inv in Hent as [Hent ->].
    cbn [fs entries set_entries array_of] in Hent.
    rewrite list_lookup_insert_eq in Hent by (by eapply lookup_lt_Some).
    injection Hent as <-.
    apply bind_Some in H as (r1 & w5 & Hwc & _).
    unfold acfs_write_clusters in Hwc.
    cbn [cluster_list cluster_count set_crc32 set_data_size] in Hwc.
    assert (block_of (cluster_list e) = []) as Hnil
      by (by destruct Hlist as [-> | ->]).
    rewrite Hnil in Hwc.
    destruct (Z.to_nat (cluster_count e)) as [|m] eqn:Hm; [lia|].
    cbn [write_clusters_loop] in Hwc.
    apply bind_Some in Hwc as (dev & w6 & _ & Hwc).
    apply bind_Some in Hwc as (h & w7 & _ & Hwc).
    apply bind_Some in Hwc as (c & w8 & Hc & _).
    by apply deref_inv in Hc as [Hc _].
Qed.

(** ** Instances of the further properties *)

Lemma eeprom_write_read_witness :
  0 <= 2 /\ 0 <= 3 /\
  eeprom_write 2 [1; 2; 3] 3 eeprom16
  = Some (Some (mk_media (Some (splice 2 [1; 2; 3] (repeat 255 16))) None)) /\
  eeprom_read 2 3 (mk_media (Some (splice 2 [1; 2; 3] (repeat 255 16))) None)
  = Some [1; 2; 3].
Proof.
  assert (0 <= 2) as Ha by lia. assert (0 <= 3) as Hs by lia.
  assert (eeprom_write 2 [1; 2; 3] 3 eeprom16
          = Some (Some (mk_media (Some (splice 2 [1; 2; 3] (repeat 255 16)))
                                 None))) as Hw by reflexivity.
  split; [exact Ha|]. split; [exact Hs|]. split; [exact Hw|].
  exact (proj1 (eeprom_write_read _ _ _ _ _ Ha Hs Hw)).
Defined.

Lemma flash_write_once_witness :
  0 <= 2 /\ 0 <= 3 /\
  flash_write 2 [1; 2; 3] 3 flash16
  = Some (Some (mk_media None (Some (splice 2 [1; 2; 3] (repeat 255 16))))) /\
  flash_write 2 [4; 5; 6] 3
    (mk_media None (Some (splice 2 [1; 2; 3] (repeat 255 16))))
  = Some None.
Proof.
  assert (0 <= 2) as Ha by lia. assert (0 <= 3) as Hs by lia.
  assert (flash_write 2 [1; 2; 3] 3 flash16
          = Some (Some (mk_media None
                          (Some (splice 2 [1; 2; 3] (repeat 255 16))))))
    as Hw by reflexivity.
  split; [exact Ha|]. split; [exact Hs|]. split; [exact Hw|].
  destruct (flash_write_once _ _ _ _ _ Ha Hs Hw) as (_ & _ & _ & Honce).
  apply Honce. vm_compute. discriminate.
Defined.

Lemma flash_erase_write_read_witness :
  0 <= 2 /\ 0 <= 3 /\ 3 <= Z.of_nat (length [4; 5; 6]) /\
  flash_erase 2 3 (mk_media None (Some (splice 2 [1; 2; 3] (repeat 255 16))))
  = Some flash16 /\
  exists m2,
    flash_write 2 [4; 5; 6] 3 flash16 = Some (Some m2) /\
    flash_read 2 3 m2 = Some [4; 5; 6].
Proof.
  assert (0 <= 2) as Ha by lia. assert (0 <= 3) as Hs by lia.
  assert (3 <= Z.of_nat (length [4; 5; 6])) as Hd by (vm_compute; discriminate).
  assert (flash_erase 2 3
            (mk_media None (Some (splice 2 [1; 2; 3] (repeat 255 16))))
          = Some flash16) as He by reflexivity.
  split; [exact Ha|]. split; [exact Hs|]. split; [exact Hd|].
  split; [exact He|].
  exact (flash_erase_write_read _ _ _ _ _ Ha Hs Hd He).
Defined.

Lemma acfs_calculate_clusters_needed_ceiling_witness :
  0 < 64 < 2 ^ 16 /\ 0 < 100 /\ 100 <= 65535 * 64 /\
  (exists k, acfs_calculate_clusters_needed 64 100 = Some k /\
             1 <= k <= 65535 /\ (k - 1) * 64 < 100 <= k * 64) /\
  acfs_calculate_clusters_needed 64 (65536 * 64) = Some 0.
Proof.
  assert (0 < 64 < 2 ^ 16) as Hc by lia. assert (0 < 100) as Hd by lia.
  assert (100 <= 65535 * 64) as Hm by lia.
  split; [exact Hc|]. split; [exact Hd|]. split; [exact Hm|].
  destruct (acfs_calculate_clusters_needed_ceiling 64 100 Hc Hd) as [H1 H2].
  split; [exact (H1 Hm) | exact H2].
Defined.

Lemma acfs_deinit_then_not_initialized_witness :
  acfs_deinit mounted64_hi
  = Some (ACFS_OK, world_after [Call_deinit] mounted64_hi) /\
  fs (world_after [Call_deinit] mounted64_hi) = zero_acfs /\
  medium (world_after [Call_deinit] mounted64_hi) = medium mounted64_hi /\
  acfs_exists (Some (cstr "a")) (world_after [Call_deinit] mounted64_hi)
  = Some (false, world_after [Call_deinit] mounted64_hi).
Proof.
  assert (acfs_deinit mounted64_hi
          = Some (ACFS_OK, world_after [Call_deinit] mounted64_hi)) as Hd
    by (vm_compute; reflexivity).
  destruct (acfs_deinit_then_not_initialized (fun _ => 0) _ _ Hd)
    as (Hfs & Hmed & _ & _ & _ & _ & Hex & _).
  split; [exact Hd|]. split; [exact Hfs|]. split; [exact Hmed|].
  exact (Hex _).
Defined.

Lemma acfs_missing_id_not_found_witness :
  initialized (fs mounted64_hi) = true /\
  acfs_exists (Some (cstr "b")) mounted64_hi = Some (false, mounted64_hi) /\
  acfs_delete (Some (cstr "b")) mounted64_hi
  = Some (ACFS_ERROR_DATA_NOT_FOUND, mounted64_hi).
Proof.
  assert (initialized (fs mounted64_hi) = true) as Hi
    by (vm_compute; reflexivity).
  assert (acfs_exists (Some (cstr "b")) mounted64_hi
          = Some (false, mounted64_hi)) as Hex by (vm_compute; reflexivity).
  split; [exact Hi|]. split; [exact Hex|].
  exact (proj1 (proj2 (acfs_missing_id_not_found _ _ Hi Hex))).
Defined.

Lemma acfs_get_stats_consistent_witness :
  initialized (fs mounted64_hi) = true /\
  exists T U F,
    acfs_get_stats (mk_stats (Some 0) (Some 0) (Some 0) (Some 0)) mounted64_hi
    = Some ((ACFS_OK, mk_stats (Some T) (Some U) (Some F) (Some 1)),
            mounted64_hi) /\
    usize (U + F) = T.
Proof.
  assert (initialized (fs mounted64_hi) = true) as Hi
    by (vm_compute; reflexivity).
  split; [exact Hi|].
  destruct (acfs_get_stats_consistent mounted64_hi 0 0 0 0 Hi)
    as (T & U & F & Hst & Hsum & _).
  exists T, U, F. split; [exact Hst | exact Hsum].
Defined.

Lemma stored_id_matches_same_name_witness :
  strlen (cstr "a") < ACFS_MAX_DATA_ID_LEN /\
  (strncmp_eq (strncpy (cstr "a") (Z.to_nat (ACFS_MAX_DATA_ID_LEN - 1)) ++ [0])
              (cstr "ab") (Z.to_nat ACFS_MAX_DATA_ID_LEN) = true
   <-> c_chars (cstr "ab") = c_chars (cstr "a")).
Proof.
  assert (strlen (cstr "a") < ACFS_MAX_DATA_ID_LEN) as Hl
    by (vm_compute; reflexivity).
  split; [exact Hl|].
  exact (stored_id_matches_same_name (cstr "a") (cstr "ab") Hl).
Defined.

Lemma acfs_write_directory_full_witness :
  initialized (fs mounted64_hi) = true /\
  acfs_exists (Some (cstr "b")) mounted64_hi = Some (false, mounted64_hi) /\
  strlen (cstr "b") < ACFS_MAX_DATA_ID_LEN /\ 3 <> 0 /\
  cluster_size (header (fs mounted64_hi)) <> 0 /\
  20 <= sys_clusters (header (fs mounted64_hi))
        * cluster_size (header (fs mounted64_hi)) < 2 ^ 64 /\
  (sys_clusters (header (fs mounted64_hi))
   * cluster_size (header (fs mounted64_hi)) - 20) / 56
  <= data_entries (header (fs mounted64_hi)) /\
  acfs_write (Some (cstr "b")) (Some hi_block) 3 mounted64_hi
  = Some (ACFS_ERROR_CLUSTER_FULL, mounted64_hi).
Proof.
  assert (initialized (fs mounted64_hi) = true) as Hi
    by (vm_compute; reflexivity).
  assert (acfs_exists (Some (cstr "b")) mounted64_hi
          = Some (false, mounted64_hi)) as Hex by (vm_compute; reflexivity).
  assert (strlen (cstr "b") < ACFS_MAX_DATA_ID_LEN) as Hl
    by (vm_compute; reflexivity).
  assert (3 <> 0) as Hs by lia.
  assert (cluster_size (header (fs mounted64_hi)) <> 0) as HS
    by (vm_compute; discriminate).
  assert (20 <= sys_clusters (header (fs mounted64_hi))
                * cluster_size (header (fs mounted64_hi)) < 2 ^ 64) as HRS
    by (vm_compute; split; [discriminate | reflexivity]).
  assert ((sys_clusters (header (fs mounted64_hi))
           * cluster_size (header (fs mounted64_hi)) - 20) / 56
          <= data_entries (header (fs mounted64_hi))) as Hfull
    by (vm_compute; discriminate).
  repeat (split; [assumption|]).
  exact (acfs_write_directory_full _ _ hi_block _ Hi Hex Hl Hs HS HRS Hfull).
Defined.

Lemma acfs_init_without_format_witness :
  format_if_invalid (mk_config 64 0 false true) = false /\
  initialized (fs (mk_world zero_acfs (medium mounted64_hi))) = false /\
  acfs_init (Some dev4096) (Some (mk_config 64 0 false true))
            (mk_world zero_acfs (medium mounted64_hi))
  = Some (ACFS_OK,
          world_after [Call_init (Some dev4096)
                                 (Some (mk_config 64 0 false true))]
                      (mk_world zero_acfs (medium mounted64_hi))) /\
  medium (world_after [Call_init (Some dev4096)
                                 (Some (mk_config 64 0 false true))]
                      (mk_world zero_acfs (medium mounted64_hi)))
  = medium mounted64_hi.
Proof.
  assert (format_if_invalid (mk_config 64 0 false true) = false) as Hf
    by reflexivity.
  assert (initialized (fs (mk_world zero_acfs (medium mounted64_hi))) = false)
    as Hi by reflexivity.
  assert (acfs_init (Some dev4096) (Some (mk_config 64 0 false true))
                    (mk_world zero_acfs (medium mounted64_hi))
          = Some (ACFS_OK,
                  world_after [Call_init (Some dev4096)
                                 (Some (mk_config 64 0 false true))]
                              (mk_world zero_acfs (medium mounted64_hi))))
    as Hrun by (vm_compute; reflexivity).
  split; [exact Hf|]. split; [exact Hi|]. split; [exact Hrun|].
  exact (proj1 (acfs_init_without_format _ _ _ _ _ Hf Hi Hrun)).
Defined.

Lemma acfs_check_integrity_overflows_witness :
  exists e,
    array_of (entries (fs mounted64_hi)) !! 0%nat = Some e /\
    is_valid e = true /\
    0 <= data_size e
      < cluster_count e * cluster_size (header (fs mounted64_hi)) /\
    acfs_check_integrity (fun _ => 0) mounted64_hi = None.
Proof.
  set (e := mk_entry (97 :: repeat 0 31) 3 1 (Ptr [2]) 905434500 true).
  assert (initialized (fs mounted64_hi) = true) as Hi
    by (vm_compute; reflexivity).
  assert (Z.of_nat 0 < data_entries (header (fs mounted64_hi))) as HD
    by (vm_compute; reflexivity).
  assert (forall j e', (j < 0)%nat ->
            array_of (entries (fs mounted64_hi)) !! j = Some e' ->
            is_valid e' = false) as Hbefore by (intros j e' Hj; lia).
  assert (array_of (entries (fs mounted64_hi)) !! 0%nat = Some e) as He
    by (vm_compute; reflexivity).
  assert (is_valid e = true) as Hv by reflexivity.
  assert (0 < cluster_size (header (fs mounted64_hi))) as HS
    by (vm_compute; reflexivity).
  assert (0 <= data_size e
          < cluster_count e * cluster_size (header (fs mounted64_hi))) as Hsz
    by (vm_compute; split; [discriminate | reflexivity]).
  assert (forall c, c ∈ block_of (cluster_list e) ->
            is_Some (cluster_on_medium mounted64_hi c)) as Hread.
  { intros c Hc. apply list_elem_of_singleton in Hc as ->.
    vm_compute. eexists. reflexivity. }
  exists e. split; [exact He|]. split; [exact Hv|]. split; [exact Hsz|].
  exact (acfs_check_integrity_overflows (fun _ => 0) mounted64_hi 0 e
           Hi HD Hbefore He Hv HS Hsz Hread).
Defined.

Lemma acfs_check_integrity_ok_witness :
  0 <= cluster_size (header (fs mounted64_full)) /\
  acfs_check_integrity (fun _ => 0) mounted64_full
  = Some (ACFS_OK, mounted64_full) /\
  forall i e, Z.of_nat i < data_entries (header (fs mounted64_full)) ->
    array_of (entries (fs mounted64_full)) !! i = Some e ->
    is_valid e = true ->
    entry_checked (fun _ => 0) mounted64_full e.
Proof.
  assert (0 <= cluster_size (header (fs mounted64_full))) as HS
    by (vm_compute; discriminate).
  assert (acfs_check_integrity (fun _ => 0) mounted64_full
          = Some (ACFS_OK, mounted64_full)) as Hrun
    by (vm_compute; reflexivity).
  split; [exact HS|]. split; [exact Hrun|].
  exact (proj2 (acfs_check_integrity_ok _ _ _ HS Hrun)).
Defined.

Lemma acfs_write_reads_whole_clusters_witness :
  0 < cluster_size (header (fs mounted64)) < 2 ^ 16 /\
  0 < 3 <= 65535 * cluster_size (header (fs mounted64)) /\
  acfs_write (Some (cstr "a")) (Some hi_block) 3 mounted64
  = Some (ACFS_OK, mounted64_hi) /\
  exists K,
    acfs_calculate_clusters_needed (cluster_size (header (fs mounted64))) 3
    = Some K /\
    3 <= K * cluster_size (header (fs mounted64))
      <= Z.of_nat (length hi_block).
Proof.
  assert (0 < cluster_size (header (fs mounted64)) < 2 ^ 16) as HS
    by (vm_compute; split; reflexivity).
  assert (0 < 3 <= 65535 * cluster_size (header (fs mounted64))) as Hsz
    by (vm_compute; split; [reflexivity | discriminate]).
  assert (acfs_write (Some (cstr "a")) (Some hi_block) 3 mounted64
          = Some (ACFS_OK, mounted64_hi)) as Hwr
    by (vm_compute; reflexivity).
  split; [exact HS|]. split; [exact Hsz|]. split; [exact Hwr|].
  exact (acfs_write_reads_whole_clusters _ _ _ _ _ HS Hsz Hwr).
Defined.

Lemma acfs_write_then_lookup_witness :
  acfs_typed (fs mounted64) = true /\
  acfs_write (Some (cstr "a")) (Some hi_block) 3 mounted64
  = Some (ACFS_OK, mounted64_hi) /\
  acfs_exists (Some (cstr "a")) mounted64_hi = Some (true, mounted64_hi) /\
  acfs_get_size (Some (cstr "a")) (Some 0) mounted64_hi
  = Some ((ACFS_OK, Some (u32 3)), mounted64_hi).
Proof.
  assert (acfs_typed (fs mounted64) = true) as Hty
    by (vm_compute; reflexivity).
  assert (acfs_write (Some (cstr "a")) (Some hi_block) 3 mounted64
          = Some (ACFS_OK, mounted64_hi)) as Hwr
    by (vm_compute; reflexivity).
  split; [exact Hty|]. split; [exact Hwr|].
  exact (acfs_write_then_lookup _ _ _ _ _ 0 Hty Hwr).
Defined.

Lemma acfs_rewrite_in_place_witness :
  exists es e,
    entries (fs mounted64_hi) = Some es /\ es !! 0%nat = Some e /\
    acfs_find_entry (cstr "a") (fs mounted64_hi) = Some (Some 0%nat) /\
    acfs_calculate_clusters_needed
      (cluster_size (header (fs mounted64_hi))) 5
    = Some (cluster_count e) /\
    exists r w1,
      acfs_write (Some (cstr "a")) (Some hi_block) 5 mounted64_hi
      = Some (r, w1) /\
      (r = ACFS_OK \/ r = ACFS_ERROR_IO_ERROR) /\
      cluster_bitmap (fs w1) = cluster_bitmap (fs mounted64_hi) /\
      entries (fs w1)
      = Some (<[0%nat := set_crc32 (acfs_crc32 (take (Z.to_nat 5) hi_block))
                           (set_data_size (u32 5) e)]> es).
Proof.
  set (e := mk_entry (97 :: repeat 0 31) 3 1 (Ptr [2]) 905434500 true).
  assert (acfs_typed (fs mounted64_hi) = true) as Hty
    by (vm_compute; reflexivity).
  assert (initialized (fs mounted64_hi) = true) as Hi
    by (vm_compute; reflexivity).
  assert (is_Some (storage (fs mounted64_hi))) as Hst
    by (vm_compute; eexists; reflexivity).
  assert (data_entries (header (fs mounted64_hi)) <= Z.of_nat (length [e]))
    as HD by (vm_compute; discriminate).
  assert (strlen (cstr "a") < ACFS_MAX_DATA_ID_LEN) as Hl
    by (vm_compute; reflexivity).
  assert (5 <> 0) as Hs by lia.
  assert (acfs_find_entry (cstr "a") (fs mounted64_hi) = Some (Some 0%nat))
    as Hfind by (vm_compute; reflexivity).
  assert (entries (fs mounted64_hi) = Some [e]) as Hes
    by (vm_compute; reflexivity).
  assert ([e] !! 0%nat = Some e) as He by reflexivity.
  assert (cluster_list e = Ptr [2]) as Hlist by reflexivity.
  assert (acfs_calculate_clusters_needed
            (cluster_size (header (fs mounted64_hi))) 5
          = Some (cluster_count e)) as HK by (vm_compute; reflexivity).
  assert (0 <= cluster_size (header (fs mounted64_hi))) as HS
    by (vm_compute; discriminate).
  assert (5 <= Z.of_nat (length hi_block)) as Hlen
    by (vm_compute; discriminate).
  assert (cluster_count e * cluster_size (header (fs mounted64_hi))
          <= Z.of_nat (length hi_block)) as Hlen'
    by (vm_compute; discriminate).
  exists [e], e. split; [exact Hes|]. split; [exact He|].
  split; [exact Hfind|]. split; [exact HK|].
  destruct (acfs_rewrite_in_place mounted64_hi (cstr "a") hi_block 5 0 [e] e
              [2] Hty Hi Hst HD Hl Hs Hfind Hes He Hlist HK HS Hlen Hlen')
    as (r & w1 & Hrun & Hr & Hbm & _ & _ & Hents).
  exists r, w1. split; [exact Hrun|]. split; [exact Hr|].
  split; [exact Hbm | exact Hents].
Defined.

Lemma acfs_write_keeps_accounting_witness :
  acfs_typed (fs mounted64) = true /\
  Forall (fun e => 0 <= cluster_count e) (live_entries (fs mounted64)) /\
  clusters_accounted (fs mounted64) = total_clusters (header (fs mounted64)) /\
  acfs_write (Some (cstr "a")) (Some hi_block) 3 mounted64
  = Some (ACFS_OK, mounted64_hi) /\
  clusters_accounted (fs mounted64_hi)
  = total_clusters (header (fs mounted64_hi)).
Proof.
  assert (acfs_typed (fs mounted64) = true) as Hty
    by (vm_compute; reflexivity).
  assert (Forall (fun e => 0 <= cluster_count e) (live_entries (fs mounted64)))
    as Hlive.
  { assert (live_entries (fs mounted64) = []) as -> by (vm_compute; reflexivity).
    constructor. }
  assert (clusters_accounted (fs mounted64)
          = total_clusters (header (fs mounted64))) as Hacc
    by (vm_compute; reflexivity).
  assert (acfs_write (Some (cstr "a")) (Some hi_block) 3 mounted64
          = Some (ACFS_OK, mounted64_hi)) as Hwr
    by (vm_compute; reflexivity).
  repeat (split; [assumption|]).
  exact (acfs_write_keeps_accounting _ _ _ _ _ Hty Hlive Hacc Hwr).
Defined.

Lemma acfs_write_no_space_new_witness :
  acfs_typed (fs mounted64) = true /\
  initialized (fs mounted64) = true /\
  acfs_exists (Some (cstr "b")) mounted64 = Some (false, mounted64) /\
  acfs_write (Some (cstr "b")) (Some hi_block) 4032 mounted64
  = Some (ACFS_ERROR_NO_SPACE,
          world_after [Call_write (Some (cstr "b")) (Some hi_block) 4032]
                      mounted64) /\
  header (fs (world_after [Call_write (Some (cstr "b")) (Some hi_block) 4032]
                          mounted64))
  = header (fs mounted64) /\
  cluster_bitmap
    (fs (world_after [Call_write (Some (cstr "b")) (Some hi_block) 4032]
                     mounted64))
  = cluster_bitmap (fs mounted64).
Proof.
  assert (acfs_typed (fs mounted64) = true) as Hty
    by (vm_compute; reflexivity).
  assert (initialized (fs mounted64) = true) as Hi
    by (vm_compute; reflexivity).
  assert (acfs_exists (Some (cstr "b")) mounted64 = Some (false, mounted64))
    as Hex by (vm_compute; reflexivity).
  assert (acfs_write (Some (cstr "b")) (Some hi_block) 4032 mounted64
          = Some (ACFS_ERROR_NO_SPACE,
                  world_after [Call_write (Some (cstr "b")) (Some hi_block)
                                          4032] mounted64)) as Hwr
    by (vm_compute; reflexivity).
  split; [exact Hty|]. split; [exact Hi|]. split; [exact Hex|].
  split; [exact Hwr|].
  destruct (acfs_write_no_space_new _ _ _ _ _ Hty Hi Hex Hwr)
    as (_ & Hh & Hbm & _).
  split; [exact Hh | exact Hbm].
Defined.

Lemma acfs_write_keeps_others_witness :
  acfs_typed (fs mounted64) = true /\
  data_entries (header (fs mounted64))
  <= Z.of_nat (length (array_of (entries (fs mounted64)))) /\
  acfs_write (Some (cstr "a")) (Some hi_block) 3 mounted64
  = Some (ACFS_OK, mounted64_hi) /\
  c_chars (cstr "b") <> c_chars (cstr "a") /\
  exists b r,
    acfs_exists (Some (cstr "b")) mounted64 = Some (b, mounted64) /\
    acfs_exists (Some (cstr "b")) mounted64_hi = Some (b, mounted64_hi) /\
    acfs_get_size (Some (cstr "b")) (Some 0) mounted64 = Some (r, mounted64) /\
    acfs_get_size (Some (cstr "b")) (Some 0) mounted64_hi
    = Some (r, mounted64_hi).
Proof.
  assert (acfs_typed (fs mounted64) = true) as Hty
    by (vm_compute; reflexivity).
  assert (data_entries (header (fs mounted64))
          <= Z.of_nat (length (array_of (entries (fs mounted64))))) as HD
    by (vm_compute; discriminate).
  assert (acfs_write (Some (cstr "a")) (Some hi_block) 3 mounted64
          = Some (ACFS_OK, mounted64_hi)) as Hwr
    by (vm_compute; reflexivity).
  assert (c_chars (cstr "b") <> c_chars (cstr "a")) as Hne
    by (vm_compute; discriminate).
  repeat (split; [assumption|]).
  exact (acfs_write_keeps_others _ _ _ _ _ (cstr "b") 0 Hty HD Hwr Hne).
Defined.

Lemma acfs_delete_compacts_witness :
  live_entries (fs two_items) = [item_a; item_b] /\
  acfs_find_entry (cstr "a") (fs two_items) = Some (Some 0%nat) /\
  exists r w1,
    acfs_delete (Some (cstr "a")) two_items = Some (r, w1) /\
    (r = ACFS_OK \/ r = ACFS_ERROR_IO_ERROR) /\
    live_entries (fs w1) = [item_b] /\
    data_entries (header (fs w1)) = 1 /\
    free_clusters (header (fs w1)) = 61 /\
    bitmap_test 2 (array_of (cluster_bitmap (fs w1))) = Some false /\
    bitmap_test 3 (array_of (cluster_bitmap (fs w1))) = Some true.
Proof.
  set (es := array_of (entries (fs two_items))).
  set (bm := [15; 0; 0; 0; 0; 0; 0; 0]).
  assert (acfs_typed (fs two_items) = true) as Hty
    by (vm_compute; reflexivity).
  assert (initialized (fs two_items) = true) as Hi
    by (vm_compute; reflexivity).
  assert (is_Some (storage (fs two_items))) as Hst
    by (vm_compute; eexists; reflexivity).
  assert (data_entries (header (fs two_items)) <= Z.of_nat (length es))
    as HD by (vm_compute; discriminate).
  assert (acfs_find_entry (cstr "a") (fs two_items) = Some (Some 0%nat))
    as Hfind by (vm_compute; reflexivity).
  assert (entries (fs two_items) = Some es) as Hes
    by (vm_compute; reflexivity).
  assert (es !! 0%nat = Some item_a) as He by (vm_compute; reflexivity).
  assert (cluster_list item_a = Ptr [2]) as Hlist by reflexivity.
  assert (0 <= cluster_count item_a) as Hcount by (vm_compute; discriminate).
  assert (cluster_bitmap (fs two_items) = Some bm) as Hbm
    by (vm_compute; reflexivity).
  assert (Forall (fun c => is_u16 c /\ is_Some (bitmap_test c bm))
                 (take (Z.to_nat (cluster_count item_a)) [2])) as Hl.
  { constructor; [|constructor].
    split; [unfold is_u16; lia | eexists; reflexivity]. }
  assert (live_entries (fs two_items) = [item_a; item_b]) as Hlive0
    by (vm_compute; reflexivity).
  assert (data_entries (header (fs two_items)) = 2) as HD0
    by (vm_compute; reflexivity).
  assert (free_clusters (header (fs two_items)) = 60) as HF0
    by (vm_compute; reflexivity).
  destruct (acfs_delete_compacts two_items (cstr "a") 0 es item_a [2] bm
              Hty Hi Hst HD Hfind Hes He Hlist Hcount Hbm Hl)
    as (r & w1 & Hrun & Hr & Hlive & HD1 & HF1 & Hbits).
  split; [exact Hlive0|]. split; [exact Hfind|].
  exists r, w1. split; [exact Hrun|]. split; [exact Hr|].
  rewrite Hlive0 in Hlive. rewrite HD0 in HD1. rewrite HF0 in HF1.
  split; [exact Hlive|]. split; [exact HD1|]. split; [exact HF1|].
  split.
  - rewrite (Hbits 2) by (unfold is_u16; lia). reflexivity.
  - rewrite (Hbits 3) by (unfold is_u16; lia). reflexivity.
Defined.

Lemma acfs_delete_keeps_accounting_witness :
  live_entries (fs two_items) = [item_a; item_b] /\
  clusters_accounted (fs two_items)
  = total_clusters (header (fs two_items)) /\
  acfs_find_entry (cstr "a") (fs two_items) = Some (Some 0%nat) /\
  exists r w1,
    acfs_delete (Some (cstr "a")) two_items = Some (r, w1) /\
    clusters_accounted (fs w1) = total_clusters (header (fs w1)).
Proof.
  set (es := array_of (entries (fs two_items))).
  set (bm := [15; 0; 0; 0; 0; 0; 0; 0]).
  assert (acfs_typed (fs two_items) = true) as Hty
    by (vm_compute; reflexivity).
  assert (initialized (fs two_items) = true) as Hi
    by (vm_compute; reflexivity).
  assert (is_Some (storage (fs two_items))) as Hst
    by (vm_compute; eexists; reflexivity).
  assert (data_entries (header (fs two_items)) <= Z.of_nat (length es))
    as HD by (vm_compute; discriminate).
  assert (acfs_find_entry (cstr "a") (fs two_items) = Some (Some 0%nat))
    as Hfind by (vm_compute; reflexivity).
  assert (entries (fs two_items) = Some es) as Hes
    by (vm_compute; reflexivity).
  assert (es !! 0%nat = Some item_a) as He by (vm_compute; reflexivity).
  assert (cluster_list item_a = Ptr [2]) as Hlist by reflexivity.
  assert (cluster_bitmap (fs two_items) = Some bm) as Hbm
    by (vm_compute; reflexivity).
  assert (Forall (fun c => is_u16 c /\ is_Some (bitmap_test c bm))
                 (take (Z.to_nat (cluster_count item_a)) [2])) as Hl.
  { constructor; [|constructor].
    split; [unfold is_u16; lia | eexists; reflexivity]. }
  assert (live_entries (fs two_items) = [item_a; item_b]) as Hlive0
    by (vm_compute; reflexivity).
  assert (Forall (fun e => 0 <= cluster_count e)
                 (live_entries (fs two_items))) as Hlive.
  { rewrite Hlive0.
    constructor; [vm_compute; discriminate|].
    constructor; [vm_compute; discriminate | constructor]. }
  assert (clusters_accounted (fs two_items)
          = total_clusters (header (fs two_items))) as Hacc
    by (vm_compute; reflexivity).
  split; [exact Hlive0|]. split; [exact Hacc|]. split; [exact Hfind|].
  exact (acfs_delete_keeps_accounting two_items (cstr "a") 0 es item_a [2]
           bm Hty Hi Hst HD Hfind Hes He Hlist Hbm Hl Hlive Hacc).
Defined.

Lemma acfs_save_then_load_header_witness :
  storage (fs mounted64_hi) = Some dev4096 /\
  0 <= start_addr dev4096 /\
  header_typed (header (fs mounted64_hi)) /\
  magic (header (fs mounted64_hi)) = ACFS_MAGIC_NUMBER /\
  acfs_save_header mounted64_hi
  = Some (ACFS_OK, run_from acfs_save_header mounted64_hi) /\
  acfs_load_header
    (mk_world (set_storage (Some dev4096) zero_acfs)
              (medium (run_from acfs_save_header mounted64_hi)))
  = Some (ACFS_OK,
          mk_world (set_header (header_with_crc (header (fs mounted64_hi)))
                               (set_storage (Some dev4096) zero_acfs))
                   (medium (run_from acfs_save_header mounted64_hi))).
Proof.
  assert (storage (fs mounted64_hi) = Some dev4096) as Hst
    by (vm_compute; reflexivity).
  assert (storage (set_storage (Some dev4096) zero_acfs) = Some dev4096)
    as Hsta by reflexivity.
  assert (0 <= start_addr dev4096) as Hstart by (vm_compute; discriminate).
  assert (header_typed (header (fs mounted64_hi))) as Hty
    by (vm_compute; repeat split; discriminate).
  assert (magic (header (fs mounted64_hi)) = ACFS_MAGIC_NUMBER) as Hmagic
    by (vm_compute; reflexivity).
  assert (acfs_save_header mounted64_hi
          = Some (ACFS_OK, run_from acfs_save_header mounted64_hi)) as Hrun
    by (vm_compute; reflexivity).
  split; [exact Hst|]. split; [exact Hstart|]. split; [exact Hty|].
  split; [exact Hmagic|]. split; [exact Hrun|].
  exact (proj2 (acfs_save_then_load_header _ _ _ _ Hst Hsta Hstart Hty Hmagic
                  Hrun)).
Defined.

Lemma acfs_test_storage_device_overwrites_witness :
  0 <= start_addr dev4096 /\
  exists m',
    acfs_test_storage_device (Some dev4096) (medium mounted64_hi)
    = Some (ACFS_OK, m') /\
    ops_read (ops dev4096) (start_addr dev4096) 4 m' = Some test_data /\
    forall r w',
      acfs_load_header (mk_world (set_storage (Some dev4096) zero_acfs) m')
      = Some (r, w') ->
      r <> ACFS_OK.
Proof.
  assert (0 <= start_addr dev4096) as Hstart by (vm_compute; discriminate).
  split; [exact Hstart|].
  destruct (acfs_test_storage_device (Some dev4096) (medium mounted64_hi))
    as [[r m']|] eqn:Hrun; [|vm_compute in Hrun; discriminate].
  assert (r = ACFS_OK) as ->.
  { assert (fmap fst (acfs_test_storage_device (Some dev4096)
                        (medium mounted64_hi)) = Some ACFS_OK) as Hr
      by (vm_compute; reflexivity).
    rewrite Hrun in Hr. by injection Hr. }
  exists m'. split; [reflexivity|].
  destruct (acfs_test_storage_device_overwrites _ _ _ Hstart Hrun)
    as [Hread Hload].
  split; [exact Hread|].
  intros r w'.
  exact (Hload (set_storage (Some dev4096) zero_acfs) r w' eq_refl).
Defined.

Lemma flash_header_blocks_updates_witness :
  ops flash256 = flash_ops /\
  0 <= start_addr flash256 /\
  start_addr flash256 <= Z.of_nat 0
    < start_addr flash256 + sizeof_acfs_header_t /\
  storage (fs mounted_flash) = Some flash256 /\
  programmed 0 (medium mounted_flash) /\
  forall r w',
    acfs_write (Some (cstr "a")) (Some hi_block) 3 mounted_flash
    = Some (r, w') ->
    r <> ACFS_OK /\ programmed 0 (medium w').
Proof.
  assert (ops flash256 = flash_ops) as Hops by reflexivity.
  assert (0 <= start_addr flash256) as Hstart by (vm_compute; discriminate).
  assert (start_addr flash256 <= Z.of_nat 0
          < start_addr flash256 + sizeof_acfs_header_t) as Hp
    by (vm_compute; split; [discriminate | reflexivity]).
  assert (storage (fs mounted_flash) = Some flash256) as Hst
    by (vm_compute; reflexivity).
  assert (programmed 0 (medium mounted_flash)) as Hpr.
  { destruct (flash_buffer (medium mounted_flash)) as [buf|] eqn:Hbuf;
      [|vm_compute in Hbuf; discriminate].
    exists buf, 83. split; [exact Hbuf|].
    assert (fmap (fun b : list Z => b !! 0%nat)
                 (flash_buffer (medium mounted_flash)) = Some (Some 83)) as Hb
      by (vm_compute; reflexivity).
    rewrite Hbuf in Hb. split; [by injection Hb | discriminate]. }
  split; [exact Hops|]. split; [exact Hstart|]. split; [exact Hp|].
  split; [exact Hst|]. split; [exact Hpr|].
  intros r w'.
  exact (proj1 (flash_header_blocks_updates flash256 0 mounted_flash
                  Hops Hstart Hp Hst Hpr)
               (Some (cstr "a")) (Some hi_block) 3 r w').
Defined.

Lemma acfs_write_further_item_small_device_witness :
  storage (fs mounted64_4_hi) = Some dev4096 /\
  0 <= start_addr dev4096 <= 131070 /\
  device_bytes (ops dev4096) (medium mounted64_4_hi) <= 131070 /\
  initialized (fs mounted64_4_hi) = true /\
  acfs_exists (Some (cstr "b")) mounted64_4_hi
  = Some (false, mounted64_4_hi) /\
  1 <= data_entries (header (fs mounted64_4_hi)) < 32000 /\
  data_entries (header (fs mounted64_4_hi))
  < max_entries_of (header (fs mounted64_4_hi)) /\
  0 < cluster_size (header (fs mounted64_4_hi)) < 2 ^ 16 /\
  0 < 3 <= 65535 * cluster_size (header (fs mounted64_4_hi)) /\
  acfs_write (Some (cstr "b")) (Some hi_block) 3 mounted64_4_hi
  = Some (ACFS_ERROR_IO_ERROR,
          world_after [Call_write (Some (cstr "b")) (Some hi_block) 3]
                      mounted64_4_hi) /\
  ACFS_ERROR_IO_ERROR <> ACFS_OK.
Proof.
  assert (storage (fs mounted64_4_hi) = Some dev4096) as Hst
    by (vm_compute; reflexivity).
  assert (0 <= start_addr dev4096 <= 131070) as Hstart
    by (vm_compute; split; discriminate).
  assert (device_bytes (ops dev4096) (medium mounted64_4_hi) <= 131070)
    as Hsmall by (vm_compute; discriminate).
  assert (initialized (fs mounted64_4_hi) = true) as Hi
    by (vm_compute; reflexivity).
  assert (acfs_exists (Some (cstr "b")) mounted64_4_hi
          = Some (false, mounted64_4_hi)) as Hex
    by (vm_compute; reflexivity).
  assert (1 <= data_entries (header (fs mounted64_4_hi)) < 32000) as HD
    by (vm_compute; split; [discriminate | reflexivity]).
  assert (data_entries (header (fs mounted64_4_hi))
          < max_entries_of (header (fs mounted64_4_hi))) as Hroom
    by (vm_compute; reflexivity).
  assert (0 < cluster_size (header (fs mounted64_4_hi)) < 2 ^ 16) as HS
    by (vm_compute; split; reflexivity).
  assert (0 < 3 <= 65535 * cluster_size (header (fs mounted64_4_hi))) as Hsz
    by (vm_compute; split; [reflexivity | discriminate]).
  assert (acfs_write (Some (cstr "b")) (Some hi_block) 3 mounted64_4_hi
          = Some (ACFS_ERROR_IO_ERROR,
                  world_after [Call_write (Some (cstr "b")) (Some hi_block) 3]
                              mounted64_4_hi)) as Hrun
    by (vm_compute; reflexivity).
  repeat (split; [assumption|]).
  exact (acfs_write_further_item_small_device dev4096 mounted64_4_hi
           (cstr "b") hi_block 3 _ _ Hst Hstart Hsmall Hi Hex HD HS Hsz Hrun).
Defined.

Lemma acfs_format_keeps_bitmap_witness :
  acfs_format config64 mounted64_hi
  = Some (ACFS_OK, world_after [Call_format config64] mounted64_hi) /\
  data_entries (header (fs (world_after [Call_format config64] mounted64_hi)))
  = 0 /\
  cluster_bitmap (fs (world_after [Call_format config64] mounted64_hi))
  = cluster_bitmap (fs mounted64_hi) /\
  acfs_exists (Some (cstr "a"))
              (world_after [Call_format config64] mounted64_hi)
  = Some (false, world_after [Call_format config64] mounted64_hi).
Proof.
  assert (acfs_format config64 mounted64_hi
          = Some (ACFS_OK, world_after [Call_format config64] mounted64_hi))
    as Hrun by (vm_compute; reflexivity).
  assert (initialized (fs mounted64_hi) = true) as Hi
    by (vm_compute; reflexivity).
  split; [exact Hrun|].
  destruct (acfs_format_keeps_bitmap _ _ _ Hrun)
    as (_ & _ & HD & _ & _ & Hbm & _ & Hex).
  split; [exact HD|]. split; [exact Hbm|]. exact (Hex Hi _).
Defined.

Lemma acfs_init_formats_witness :
  initialized (fs (eeprom_world 4096)) = false /\
  is_u16 (reserved_clusters (mk_config 64 0 true true)) /\
  acfs_load_header (mk_world (set_storage (Some dev4096) zero_acfs)
                             (medium (eeprom_world 4096)))
  = Some (ACFS_ERROR_INVALID_FILESYSTEM,
          run_from acfs_load_header
                   (mk_world (set_storage (Some dev4096) zero_acfs)
                             (medium (eeprom_world 4096)))) /\
  ACFS_ERROR_INVALID_FILESYSTEM <> ACFS_OK /\
  acfs_init (Some dev4096) (Some (mk_config 64 0 true true))
            (eeprom_world 4096)
  = Some (ACFS_OK, mounted64) /\
  acfs_typed (fs mounted64) = true /\
  clusters_accounted (fs mounted64) = total_clusters (header (fs mounted64)) /\
  forall id, acfs_exists (Some id) mounted64 = Some (false, mounted64).
Proof.
  assert (initialized (fs (eeprom_world 4096)) = false) as Hi
    by reflexivity.
  assert (is_u16 (reserved_clusters (mk_config 64 0 true true))) as HR
    by (unfold is_u16; cbn [reserved_clusters]; lia).
  assert (acfs_load_header (mk_world (set_storage (Some dev4096) zero_acfs)
                                     (medium (eeprom_world 4096)))
          = Some (ACFS_ERROR_INVALID_FILESYSTEM,
                  run_from acfs_load_header
                           (mk_world (set_storage (Some dev4096) zero_acfs)
                                     (medium (eeprom_world 4096))))) as Hload
    by (vm_compute; reflexivity).
  assert (ACFS_ERROR_INVALID_FILESYSTEM <> ACFS_OK) as Hne by discriminate.
  assert (acfs_init (Some dev4096) (Some (mk_config 64 0 true true))
                    (eeprom_world 4096)
          = Some (ACFS_OK, mounted64)) as Hrun by (vm_compute; reflexivity).
  split; [exact Hi|]. split; [exact HR|]. split; [exact Hload|].
  split; [exact Hne|]. split; [exact Hrun|].
  destruct (acfs_init_formats _ _ _ _ _ _ Hi HR Hload Hne Hrun)
    as (_ & _ & _ & _ & _ & _ & _ & _ & Hty & Hacc & _ & Hex).
  split; [exact Hty|]. split; [exact Hacc | exact Hex].
Defined.

Lemma acfs_init_bitmap_marks_witness :
  0 <= sys_clusters (header (fs mounted64_hi)) < 2 ^ 16 /\
  0 <= total_clusters (header (fs mounted64_hi)) <= 2 ^ 16 /\
  acfs_init_bitmap (fs mounted64_hi) = Some (ACFS_OK, fs mounted64_hi) /\
  forall j, 0 <= j < total_clusters (header (fs mounted64_hi)) ->
    bitmap_test j (array_of (cluster_bitmap (fs mounted64_hi)))
    = Some ((j <? sys_clusters (header (fs mounted64_hi)))
            || existsb (entry_holds j) (live_entries (fs mounted64_hi))).
Proof.
  assert (0 <= sys_clusters (header (fs mounted64_hi)) < 2 ^ 16) as HR
    by (vm_compute; split; [discriminate | reflexivity]).
  assert (0 <= total_clusters (header (fs mounted64_hi)) <= 2 ^ 16) as HN
    by (vm_compute; split; discriminate).
  assert (forall k e,
            (k < Z.to_nat (data_entries (header (fs mounted64_hi))))%nat ->
            array_of (entries (fs mounted64_hi)) !! k = Some e ->
            is_valid e = true -> is_null (cluster_list e) = false ->
            Forall is_u16 (take (Z.to_nat (cluster_count e))
                                (block_of (cluster_list e)))) as Hu16.
  { intros k e Hk He _ _.
    assert (Z.to_nat (data_entries (header (fs mounted64_hi))) = 1%nat) as HD
      by (vm_compute; reflexivity).
    rewrite HD in Hk. destruct k as [|k]; [|lia].
    vm_compute in He. injection He as <-.
    constructor; [unfold is_u16; lia | constructor]. }
  assert (acfs_init_bitmap (fs mounted64_hi)
          = Some (ACFS_OK, fs mounted64_hi)) as Hrun
    by (vm_compute; reflexivity).
  split; [exact HR|]. split; [exact HN|]. split; [exact Hrun|].
  exact (proj2 (proj2 (proj2 (acfs_init_bitmap_marks _ _ _ HR HN Hu16 Hrun)))).
Defined.

Lemma acfs_entry_without_list_traps_witness :
  acfs_find_entry (cstr "a") (fs mounted64_lost) = Some (Some 0%nat) /\
  array_of (entries (fs mounted64_lost)) !! 0%nat
  = Some (mk_entry (97 :: repeat 0 31) 3 1 NULL 905434500 true) /\
  acfs_delete (Some (cstr "a")) mounted64_lost = None /\
  acfs_write (Some (cstr "a")) (Some hi_block) 3 mounted64_lost = None.
Proof.
  set (e := mk_entry (97 :: repeat 0 31) 3 1 NULL 905434500 true).
  assert (initialized (fs mounted64_lost) = true) as Hi
    by (vm_compute; reflexivity).
  assert (acfs_find_entry (cstr "a") (fs mounted64_lost)
          = Some (Some 0%nat)) as Hfind by (vm_compute; reflexivity).
  assert (array_of (entries (fs mounted64_lost)) !! 0%nat = Some e) as He
    by (vm_compute; reflexivity).
  assert (cluster_list e = NULL \/ cluster_list e = Wild) as Hlist
    by (left; reflexivity).
  assert (0 < cluster_count e) as Hcount by (vm_compute; reflexivity).
  destruct (acfs_entry_without_list_traps mounted64_lost (cstr "a") 0 e
              Hi Hfind He Hlist Hcount) as [Hdel Hwr].
  split; [exact Hfind|]. split; [exact He|]. split; [exact Hdel|].
  apply Hwr; [discriminate | vm_compute; reflexivity].
Defined.
